(** * The document lifecycle engine of the Viable dashboard

    A shallow embedding of the Apps Script sources
    - [SheetManager.gs] (reconciliation of the Buffer sheet, restore to the
      Final sheet, categorisation into Inflow/Outflow),
    - [AIProcessor.gs] (validation of the AI response, duplicate check on the
      Final sheet, parsing of derived file names),
    - [Config.gs] (constants and the helpers [getColumnIndex],
      [safeGetCellValue], [extractFileIdFromUrl]).

    Conventions of the embedding.
    - A JavaScript exception is a value of [Exn]; code that can throw
      returns a [Result].  Code that mutates sheets or Drive folders runs in
      the monad [M], which returns the store also when it throws, since the
      writes made before a [throw] stay made.
    - Logging ([debugLog], [infoLog], [warnLog], [errorLog]) writes to the
      console only and is left out, except where evaluating the message
      itself can throw.
    - A text is the string of its bytes in UTF-8.  White space is the white
      space of the language, letter case is that of the ASCII letters, and
      positions in a text are counted in bytes, which the sources use only
      to cut a text at a character of ASCII. *)

From Stdlib Require Import ZArith QArith Qabs Qround Ascii String Lia.
From stdpp Require Import base list strings pretty.

#[local] Open Scope string_scope.
#[local] Open Scope list_scope.
#[local] Set Warnings "-register-all".

(** ** JavaScript string primitives used by the sources *)

Module JSString.

(** [s.startsWith(p)] *)
Definition startsWith (s p : string) : bool := String.prefix p s.

(** [s.includes(sub)] *)
Fixpoint includes (s sub : string) : bool :=
  String.prefix sub s ||
  match s with
  | EmptyString => false
  | String _ s' => includes s' sub
  end.

(** The white space and the line terminators of the language, which
    [trim], [parseInt] and the class [\s] skip.  In UTF-8 they take one byte
    (U+0009 to U+000D, U+0020), two (U+00A0) or three (U+1680, U+2000 to
    U+200A, U+2028, U+2029, U+202F, U+205F, U+3000, U+FEFF). *)
Definition isSpace (c : ascii) : bool :=
  let n := nat_of_ascii c in
  ((9 <=? n)%nat && (n <=? 13)%nat) || (n =? 32)%nat.

Definition isSpace2 (a b : ascii) : bool :=
  (nat_of_ascii a =? 194)%nat && (nat_of_ascii b =? 160)%nat.

Definition isSpace3 (a b c : ascii) : bool :=
  let x := nat_of_ascii a in
  let y := nat_of_ascii b in
  let z := nat_of_ascii c in
  ((x =? 225) && (y =? 154) && (z =? 128))%nat ||
  ((x =? 226) && (y =? 128) &&
   (((128 <=? z) && (z <=? 138)) || (z =? 168) || (z =? 169) || (z =? 175)))%nat ||
  ((x =? 226) && (y =? 129) && (z =? 159))%nat ||
  ((x =? 227) && (y =? 128) && (z =? 128))%nat ||
  ((x =? 239) && (y =? 187) && (z =? 191))%nat.

(** Drops the white space characters that [s] starts with, a character
    being one byte of [sp1], two of [sp2] or three of [sp3]. *)
Fixpoint dropSpaces (sp1 : ascii -> bool) (sp2 : ascii -> ascii -> bool)
    (sp3 : ascii -> ascii -> ascii -> bool) (s : string) : string :=
  match s with
  | EmptyString => EmptyString
  | String a s1 =>
      if sp1 a then dropSpaces sp1 sp2 sp3 s1
      else
        match s1 with
        | EmptyString => s
        | String b s2 =>
            if sp2 a b then dropSpaces sp1 sp2 sp3 s2
            else
              match s2 with
              | EmptyString => s
              | String c s3 => if sp3 a b c then dropSpaces sp1 sp2 sp3 s3 else s
              end
        end
  end.

(** [s.trimStart()] *)
Definition trimStart (s : string) : string := dropSpaces isSpace isSpace2 isSpace3 s.

(** [s.trimEnd()]: the same from the last byte backwards. *)
Definition trimEnd (s : string) : string :=
  String.rev (dropSpaces isSpace (fun b a => isSpace2 a b) (fun c b a => isSpace3 a b c)
                (String.rev s)).

(** [s.trim()] *)
Definition trim (s : string) : string := trimEnd (trimStart s).

(** [s.length]: the number of UTF-16 code units of a text held in UTF-8.
    A character of one, two or three bytes is one unit and a character of
    four bytes is two; the bytes after the first count nothing. *)
Fixpoint utf16Length (s : string) : nat :=
  match s with
  | EmptyString => 0
  | String c s' =>
      let n := nat_of_ascii c in
      (if (n <? 128)%nat then 1
       else if (n <? 192)%nat then 0
       else if (n <? 240)%nat then 1
       else 2) + utf16Length s'
  end.

Definition lowerChar (c : ascii) : ascii :=
  let n := nat_of_ascii c in
  if (65 <=? n)%nat && (n <=? 90)%nat then ascii_of_nat (n + 32) else c.

(** [s.toLowerCase()].  The ASCII letters are mapped; the other characters
    are left as they are.  (The language maps them to characters outside
    ASCII too, but for U+212A, which becomes [k], and U+0130, which becomes
    [i] followed by U+0307; the sources compare lower-cased texts with ASCII
    literals only, none of which has a [k] or ends in [i].) *)
Fixpoint toLowerCase (s : string) : string :=
  match s with
  | EmptyString => EmptyString
  | String c s' => String (lowerChar c) (toLowerCase s')
  end.

Fixpoint lastIndexOfFrom (c : ascii) (s : string) (i found : Z) : Z :=
  match s with
  | EmptyString => found
  | String a s' =>
      lastIndexOfFrom c s' (i + 1)%Z (if Ascii.eqb a c then i else found)
  end.

(** [s.lastIndexOf(c)] for a one-character [c]; [-1] when absent. *)
Definition lastIndexOf (s : string) (c : ascii) : Z :=
  lastIndexOfFrom c s 0%Z (-1)%Z.

(** [s.substring(a, b)]: both ends are clamped to [0 .. length] and
    swapped when [a > b]. *)
Definition substring (s : string) (a b : Z) : string :=
  let len := Z.of_nat (String.length s) in
  let a' := Z.max 0 (Z.min a len) in
  let b' := Z.max 0 (Z.min b len) in
  let lo := Z.min a' b' in
  let hi := Z.max a' b' in
  String.substring (Z.to_nat lo) (Z.to_nat (hi - lo)) s.

(** [s.split(sep)] for a one-character separator. *)
Fixpoint split (sep : ascii) (s : string) : list string :=
  match s with
  | EmptyString => [EmptyString]
  | String c s' =>
      if Ascii.eqb c sep then EmptyString :: split sep s'
      else match split sep s' with
           | [] => [String c EmptyString]
           | p :: ps => String c p :: ps
           end
  end.

End JSString.

(** ** Exceptions and results *)

Inductive ErrorCode :=
| INVALID_INPUT
| FILE_NOT_FOUND
| PROCESSING_FAILED
| SYSTEM_ERROR.

(** What a [throw] carries: a [TypeError] of the language (a method called
    on a value that does not have it), an error made by [createError], or a
    failure reported by the Spreadsheet or Drive service. *)
Inductive Exn :=
| TypeError
| AppError (code : ErrorCode)
| ServiceError.

Inductive Result (A : Type) :=
| Ok (a : A)
| Throw (e : Exn).
Arguments Ok {A} a.
Arguments Throw {A} e.

#[export] Instance Result_ret : MRet Result := fun _ a => Ok a.
#[export] Instance Result_bind : MBind Result := fun _ _ f r =>
  match r with
  | Ok a => f a
  | Throw e => Throw e
  end.

(** [try { body } catch (error) { handler }] *)
Definition tryCatch {A} (body : Result A) (handler : Exn -> Result A) : Result A :=
  match body with
  | Ok a => Ok a
  | Throw e => handler e
  end.

(** ** Cells and sheets *)

(** The values [getValues()] hands out: text, numbers, booleans and dates. *)
Inductive Cell :=
| CStr (s : string)
| CNum (q : Q)
| CBool (b : bool)
| CDate (ms : Z).

(** Truthiness, as in [if (x)], [!x], [x || y], [x && y]. *)
Definition truthy (c : Cell) : bool :=
  match c with
  | CStr s => negb (String.eqb s "")
  | CNum q => negb (Qeq_bool q 0)
  | CBool b => b
  | CDate _ => true
  end.

(** [a === b].  Two dates read from a sheet are two objects, never
    identical. *)
Definition strictEq (a b : Cell) : bool :=
  match a, b with
  | CStr x, CStr y => String.eqb x y
  | CNum x, CNum y => Qeq_bool x y
  | CBool x, CBool y => Bool.eqb x y
  | _, _ => false
  end.

(** [a || b] *)
Definition orElse (a b : Cell) : Cell := if truthy a then a else b.

(** [reason.startsWith(p)]: only text has the method. *)
Definition cellStartsWith (c : Cell) (p : string) : Result bool :=
  match c with
  | CStr s => Ok (JSString.startsWith s p)
  | _ => Throw TypeError
  end.

(** [x.trim()] *)
Definition cellTrim (c : Cell) : Result string :=
  match c with
  | CStr s => Ok (JSString.trim s)
  | _ => Throw TypeError
  end.

(** [x.toLowerCase()] *)
Definition cellToLowerCase (c : Cell) : Result string :=
  match c with
  | CStr s => Ok (JSString.toLowerCase s)
  | _ => Throw TypeError
  end.

(** How a sheet answers: normally, refusing writes (a protected sheet), or
    failing every call (the service cannot reach the document). *)
Inductive Access := ReadWrite | ReadOnly | Unavailable.

(** A sheet is its data range: row 1 holds the headers, the rows after it
    the records.  A cell that is not there reads as the empty text. *)
Record Sheet := mkSheet {
  sheetValues : list (list Cell);
  sheetAccess : Access
}.

Definition reading {A} (sh : Sheet) (a : A) : Result A :=
  match sheetAccess sh with
  | Unavailable => Throw ServiceError
  | _ => Ok a
  end.

(** [sheet.getLastRow()] *)
Definition getLastRow (sh : Sheet) : Result nat :=
  reading sh (length (sheetValues sh)).

(** [sheet.getName()] *)
Definition getName (sh : Sheet) : Result unit := reading sh tt.

(** [sheet.getDataRange().getValues()] *)
Definition getValues (sh : Sheet) : Result (list (list Cell)) :=
  reading sh (sheetValues sh).

(** [data[0]] *)
Definition headerRow (data : list (list Cell)) : list Cell :=
  match data with
  | [] => []
  | h :: _ => h
  end.

(** ** Helpers of [Config.gs] *)

Fixpoint indexOfFrom (name : string) (headers : list Cell) (i : Z) : Z :=
  match headers with
  | [] => (-1)%Z
  | h :: rest =>
      if strictEq h (CStr name) then i else indexOfFrom name rest (i + 1)%Z
  end.

(** [getColumnIndex(headers, columnName)]: [headers.indexOf(columnName)],
    [-1] when the column is missing. *)
Definition getColumnIndex (headers : list Cell) (columnName : string) : Z :=
  indexOfFrom columnName headers 0%Z.

(** [safeGetCellValue(row, index, defaultValue = '')] *)
Definition safeGetCellValue' (row : list Cell) (index : Z) (defaultValue : Cell) : Cell :=
  if (index <? 0)%Z || (Z.of_nat (length row) <=? index)%Z then defaultValue
  else match row !! Z.to_nat index with
       | Some v => v
       | None => defaultValue
       end.

Definition safeGetCellValue (row : list Cell) (index : Z) : Cell :=
  safeGetCellValue' row index (CStr "").

(** [SYSTEM_CONFIG.STATUS] *)
Module STATUS.
Definition ACTIVE := "Active".
Definition DELETED := "Deleted".
Definition FAILED := "Failed".
Definition PROCESSING := "Processing".
Definition INFLOW := "inflow".
Definition OUTFLOW := "outflow".
End STATUS.

(** ** Detection of pending deletions and reactivations ([SheetManager.gs]) *)

Record DeletionItem := mkDeletionItem {
  del_rowIndex : nat;
  del_originalFilename : Cell;
  del_fileUrl : Cell;
  del_fileId : Cell;
  del_reason : Cell
}.

Record ReactivationItem := mkReactivationItem {
  rowIndex : nat;
  originalFilename : Cell;
  changedFilename : Cell;
  fileUrl : Cell;
  fileId : Cell;
  invoiceNumber : Cell;
  emailSubject : Cell;
  dateAdded : Cell;
  previousReason : Cell
}.

(** The guard of the deletion loop:
    [status === 'Deleted' && !reason.startsWith('Deleted:')].  The right
    operand is evaluated only when the left one holds. *)
Definition deletionGuard (status reason : Cell) : Result bool :=
  if strictEq status (CStr STATUS.DELETED)
  then b ← cellStartsWith reason "Deleted:"; mret (negb b)
  else mret false.

(** The guard of the reactivation loop:
    [status === 'Active' && reason.startsWith('Deleted:')]. *)
Definition reactivationGuard (status reason : Cell) : Result bool :=
  if strictEq status (CStr STATUS.ACTIVE)
  then cellStartsWith reason "Deleted:"
  else mret false.

(** [for (let i = 1; i < data.length; i++)] of [getFilesMarkedForDeletion];
    [rows] are the rows from index [i] on. *)
Fixpoint deletionLoop (headers : list Cell) (i : nat) (rows : list (list Cell))
    (deletionData : list DeletionItem) : Result (list DeletionItem) :=
  match rows with
  | [] => mret deletionData
  | row :: rest =>
      let status := safeGetCellValue row (getColumnIndex headers "Status") in
      let reason := safeGetCellValue row (getColumnIndex headers "Reason") in
      marked ← deletionGuard status reason;
      deletionLoop headers (S i) rest
        (if marked : bool
         then deletionData ++
              [ {| del_rowIndex := i + 1;
                   del_originalFilename :=
                     safeGetCellValue row (getColumnIndex headers "Original File Name");
                   del_fileUrl := safeGetCellValue row (getColumnIndex headers "File URL");
                   del_fileId := safeGetCellValue row (getColumnIndex headers "File ID");
                   del_reason := reason |} ]
         else deletionData)
  end.

(** The [try] block of [getFilesMarkedForDeletion]. *)
Definition getFilesMarkedForDeletion_try (bufferSheet : Sheet) : Result (list DeletionItem) :=
  lastRow ← getLastRow bufferSheet;
  if (lastRow <=? 1)%nat then mret []
  else
    data ← getValues bufferSheet;
    deletionLoop (headerRow data) 1 (drop 1 data) [].

(** [getFilesMarkedForDeletion(bufferSheet)]: the [catch] logs and returns
    the empty list. *)
Definition getFilesMarkedForDeletion (bufferSheet : Sheet) : Result (list DeletionItem) :=
  tryCatch (getFilesMarkedForDeletion_try bufferSheet) (fun _ => mret []).

Fixpoint reactivationLoop (headers : list Cell) (i : nat) (rows : list (list Cell))
    (reactivationData : list ReactivationItem) : Result (list ReactivationItem) :=
  match rows with
  | [] => mret reactivationData
  | row :: rest =>
      let status := safeGetCellValue row (getColumnIndex headers "Status") in
      let reason := safeGetCellValue row (getColumnIndex headers "Reason") in
      marked ← reactivationGuard status reason;
      reactivationLoop headers (S i) rest
        (if marked : bool
         then reactivationData ++
              [ {| rowIndex := i + 1;
                   originalFilename :=
                     safeGetCellValue row (getColumnIndex headers "Original File Name");
                   changedFilename :=
                     safeGetCellValue row (getColumnIndex headers "Changed File Name");
                   fileUrl := safeGetCellValue row (getColumnIndex headers "File URL");
                   fileId := safeGetCellValue row (getColumnIndex headers "File ID");
                   invoiceNumber :=
                     safeGetCellValue row (getColumnIndex headers "Invoice Number");
                   emailSubject :=
                     safeGetCellValue row (getColumnIndex headers "Email Subject");
                   dateAdded := safeGetCellValue row (getColumnIndex headers "Date Added");
                   previousReason := reason |} ]
         else reactivationData)
  end.

(** The [try] block of [getFilesMarkedForReactivation]. *)
Definition getFilesMarkedForReactivation_try (bufferSheet : Sheet)
    : Result (list ReactivationItem) :=
  lastRow ← getLastRow bufferSheet;
  if (lastRow <=? 1)%nat then mret []
  else
    data ← getValues bufferSheet;
    reactivationLoop (headerRow data) 1 (drop 1 data) [].

(** [getFilesMarkedForReactivation(bufferSheet)] *)
Definition getFilesMarkedForReactivation (bufferSheet : Sheet)
    : Result (list ReactivationItem) :=
  tryCatch (getFilesMarkedForReactivation_try bufferSheet) (fun _ => mret []).


(** ** [extractFileIdFromUrl] ([Config.gs]) *)

(** The class [[a-zA-Z0-9-_]] of the five patterns. *)
Definition isIdChar (c : ascii) : bool :=
  let n := nat_of_ascii c in
  ((97 <=? n)%nat && (n <=? 122)%nat) || ((65 <=? n)%nat && (n <=? 90)%nat) ||
  ((48 <=? n)%nat && (n <=? 57)%nat) || (n =? 45)%nat || (n =? 95)%nat.

Fixpoint takeIdChars (s : string) : string :=
  match s with
  | EmptyString => EmptyString
  | String c s' => if isIdChar c then String c (takeIdChars s') else EmptyString
  end.

Fixpoint dropPrefix (p s : string) : option string :=
  match p, s with
  | EmptyString, _ => Some s
  | String a p', String b s' => if Ascii.eqb a b then dropPrefix p' s' else None
  | String _ _, EmptyString => None
  end.

(** [url.match(/lit([a-zA-Z0-9-_]+)/)[1]]: the leftmost place where the
    literal is followed by at least one id character, and the longest run of
    id characters there. *)
Fixpoint matchAfter (lit url : string) : option string :=
  let here :=
    match dropPrefix lit url with
    | Some rest =>
        let id := takeIdChars rest in
        if String.eqb id "" then None else Some id
    | None => None
    end in
  match here with
  | Some id => Some id
  | None =>
      match url with
      | EmptyString => None
      | String _ url' => matchAfter lit url'
      end
  end.

Definition urlPatterns : list string :=
  ["/file/d/"; "id="; "folders/"; "document/d/"; "spreadsheets/d/"].

Fixpoint firstMatch (patterns : list string) (url : string) : option string :=
  match patterns with
  | [] => None
  | p :: rest =>
      match matchAfter p url with
      | Some id => Some id
      | None => firstMatch rest url
      end
  end.

(** [extractFileIdFromUrl(url)]; [None] is [null]. *)
Definition extractFileIdFromUrl (url : Cell) : option string :=
  match url with
  | CStr s => if String.eqb s "" then None else firstMatch urlPatterns s
  | _ => None
  end.

(** ** The store: a client's spreadsheet and Drive folders *)

(** The part of the Apps Script runtime the sheet code reads: the text of a
    number or a date inside a template literal, the clock, and the source of
    unique ids. *)
Class Runtime := {
  numberToString : Q -> string;
  dateToString : Z -> string;
  getCurrentTimestamp : string;
  uniqueIdOf : nat -> string
}.

(** A Drive folder: the files filed in it, and whether it takes changes. *)
Record Folder := mkFolder {
  folderFiles : list string;
  folderWritable : bool
}.

Inductive LockState := LockFree | LockHeldHere | LockHeldElsewhere.

Record World := mkWorld {
  driveFiles : list string;
  bufferFolder : Folder;
  inflowFolder : Folder;
  outflowFolder : Folder;
  bufferSheet : Sheet;
  finalSheet : Sheet;
  inflowSheet : Sheet;
  outflowSheet : Sheet;
  scriptLock : LockState;
  idsIssued : nat
}.

Inductive SheetRef := BUFFER | FINAL | INFLOW | OUTFLOW.
Inductive FolderRef := BUFFER_FOLDER | INFLOW_FOLDER | OUTFLOW_FOLDER.

Definition sheetOf (w : World) (r : SheetRef) : Sheet :=
  match r with
  | BUFFER => bufferSheet w
  | FINAL => finalSheet w
  | INFLOW => inflowSheet w
  | OUTFLOW => outflowSheet w
  end.

Definition setSheet (r : SheetRef) (sh : Sheet) (w : World) : World :=
  match r with
  | BUFFER =>
      mkWorld (driveFiles w) (bufferFolder w) (inflowFolder w) (outflowFolder w)
        sh (finalSheet w) (inflowSheet w) (outflowSheet w) (scriptLock w) (idsIssued w)
  | FINAL =>
      mkWorld (driveFiles w) (bufferFolder w) (inflowFolder w) (outflowFolder w)
        (bufferSheet w) sh (inflowSheet w) (outflowSheet w) (scriptLock w) (idsIssued w)
  | INFLOW =>
      mkWorld (driveFiles w) (bufferFolder w) (inflowFolder w) (outflowFolder w)
        (bufferSheet w) (finalSheet w) sh (outflowSheet w) (scriptLock w) (idsIssued w)
  | OUTFLOW =>
      mkWorld (driveFiles w) (bufferFolder w) (inflowFolder w) (outflowFolder w)
        (bufferSheet w) (finalSheet w) (inflowSheet w) sh (scriptLock w) (idsIssued w)
  end.

Definition folderOf (w : World) (r : FolderRef) : Folder :=
  match r with
  | BUFFER_FOLDER => bufferFolder w
  | INFLOW_FOLDER => inflowFolder w
  | OUTFLOW_FOLDER => outflowFolder w
  end.

Definition setFolder (r : FolderRef) (f : Folder) (w : World) : World :=
  match r with
  | BUFFER_FOLDER =>
      mkWorld (driveFiles w) f (inflowFolder w) (outflowFolder w)
        (bufferSheet w) (finalSheet w) (inflowSheet w) (outflowSheet w)
        (scriptLock w) (idsIssued w)
  | INFLOW_FOLDER =>
      mkWorld (driveFiles w) (bufferFolder w) f (outflowFolder w)
        (bufferSheet w) (finalSheet w) (inflowSheet w) (outflowSheet w)
        (scriptLock w) (idsIssued w)
  | OUTFLOW_FOLDER =>
      mkWorld (driveFiles w) (bufferFolder w) (inflowFolder w) f
        (bufferSheet w) (finalSheet w) (inflowSheet w) (outflowSheet w)
        (scriptLock w) (idsIssued w)
  end.

Definition setLock (l : LockState) (w : World) : World :=
  mkWorld (driveFiles w) (bufferFolder w) (inflowFolder w) (outflowFolder w)
    (bufferSheet w) (finalSheet w) (inflowSheet w) (outflowSheet w) l (idsIssued w).

Definition setIdsIssued (n : nat) (w : World) : World :=
  mkWorld (driveFiles w) (bufferFolder w) (inflowFolder w) (outflowFolder w)
    (bufferSheet w) (finalSheet w) (inflowSheet w) (outflowSheet w) (scriptLock w) n.

(** Computations over the store.  The store comes back with the result also
    when the result is a [Throw]. *)
Definition M (A : Type) : Type := World -> Result A * World.

#[export] Instance M_ret : MRet M := fun _ a w => (Ok a, w).
#[export] Instance M_bind : MBind M := fun _ _ f m w =>
  match m w with
  | (Ok a, w') => f a w'
  | (Throw e, w') => (Throw e, w')
  end.

Definition throw {A} (e : Exn) : M A := fun w => (Throw e, w).

(** A computation that only reads. *)
Definition liftR {A} (r : World -> Result A) : M A := fun w => (r w, w).

(** [try { body } catch (error) { handler }] over the store. *)
Definition tryCatchM {A} (body : M A) (handler : Exn -> M A) : M A := fun w =>
  match body w with
  | (Ok a, w') => (Ok a, w')
  | (Throw e, w') => handler e w'
  end.

(** [try { body } finally { cleanup }] *)
Definition tryFinally {A} (body : M A) (cleanup : World -> World) : M A := fun w =>
  match body w with
  | (r, w') => (r, cleanup w')
  end.

(** *** The Spreadsheet service *)

Definition padTo {A} (n : nat) (d : A) (l : list A) : list A :=
  l ++ replicate (n - length l) d.

(** The grid after [getRange(row, column).setValue(v)], [row] and [column]
    counted from 1. *)
Definition writeCell (row column : nat) (v : Cell) (values : list (list Cell))
    : list (list Cell) :=
  let values' := padTo row [] values in
  match values' !! (row - 1) with
  | Some r => <[row - 1 := <[column - 1 := v]> (padTo column (CStr "") r)]> values'
  | None => values'
  end.

(** A write to a sheet: refused unless the sheet takes writes. *)
Definition writing (ref : SheetRef) (f : list (list Cell) -> list (list Cell)) : M unit :=
  fun w =>
    let sh := sheetOf w ref in
    match sheetAccess sh with
    | ReadWrite => (Ok tt, setSheet ref (mkSheet (f (sheetValues sh)) ReadWrite) w)
    | _ => (Throw ServiceError, w)
    end.

(** [sheet.getRange(row, column).setValue(v)] *)
Definition setValue (ref : SheetRef) (row column : nat) (v : Cell) : M unit :=
  writing ref (writeCell row column v).

(** The cell at [row] and [column], both counted from 1. *)
Definition cellAt (values : list (list Cell)) (row column : nat) : Cell :=
  match values !! (row - 1) with
  | Some r => safeGetCellValue r (Z.of_nat column - 1)
  | None => CStr ""
  end.

(** [sheet.getRange(row, column).getValue()] *)
Definition getValue (ref : SheetRef) (row column : nat) : M Cell :=
  liftR (fun w =>
    let sh := sheetOf w ref in
    reading sh (cellAt (sheetValues sh) row column)).

(** [sheet.appendRow(rowData)] *)
Definition appendRow (ref : SheetRef) (rowData : list Cell) : M unit :=
  writing ref (fun values => values ++ [rowData]).

(** [sheet.deleteRow(rowPosition)] *)
Definition deleteRow (ref : SheetRef) (rowPosition : nat) : M unit :=
  writing ref (fun values => delete (rowPosition - 1) values).

(** [sheet.deleteRows(rowPosition, howMany)] *)
Definition deleteRows (ref : SheetRef) (rowPosition howMany : nat) : M unit :=
  writing ref (fun values =>
    take (rowPosition - 1) values ++ drop (rowPosition - 1 + howMany) values).

Definition getLastColumn (sh : Sheet) : Result nat :=
  reading sh (foldr (fun r m => Nat.max (length r) m) 0 (sheetValues sh)).

(** [sheet.getRange(1, 1, 1, sheet.getLastColumn()).getValues()[0]]: a range
    of no columns is refused. *)
Definition getHeaders (ref : SheetRef) : M (list Cell) :=
  liftR (fun w =>
    let sh := sheetOf w ref in
    lastColumn ← getLastColumn sh;
    if (lastColumn =? 0)%nat then Throw ServiceError
    else mret (headerRow (sheetValues sh))).

(** *** The Drive service *)

(** [DriveApp.getFileById(fileId)]: fails when there is no such file. *)
Definition getFileById (fileId : string) : M string :=
  liftR (fun w =>
    if bool_decide (fileId ∈ driveFiles w) then Ok fileId else Throw ServiceError).

Definition changingFolder (ref : FolderRef) (f : list string -> list string) : M unit :=
  fun w =>
    let fo := folderOf w ref in
    if folderWritable fo
    then (Ok tt, setFolder ref (mkFolder (f (folderFiles fo)) true) w)
    else (Throw ServiceError, w).

(** [folder.addFile(file)] *)
Definition addFile (ref : FolderRef) (file : string) : M unit :=
  changingFolder ref (fun files =>
    if bool_decide (file ∈ files) then files else files ++ [file]).

(** [folder.removeFile(file)] *)
Definition removeFile (ref : FolderRef) (file : string) : M unit :=
  changingFolder ref (filter (fun f => f ≠ file)).

(** Whether [file] is among the files of the folder. *)
Definition inFolder (ref : FolderRef) (file : string) : M bool :=
  liftR (fun w => Ok (bool_decide (file ∈ folderFiles (folderOf w ref)))).

(** [generateUniqueId()] *)
Definition generateUniqueId `{Runtime} : M string := fun w =>
  (Ok (uniqueIdOf (idsIssued w)), setIdsIssued (S (idsIssued w)) w).

(** The text a cell has inside a template literal. *)
Definition cellToString `{Runtime} (c : Cell) : string :=
  match c with
  | CStr s => s
  | CNum q => numberToString q
  | CBool true => "true"
  | CBool false => "false"
  | CDate ms => dateToString ms
  end.

(** ** [SheetManager.gs]: deletion, reactivation and categorisation

    The client is taken to exist, with a valid configuration, its four
    sheets and its folder tree: [validateInput], [getClientByName],
    [validateClientConfiguration], [getOrCreateSheet] and
    [getClientFolderStructure] succeed. *)

Section SheetManager.
Context `{Runtime}.

(** One pass of the loop of [removeFileFromDriveFolders] over
    [[inflowFolder, outflowFolder]]: a failure is logged by [warnLog] and
    the loop goes on. *)
Definition removeFromFolderIfPresent (folder : FolderRef) (file : string) : M unit :=
  tryCatchM
    (present ← inFolder folder file;
     if present : bool then removeFile folder file else mret tt)
    (fun _ => mret tt).

(** [removeFileFromDriveFolders(fileUrl, folderStructure)] *)
Definition removeFileFromDriveFolders (fileUrl : Cell) : M unit :=
  tryCatchM
    (match extractFileIdFromUrl fileUrl with
     | None => throw (AppError INVALID_INPUT)
     | Some fileId =>
         file ← getFileById fileId;
         _ ← removeFromFolderIfPresent INFLOW_FOLDER file;
         removeFromFolderIfPresent OUTFLOW_FOLDER file
     end)
    (fun error => throw error).

(** [for (let i = data.length - 1; i >= 1; i--)] of [removeFromSheet]; [i]
    is the index still to visit, [data] the snapshot read before the loop. *)
Fixpoint removeFromSheetLoop (sheet : SheetRef) (data : list (list Cell))
    (columnIndex : Z) (valueToMatch : Cell) (i removedCount : nat) : M nat :=
  match i with
  | O => mret removedCount
  | S i' =>
      let row := default [] (data !! i) in
      if strictEq (safeGetCellValue row columnIndex) valueToMatch
      then _ ← deleteRow sheet (i + 1);
           removeFromSheetLoop sheet data columnIndex valueToMatch i' (S removedCount)
      else removeFromSheetLoop sheet data columnIndex valueToMatch i' removedCount
  end.

(** [removeFromSheet(sheet, valueToMatch, columnHeader)] *)
Definition removeFromSheet (sheet : SheetRef) (valueToMatch : Cell)
    (columnHeader : string) : M nat :=
  tryCatchM
    (lastRow ← liftR (fun w => getLastRow (sheetOf w sheet));
     if (lastRow <=? 1)%nat then mret 0
     else
       data ← liftR (fun w => getValues (sheetOf w sheet));
       let columnIndex := getColumnIndex (headerRow data) columnHeader in
       if (columnIndex =? -1)%Z then mret 0
       else removeFromSheetLoop sheet data columnIndex valueToMatch (length data - 1) 0)
    (fun error => throw error).

(** [if (index !== -1) { sheet.getRange(rowIndex, index + 1).setValue(v) }] *)
Definition setIfColumn (sheet : SheetRef) (rowIndex : nat) (index : Z) (v : Cell) : M unit :=
  if (index =? -1)%Z then mret tt
  else setValue sheet rowIndex (Z.to_nat index + 1) v.

(** [updateBufferSheetForDeletion(bufferSheet, rowIndex, reason)] *)
Definition updateBufferSheetForDeletion (bufferSheet : SheetRef) (rowIndex : nat)
    (reason : Cell) : M unit :=
  tryCatchM
    (headers ← getHeaders bufferSheet;
     _ ← setIfColumn bufferSheet rowIndex (getColumnIndex headers "Status")
           (CStr STATUS.DELETED);
     _ ← setIfColumn bufferSheet rowIndex (getColumnIndex headers "Reason")
           (CStr ("Deleted: " +:+ cellToString reason +:+ " (" +:+
                  getCurrentTimestamp +:+ ")"));
     setIfColumn bufferSheet rowIndex (getColumnIndex headers "Last Modified")
       (CStr getCurrentTimestamp))
    (fun error => throw error).

(** Steps 1 to 3 of [processFileDeletion]: the blob leaves the category
    folders, then the rows leave the Final, Inflow and Outflow sheets. *)
Definition removeDownstream (deletionItem : DeletionItem)
    (finalSheet inflowSheet outflowSheet : SheetRef) : M unit :=
  _ ← removeFileFromDriveFolders (del_fileUrl deletionItem);
  _ ← removeFromSheet finalSheet (del_fileUrl deletionItem) "File URL";
  _ ← removeFromSheet inflowSheet (del_fileUrl deletionItem) "File URL";
  _ ← removeFromSheet outflowSheet (del_fileUrl deletionItem) "File URL";
  mret tt.

(** [processFileDeletion(deletionItem, folderStructure, finalSheet,
    inflowSheet, outflowSheet, bufferSheet)]: steps 1 to 3, then step 4,
    the update of the Buffer row. *)
Definition processFileDeletion (deletionItem : DeletionItem)
    (finalSheet inflowSheet outflowSheet bufferSheet : SheetRef) : M unit :=
  tryCatchM
    (_ ← removeDownstream deletionItem finalSheet inflowSheet outflowSheet;
     updateBufferSheetForDeletion bufferSheet (del_rowIndex deletionItem)
       (del_reason deletionItem))
    (fun error => throw error).

(** [hasValidAIData(reactivationItem)], read as a condition. *)
Definition hasValidAIData (reactivationItem : ReactivationItem) : bool :=
  let body : Result bool :=
    if truthy (changedFilename reactivationItem) then
      if negb (strictEq (changedFilename reactivationItem)
                 (originalFilename reactivationItem)) then
        if truthy (invoiceNumber reactivationItem) then
          t ← cellTrim (invoiceNumber reactivationItem);
          mret (negb (String.eqb t ""))
        else mret false
      else mret false
    else mret false in
  match tryCatch body (fun _ => mret false) with
  | Ok b => b
  | Throw _ => false
  end.

(** [ensureFileInBufferFolder(reactivationItem, bufferFolder)].  The parents
    of a file are the client's folders that hold it; the ones named Inflow
    and Outflow are [inflowFolder] and [outflowFolder]. *)
Definition ensureFileInBufferFolder (reactivationItem : ReactivationItem)
    (bufferFolder : FolderRef) : M unit :=
  tryCatchM
    (match extractFileIdFromUrl (fileUrl reactivationItem) with
     | None => throw (AppError INVALID_INPUT)
     | Some fileId =>
         file ← tryCatchM (getFileById fileId)
                  (fun _ => throw (AppError FILE_NOT_FOUND));
         isInBuffer ← inFolder bufferFolder file;
         if isInBuffer : bool then mret tt
         else
           _ ← addFile bufferFolder file;
           inInflow ← inFolder INFLOW_FOLDER file;
           _ ← (if inInflow : bool then removeFile INFLOW_FOLDER file else mret tt);
           inOutflow ← inFolder OUTFLOW_FOLDER file;
           if inOutflow : bool then removeFile OUTFLOW_FOLDER file else mret tt
     end)
    (fun error => throw error).

(** [updateBufferSheetForReactivation(bufferSheet, rowIndex)] *)
Definition updateBufferSheetForReactivation (bufferSheet : SheetRef) (rowIndex : nat)
    : M unit :=
  tryCatchM
    (headers ← getHeaders bufferSheet;
     _ ← setIfColumn bufferSheet rowIndex (getColumnIndex headers "Status")
           (CStr STATUS.ACTIVE);
     let reasonIndex := getColumnIndex headers "Reason" in
     _ ← (if (reasonIndex =? -1)%Z then mret tt
          else
            currentReason ← getValue bufferSheet rowIndex (Z.to_nat reasonIndex + 1);
            setValue bufferSheet rowIndex (Z.to_nat reasonIndex + 1)
              (CStr ("Reactivated on " +:+ getCurrentTimestamp +:+ ". Previous: " +:+
                     cellToString currentReason)));
     _ ← setIfColumn bufferSheet rowIndex (getColumnIndex headers "Processing Attempts")
           (CStr "0");
     setIfColumn bufferSheet rowIndex (getColumnIndex headers "Last Modified")
       (CStr getCurrentTimestamp))
    (fun error => throw error).
End SheetManager.

(** ** [AIProcessor.gs]: derived file names and the Final sheet *)

(** The object [parseFilenameForAIData] returns. *)
Record ParsedData := mkParsedData {
  parsed_date : string;
  parsed_vendorName : string;
  parsed_invoiceNumber : string;
  parsed_amount : string
}.

(** [s.replace(/_/g, ' ')] *)
Fixpoint underscoresToSpaces (s : string) : string :=
  match s with
  | EmptyString => EmptyString
  | String c s' =>
      String (if Ascii.eqb c "_"%char then " "%char else c) (underscoresToSpaces s')
  end.

(** [filename.substring(0, filename.lastIndexOf('.'))] *)
Definition nameWithoutExtension (filename : string) : string :=
  JSString.substring filename 0 (JSString.lastIndexOf filename "."%char).

(** [parseFilenameForAIData(filename)]; [None] is [null].  A file name that
    is not text has no [substring]: the [catch] returns [null]. *)
Definition parseFilenameForAIData (filename : Cell) : option ParsedData :=
  match filename with
  | CStr f =>
      let parts := JSString.split "_"%char (nameWithoutExtension f) in
      if (4 <=? length parts)%nat then
        Some {| parsed_date := default "" (parts !! 0);
                parsed_vendorName := underscoresToSpaces (default "" (parts !! 1));
                parsed_invoiceNumber := default "" (parts !! 2);
                parsed_amount := default "" (parts !! 3) |}
      else None
  | _ => None
  end.

(** [isDuplicateInFinalSheet(finalSheet, fileUrl)]: the loop returns at the
    first row whose File URL is the given one. *)
Definition isDuplicateInFinalSheet (finalSheet : Sheet) (fileUrl : Cell) : bool :=
  let body : Result bool :=
    lastRow ← getLastRow finalSheet;
    if (lastRow <=? 1)%nat then mret false
    else
      data ← getValues finalSheet;
      let fileUrlIndex := getColumnIndex (headerRow data) "File URL" in
      if (fileUrlIndex =? -1)%Z then mret false
      else mret (existsb (fun row => strictEq (safeGetCellValue row fileUrlIndex) fileUrl)
                   (drop 1 data)) in
  match tryCatch body (fun _ => mret false) with
  | Ok b => b
  | Throw _ => false
  end.

(** The fields of [aiResult.data] that reach the Final sheet. *)
Record AIData := mkAIData {
  ai_newFilename : Cell;
  ai_date : Cell;
  ai_vendorName : Cell;
  ai_invoiceNumber : Cell;
  ai_amount : Cell;
  ai_documentType : Cell;
  ai_transactionType : Cell;
  ai_confidence : Cell;
  ai_processingDate : Cell
}.

(** A record of [getActiveFilesFromBuffer], as far as the Final sheet sees
    it. *)
Record ActiveFile := mkActiveFile {
  af_rowIndex : nat;
  af_originalFilename : Cell;
  af_fileUrl : Cell;
  af_emailSubject : Cell
}.

(** The counters of [processClientDocumentsWithAI] that the Final-sheet step
    moves. *)
Record Tally := mkTally {
  tally_skipped : nat;
  tally_inflowCount : nat;
  tally_outflowCount : nat
}.

Section AIProcessorSheets.
Context `{Runtime}.

(** [x || ''] for an optional text. *)
Definition textOrEmpty (o : option string) : Cell :=
  match o with
  | Some s => orElse (CStr s) (CStr "")
  | None => CStr ""
  end.

(** [addToFinalSheet(finalSheet, fileData, aiData)] *)
Definition addToFinalSheet (finalSheet : SheetRef) (fileData : ActiveFile)
    (aiData : AIData) : M unit :=
  tryCatchM
    (uniqueId ← generateUniqueId;
     let fileId := extractFileIdFromUrl (af_fileUrl fileData) in
     let rowData :=
       [ orElse (ai_newFilename aiData) (af_originalFilename fileData);
         CStr uniqueId;
         textOrEmpty fileId;
         af_fileUrl fileData;
         CStr "";
         orElse (af_emailSubject fileData) (CStr "");
         CStr "";
         ai_transactionType aiData;
         ai_date aiData;
         ai_vendorName aiData;
         ai_invoiceNumber aiData;
         ai_amount aiData;
         ai_documentType aiData;
         ai_confidence aiData;
         orElse (ai_processingDate aiData) (CStr getCurrentTimestamp);
         CStr getCurrentTimestamp ] in
     appendRow finalSheet rowData)
    (fun error => throw error).

(** The Final-sheet step of the loop of [processClientDocumentsWithAI] for a
    file whose [aiResult] succeeded: insert unless the File URL is already
    there, else count the file as skipped.  (The confidence statistics of
    the same block touch no sheet and are left out.) *)
Definition addToFinalSheetUnlessDuplicate (finalSheet : SheetRef)
    (fileData : ActiveFile) (aiData : AIData) (results : Tally) : M Tally :=
  duplicate ← liftR (fun w =>
    Ok (isDuplicateInFinalSheet (sheetOf w finalSheet) (af_fileUrl fileData)));
  if duplicate : bool then
    mret {| tally_skipped := S (tally_skipped results);
            tally_inflowCount := tally_inflowCount results;
            tally_outflowCount := tally_outflowCount results |}
  else
    _ ← addToFinalSheet finalSheet fileData aiData;
    mret (if strictEq (ai_transactionType aiData) (CStr STATUS.INFLOW) then
            {| tally_skipped := tally_skipped results;
               tally_inflowCount := S (tally_inflowCount results);
               tally_outflowCount := tally_outflowCount results |}
          else if strictEq (ai_transactionType aiData) (CStr STATUS.OUTFLOW) then
            {| tally_skipped := tally_skipped results;
               tally_inflowCount := tally_inflowCount results;
               tally_outflowCount := S (tally_outflowCount results) |}
          else results).
End AIProcessorSheets.

(** ** [SheetManager.gs], continued: restore, reconciliation pass, moves *)

(** The object [aiData] of [restoreToFinalSheet]. *)
Record RestoredData := mkRestoredData {
  restored_date : Cell;
  restored_vendorName : Cell;
  restored_invoiceNumber : Cell;
  restored_amount : Cell;
  restored_transactionType : Cell
}.

(** [{ ...aiData, ...parsedData }] *)
Definition mergeParsed (aiData : RestoredData) (parsedData : ParsedData) : RestoredData :=
  {| restored_date := CStr (parsed_date parsedData);
     restored_vendorName := CStr (parsed_vendorName parsedData);
     restored_invoiceNumber := CStr (parsed_invoiceNumber parsedData);
     restored_amount := CStr (parsed_amount parsedData);
     restored_transactionType := restored_transactionType aiData |}.

(** What a pass reports. *)
Record BufferChangesResult := mkBufferChangesResult {
  deletedCount : nat;
  reactivatedCount : nat;
  errorCount : nat;
  errorDetails : list (Cell * string)
}.

(** A record of [getFinalSheetData]. *)
Record FinalRecord := mkFinalRecord {
  fr_fileName : Cell;
  fr_uniqueFileId : Cell;
  fr_driveFileId : Cell;
  fr_fileUrl : Cell;
  fr_messageId : Cell;
  fr_emailSubject : Cell;
  fr_emailSender : Cell;
  fr_inflowOutflowStatus : Cell;
  fr_date : Cell;
  fr_vendorName : Cell;
  fr_invoiceNumber : Cell;
  fr_amount : Cell;
  fr_documentType : Cell;
  fr_aiConfidence : Cell;
  fr_processingDate : Cell
}.

Record MoveResult := mkMoveResult {
  mv_inflowCount : nat;
  mv_outflowCount : nat;
  mv_errorCount : nat;
  mv_errors : list Cell
}.

Section SheetManagerPasses.
Context `{Runtime}.

(** [restoreToFinalSheet(reactivationItem, spreadsheet)] *)
Definition restoreToFinalSheet (reactivationItem : ReactivationItem) : M unit :=
  tryCatchM
    (uniqueId ← generateUniqueId;
     let aiData0 :=
       {| restored_date := CStr "";
          restored_vendorName := CStr "";
          restored_invoiceNumber := orElse (invoiceNumber reactivationItem) (CStr "");
          restored_amount := CStr "";
          restored_transactionType := CStr STATUS.INFLOW |} in
     let aiData :=
       if truthy (changedFilename reactivationItem) &&
          negb (strictEq (changedFilename reactivationItem)
                  (originalFilename reactivationItem))
       then match parseFilenameForAIData (changedFilename reactivationItem) with
            | Some parsedData => mergeParsed aiData0 parsedData
            | None => aiData0
            end
       else aiData0 in
     let rowData :=
       [ orElse (changedFilename reactivationItem) (originalFilename reactivationItem);
         CStr uniqueId;
         orElse (fileId reactivationItem) (CStr "");
         fileUrl reactivationItem;
         CStr "";
         orElse (emailSubject reactivationItem) (CStr "");
         CStr "";
         restored_transactionType aiData;
         restored_date aiData;
         restored_vendorName aiData;
         restored_invoiceNumber aiData;
         restored_amount aiData;
         CStr "restored";
         CNum (8 # 10);
         CStr getCurrentTimestamp;
         CStr getCurrentTimestamp ] in
     appendRow FINAL rowData)
    (fun error => throw error).

(** [processFileReactivation(reactivationItem, client, spreadsheet,
    bufferSheet)] *)
Definition processFileReactivation (reactivationItem : ReactivationItem)
    (bufferSheet : SheetRef) : M unit :=
  tryCatchM
    (_ ← ensureFileInBufferFolder reactivationItem BUFFER_FOLDER;
     _ ← updateBufferSheetForReactivation bufferSheet (rowIndex reactivationItem);
     let needsAIProcessing := negb (hasValidAIData reactivationItem) in
     if needsAIProcessing then mret tt
     else restoreToFinalSheet reactivationItem)
    (fun error => throw error).

(** [lock.tryLock(30000)] followed by the [throw] on failure. *)
Definition acquireLock : M unit := fun w =>
  match scriptLock w with
  | LockHeldElsewhere => (Throw (AppError SYSTEM_ERROR), w)
  | _ => (Ok tt, setLock LockHeldHere w)
  end.

(** [lock.releaseLock()] of the [finally] blocks. *)
Definition releaseLock (w : World) : World :=
  match scriptLock w with
  | LockHeldHere => setLock LockFree w
  | _ => w
  end.

(** [deletionData.filter(item => !item.reason || item.reason.trim() === '')] *)
Fixpoint missingReasons (deletionData : list DeletionItem) : Result (list DeletionItem) :=
  match deletionData with
  | [] => mret []
  | item :: rest =>
      missing ← (if negb (truthy (del_reason item)) then mret true
                 else t ← cellTrim (del_reason item); mret (String.eqb t ""));
      others ← missingReasons rest;
      mret (if missing : bool then item :: others else others)
  end.

(** The loop [for (const deletionItem of deletionData)]. *)
Fixpoint processDeletions (deletionData : list DeletionItem) (deletedCount : nat)
    (errors : list (Cell * string)) : M (nat * list (Cell * string)) :=
  match deletionData with
  | [] => mret (deletedCount, errors)
  | deletionItem :: rest =>
      done ← tryCatchM
               (_ ← processFileDeletion deletionItem FINAL INFLOW OUTFLOW BUFFER;
                mret true)
               (fun _ => mret false);
      if done : bool then processDeletions rest (S deletedCount) errors
      else processDeletions rest deletedCount
             (errors ++ [(del_originalFilename deletionItem, "deletion")])
  end.

(** The loop [for (const reactivationItem of reactivationData)]. *)
Fixpoint processReactivations (reactivationData : list ReactivationItem)
    (reactivatedCount : nat) (errors : list (Cell * string))
    : M (nat * list (Cell * string)) :=
  match reactivationData with
  | [] => mret (reactivatedCount, errors)
  | reactivationItem :: rest =>
      done ← tryCatchM
               (_ ← processFileReactivation reactivationItem BUFFER; mret true)
               (fun _ => mret false);
      if done : bool then processReactivations rest (S reactivatedCount) errors
      else processReactivations rest reactivatedCount
             (errors ++ [(originalFilename reactivationItem, "reactivation")])
  end.

(** [processBufferChanges(clientName)] *)
Definition processBufferChanges : M BufferChangesResult :=
  tryFinally
    (tryCatchM
       (_ ← acquireLock;
        deletionData ← liftR (fun w => getFilesMarkedForDeletion (bufferSheet w));
        reactivationData ← liftR (fun w => getFilesMarkedForReactivation (bufferSheet w));
        missing ← liftR (fun _ => missingReasons deletionData);
        _ ← (if (0 <? length missing)%nat then throw (AppError INVALID_INPUT)
             else mret tt);
        '(deleted, errors1) ← processDeletions deletionData 0 [];
        '(reactivated, errors2) ← processReactivations reactivationData 0 errors1;
        mret {| deletedCount := deleted;
                reactivatedCount := reactivated;
                errorCount := length errors2;
                errorDetails := errors2 |})
       (fun error => throw error))
    releaseLock.

(** The loop of [getFinalSheetData]: rows without a file name, a File URL
    or an Inflow/Outflow status are skipped. *)
Definition finalRecordOfRow (headers row : list Cell) : option FinalRecord :=
  let cell name := safeGetCellValue row (getColumnIndex headers name) in
  if truthy (cell "File Name") && truthy (cell "File URL") &&
     truthy (cell "Inflow/Outflow Status")
  then Some {| fr_fileName := cell "File Name";
               fr_uniqueFileId := cell "Unique File ID";
               fr_driveFileId := cell "Drive File ID";
               fr_fileUrl := cell "File URL";
               fr_messageId := cell "Message ID";
               fr_emailSubject := cell "Email Subject";
               fr_emailSender := cell "Email Sender";
               fr_inflowOutflowStatus := cell "Inflow/Outflow Status";
               fr_date := cell "Date";
               fr_vendorName := cell "Vendor Name";
               fr_invoiceNumber := cell "Invoice Number";
               fr_amount := cell "Amount";
               fr_documentType := cell "Document Type";
               fr_aiConfidence := cell "AI Confidence";
               fr_processingDate := cell "Processing Date" |}
  else None.

(** [getFinalSheetData(finalSheet)] *)
Definition getFinalSheetData (finalSheet : Sheet) : list FinalRecord :=
  let body : Result (list FinalRecord) :=
    lastRow ← getLastRow finalSheet;
    if (lastRow <=? 1)%nat then mret []
    else
      data ← getValues finalSheet;
      mret (omap (finalRecordOfRow (headerRow data)) (drop 1 data)) in
  match tryCatch body (fun _ => mret []) with
  | Ok l => l
  | Throw _ => []
  end.

(** The row both [addToInflowSheet] and [addToOutflowSheet] append. *)
Definition flowRow (fileData : FinalRecord) : list Cell :=
  [ fr_fileName fileData; fr_uniqueFileId fileData; fr_driveFileId fileData;
    fr_fileUrl fileData; fr_messageId fileData; fr_emailSubject fileData;
    fr_emailSender fileData; fr_date fileData; fr_vendorName fileData;
    fr_invoiceNumber fileData; fr_amount fileData; fr_documentType fileData;
    fr_aiConfidence fileData; fr_processingDate fileData;
    CStr getCurrentTimestamp ].

(** [addToInflowSheet(inflowSheet, fileData)] *)
Definition addToInflowSheet (inflowSheet : SheetRef) (fileData : FinalRecord) : M unit :=
  tryCatchM (appendRow inflowSheet (flowRow fileData)) (fun error => throw error).

(** [addToOutflowSheet(outflowSheet, fileData)] *)
Definition addToOutflowSheet (outflowSheet : SheetRef) (fileData : FinalRecord) : M unit :=
  tryCatchM (appendRow outflowSheet (flowRow fileData)) (fun error => throw error).

(** [moveFileToFolder(fileUrl, sourceFolder, targetFolder)] *)
Definition moveFileToFolder (fileUrl : Cell) (sourceFolder targetFolder : FolderRef)
    : M unit :=
  tryCatchM
    (match extractFileIdFromUrl fileUrl with
     | None => throw (AppError INVALID_INPUT)
     | Some fileId =>
         file ← getFileById fileId;
         _ ← addFile targetFolder file;
         removeFile sourceFolder file
     end)
    (fun error => throw error).

(** [clearFinalSheet(finalSheet)] *)
Definition clearFinalSheet (finalSheet : SheetRef) : M unit :=
  tryCatchM
    (lastRow ← liftR (fun w => getLastRow (sheetOf w finalSheet));
     if (1 <? lastRow)%nat then deleteRows finalSheet 2 (lastRow - 1)
     else mret tt)
    (fun error => throw error).

(** The body of the [try] inside the loop of [moveFilesToInflowOutflow];
    the result tells whether the file went to inflow. *)
Definition moveOneFile (fileData : FinalRecord) : M bool :=
  status ← liftR (fun _ => cellToLowerCase (fr_inflowOutflowStatus fileData));
  let isInflow := String.eqb status STATUS.INFLOW in
  if isInflow then
    _ ← addToInflowSheet INFLOW fileData;
    _ ← moveFileToFolder (fr_fileUrl fileData) BUFFER_FOLDER INFLOW_FOLDER;
    mret true
  else
    _ ← addToOutflowSheet OUTFLOW fileData;
    _ ← moveFileToFolder (fr_fileUrl fileData) BUFFER_FOLDER OUTFLOW_FOLDER;
    mret false.

(** The loop [for (const fileData of finalSheetData)]. *)
Fixpoint moveLoop (finalSheetData : list FinalRecord) (counts : MoveResult) : M MoveResult :=
  match finalSheetData with
  | [] => mret counts
  | fileData :: rest =>
      moved ← tryCatchM (isInflow ← moveOneFile fileData; mret (Some isInflow))
                (fun _ => mret None);
      moveLoop rest
        match moved with
        | Some true =>
            {| mv_inflowCount := S (mv_inflowCount counts);
               mv_outflowCount := mv_outflowCount counts;
               mv_errorCount := mv_errorCount counts;
               mv_errors := mv_errors counts |}
        | Some false =>
            {| mv_inflowCount := mv_inflowCount counts;
               mv_outflowCount := S (mv_outflowCount counts);
               mv_errorCount := mv_errorCount counts;
               mv_errors := mv_errors counts |}
        | None =>
            {| mv_inflowCount := mv_inflowCount counts;
               mv_outflowCount := mv_outflowCount counts;
               mv_errorCount := S (mv_errorCount counts);
               mv_errors := mv_errors counts ++ [fr_fileName fileData] |}
        end
  end.

Definition noMoves : MoveResult :=
  {| mv_inflowCount := 0; mv_outflowCount := 0; mv_errorCount := 0; mv_errors := [] |}.

(** [moveFilesToInflowOutflow(clientName)] *)
Definition moveFilesToInflowOutflow : M MoveResult :=
  tryFinally
    (tryCatchM
       (_ ← acquireLock;
        finalSheetData ← liftR (fun w => Ok (getFinalSheetData (finalSheet w)));
        if (length finalSheetData =? 0)%nat then mret noMoves
        else
          counts ← moveLoop finalSheetData noMoves;
          _ ← (if (mv_errorCount counts =? 0)%nat then clearFinalSheet FINAL
               else mret tt);
          mret counts)
       (fun error => throw error))
    releaseLock.
End SheetManagerPasses.

(** ** [AIProcessor.gs]: validation of the AI response *)

(** Numbers of the language.  A finite number is the rational it denotes;
    a decimal literal of the source is written as that rational. *)
Inductive JSNumber :=
| NaN
| NegInfinity
| Finite (q : Q)
| PosInfinity.

(** What [JSON.parse] can produce, and [undefined] for a property that is
    not there.  An object is the list of its own properties. *)
Inductive JSValue :=
| JUndefined
| JNull
| JBool (b : bool)
| JNum (n : JSNumber)
| JStr (s : string)
| JArray (elements : list JSValue)
| JObject (properties : list (string * JSValue)).

Definition isNaN (n : JSNumber) : bool :=
  match n with
  | NaN => true
  | _ => false
  end.

(** [a <= b] on numbers other than [NaN]. *)
Definition numLe (a b : JSNumber) : bool :=
  match a, b with
  | NaN, _ | _, NaN => false
  | NegInfinity, _ => true
  | _, PosInfinity => true
  | Finite x, Finite y => Qle_bool x y
  | _, _ => false
  end.

(** [Math.min(a, b)] *)
Definition mathMin (a b : JSNumber) : JSNumber :=
  if isNaN a || isNaN b then NaN else if numLe a b then a else b.

(** [Math.max(a, b)] *)
Definition mathMax (a b : JSNumber) : JSNumber :=
  if isNaN a || isNaN b then NaN else if numLe a b then b else a.

(** [Math.abs(a)] *)
Definition mathAbs (a : JSNumber) : JSNumber :=
  match a with
  | NaN => NaN
  | NegInfinity | PosInfinity => PosInfinity
  | Finite q => Finite (Qabs q)
  end.

(** [-a] *)
Definition negate (a : JSNumber) : JSNumber :=
  match a with
  | NaN => NaN
  | NegInfinity => PosInfinity
  | PosInfinity => NegInfinity
  | Finite q => Finite (- q)
  end.

(** [if (v)] *)
Definition jsTruthy (v : JSValue) : bool :=
  match v with
  | JUndefined | JNull => false
  | JBool b => b
  | JNum NaN => false
  | JNum (Finite q) => negb (Qeq_bool q 0)
  | JNum _ => true
  | JStr s => negb (String.eqb s "")
  | JArray _ | JObject _ => true
  end.

(** [data.name] for an object made by [JSON.parse]. *)
Fixpoint lookupProperty (name : string) (properties : list (string * JSValue)) : JSValue :=
  match properties with
  | [] => JUndefined
  | (k, v) :: rest => if String.eqb k name then v else lookupProperty name rest
  end.

Definition hasOwnProperty (name : string) (properties : list (string * JSValue)) : bool :=
  existsb (fun kv => String.eqb (fst kv) name) properties.

(** [data.name] on a value that passed [typeof data === 'object']: arrays
    have none of the seven properties. *)
Definition getField (data : JSValue) (name : string) : JSValue :=
  match data with
  | JObject properties => lookupProperty name properties
  | _ => JUndefined
  end.

(** The numeric and calendar primitives of the runtime that work in
    floating point or read the clock. *)
Class Numerics := {
  (** [parseFloat] of a text *)
  parseFloatText : string -> JSNumber;
  (** [x.toFixed(2)] *)
  toFixed2 : JSNumber -> string;
  (** [Date.parse]; [None] is an invalid date *)
  dateParseText : string -> option Z;
  (** the time value [new Date(n)] has for a number *)
  timeClip : JSNumber -> option Z;
  (** [d.toISOString().split('T')[0]] *)
  isoDateOf : Z -> string;
  (** the time value of [new Date()] *)
  currentTime : Z
}.

Section JSConversions.
Context `{Runtime}.

Definition jsNumberToString (n : JSNumber) : string :=
  match n with
  | NaN => "NaN"
  | NegInfinity => "-Infinity"
  | PosInfinity => "Infinity"
  | Finite q => numberToString q
  end.

(** The conversion to text, as in [`${v}`], [String(v)] and, for a value
    that is neither [null] nor [undefined], [v.toString()].  Arrays join
    their elements with commas.  An object made by [JSON.parse] converts to
    ["[object Object]"] unless it has a property of its own called
    ["toString"]: that property is data, calling it is a [TypeError], and
    so is the conversion. *)
Fixpoint toStringJS (v : JSValue) : Result string :=
  match v with
  | JUndefined => Ok "undefined"
  | JNull => Ok "null"
  | JBool true => Ok "true"
  | JBool false => Ok "false"
  | JNum n => Ok (jsNumberToString n)
  | JStr s => Ok s
  | JArray elements =>
      (fix join (l : list JSValue) : Result string :=
         match l with
         | [] => Ok ""
         | x :: rest =>
             s ← match x with
                 | JUndefined | JNull => Ok ""
                 | _ => toStringJS x
                 end;
             match rest with
             | [] => Ok s
             | _ => r ← join rest; Ok (s +:+ "," +:+ r)
             end
         end) elements
  | JObject properties =>
      if hasOwnProperty "toString" properties then Throw TypeError
      else Ok "[object Object]"
  end.
End JSConversions.

(** The object [validateAndCleanAIResponse] returns. *)
Record Validated := mkValidated {
  v_date : string;
  v_vendorName : string;
  v_invoiceNumber : string;
  v_amount : string;
  v_documentType : string;
  v_transactionType : string;
  v_confidence : JSNumber
}.

Section Validation.
Context `{Runtime} `{Numerics}.

(** [parseFloat(v)]: the text of [v] is parsed.  The text of a number
    parses back to that number. *)
Definition parseFloatJS (v : JSValue) : Result JSNumber :=
  match v with
  | JNum n => Ok n
  | _ => s ← toStringJS v; Ok (parseFloatText s)
  end.

(** The time value of [new Date(v)]; [None] is an invalid date. *)
Definition newDate (v : JSValue) : Result (option Z) :=
  match v with
  | JUndefined => Ok None
  | JNull => Ok (Some 0%Z)
  | JBool b => Ok (Some (if b then 1%Z else 0%Z))
  | JNum n => Ok (timeClip n)
  | JStr s => Ok (dateParseText s)
  | _ => s ← toStringJS v; Ok (dateParseText s)
  end.

(** [formatDateForFilename(d)] for a [Date] object [d]. *)
Definition formatDateForFilename (d : option Z) : string :=
  match d with
  | Some t => isoDateOf t
  | None => ""
  end.

(** [formatDateForFilename(new Date())] *)
Definition today : string := formatDateForFilename (Some currentTime).

(** The [catch] of a field sanitizer:
    [debugLog(`Error cleaning ...: ${input}`, error); return fallback].
    The message is built before [debugLog] runs, so the input is converted
    to text here. *)
Definition logAndDefault {A} (input : JSValue) (fallback : A) : Exn -> Result A :=
  fun _ => _ ← toStringJS input; Ok fallback.

Definition isDigit (c : ascii) : bool :=
  let n := nat_of_ascii c in (48 <=? n)%nat && (n <=? 57)%nat.

(** [/^\d{4}-\d{2}-\d{2}$/.test(s)] *)
Definition isIsoDateShape (s : string) : bool :=
  match list_ascii_of_string s with
  | [y1; y2; y3; y4; d1; m1; m2; d2; a1; a2] =>
      isDigit y1 && isDigit y2 && isDigit y3 && isDigit y4 &&
      Ascii.eqb d1 "-"%char && isDigit m1 && isDigit m2 &&
      Ascii.eqb d2 "-"%char && isDigit a1 && isDigit a2
  | _ => false
  end.

(** [cleanAndValidateDate(dateInput)] *)
Definition cleanAndValidateDate (dateInput : JSValue) : Result string :=
  tryCatch
    (if negb (jsTruthy dateInput) then Ok today
     else
       let asGiven :=
         match dateInput with
         | JStr s =>
             if isIsoDateShape s then
               match dateParseText s with
               | Some _ => Some s
               | None => None
               end
             else None
         | _ => None
         end in
       match asGiven with
       | Some s => Ok s
       | None =>
           date ← newDate dateInput;
           match date with
           | Some t => Ok (formatDateForFilename (Some t))
           | None => Ok today
           end
       end)
    (logAndDefault dateInput today).

(** The first class replaced by [cleanAndValidateText]: the characters
    less-than, greater-than, colon, double quote, slash, backslash, bar,
    question mark, star, and the control characters up to 0x1f. *)
Definition isInvalidFilenameChar (c : ascii) : bool :=
  let n := nat_of_ascii c in
  (n <=? 31)%nat ||
  existsb (Nat.eqb n) [60; 62; 58; 34; 47; 92; 124; 63; 42]%nat.

(** The class [[^\x20-\x7E]] *)
Definition isNotPrintableAscii (c : ascii) : bool :=
  let n := nat_of_ascii c in (n <? 32)%nat || (126 <? n)%nat.

(** [s.replace(/[class]/g, '_')] *)
Fixpoint replaceCharsBy (class : ascii -> bool) (s : string) : string :=
  match s with
  | EmptyString => EmptyString
  | String c s' => String (if class c then "_"%char else c) (replaceCharsBy class s')
  end.

Fixpoint dropWhileChar (class : ascii -> bool) (s : string) : string :=
  match s with
  | EmptyString => EmptyString
  | String c s' => if class c then dropWhileChar class s' else s
  end.

(** [s.replace(/[class]+/g, '_')]: every maximal run becomes one
    underscore.  [fuel] bounds the recursion by the length of the text. *)
Fixpoint collapseRuns (class : ascii -> bool) (fuel : nat) (s : string) : string :=
  match fuel with
  | O => s
  | S fuel' =>
      match s with
      | EmptyString => EmptyString
      | String c s' =>
          if class c then String "_"%char (collapseRuns class fuel' (dropWhileChar class s'))
          else String c (collapseRuns class fuel' s')
      end
  end.

Definition isUnderscore (c : ascii) : bool := Ascii.eqb c "_"%char.

(** [s.replace(/^_|_$/g, '')] *)
Definition stripEdgeUnderscores (s : string) : string :=
  let s1 := match s with
            | String c s' => if isUnderscore c then s' else s
            | EmptyString => s
            end in
  match String.rev s1 with
  | String c r => if isUnderscore c then String.rev r else s1
  | EmptyString => s1
  end.

(** [cleanAndValidateText(textInput, defaultValue)] *)
Definition cleanAndValidateText (textInput : JSValue) (defaultValue : string)
    : Result string :=
  tryCatch
    (match textInput with
     | JStr s =>
         if negb (jsTruthy textInput) then Ok defaultValue
         else
           let s1 := JSString.trim s in
           let s2 := replaceCharsBy isInvalidFilenameChar s1 in
           let s3 := replaceCharsBy isNotPrintableAscii s2 in
           let s4 := collapseRuns JSString.isSpace (String.length s3) s3 in
           let s5 := collapseRuns isUnderscore (String.length s4) s4 in
           let cleaned := stripEdgeUnderscores s5 in
           Ok (if String.eqb cleaned "" then defaultValue else cleaned)
     | _ => Ok defaultValue
     end)
    (logAndDefault textInput defaultValue).

(** The class [[\d.-]] *)
Definition isAmountChar (c : ascii) : bool :=
  isDigit c || Ascii.eqb c "."%char || Ascii.eqb c "-"%char.

Fixpoint keepChars (class : ascii -> bool) (s : string) : string :=
  match s with
  | EmptyString => EmptyString
  | String c s' => if class c then String c (keepChars class s') else keepChars class s'
  end.

(** [cleanAndValidateAmount(amountInput)].  Of the four [replace] calls the
    last keeps digits, dots and minus signs only; the three before it
    remove characters that the last one removes too. *)
Definition cleanAndValidateAmount (amountInput : JSValue) : Result string :=
  tryCatch
    (if negb (jsTruthy amountInput) then Ok "0.00"
     else
       text ← toStringJS amountInput;
       let cleaned := keepChars isAmountChar (JSString.trim text) in
       let isNegative := JSString.includes text "(" && JSString.includes text ")" in
       let parsed := parseFloatText cleaned in
       if isNaN parsed then Ok "0.00"
       else
         let finalAmount := if isNegative then negate (mathAbs parsed) else parsed in
         Ok (toFixed2 finalAmount))
    (logAndDefault amountInput "0.00").

Definition validTypes : list string :=
  ["invoice"; "receipt"; "bill"; "statement"; "contract"; "other"].

(** [list.includes(s)] for a list of texts *)
Definition includesText (l : list string) (s : string) : bool :=
  existsb (String.eqb s) l.

(** [cleanAndValidateDocumentType(typeInput)] *)
Definition cleanAndValidateDocumentType (typeInput : JSValue) : Result string :=
  tryCatch
    (if negb (jsTruthy typeInput) then Ok "unknown"
     else
       text ← toStringJS typeInput;
       let cleaned := JSString.trim (JSString.toLowerCase text) in
       Ok (if includesText validTypes cleaned then cleaned else "unknown"))
    (logAndDefault typeInput "unknown").

Definition inflowSynonyms : list string :=
  ["income"; "revenue"; "payment_received"; "credit"; "deposit"].

Definition outflowSynonyms : list string :=
  ["expense"; "cost"; "payment_made"; "debit"; "withdrawal"; "bill"; "purchase"].

(** [cleanAndValidateTransactionType(typeInput)] *)
Definition cleanAndValidateTransactionType (typeInput : JSValue) : Result string :=
  tryCatch
    (if negb (jsTruthy typeInput) then Ok STATUS.INFLOW
     else
       text ← toStringJS typeInput;
       let cleaned := JSString.trim (JSString.toLowerCase text) in
       if includesText ["inflow"; "outflow"] cleaned then Ok cleaned
       else if existsb (JSString.includes cleaned) inflowSynonyms then Ok STATUS.INFLOW
       else if existsb (JSString.includes cleaned) outflowSynonyms then Ok STATUS.OUTFLOW
       else Ok STATUS.INFLOW)
    (logAndDefault typeInput STATUS.INFLOW).

(** [cleanAndValidateConfidence(confidenceInput)] *)
Definition cleanAndValidateConfidence (confidenceInput : JSValue) : Result JSNumber :=
  tryCatch
    (if negb (jsTruthy confidenceInput) then Ok (Finite (8 # 10))
     else
       parsed ← parseFloatJS confidenceInput;
       if isNaN parsed then Ok (Finite (8 # 10))
       else Ok (mathMax (Finite 0) (mathMin (Finite 1) parsed)))
    (logAndDefault confidenceInput (Finite (8 # 10))).

(** [generateUniqueId().substring(0, 8)] *)
Definition shortUniqueId : M string :=
  uniqueId ← generateUniqueId;
  mret (JSString.substring uniqueId 0 8).

(** [typeof data === 'object'] *)
Definition isObjectType (data : JSValue) : bool :=
  match data with
  | JNull | JArray _ | JObject _ => true
  | _ => false
  end.

(** The object the [catch] of [validateAndCleanAIResponse] returns. *)
Definition safeDefaults (fallbackId : string) : Validated :=
  {| v_date := today;
     v_vendorName := "Unknown_Vendor";
     v_invoiceNumber := fallbackId;
     v_amount := "0.00";
     v_documentType := "unknown";
     v_transactionType := STATUS.INFLOW;
     v_confidence := Finite (5 # 10) |}.

(** The [try] block of [validateAndCleanAIResponse]. *)
Definition validateAndCleanAIResponse_try (data : JSValue) : M Validated :=
  _ ← (if negb (jsTruthy data) || negb (isObjectType data)
       then throw (AppError INVALID_INPUT) else mret tt);
  date ← liftR (fun _ => cleanAndValidateDate (getField data "date"));
  vendorName ← liftR (fun _ =>
    cleanAndValidateText (getField data "vendorName") "Unknown_Vendor");
  fallbackId ← shortUniqueId;
  invoiceNumber ← liftR (fun _ =>
    cleanAndValidateText (getField data "invoiceNumber") fallbackId);
  amount ← liftR (fun _ => cleanAndValidateAmount (getField data "amount"));
  documentType ← liftR (fun _ =>
    cleanAndValidateDocumentType (getField data "documentType"));
  transactionType ← liftR (fun _ =>
    cleanAndValidateTransactionType (getField data "transactionType"));
  confidence ← liftR (fun _ =>
    cleanAndValidateConfidence (getField data "confidence"));
  mret {| v_date := date;
          v_vendorName :=
            if String.eqb vendorName "" || String.eqb vendorName "Unknown_Vendor"
            then "Unknown_Vendor" else vendorName;
          v_invoiceNumber := invoiceNumber;
          v_amount :=
            if String.eqb amount "" || String.eqb amount "0" then "0.00" else amount;
          v_documentType := documentType;
          v_transactionType := transactionType;
          v_confidence := confidence |}.

(** [validateAndCleanAIResponse(data)]: the [catch] returns safe defaults. *)
Definition validateAndCleanAIResponse (data : JSValue) : M Validated :=
  tryCatchM (validateAndCleanAIResponse_try data)
    (fun _ => fallbackId ← shortUniqueId; mret (safeDefaults fallbackId)).

End Validation.

(** ** A concrete runtime, for running the model on examples *)

Definition exampleRuntime : Runtime :=
  {| numberToString := fun _ => "0";
     dateToString := fun _ => "Fri Jan 05 2024";
     getCurrentTimestamp := "2024-01-05T10:00:00.000Z";
     uniqueIdOf := fun n => "uuid-" +:+ pretty n |}.

(** The standard header rows of [SYSTEM_CONFIG.SHEETS]. *)
Definition BUFFER_COLUMNS : list Cell :=
  map CStr
    [ "Original File Name"; "Changed File Name"; "File URL"; "File ID"; "Message ID";
      "Invoice Number"; "Status"; "Reason"; "Email Subject"; "Email Sender";
      "Date Added"; "Last Modified"; "Processing Attempts" ].

Definition FINAL_COLUMNS : list Cell :=
  map CStr
    [ "File Name"; "Unique File ID"; "Drive File ID"; "File URL"; "Message ID";
      "Email Subject"; "Email Sender"; "Inflow/Outflow Status"; "Date"; "Vendor Name";
      "Invoice Number"; "Amount"; "Document Type"; "AI Confidence"; "Processing Date";
      "Last Modified" ].

Definition FLOW_COLUMNS : list Cell :=
  map CStr
    [ "File Name"; "Unique File ID"; "Drive File ID"; "File URL"; "Message ID";
      "Email Subject"; "Email Sender"; "Date"; "Vendor Name"; "Invoice Number";
      "Amount"; "Document Type"; "AI Confidence"; "Processing Date"; "Moved Date" ].

(** A Buffer row with the given file names, URL, invoice number, status and
    reason. *)
Definition bufferRow (original changed url invoice status reason : Cell) : list Cell :=
  [ original; changed; url; CStr ""; CStr ""; invoice; status; reason; CStr "";
    CStr ""; CStr ""; CStr ""; CStr "0" ].

(** A Buffer sheet with one deletion already processed (row 2) and one
    still pending (row 3). *)
Definition bufferWithProcessedDeletion : Sheet :=
  {| sheetValues :=
       [ BUFFER_COLUMNS;
         bufferRow (CStr "a.pdf") (CStr "") (CStr "https://drive.google.com/file/d/A1/view")
           (CStr "") (CStr "Deleted") (CStr "Deleted: duplicate (2024-01-04T09:00:00.000Z)");
         bufferRow (CStr "b.pdf") (CStr "") (CStr "https://drive.google.com/file/d/B2/view")
           (CStr "") (CStr "Deleted") (CStr "sent twice") ];
     sheetAccess := ReadWrite |}.

(** A concrete [Numerics]: [parseFloat] reads an optional sign, digits and
    an optional fraction (no exponent), exactly; [toFixed(2)] rounds the
    magnitude half up; every text of the shape YYYY-MM-DD is a valid
    date. *)

Fixpoint readDigits (s : string) (acc : Z) (count : nat) : Z * nat * string :=
  match s with
  | String c s' =>
      if isDigit c
      then readDigits s' (acc * 10 + Z.of_nat (nat_of_ascii c - 48))%Z (S count)
      else (acc, count, s)
  | EmptyString => (acc, count, s)
  end.

Definition parseDecimal (s : string) : JSNumber :=
  let s0 := JSString.trimStart s in
  let '(negative, s1) :=
    match s0 with
    | String c r =>
        if Ascii.eqb c "-"%char then (true, r)
        else if Ascii.eqb c "+"%char then (false, r)
        else (false, s0)
    | EmptyString => (false, s0)
    end in
  let '(whole, wholeDigits, s2) := readDigits s1 0%Z 0 in
  let '(fraction, fractionDigits, _) :=
    match s2 with
    | String c r => if Ascii.eqb c "."%char then readDigits r 0%Z 0 else (0%Z, 0, s2)
    | EmptyString => (0%Z, 0, s2)
    end in
  if (wholeDigits + fractionDigits =? 0)%nat then NaN
  else
    let q := (inject_Z whole + (fraction # Z.to_pos (10 ^ Z.of_nat fractionDigits)))%Q in
    Finite (if negative then (- q)%Q else q).

Definition twoDigits (n : Z) : string :=
  if (n <? 10)%Z then "0" +:+ pretty n else pretty n.

Definition toFixed2Decimal (n : JSNumber) : string :=
  match n with
  | NaN => "NaN"
  | PosInfinity => "Infinity"
  | NegInfinity => "-Infinity"
  | Finite q =>
      let cents := Qfloor (Qabs q * 100 + (1 # 2))%Q in
      (if Qle_bool 0 q then "" else "-") +:+
      pretty (cents / 100)%Z +:+ "." +:+ twoDigits (cents mod 100)%Z
  end.

Definition exampleNumerics : Numerics :=
  {| parseFloatText := parseDecimal;
     toFixed2 := toFixed2Decimal;
     dateParseText := fun s => if isIsoDateShape s then Some 0%Z else None;
     timeClip := fun n => match n with Finite q => Some (Qfloor q) | _ => None end;
     isoDateOf := fun _ => "2024-01-05";
     currentTime := 0%Z |}.

(** A client whose sheets hold their header rows only and whose folders
    are empty. *)
Definition freshWorld : World :=
  {| driveFiles := [];
     bufferFolder := mkFolder [] true;
     inflowFolder := mkFolder [] true;
     outflowFolder := mkFolder [] true;
     bufferSheet := mkSheet [BUFFER_COLUMNS] ReadWrite;
     finalSheet := mkSheet [FINAL_COLUMNS] ReadWrite;
     inflowSheet := mkSheet [FLOW_COLUMNS] ReadWrite;
     outflowSheet := mkSheet [FLOW_COLUMNS] ReadWrite;
     scriptLock := LockFree;
     idsIssued := 0 |}.

(** A reactivated record whose stored file name was not derived in the
    four-part format. *)
Definition scanItem : ReactivationItem :=
  {| rowIndex := 2;
     originalFilename := CStr "IMG_0001.pdf";
     changedFilename := CStr "scan_acme.pdf";
     fileUrl := CStr "https://drive.google.com/file/d/A1/view";
     fileId := CStr "A1";
     invoiceNumber := CStr "INV-9";
     emailSubject := CStr "Invoice";
     dateAdded := CStr "2024-01-02";
     previousReason := CStr "Deleted: duplicate (2024-01-04T09:00:00.000Z)" |}.

(** ** Relations between stores, used to state what a pass leaves alone *)

(** [w1] has the sheets and the lock of [w]: only Drive folders and the
    count of issued ids may differ. *)
Definition sameSheets (w w1 : World) : Prop :=
  (forall ref, sheetOf w1 ref = sheetOf w ref) /\ scriptLock w1 = scriptLock w.

(** [w1] is [w] with the rows [addedIn] appended to the Inflow sheet and
    [addedOut] to the Outflow sheet; the Buffer and Final sheets and the
    lock are the same. *)
Definition grown (w w1 : World) (addedIn addedOut : list (list Cell)) : Prop :=
  finalSheet w1 = finalSheet w /\
  bufferSheet w1 = bufferSheet w /\
  scriptLock w1 = scriptLock w /\
  inflowSheet w1 = mkSheet (sheetValues (inflowSheet w) ++ addedIn) (sheetAccess (inflowSheet w)) /\
  outflowSheet w1 = mkSheet (sheetValues (outflowSheet w) ++ addedOut) (sheetAccess (outflowSheet w)).

(** [m] takes every store to one related to it by [R], whether it returns
    or throws. *)
Definition preserves {A} (R : World -> World -> Prop) (m : M A) : Prop :=
  forall w, R w (snd (m w)).

(** ** File URLs of a sheet *)

(** The File URL cells of the data rows, as the duplicate check reads
    them. *)
Definition fileUrlsOf (sh : Sheet) : list Cell :=
  map (fun row =>
         safeGetCellValue row (getColumnIndex (headerRow (sheetValues sh)) "File URL"))
      (drop 1 (sheetValues sh)).



(** A Final row, as [addToFinalSheet] lays it out. *)
Definition finalRow (name url flow : string) : list Cell :=
  [ CStr name; CStr "uuid-x"; CStr "A1"; CStr url; CStr ""; CStr ""; CStr "";
    CStr flow; CStr "2024-01-05"; CStr "Acme"; CStr "INV-9"; CStr "100.00";
    CStr "invoice"; CNum (9 # 10); CStr "2024-01-05T09:00:00.000Z";
    CStr "2024-01-05T09:00:00.000Z" ].

(** A client with one enriched document waiting in the Final sheet; its
    blob is in the Buffer folder. *)
Definition worldWithPendingDocument : World :=
  {| driveFiles := ["A1"];
     bufferFolder := mkFolder ["A1"] true;
     inflowFolder := mkFolder [] true;
     outflowFolder := mkFolder [] true;
     bufferSheet :=
       mkSheet [ BUFFER_COLUMNS;
                 bufferRow (CStr "IMG_0001.pdf") (CStr "2024-01-05_Acme_INV-9_100.00.pdf")
                   (CStr "https://drive.google.com/file/d/A1/view") (CStr "INV-9")
                   (CStr "Active") (CStr "") ] ReadWrite;
     finalSheet :=
       mkSheet [ FINAL_COLUMNS;
                 finalRow "2024-01-05_Acme_INV-9_100.00.pdf"
                   "https://drive.google.com/file/d/A1/view" "inflow" ] ReadWrite;
     inflowSheet := mkSheet [FLOW_COLUMNS] ReadWrite;
     outflowSheet := mkSheet [FLOW_COLUMNS] ReadWrite;
     scriptLock := LockFree;
     idsIssued := 0 |}.

(** The same client when the blob is gone from Drive. *)
Definition worldWithMissingBlob : World :=
  {| driveFiles := [];
     bufferFolder := mkFolder [] true;
     inflowFolder := inflowFolder worldWithPendingDocument;
     outflowFolder := outflowFolder worldWithPendingDocument;
     bufferSheet := bufferSheet worldWithPendingDocument;
     finalSheet := finalSheet worldWithPendingDocument;
     inflowSheet := inflowSheet worldWithPendingDocument;
     outflowSheet := outflowSheet worldWithPendingDocument;
     scriptLock := LockFree;
     idsIssued := 0 |}.

(** The store after a run, whatever the run returned. *)
Definition after {A} (m : M A) (w : World) : World := snd (m w).

(** The cells of the Buffer rows picked out by [kept] are the same in [w1]
    as in [w]. *)
Definition rowsKept (kept : nat -> Prop) (w w1 : World) : Prop :=
  forall r c, 1 <= r -> 1 <= c -> kept r ->
    cellAt (sheetValues (bufferSheet w1)) r c = cellAt (sheetValues (bufferSheet w)) r c.

(** The Final sheet is the same in [w1] as in [w]. *)
Definition finalKept (w w1 : World) : Prop := finalSheet w1 = finalSheet w.

(** The Final sheet of [w1] has at most [n] rows more than that of [w]. *)
Definition finalGrownBy (n : nat) (w w1 : World) : Prop :=
  length (sheetValues (finalSheet w1)) <= length (sheetValues (finalSheet w)) + n.

(** The Buffer sheet is the same in [w1] as in [w]. *)
Definition bufferKept (w w1 : World) : Prop := bufferSheet w1 = bufferSheet w.

(** Whether the value is the File URL of some data row of the sheet. *)
Definition hasUrl (sh : Sheet) (url : Cell) : bool :=
  existsb (fun c => strictEq c url) (fileUrlsOf sh).

(** The rows [removeFromSheet] keeps: the header, and the data rows whose
    cell in the column is not the value. *)
Definition rowsWithout (columnIndex : Z) (valueToMatch : Cell) (data : list (list Cell))
    : list (list Cell) :=
  take 1 data ++
  List.filter (fun row => negb (strictEq (safeGetCellValue row columnIndex) valueToMatch))
    (drop 1 data).

(** [w1] differs from [w] at most in the sheet [ref] (and the count of
    issued ids): the other sheets, the Drive folders and the lock are the
    same. *)
Definition onlySheet (ref : SheetRef) (w w1 : World) : Prop :=
  (forall ref', ref' <> ref -> sheetOf w1 ref' = sheetOf w ref') /\
  (forall f, folderOf w1 f = folderOf w f) /\
  driveFiles w1 = driveFiles w /\
  scriptLock w1 = scriptLock w.

(** The enriched document of [worldWithPendingDocument], as the enrichment
    pass holds it. *)
Definition pendingFile : ActiveFile :=
  {| af_rowIndex := 2;
     af_originalFilename := CStr "IMG_0001.pdf";
     af_fileUrl := CStr "https://drive.google.com/file/d/A1/view";
     af_emailSubject := CStr "" |}.

Definition pendingAIData : AIData :=
  {| ai_newFilename := CStr "2024-01-05_Acme_INV-9_100.00.pdf";
     ai_date := CStr "2024-01-05";
     ai_vendorName := CStr "Acme";
     ai_invoiceNumber := CStr "INV-9";
     ai_amount := CStr "100.00";
     ai_documentType := CStr "invoice";
     ai_transactionType := CStr "inflow";
     ai_confidence := CNum (9 # 10);
     ai_processingDate := CStr "" |}.

(** A client with one categorised document (its row is in the Inflow sheet,
    its blob in the Inflow folder) that the operator has marked Deleted
    with a reason.  The Inflow folder refuses changes. *)
Definition worldWithLockedInflowFolder : World :=
  {| driveFiles := ["A1"];
     bufferFolder := mkFolder [] true;
     inflowFolder := mkFolder ["A1"] false;
     outflowFolder := mkFolder [] true;
     bufferSheet :=
       mkSheet [ BUFFER_COLUMNS;
                 bufferRow (CStr "IMG_0001.pdf") (CStr "2024-01-05_Acme_INV-9_100.00.pdf")
                   (CStr "https://drive.google.com/file/d/A1/view") (CStr "INV-9")
                   (CStr "Deleted") (CStr "sent twice") ] ReadWrite;
     finalSheet := mkSheet [FINAL_COLUMNS] ReadWrite;
     inflowSheet :=
       mkSheet [ FLOW_COLUMNS;
                 [ CStr "2024-01-05_Acme_INV-9_100.00.pdf"; CStr "uuid-x"; CStr "A1";
                   CStr "https://drive.google.com/file/d/A1/view"; CStr ""; CStr "";
                   CStr ""; CStr "2024-01-05"; CStr "Acme"; CStr "INV-9"; CStr "100.00";
                   CStr "invoice"; CNum (9 # 10); CStr "2024-01-05T09:00:00.000Z";
                   CStr "2024-01-05T09:30:00.000Z" ] ] ReadWrite;
     outflowSheet := mkSheet [FLOW_COLUMNS] ReadWrite;
     scriptLock := LockFree;
     idsIssued := 0 |}.

(** The same client when the Inflow sheet is protected. *)
Definition worldWithProtectedInflowSheet : World :=
  {| driveFiles := ["A1"];
     bufferFolder := mkFolder [] true;
     inflowFolder := mkFolder ["A1"] true;
     outflowFolder := mkFolder [] true;
     bufferSheet := bufferSheet worldWithLockedInflowFolder;
     finalSheet := mkSheet [FINAL_COLUMNS] ReadWrite;
     inflowSheet := mkSheet (sheetValues (inflowSheet worldWithLockedInflowFolder)) ReadOnly;
     outflowSheet := mkSheet [FLOW_COLUMNS] ReadWrite;
     scriptLock := LockFree;
     idsIssued := 0 |}.

(** A client with one deleted record that the operator has set back to
    Active; the blob is in the Buffer folder. *)
Definition worldWithReactivation : World :=
  {| driveFiles := ["A1"];
     bufferFolder := mkFolder ["A1"] true;
     inflowFolder := mkFolder [] true;
     outflowFolder := mkFolder [] true;
     bufferSheet :=
       mkSheet [ BUFFER_COLUMNS;
                 bufferRow (CStr "IMG_0001.pdf") (CStr "2024-01-05_Acme_INV-9_100.00.pdf")
                   (CStr "https://drive.google.com/file/d/A1/view") (CStr "INV-9")
                   (CStr "Active")
                   (CStr "Deleted: sent twice (2024-01-04T09:00:00.000Z)") ] ReadWrite;
     finalSheet := mkSheet [FINAL_COLUMNS] ReadWrite;
     inflowSheet := mkSheet [FLOW_COLUMNS] ReadWrite;
     outflowSheet := mkSheet [FLOW_COLUMNS] ReadWrite;
     scriptLock := LockFree;
     idsIssued := 0 |}.

(** What detection returns for that record. *)
Definition pendingReactivation : ReactivationItem :=
  {| rowIndex := 2;
     originalFilename := CStr "IMG_0001.pdf";
     changedFilename := CStr "2024-01-05_Acme_INV-9_100.00.pdf";
     fileUrl := CStr "https://drive.google.com/file/d/A1/view";
     fileId := CStr "";
     invoiceNumber := CStr "INV-9";
     emailSubject := CStr "";
     dateAdded := CStr "";
     previousReason := CStr "Deleted: sent twice (2024-01-04T09:00:00.000Z)" |}.

(** The store after that record has been reactivated. *)
Definition worldAfterReactivation : World :=
  after (@processFileReactivation exampleRuntime pendingReactivation BUFFER)
    worldWithReactivation.

(** The script lock is in [w1] as it is in [w]. *)
Definition lockKept (w w1 : World) : Prop := scriptLock w1 = scriptLock w.

(** ** [SheetManager.gs]: the summary of pending changes *)



(** A client with a record marked Deleted whose reason was left blank. *)
Definition worldWithUnexplainedDeletion : World :=
  {| driveFiles := ["A1"];
     bufferFolder := mkFolder ["A1"] true;
     inflowFolder := mkFolder [] true;
     outflowFolder := mkFolder [] true;
     bufferSheet :=
       mkSheet [ BUFFER_COLUMNS;
                 bufferRow (CStr "IMG_0001.pdf") (CStr "")
                   (CStr "https://drive.google.com/file/d/A1/view") (CStr "")
                   (CStr "Deleted") (CStr "  ") ] ReadWrite;
     finalSheet := mkSheet [FINAL_COLUMNS] ReadWrite;
     inflowSheet := mkSheet [FLOW_COLUMNS] ReadWrite;
     outflowSheet := mkSheet [FLOW_COLUMNS] ReadWrite;
     scriptLock := LockFree;
     idsIssued := 0 |}.


(** The client of [worldWithPendingDocument] with a second row in the Final
    sheet whose Inflow/Outflow status is blank. *)
Definition worldWithIncompleteFinalRow : World :=
  {| driveFiles := ["A1"; "B2"];
     bufferFolder := mkFolder ["A1"; "B2"] true;
     inflowFolder := mkFolder [] true;
     outflowFolder := mkFolder [] true;
     bufferSheet := bufferSheet worldWithPendingDocument;
     finalSheet :=
       mkSheet [ FINAL_COLUMNS;
                 finalRow "2024-01-05_Acme_INV-9_100.00.pdf"
                   "https://drive.google.com/file/d/A1/view" "inflow";
                 finalRow "2024-01-06_Bolt_INV-3_20.00.pdf"
                   "https://drive.google.com/file/d/B2/view" "" ] ReadWrite;
     inflowSheet := mkSheet [FLOW_COLUMNS] ReadWrite;
     outflowSheet := mkSheet [FLOW_COLUMNS] ReadWrite;
     scriptLock := LockFree;
     idsIssued := 0 |}.

(** What detection returns for the record of [worldWithLockedInflowFolder]. *)
Definition pendingDeletion : DeletionItem :=
  {| del_rowIndex := 2;
     del_originalFilename := CStr "IMG_0001.pdf";
     del_fileUrl := CStr "https://drive.google.com/file/d/A1/view";
     del_fileId := CStr "";
     del_reason := CStr "sent twice" |}.

(** The sheet after the operator has typed a status into the Status cell of
    a row. *)
Definition statusEdited (sh : Sheet) (row : nat) (status : string) : Sheet :=
  mkSheet
    (writeCell row (Z.to_nat (getColumnIndex (headerRow (sheetValues sh)) "Status") + 1)
       (CStr status) (sheetValues sh))
    (sheetAccess sh).

(** ** [Config.gs]: file names, and [AIProcessor.gs]: derived file names *)

(** [SYSTEM_CONFIG.DRIVE.MAX_FILENAME_LENGTH] *)
Definition MAX_FILENAME_LENGTH : nat := 100.

Definition isDot (c : ascii) : bool := Ascii.eqb c "."%char.

(** [s.replace(/\.+$/, '')] *)
Definition stripTrailingDots (s : string) : string :=
  String.rev (dropWhileChar isDot (String.rev s)).

(** [cleanFilename(filename)].  After the second [replace] the text is
    ASCII, so that its length in bytes is its [length]. *)
Definition cleanFilename (filename : JSValue) : string :=
  match filename with
  | JStr s =>
      if negb (jsTruthy filename) then ""
      else
        let s1 := JSString.trim s in
        let s2 := replaceCharsBy isInvalidFilenameChar s1 in
        let s3 := replaceCharsBy isNotPrintableAscii s2 in
        let s4 := stripTrailingDots s3 in
        let s5 := collapseRuns JSString.isSpace (String.length s4) s4 in
        let s6 := collapseRuns isUnderscore (String.length s5) s5 in
        let cleaned := stripEdgeUnderscores s6 in
        let cleaned :=
          if (MAX_FILENAME_LENGTH <? String.length cleaned)%nat
          then JSString.substring cleaned 0 (Z.of_nat MAX_FILENAME_LENGTH)
          else cleaned in
        if String.eqb cleaned "" then "unnamed_file" else cleaned
  | _ => ""
  end.

(** [a || b] for two texts *)
Definition textOr (a b : string) : string := if String.eqb a "" then b else a.

(** [s.substring(start)] *)
Definition substringFrom (s : string) (start : Z) : string :=
  JSString.substring s start (Z.of_nat (String.length s)).

Section FilenameGeneration.
Context `{Runtime} `{Numerics}.

(** [generateFilenameFromAIData(aiData, originalFilename)].  An original
    file name that is not a text has no [substring]: the [catch] returns it
    as it is. *)
Definition generateFilenameFromAIData (aiData : Validated) (originalFilename : Cell) : Cell :=
  match originalFilename with
  | CStr original =>
      let date := textOr (v_date aiData) today in
      let vendor := textOr (cleanFilename (JStr (v_vendorName aiData))) "Unknown" in
      let invoice := textOr (cleanFilename (JStr (v_invoiceNumber aiData))) "NoInvoice" in
      let amount := textOr (v_amount aiData) "0.00" in
      let extension := substringFrom original (JSString.lastIndexOf original "."%char) in
      let newFilename :=
        date +:+ "_" +:+ vendor +:+ "_" +:+ invoice +:+ "_" +:+ amount +:+ extension in
      if (MAX_FILENAME_LENGTH <? JSString.utf16Length newFilename)%nat
      then CStr (date +:+ "_" +:+ JSString.substring vendor 0 20 +:+ "_" +:+
                 JSString.substring invoice 0 15 +:+ "_" +:+ amount +:+ extension)
      else CStr newFilename
  | _ => originalFilename
  end.
End FilenameGeneration.

(** The characters a cleaned text is made of: printable ASCII other than
    the space and the characters that file names must not have. *)
Definition isSafeNameChar (c : ascii) : bool :=
  negb (isInvalidFilenameChar c) && negb (isNotPrintableAscii c) &&
  negb (JSString.isSpace c).

(** The text has no character [c]. *)
Definition lacksChar (c : ascii) (s : string) : bool :=
  forallb (fun a => negb (Ascii.eqb a c)) (list_ascii_of_string s).

(** A validated AI response, and the same with a vendor of two words. *)
Definition validatedInvoice : Validated :=
  {| v_date := "2024-01-05";
     v_vendorName := "Acme";
     v_invoiceNumber := "INV-9";
     v_amount := "100.00";
     v_documentType := "invoice";
     v_transactionType := "inflow";
     v_confidence := Finite (9 # 10) |}.

Definition validatedTwoWords : Validated :=
  {| v_date := "2024-01-05";
     v_vendorName := "Acme Corp";
     v_invoiceNumber := "INV-9";
     v_amount := "100.00";
     v_documentType := "invoice";
     v_transactionType := "inflow";
     v_confidence := Finite (9 # 10) |}.

(** ** [AIProcessor.gs]: the Buffer sheet as the enrichment pass uses it *)

(** [parseInt(text)]: leading white space, a sign, then digits in base 10,
    or in base 16 after [0x]; [None] is [NaN].  The count is kept exactly
    (counts of attempts are far below 2^53). *)
Definition hexDigitValue (c : ascii) : option Z :=
  let n := nat_of_ascii c in
  if (48 <=? n)%nat && (n <=? 57)%nat then Some (Z.of_nat (n - 48))
  else if (97 <=? n)%nat && (n <=? 102)%nat then Some (Z.of_nat (n - 87))
  else if (65 <=? n)%nat && (n <=? 70)%nat then Some (Z.of_nat (n - 55))
  else None.

Fixpoint readHexDigits (s : string) (acc : Z) (count : nat) : Z * nat :=
  match s with
  | String c s' =>
      match hexDigitValue c with
      | Some d => readHexDigits s' (acc * 16 + d)%Z (S count)
      | None => (acc, count)
      end
  | EmptyString => (acc, count)
  end.

Definition parseIntText (s : string) : option Z :=
  let s0 := JSString.trimStart s in
  let '(negative, s1) :=
    match s0 with
    | String c r =>
        if Ascii.eqb c "-"%char then (true, r)
        else if Ascii.eqb c "+"%char then (false, r)
        else (false, s0)
    | EmptyString => (false, s0)
    end in
  let '(magnitude, count) :=
    match s1 with
    | String "0"%char (String x r) =>
        if Ascii.eqb x "x"%char || Ascii.eqb x "X"%char then readHexDigits r 0%Z 0
        else let '(v, n, _) := readDigits s1 0%Z 0 in (v, n)
    | _ => let '(v, n, _) := readDigits s1 0%Z 0 in (v, n)
    end in
  if (count =? 0)%nat then None
  else Some (if negative then (- magnitude)%Z else magnitude).

(** [SYSTEM_CONFIG.PROCESSING.MAX_PROCESSING_ATTEMPTS] *)
Definition MAX_PROCESSING_ATTEMPTS : Z := 3.

(** A record of [getActiveFilesFromBuffer]. *)
Record BufferFile := mkBufferFile {
  bf_rowIndex : nat;
  bf_originalFilename : Cell;
  bf_changedFilename : Cell;
  bf_fileUrl : Cell;
  bf_invoiceNumber : Cell;
  bf_emailSubject : Cell;
  bf_status : Cell;
  bf_reason : Cell;
  bf_attempts : Z
}.

(** The part of the record that [addToFinalSheet] reads. *)
Definition activeFileOf (fileData : BufferFile) : ActiveFile :=
  {| af_rowIndex := bf_rowIndex fileData;
     af_originalFilename := bf_originalFilename fileData;
     af_fileUrl := bf_fileUrl fileData;
     af_emailSubject := bf_emailSubject fileData |}.

Section AIProcessorBuffer.
Context `{Runtime}.

(** [parseInt(cell) || 0] *)
Definition attemptsOf (cell : Cell) : Z :=
  match parseIntText (cellToString cell) with
  | Some n => n
  | None => 0%Z
  end.

(** The body of the loop of [getActiveFilesFromBuffer] for the row at
    position [rowIndex] of the sheet. *)
Definition bufferFileOfRow (headers : list Cell) (rowIndex : nat) (row : list Cell)
    : option BufferFile :=
  let status := safeGetCellValue row (getColumnIndex headers "Status") in
  let attempts :=
    attemptsOf (safeGetCellValue' row (getColumnIndex headers "Processing Attempts")
                  (CStr "0")) in
  if strictEq status (CStr STATUS.ACTIVE) && (attempts <? MAX_PROCESSING_ATTEMPTS)%Z then
    let fileData :=
      {| bf_rowIndex := rowIndex;
         bf_originalFilename :=
           safeGetCellValue row (getColumnIndex headers "Original File Name");
         bf_changedFilename :=
           safeGetCellValue row (getColumnIndex headers "Changed File Name");
         bf_fileUrl := safeGetCellValue row (getColumnIndex headers "File URL");
         bf_invoiceNumber := safeGetCellValue row (getColumnIndex headers "Invoice Number");
         bf_emailSubject := safeGetCellValue row (getColumnIndex headers "Email Subject");
         bf_status := status;
         bf_reason := safeGetCellValue row (getColumnIndex headers "Reason");
         bf_attempts := attempts |} in
    if truthy (bf_originalFilename fileData) && truthy (bf_fileUrl fileData)
    then Some fileData else None
  else None.

(** [for (let i = 1; i < data.length; i++)] of [getActiveFilesFromBuffer];
    [rows] are the rows from index [i] on. *)
Fixpoint activeFilesLoop (headers : list Cell) (i : nat) (rows : list (list Cell))
    : list BufferFile :=
  match rows with
  | [] => []
  | row :: rest =>
      match bufferFileOfRow headers (i + 1) row with
      | Some fileData => fileData :: activeFilesLoop headers (S i) rest
      | None => activeFilesLoop headers (S i) rest
      end
  end.

(** [getActiveFilesFromBuffer(bufferSheet)] *)
Definition getActiveFilesFromBuffer (bufferSheet : Sheet) : list BufferFile :=
  let body : Result (list BufferFile) :=
    lastRow ← getLastRow bufferSheet;
    if (lastRow <=? 1)%nat then mret []
    else
      data ← getValues bufferSheet;
      mret (activeFilesLoop (headerRow data) 1 (drop 1 data)) in
  match tryCatch body (fun _ => mret []) with
  | Ok files => files
  | Throw _ => []
  end.

(** The update of the Processing Attempts cell shared by
    [updateBufferSheetWithAI] and [markFileAsFailed]. *)
Definition countAttempt (bufferSheet : SheetRef) (rowIndex : nat) (attemptsIndex : Z)
    : M unit :=
  if (attemptsIndex =? -1)%Z then mret tt
  else
    current ← getValue bufferSheet rowIndex (Z.to_nat attemptsIndex + 1);
    setValue bufferSheet rowIndex (Z.to_nat attemptsIndex + 1)
      (CStr (numberToString (inject_Z (attemptsOf current + 1)))).

(** [updateBufferSheetWithAI(bufferSheet, fileData, aiData)] *)
Definition updateBufferSheetWithAI (bufferSheet : SheetRef) (fileData : BufferFile)
    (aiData : AIData) : M unit :=
  tryCatchM
    (headers ← getHeaders bufferSheet;
     let changedFilenameIndex := getColumnIndex headers "Changed File Name" in
     _ ← (if negb (changedFilenameIndex =? -1)%Z && truthy (ai_newFilename aiData)
          then setValue bufferSheet (bf_rowIndex fileData)
                 (Z.to_nat changedFilenameIndex + 1) (ai_newFilename aiData)
          else mret tt);
     let invoiceNumberIndex := getColumnIndex headers "Invoice Number" in
     _ ← (if negb (invoiceNumberIndex =? -1)%Z && truthy (ai_invoiceNumber aiData)
          then setValue bufferSheet (bf_rowIndex fileData)
                 (Z.to_nat invoiceNumberIndex + 1) (ai_invoiceNumber aiData)
          else mret tt);
     _ ← setIfColumn bufferSheet (bf_rowIndex fileData)
           (getColumnIndex headers "Last Modified") (CStr getCurrentTimestamp);
     countAttempt bufferSheet (bf_rowIndex fileData)
       (getColumnIndex headers "Processing Attempts"))
    (fun error => throw error).

(** [markFileAsFailed(bufferSheet, fileData, errorMessage)]: the [catch]
    logs and returns. *)
Definition markFileAsFailed (bufferSheet : SheetRef) (fileData : BufferFile)
    (errorMessage : string) : M unit :=
  tryCatchM
    (headers ← getHeaders bufferSheet;
     _ ← setIfColumn bufferSheet (bf_rowIndex fileData) (getColumnIndex headers "Status")
           (CStr STATUS.FAILED);
     _ ← setIfColumn bufferSheet (bf_rowIndex fileData) (getColumnIndex headers "Reason")
           (CStr ("AI Processing Failed: " +:+ errorMessage +:+ " (" +:+
                  getCurrentTimestamp +:+ ")"));
     _ ← countAttempt bufferSheet (bf_rowIndex fileData)
           (getColumnIndex headers "Processing Attempts");
     setIfColumn bufferSheet (bf_rowIndex fileData) (getColumnIndex headers "Last Modified")
       (CStr getCurrentTimestamp))
    (fun _ => mret tt).

(** The loop of [retryFailedAIProcessing]; [rows] are the rows of the
    snapshot from index [i] on. *)
Fixpoint retryLoop (bufferSheet : SheetRef) (headers : list Cell) (i : nat)
    (rows : list (list Cell)) (retriedCount : nat) : M nat :=
  match rows with
  | [] => mret retriedCount
  | row :: rest =>
      let statusIndex := getColumnIndex headers "Status" in
      if strictEq (safeGetCellValue row statusIndex) (CStr STATUS.FAILED) then
        _ ← setValue bufferSheet (i + 1) (Z.to_nat (statusIndex + 1)) (CStr STATUS.ACTIVE);
        _ ← setIfColumn bufferSheet (i + 1) (getColumnIndex headers "Processing Attempts")
              (CStr "0");
        _ ← setIfColumn bufferSheet (i + 1) (getColumnIndex headers "Reason")
              (CStr ("Retry requested on " +:+ getCurrentTimestamp));
        retryLoop bufferSheet headers (S i) rest (S retriedCount)
      else retryLoop bufferSheet headers (S i) rest retriedCount
  end.

(** [retryFailedAIProcessing(clientName)], for a client that exists; the
    result is [retriedCount]. *)
Definition retryFailedAIProcessing (bufferSheet : SheetRef) : M nat :=
  tryCatchM
    (data ← liftR (fun w => getValues (sheetOf w bufferSheet));
     if (length data <=? 1)%nat then mret 0
     else retryLoop bufferSheet (headerRow data) 1 (drop 1 data) 0)
    (fun error => throw error).

(** [isFileReactivated(fileData)], read as a condition. *)
Definition isFileReactivated (fileData : BufferFile) : bool :=
  let body : Result bool :=
    if truthy (bf_reason fileData) then
      lower ← cellToLowerCase (bf_reason fileData);
      mret (JSString.includes lower "reactivated on" || JSString.includes lower "deleted:")
    else mret false in
  match tryCatch body (fun _ => mret false) with
  | Ok b => b
  | Throw _ => false
  end.

(** [hasExistingAIData(fileData)], read as a condition. *)
Definition hasExistingAIData (fileData : BufferFile) : bool :=
  let body : Result bool :=
    if truthy (bf_changedFilename fileData) then
      if negb (strictEq (bf_changedFilename fileData) (bf_originalFilename fileData)) then
        changed ← cellTrim (bf_changedFilename fileData);
        if negb (String.eqb changed "") then
          if truthy (bf_invoiceNumber fileData) then
            invoice ← cellTrim (bf_invoiceNumber fileData);
            mret (negb (String.eqb invoice ""))
          else mret false
        else mret false
      else mret false
    else mret false in
  match tryCatch body (fun _ => mret false) with
  | Ok b => b
  | Throw _ => false
  end.

(** [restoreExistingAIData(fileData).data]; nothing in the [try] block
    throws, so the result is always a success. *)
Definition restoreExistingAIData (fileData : BufferFile) : AIData :=
  let aiData :=
    {| ai_newFilename := bf_changedFilename fileData;
       ai_date := CStr "";
       ai_vendorName := CStr "";
       ai_invoiceNumber := orElse (bf_invoiceNumber fileData) (CStr "");
       ai_amount := CStr "";
       ai_documentType := CStr "invoice";
       ai_transactionType := CStr STATUS.INFLOW;
       ai_confidence := CNum (8 # 10);
       ai_processingDate := CStr getCurrentTimestamp |} in
  if truthy (bf_changedFilename fileData) &&
     negb (strictEq (bf_changedFilename fileData) (bf_originalFilename fileData))
  then match parseFilenameForAIData (bf_changedFilename fileData) with
       | Some parsedData =>
           {| ai_newFilename := ai_newFilename aiData;
              ai_date := CStr (parsed_date parsedData);
              ai_vendorName := CStr (parsed_vendorName parsedData);
              ai_invoiceNumber := CStr (parsed_invoiceNumber parsedData);
              ai_amount := CStr (parsed_amount parsedData);
              ai_documentType := ai_documentType aiData;
              ai_transactionType := ai_transactionType aiData;
              ai_confidence := ai_confidence aiData;
              ai_processingDate := ai_processingDate aiData |}
       | None => aiData
       end
  else aiData.
End AIProcessorBuffer.

(** [w1] is [w] but for the cells of row [row] of the sheet [ref] in the
    columns picked out by [touched]: the header row, every other cell and
    every other sheet are the same, a sheet that took writes still does,
    and no row has gone. *)
Definition rowEdited (ref : SheetRef) (row : nat) (touched : nat -> Prop) (w w1 : World)
    : Prop :=
  headerRow (sheetValues (sheetOf w1 ref)) = headerRow (sheetValues (sheetOf w ref)) /\
  (forall r c, 1 <= r -> 1 <= c -> r <> row \/ ~ touched c ->
     cellAt (sheetValues (sheetOf w1 ref)) r c = cellAt (sheetValues (sheetOf w ref)) r c) /\
  (forall ref', ref' <> ref -> sheetOf w1 ref' = sheetOf w ref') /\
  (sheetAccess (sheetOf w ref) = ReadWrite -> sheetAccess (sheetOf w1 ref) = ReadWrite) /\
  length (sheetValues (sheetOf w ref)) <= length (sheetValues (sheetOf w1 ref)).

(** The positions, counted from 1, of the columns of [headers] that bear
    one of [names]. *)
Definition columnsNamed (headers : list Cell) (names : list string) (c : nat) : Prop :=
  exists name, In name names /\ getColumnIndex headers name <> (-1)%Z /\
               c = Z.to_nat (getColumnIndex headers name) + 1.

(** A runtime that prints whole numbers in decimal, for running the counts
    of attempts on examples. *)
Definition countingRuntime : Runtime :=
  {| numberToString := fun q => pretty (Qfloor q);
     dateToString := fun _ => "Fri Jan 05 2024";
     getCurrentTimestamp := "2024-01-05T10:00:00.000Z";
     uniqueIdOf := fun n => "uuid-" +:+ pretty n |}.

(** A client with one document on which the enrichment has failed. *)
Definition worldWithFailedDocument : World :=
  {| driveFiles := ["A1"];
     bufferFolder := mkFolder ["A1"] true;
     inflowFolder := mkFolder [] true;
     outflowFolder := mkFolder [] true;
     bufferSheet :=
       mkSheet [ BUFFER_COLUMNS;
                 [ CStr "IMG_0001.pdf"; CStr "";
                   CStr "https://drive.google.com/file/d/A1/view"; CStr ""; CStr "";
                   CStr ""; CStr "Failed";
                   CStr "AI Processing Failed: timeout (2024-01-04T09:00:00.000Z)";
                   CStr ""; CStr ""; CStr ""; CStr ""; CStr "3" ] ] ReadWrite;
     finalSheet := mkSheet [FINAL_COLUMNS] ReadWrite;
     inflowSheet := mkSheet [FLOW_COLUMNS] ReadWrite;
     outflowSheet := mkSheet [FLOW_COLUMNS] ReadWrite;
     scriptLock := LockFree;
     idsIssued := 0 |}.

(** A client with one new document, not yet enriched. *)
Definition worldWithNewDocument : World :=
  {| driveFiles := ["A1"];
     bufferFolder := mkFolder ["A1"] true;
     inflowFolder := mkFolder [] true;
     outflowFolder := mkFolder [] true;
     bufferSheet :=
       mkSheet [ BUFFER_COLUMNS;
                 bufferRow (CStr "IMG_0001.pdf") (CStr "")
                   (CStr "https://drive.google.com/file/d/A1/view") (CStr "")
                   (CStr "Active") (CStr "") ] ReadWrite;
     finalSheet := mkSheet [FINAL_COLUMNS] ReadWrite;
     inflowSheet := mkSheet [FLOW_COLUMNS] ReadWrite;
     outflowSheet := mkSheet [FLOW_COLUMNS] ReadWrite;
     scriptLock := LockFree;
     idsIssued := 0 |}.

(** The record of that document, as [getActiveFilesFromBuffer] returns
    it. *)
Definition newDocument : BufferFile :=
  {| bf_rowIndex := 2;
     bf_originalFilename := CStr "IMG_0001.pdf";
     bf_changedFilename := CStr "";
     bf_fileUrl := CStr "https://drive.google.com/file/d/A1/view";
     bf_invoiceNumber := CStr "";
     bf_emailSubject := CStr "";
     bf_status := CStr "Active";
     bf_reason := CStr "";
     bf_attempts := 0 |}.

Section SheetCleanup.
Context `{Runtime}.

(** [cell => !cell || cell.toString().trim() === ''] *)
Definition isEmptyCell (cell : Cell) : bool :=
  negb (truthy cell) || String.eqb (JSString.trim (cellToString cell)) "".

(** [for (let i = data.length - 1; i >= 1; i--)] of
    [cleanupEmptyRowsInSheet]; [i] is the index still to visit, [data] the
    snapshot read before the loop. *)
Fixpoint cleanupLoop (sheet : SheetRef) (data : list (list Cell)) (i cleanedCount : nat)
    : M nat :=
  match i with
  | O => mret cleanedCount
  | S i' =>
      let row := default [] (data !! i) in
      if forallb isEmptyCell row
      then _ ← deleteRow sheet (i + 1);
           cleanupLoop sheet data i' (S cleanedCount)
      else cleanupLoop sheet data i' cleanedCount
  end.

(** [cleanupEmptyRowsInSheet(sheet)].  The [catch] asks the sheet for its
    name to build the log message, and returns 0. *)
Definition cleanupEmptyRowsInSheet (sheet : SheetRef) : M nat :=
  tryCatchM
    (lastRow ← liftR (fun w => getLastRow (sheetOf w sheet));
     if (lastRow <=? 1)%nat then mret 0
     else
       data ← liftR (fun w => getValues (sheetOf w sheet));
       cleanupLoop sheet data (length data - 1) 0)
    (fun _ => _ ← liftR (fun w => getName (sheetOf w sheet)); mret 0).
End SheetCleanup.

(** [stats.buffer] of [getSheetStatistics]. *)
Record BufferStats := mkBufferStats {
  bs_total : nat;
  bs_active : nat;
  bs_deleted : nat;
  bs_failed : nat;
  bs_processing : nat
}.

(** The result of [getSheetStatistics]. *)
Record SheetStats := mkSheetStats {
  st_buffer : BufferStats;
  st_final : nat;
  st_inflow : nat;
  st_outflow : nat;
  st_lastUpdate : string
}.

(** [switch (status)] of [getSheetStatistics]: the cases are compared with
    [===]. *)
Definition countStatus (status : Cell) (stats : BufferStats) : BufferStats :=
  if strictEq status (CStr STATUS.ACTIVE) then
    mkBufferStats (bs_total stats) (S (bs_active stats)) (bs_deleted stats)
      (bs_failed stats) (bs_processing stats)
  else if strictEq status (CStr STATUS.DELETED) then
    mkBufferStats (bs_total stats) (bs_active stats) (S (bs_deleted stats))
      (bs_failed stats) (bs_processing stats)
  else if strictEq status (CStr STATUS.FAILED) then
    mkBufferStats (bs_total stats) (bs_active stats) (bs_deleted stats)
      (S (bs_failed stats)) (bs_processing stats)
  else if strictEq status (CStr STATUS.PROCESSING) then
    mkBufferStats (bs_total stats) (bs_active stats) (bs_deleted stats)
      (bs_failed stats) (S (bs_processing stats))
  else stats.

(** [for (let i = 1; i < bufferData.length; i++)] of [getSheetStatistics];
    [rows] are the rows still to visit. *)
Fixpoint statisticsLoop (statusIndex : Z) (rows : list (list Cell)) (stats : BufferStats)
    : BufferStats :=
  match rows with
  | [] => stats
  | row :: rest =>
      statisticsLoop statusIndex rest (countStatus (safeGetCellValue row statusIndex) stats)
  end.

(** [getSheetStatistics(clientName)], for a client that exists;
    [Math.max(0, n - 1)] is the subtraction of [nat]. *)
Definition getSheetStatistics `{Runtime} (w : World) : Result SheetStats :=
  tryCatch
    (bufferTotal ← getLastRow (bufferSheet w);
     finalTotal ← getLastRow (finalSheet w);
     inflowTotal ← getLastRow (inflowSheet w);
     outflowTotal ← getLastRow (outflowSheet w);
     let lastUpdate := getCurrentTimestamp in
     let buffer := mkBufferStats (bufferTotal - 1) 0 0 0 0 in
     lastRow ← getLastRow (bufferSheet w);
     if (1 <? lastRow)%nat then
       bufferData ← getValues (bufferSheet w);
       let statusIndex := getColumnIndex (headerRow bufferData) "Status" in
       mret (mkSheetStats (statisticsLoop statusIndex (drop 1 bufferData) buffer)
               (finalTotal - 1) (inflowTotal - 1) (outflowTotal - 1) lastUpdate)
     else mret (mkSheetStats buffer (finalTotal - 1) (inflowTotal - 1) (outflowTotal - 1)
                  lastUpdate))
    (fun error => Throw error).

(** The data rows of a sheet whose cell under Status is [status]. *)
Definition rowsWithStatus (sh : Sheet) (status : string) : list (list Cell) :=
  List.filter
    (fun row => strictEq
       (safeGetCellValue row (getColumnIndex (headerRow (sheetValues sh)) "Status"))
       (CStr status))
    (drop 1 (sheetValues sh)).

(** The record of a document that was enriched as an outgoing payment,
    then deleted and reactivated. *)
Definition reactivatedDocument : BufferFile :=
  {| bf_rowIndex := 2;
     bf_originalFilename := CStr "IMG_0001.pdf";
     bf_changedFilename := CStr "2024-01-05_Acme_INV-9_100.00.pdf";
     bf_fileUrl := CStr "https://drive.google.com/file/d/A1/view";
     bf_invoiceNumber := CStr "INV-9";
     bf_emailSubject := CStr "";
     bf_status := CStr "Active";
     bf_reason := CStr "Reactivated on 2024-01-05T10:00:00.000Z. Previous: Deleted: sent twice";
     bf_attempts := 0 |}.

Section ValidationOutcomes.
Context `{Runtime} `{Numerics}.


End ValidationOutcomes.


Section MovesOfTheBatch.
Context `{Runtime}.

(** A per-row move of the categorisation batch, told step by step: the row
    is appended to the category sheet of the record, then the blob is moved
    from the Buffer folder to the category folder.  [r] is how the move
    ended, [Ok true] for a record moved to inflow and [Ok false] for one
    moved to outflow, and [w1] is the store that it left. *)
Definition rowMoved (fileData : FinalRecord) (w : World) (r : Result bool) (w1 : World)
    : Prop :=
  match cellToLowerCase (fr_inflowOutflowStatus fileData) with
  | Throw e => r = Throw e /\ w1 = w
  | Ok status =>
      exists ra wa,
        (if String.eqb status STATUS.INFLOW then addToInflowSheet INFLOW fileData w
         else addToOutflowSheet OUTFLOW fileData w) = (ra, wa) /\
        match ra with
        | Throw e => r = Throw e /\ w1 = wa
        | Ok _ =>
            exists rm,
              moveFileToFolder (fr_fileUrl fileData) BUFFER_FOLDER
                (if String.eqb status STATUS.INFLOW then INFLOW_FOLDER else OUTFLOW_FOLDER)
                wa = (rm, w1) /\
              r = match rm with
                  | Ok _ => Ok (String.eqb status STATUS.INFLOW)
                  | Throw e => Throw e
                  end
        end
  end.

(** The per-row moves of a batch, in the order of the records, each
    starting from the store that the one before it left. *)
Inductive batchMoved : list FinalRecord -> World -> list (Result bool) -> World -> Prop :=
| batchMoved_nil w : batchMoved [] w [] w
| batchMoved_cons fileData rest w r w1 results w' :
    rowMoved fileData w r w1 ->
    batchMoved rest w1 results w' ->
    batchMoved (fileData :: rest) w (r :: results) w'.
End MovesOfTheBatch.

(** The move failed. *)
Definition moveFailed (r : Result bool) : bool :=
  match r with
  | Throw _ => true
  | Ok _ => false
  end.

(** The move went through, to inflow or to outflow as [inflow] says. *)
Definition movedTo (inflow : bool) (r : Result bool) : bool :=
  match r with
  | Ok b => Bool.eqb b inflow
  | Throw _ => false
  end.

(** A client with two records in the Final sheet; the blob of the second
    one is gone from Drive. *)
Definition worldWithOneMissingBlob : World :=
  {| driveFiles := ["A1"];
     bufferFolder := mkFolder ["A1"] true;
     inflowFolder := mkFolder [] true;
     outflowFolder := mkFolder [] true;
     bufferSheet := bufferSheet worldWithPendingDocument;
     finalSheet :=
       mkSheet [ FINAL_COLUMNS;
                 finalRow "2024-01-05_Acme_INV-9_100.00.pdf"
                   "https://drive.google.com/file/d/A1/view" "inflow";
                 finalRow "2024-01-06_Bolt_INV-3_20.00.pdf"
                   "https://drive.google.com/file/d/B2/view" "outflow" ] ReadWrite;
     inflowSheet := mkSheet [FLOW_COLUMNS] ReadWrite;
     outflowSheet := mkSheet [FLOW_COLUMNS] ReadWrite;
     scriptLock := LockFree;
     idsIssued := 0 |}.

(** A Buffer sheet with a reactivation pending (row 2: a row marked by a
    processed deletion and set back to Active) and a deletion pending
    (row 3). *)
Definition bufferWithBothPending : Sheet :=
  {| sheetValues :=
       [ BUFFER_COLUMNS;
         bufferRow (CStr "a.pdf") (CStr "") (CStr "https://drive.google.com/file/d/A1/view")
           (CStr "") (CStr "Active") (CStr "Deleted: duplicate (2024-01-04T09:00:00.000Z)");
         bufferRow (CStr "b.pdf") (CStr "") (CStr "https://drive.google.com/file/d/B2/view")
           (CStr "") (CStr "Deleted") (CStr "sent twice") ];
     sheetAccess := ReadWrite |}.

(** What a detection returned, and nothing when it threw. *)
Definition detected {A} (r : Result (list A)) : list A :=
  match r with
  | Ok items => items
  | Throw _ => []
  end.

(** U+00A0, a white space outside ASCII, in UTF-8. *)
Definition noBreakSpace : string :=
  String (ascii_of_nat 194) (String (ascii_of_nat 160) EmptyString).

(** A client with a record marked Deleted whose reason is a no-break
    space. *)
Definition worldWithNoBreakSpaceReason : World :=
  setSheet BUFFER
    (mkSheet [ BUFFER_COLUMNS;
               bufferRow (CStr "IMG_0001.pdf") (CStr "")
                 (CStr "https://drive.google.com/file/d/A1/view") (CStr "")
                 (CStr "Deleted") (CStr noBreakSpace) ] ReadWrite)
    worldWithUnexplainedDeletion.

(** * Properties *)

(** ** Detection *)

Lemma deletionGuard_true status reason :
  deletionGuard status reason = Ok true ->
  strictEq status (CStr STATUS.DELETED) = true /\
  exists s, reason = CStr s /\ JSString.startsWith s "Deleted:" = false.
Proof.
  unfold deletionGuard. destruct (strictEq status _); [|discriminate].
  destruct reason as [s| | |]; simpl; try discriminate.
  intros [= Hs]. split; [reflexivity|]. exists s. split; [reflexivity|].
  now apply negb_true_iff.
Qed.

Lemma reactivationGuard_true status reason :
  reactivationGuard status reason = Ok true ->
  strictEq status (CStr STATUS.ACTIVE) = true /\
  exists s, reason = CStr s /\ JSString.startsWith s "Deleted:" = true.
Proof.
  unfold reactivationGuard. destruct (strictEq status _); [|discriminate].
  destruct reason as [s| | |]; simpl; try discriminate.
  intros [= Hs]. split; [reflexivity|]. now exists s.
Qed.

(** Every item the deletion loop adds comes from a row that passed the
    guard, and carries that row's position. *)
Lemma deletionLoop_items headers rows : forall i acc items,
  deletionLoop headers i rows acc = Ok items ->
  forall item, In item items ->
    In item acc \/
    exists k row, rows !! k = Some row /\ del_rowIndex item = i + k + 1 /\
      deletionGuard (safeGetCellValue row (getColumnIndex headers "Status"))
                    (safeGetCellValue row (getColumnIndex headers "Reason")) = Ok true.
Proof.
  induction rows as [|row rest IH]; intros i acc items Hrun item Hin; simpl in Hrun.
  - injection Hrun as <-. now left.
  - destruct (deletionGuard _ _) as [marked|e] eqn:Hg; simpl in Hrun; [|discriminate].
    destruct (IH _ _ _ Hrun item Hin) as [Hacc|(k & r & Hk & Hidx & Hguard)].
    + destruct marked; [|now left].
      apply in_app_or in Hacc as [Hacc|[<-|[]]]; [now left|].
      right. exists 0, row. simpl. repeat split; [lia|assumption].
    + right. exists (S k), r. repeat split; [assumption|lia|assumption].
Qed.

Lemma reactivationLoop_items headers rows : forall i acc items,
  reactivationLoop headers i rows acc = Ok items ->
  forall item, In item items ->
    In item acc \/
    exists k row, rows !! k = Some row /\ rowIndex item = i + k + 1 /\
      reactivationGuard (safeGetCellValue row (getColumnIndex headers "Status"))
                        (safeGetCellValue row (getColumnIndex headers "Reason")) = Ok true.
Proof.
  induction rows as [|row rest IH]; intros i acc items Hrun item Hin; simpl in Hrun.
  - injection Hrun as <-. now left.
  - destruct (reactivationGuard _ _) as [marked|e] eqn:Hg; simpl in Hrun; [|discriminate].
    destruct (IH _ _ _ Hrun item Hin) as [Hacc|(k & r & Hk & Hidx & Hguard)].
    + destruct marked; [|now left].
      apply in_app_or in Hacc as [Hacc|[<-|[]]]; [now left|].
      right. exists 0, row. simpl. repeat split; [lia|assumption].
    + right. exists (S k), r. repeat split; [assumption|lia|assumption].
Qed.

(** What the detection functions return is what their loops found. *)
Lemma getFilesMarkedForDeletion_items sh items item :
  getFilesMarkedForDeletion sh = Ok items -> In item items ->
  exists k row, sheetValues sh !! (S k) = Some row /\ del_rowIndex item = k + 2 /\
    deletionGuard
      (safeGetCellValue row (getColumnIndex (headerRow (sheetValues sh)) "Status"))
      (safeGetCellValue row (getColumnIndex (headerRow (sheetValues sh)) "Reason"))
    = Ok true.
Proof.
  unfold getFilesMarkedForDeletion, getFilesMarkedForDeletion_try, getLastRow, getValues,
    reading, tryCatch.
  destruct (sheetAccess sh); simpl;
    try (intros [= <-] []);
    (destruct (length (sheetValues sh) <=? 1)%nat; simpl; [intros [= <-] []|]);
    (destruct (deletionLoop _ _ _ _) as [l|e] eqn:Hloop; simpl; [|intros [= <-] []]);
    intros [= <-] Hin;
    (destruct (deletionLoop_items _ _ _ _ _ Hloop item Hin)
       as [[]|(k & row & Hk & Hidx & Hg)]);
    exists k, row; (repeat split; [|lia|assumption]);
    rewrite lookup_drop in Hk; exact Hk.
Qed.

Lemma getFilesMarkedForReactivation_items sh items item :
  getFilesMarkedForReactivation sh = Ok items -> In item items ->
  exists k row, sheetValues sh !! (S k) = Some row /\ rowIndex item = k + 2 /\
    reactivationGuard
      (safeGetCellValue row (getColumnIndex (headerRow (sheetValues sh)) "Status"))
      (safeGetCellValue row (getColumnIndex (headerRow (sheetValues sh)) "Reason"))
    = Ok true.
Proof.
  unfold getFilesMarkedForReactivation, getFilesMarkedForReactivation_try, getLastRow,
    getValues, reading, tryCatch.
  destruct (sheetAccess sh); simpl;
    try (intros [= <-] []);
    (destruct (length (sheetValues sh) <=? 1)%nat; simpl; [intros [= <-] []|]);
    (destruct (reactivationLoop _ _ _ _) as [l|e] eqn:Hloop; simpl; [|intros [= <-] []]);
    intros [= <-] Hin;
    (destruct (reactivationLoop_items _ _ _ _ _ Hloop item Hin)
       as [[]|(k & row & Hk & Hidx & Hg)]);
    exists k, row; (repeat split; [|lia|assumption]);
    rewrite lookup_drop in Hk; exact Hk.
Qed.

(** C3. Deletion is idempotent: a Buffer row whose status is Deleted and
    whose reason already starts with "Deleted:" is not among the rows that
    [getFilesMarkedForDeletion] returns, whatever else the sheet holds. *)
Theorem processed_deletion_is_not_detected
    (sh : Sheet) (i : nat) (row : list Cell) (reason : string)
    (items : list DeletionItem) :
  sheetValues sh !! i = Some row ->
  safeGetCellValue row (getColumnIndex (headerRow (sheetValues sh)) "Status")
    = CStr STATUS.DELETED ->
  safeGetCellValue row (getColumnIndex (headerRow (sheetValues sh)) "Reason")
    = CStr reason ->
  JSString.startsWith reason "Deleted:" = true ->
  getFilesMarkedForDeletion sh = Ok items ->
  ~ In (i + 1) (map del_rowIndex items).
Proof.
  intros Hrow Hstatus Hreason Hprefix Hrun Hin.
  apply in_map_iff in Hin as (item & Hidx & Hin).
  destruct (getFilesMarkedForDeletion_items _ _ _ Hrun Hin)
    as (k & row' & Hk & Hidx' & Hguard).
  assert (i = S k) as -> by lia.
  rewrite Hrow in Hk. injection Hk as <-.
  apply deletionGuard_true in Hguard as (_ & s & Hs & Hno).
  rewrite Hreason in Hs. injection Hs as <-.
  rewrite Hprefix in Hno. discriminate.
Qed.

Lemma processed_deletion_is_not_detected_witness :
  map del_rowIndex
    match getFilesMarkedForDeletion bufferWithProcessedDeletion with
    | Ok items => items
    | Throw _ => []
    end = [3] /\
  ~ In (1 + 1) (map del_rowIndex
    match getFilesMarkedForDeletion bufferWithProcessedDeletion with
    | Ok items => items
    | Throw _ => []
    end).
Proof.
  split; [reflexivity|].
  eapply (processed_deletion_is_not_detected bufferWithProcessedDeletion 1);
    reflexivity.
Defined.

(** The [catch] of the reactivation detection turns every outcome of its
    [try] block into a list. *)
Lemma getFilesMarkedForReactivation_total (sh : Sheet) :
  exists items, getFilesMarkedForReactivation sh = Ok items.
Proof.
  unfold getFilesMarkedForReactivation, tryCatch.
  destruct (getFilesMarkedForReactivation_try sh) as [items|e]; eauto.
Qed.

(** C10. Neither detection function lets an exception out: each returns a
    list for every sheet, and the empty list whenever its [try] block threw
    (an unreachable sheet, a reason cell that is not text). *)
Theorem detection_never_throws (sh : Sheet) :
  (exists items, getFilesMarkedForDeletion sh = Ok items /\
     forall e, getFilesMarkedForDeletion_try sh = Throw e -> items = []) /\
  (exists items, getFilesMarkedForReactivation sh = Ok items /\
     forall e, getFilesMarkedForReactivation_try sh = Throw e -> items = []).
Proof.
  unfold getFilesMarkedForDeletion, getFilesMarkedForReactivation, tryCatch. split.
  - destruct (getFilesMarkedForDeletion_try sh) as [items|e0].
    + exists items. split; [reflexivity|discriminate].
    + exists []. split; reflexivity.
  - destruct (getFilesMarkedForReactivation_try sh) as [items|e0].
    + exists items. split; [reflexivity|discriminate].
    + exists []. split; reflexivity.
Qed.

(** The two ways the [try] block throws, run on examples: the service
    cannot reach the sheet; a row marked Deleted has a number as reason. *)
Example detection_on_unreachable_sheet :
  getFilesMarkedForDeletion_try (mkSheet (sheetValues bufferWithProcessedDeletion) Unavailable)
    = Throw ServiceError /\
  getFilesMarkedForDeletion (mkSheet (sheetValues bufferWithProcessedDeletion) Unavailable)
    = Ok [] /\
  getFilesMarkedForReactivation (mkSheet (sheetValues bufferWithProcessedDeletion) Unavailable)
    = Ok [].
Proof. repeat split. Qed.

Example detection_on_numeric_reason :
  let sh :=
    mkSheet (sheetValues bufferWithProcessedDeletion ++
             [bufferRow (CStr "c.pdf") (CStr "") (CStr "") (CStr "") (CStr "Deleted") (CNum 7)])
      ReadWrite in
  getFilesMarkedForDeletion_try sh = Throw TypeError /\
  getFilesMarkedForDeletion sh = Ok [].
Proof. repeat split. Qed.

(** ** Validation of the AI response *)

Example amount_in_parentheses :
  @cleanAndValidateAmount exampleRuntime exampleNumerics (JStr "($1,234.50)") = Ok "-1234.50" /\
  @cleanAndValidateAmount exampleRuntime exampleNumerics (JStr "abc") = Ok "0.00" /\
  @cleanAndValidateAmount exampleRuntime exampleNumerics (JStr "12.5") = Ok "12.50".
Proof. repeat split; vm_compute; reflexivity. Qed.

Example text_is_cleaned :
  @cleanAndValidateText exampleRuntime (JStr "  Acme: Co / Ltd_ ") "Unknown_Vendor"
    = Ok "Acme_Co_Ltd" /\
  @cleanAndValidateText exampleRuntime (JStr " __ ") "Unknown_Vendor" = Ok "Unknown_Vendor" /\
  @cleanAndValidateText exampleRuntime (JNum (Finite 3)) "Unknown_Vendor" = Ok "Unknown_Vendor".
Proof. repeat split; vm_compute; reflexivity. Qed.

Lemma Ok_inj {A} (a b : A) : Ok a = Ok b -> a = b.
Proof. now intros [= ->]. Qed.

Lemma includesText_In l s : includesText l s = true -> In s l.
Proof.
  unfold includesText. intros Hex.
  apply existsb_exists in Hex as (x & Hin & Heq).
  apply String.eqb_eq in Heq as ->. exact Hin.
Qed.

Lemma clamp_in_unit_interval parsed :
  isNaN parsed = false ->
  exists q, mathMax (Finite 0) (mathMin (Finite 1) parsed) = Finite q /\
            (0 <= q)%Q /\ (q <= 1)%Q.
Proof.
  destruct parsed as [| |x|]; simpl; [discriminate| | |]; intros _.
  - exists 0%Q. repeat split; [apply Qle_refl|discriminate].
  - unfold mathMin, mathMax; simpl.
    destruct (Qle_bool 1 x) eqn:H1; simpl.
    + exists 1%Q. repeat split; [discriminate|apply Qle_refl].
    + assert (x < 1)%Q as Hlt.
      { apply Qnot_le_lt. intros Hle. apply Qle_bool_iff in Hle. congruence. }
      destruct (Qle_bool 0 x) eqn:H0.
      * exists x. repeat split; [now apply Qle_bool_iff|now apply Qlt_le_weak].
      * exists 0%Q. repeat split; [apply Qle_refl|discriminate].
  - exists 1%Q. repeat split; [discriminate|apply Qle_refl].
Qed.

Section ValidationProperties.
Context `{Runtime} `{Numerics}.

(** The [catch] of a field sanitizer gives the fallback exactly when the
    input has a text. *)
Lemma logAndDefault_ok {A} (input : JSValue) (fallback : A) e r :
  logAndDefault input fallback e = Ok r ->
  r = fallback /\ exists text, toStringJS input = Ok text.
Proof.
  unfold logAndDefault. destruct (toStringJS input) as [text|e'] eqn:Ht; simpl.
  - intros [= <-]. split; [reflexivity|now exists text].
  - discriminate.
Qed.

Lemma cleanAndValidateDocumentType_range v r :
  cleanAndValidateDocumentType v = Ok r -> In r validTypes \/ r = "unknown".
Proof.
  unfold cleanAndValidateDocumentType.
  destruct (jsTruthy v); cbn [negb tryCatch]; [|intros [= <-]; now right].
  destruct (toStringJS v) as [text|e] eqn:Ht; cbn [mbind Result_bind tryCatch].
  - intros Hr%Ok_inj. subst r.
    destruct (includesText validTypes _) eqn:Hin; [left; now apply includesText_In|now right].
  - unfold logAndDefault. rewrite Ht. discriminate.
Qed.

Lemma cleanAndValidateTransactionType_range v r :
  cleanAndValidateTransactionType v = Ok r -> r = STATUS.INFLOW \/ r = STATUS.OUTFLOW.
Proof.
  unfold cleanAndValidateTransactionType.
  destruct (jsTruthy v); cbn [negb tryCatch]; [|intros [= <-]; now left].
  destruct (toStringJS v) as [text|e] eqn:Ht; cbn [mbind Result_bind tryCatch].
  - destruct (includesText ["inflow"; "outflow"] _) eqn:Hin; cbn [tryCatch].
    + intros Hr%Ok_inj. subst r.
      apply includesText_In in Hin as [<-|[<-|[]]]; [now left|now right].
    + destruct (existsb _ inflowSynonyms); cbn [tryCatch]; [intros [= <-]; now left|].
      destruct (existsb _ outflowSynonyms); cbn [tryCatch]; intros [= <-];
        [now right|now left].
  - unfold logAndDefault. rewrite Ht. discriminate.
Qed.

Lemma cleanAndValidateConfidence_range v r :
  cleanAndValidateConfidence v = Ok r ->
  exists q, r = Finite q /\ (0 <= q)%Q /\ (q <= 1)%Q.
Proof.
  assert (exists q, Finite (8 # 10) = Finite q /\ (0 <= q)%Q /\ (q <= 1)%Q) as Hdefault.
  { exists (8 # 10)%Q. repeat split; discriminate. }
  unfold cleanAndValidateConfidence.
  destruct (jsTruthy v); simpl; [|intros [= <-]; exact Hdefault].
  destruct (parseFloatJS v) as [parsed|e] eqn:Hp; simpl.
  - destruct (isNaN parsed) eqn:Hnan; simpl; intros [= <-]; [exact Hdefault|].
    now apply clamp_in_unit_interval.
  - intros Hr. apply logAndDefault_ok in Hr as [-> _]. exact Hdefault.
Qed.

(** C6, as the code has it. For every documentType value: a missing or
    otherwise falsy value gives "unknown"; a value that has a text gives
    that text, lower-cased and trimmed, when it is one of invoice, receipt,
    bill, statement, contract, other, and "unknown" when it is not; so
    whatever the sanitizer returns is in the enumeration or is "unknown". *)
Theorem documentType_snaps_to_enumeration_or_unknown (v : JSValue) :
  (jsTruthy v = false -> cleanAndValidateDocumentType v = Ok "unknown") /\
  (forall text, jsTruthy v = true -> toStringJS v = Ok text ->
     cleanAndValidateDocumentType v =
       Ok (if includesText validTypes (JSString.trim (JSString.toLowerCase text))
           then JSString.trim (JSString.toLowerCase text) else "unknown")) /\
  (forall r, cleanAndValidateDocumentType v = Ok r -> In r validTypes \/ r = "unknown").
Proof.
  split; [|split].
  - intros Hf. unfold cleanAndValidateDocumentType. now rewrite Hf.
  - intros text Ht Htext. unfold cleanAndValidateDocumentType. now rewrite Ht, Htext.
  - apply cleanAndValidateDocumentType_range.
Qed.

(** White space around the text is dropped, white space outside ASCII
    too. *)
Example documentType_with_white_space_around :
  @cleanAndValidateDocumentType exampleRuntime
    (JStr (noBreakSpace +:+ " Invoice" +:+ noBreakSpace)) = Ok "invoice" /\
  @cleanAndValidateDocumentType exampleRuntime (JStr ("in" +:+ noBreakSpace +:+ "voice"))
    = Ok "unknown".
Proof. vm_compute. split; reflexivity. Qed.

(** C7, as the code has it. For every confidence value: a missing or
    otherwise falsy value, the number 0 included, gives 0.8; any other
    number is clamped into [0,1]; and whatever the sanitizer returns lies
    in [0,1]. *)
Theorem confidence_is_clamped_or_defaulted (v : JSValue) :
  (jsTruthy v = false -> cleanAndValidateConfidence v = Ok (Finite (8 # 10))) /\
  (forall n, v = JNum n -> jsTruthy v = true ->
     cleanAndValidateConfidence v = Ok (mathMax (Finite 0) (mathMin (Finite 1) n))) /\
  (forall r, cleanAndValidateConfidence v = Ok r ->
     exists q, r = Finite q /\ (0 <= q)%Q /\ (q <= 1)%Q).
Proof.
  split; [|split].
  - intros Hf. unfold cleanAndValidateConfidence. now rewrite Hf.
  - intros n -> Ht. unfold cleanAndValidateConfidence. rewrite Ht. simpl.
    destruct n as [| |q|]; simpl in *; try reflexivity. discriminate.
  - apply cleanAndValidateConfidence_range.
Qed.
End ValidationProperties.

(** C6, as stated, fails: a type outside the enumeration, and a missing
    one, come back as "unknown", which is neither "other" nor in the
    enumeration. *)
Lemma documentType_outside_enumeration_is_not_other :
  @cleanAndValidateDocumentType exampleRuntime (JStr "memo") = Ok "unknown" /\
  @cleanAndValidateDocumentType exampleRuntime JUndefined = Ok "unknown" /\
  ~ In "unknown" validTypes /\
  "unknown" <> "other".
Proof.
  repeat split; try reflexivity; try discriminate.
  intros Hin. repeat destruct Hin as [Hin|Hin]; try discriminate Hin. exact Hin.
Qed.

(** C7, as stated, fails: a supplied 0 yields 0.8, not 0. *)
Lemma confidence_zero_yields_default :
  @cleanAndValidateConfidence exampleRuntime exampleNumerics (JNum (Finite 0))
    = Ok (Finite (8 # 10)) /\
  Finite (8 # 10) <> Finite 0.
Proof. split; [reflexivity|discriminate]. Qed.

Example confidence_examples :
  @cleanAndValidateConfidence exampleRuntime exampleNumerics (JNum (Finite (3 # 2)))
    = Ok (Finite 1) /\
  @cleanAndValidateConfidence exampleRuntime exampleNumerics (JNum (Finite (-2)))
    = Ok (Finite 0) /\
  @cleanAndValidateConfidence exampleRuntime exampleNumerics (JStr "0.95")
    = Ok (Finite (95 # 100)) /\
  @cleanAndValidateConfidence exampleRuntime exampleNumerics JUndefined
    = Ok (Finite (8 # 10)) /\
  @cleanAndValidateConfidence exampleRuntime exampleNumerics
     (JObject [("toString", JNull)]) = Throw TypeError.
Proof. repeat split. Qed.

(** ** Reasoning about computations over the store *)

Lemma bindM_inv {A B} (m : M A) (f : A -> M B) w b w2 :
  (m ≫= f) w = (Ok b, w2) ->
  exists a w1, m w = (Ok a, w1) /\ f a w1 = (Ok b, w2).
Proof.
  unfold mbind, M_bind. destruct (m w) as [[a|e] w1]; [|discriminate].
  intros Hf. now exists a, w1.
Qed.

Lemma bindM_Ok {A B} (m : M A) (f : A -> M B) w a w1 :
  m w = (Ok a, w1) -> (m ≫= f) w = f a w1.
Proof. unfold mbind, M_bind. now intros ->. Qed.

Lemma bindM_Throw {A B} (m : M A) (f : A -> M B) w e w1 :
  m w = (Throw e, w1) -> (m ≫= f) w = (Throw e, w1).
Proof. unfold mbind, M_bind. now intros ->. Qed.

Lemma liftR_inv {A} (r : World -> Result A) w a w1 :
  liftR r w = (Ok a, w1) -> r w = Ok a /\ w1 = w.
Proof. unfold liftR. now intros [= -> ->]. Qed.

Lemma mretM_inv {A} (a b : A) (w w1 : World) :
  (mret a : M A) w = (Ok b, w1) -> b = a /\ w1 = w.
Proof. unfold mret, M_ret. now intros [= -> ->]. Qed.

Lemma Access_cases (a : Access) : {a = ReadWrite} + {a <> ReadWrite}.
Proof. destruct a; [now left|now right|now right]. Qed.

Lemma writing_ok ref f w :
  sheetAccess (sheetOf w ref) = ReadWrite ->
  writing ref f w = (Ok tt, setSheet ref (mkSheet (f (sheetValues (sheetOf w ref))) ReadWrite) w).
Proof. unfold writing. now intros ->. Qed.

Lemma writing_refused ref f w :
  sheetAccess (sheetOf w ref) <> ReadWrite ->
  writing ref f w = (Throw ServiceError, w).
Proof.
  unfold writing. destruct (sheetAccess (sheetOf w ref)); intros Hne;
    [congruence|reflexivity|reflexivity].
Qed.

Lemma sheetOf_setSheet ref sh w : sheetOf (setSheet ref sh w) ref = sh.
Proof. now destruct ref. Qed.

Lemma sheetOf_setSheet_ne ref ref' sh w :
  ref <> ref' -> sheetOf (setSheet ref sh w) ref' = sheetOf w ref'.
Proof. destruct ref, ref'; intros Hne; try reflexivity; now destruct Hne. Qed.

Lemma sheetOf_setIdsIssued n w ref : sheetOf (setIdsIssued n w) ref = sheetOf w ref.
Proof. now destruct ref. Qed.

(** Splits a hypothesis [(x ← m; k) w = (Ok b, w')] into the run of [m]
    and the run of [k]. *)
Tactic Notation "stepM" hyp(H) "as" ident(a) ident(w1) ident(Ha) :=
  apply bindM_inv in H as (a & w1 & Ha & H).

Section ValidationTotal.
Context `{Runtime} `{Numerics}.



Lemma bind_liftR_const {A B} (r : Result A) (f : A -> M B) (w : World) :
  (liftR (fun _ => r) ≫= f) w = match r with
                                 | Ok a => f a w
                                 | Throw e => (Throw e, w)
                                 end.
Proof. unfold mbind, M_bind, liftR. now destruct r. Qed.





End ValidationTotal.

(** A response whose sanitizers all return: each field is what its own
    sanitizer gives. *)
Example validation_of_a_complete_response :
  fst (@validateAndCleanAIResponse exampleRuntime exampleNumerics
         (JObject [ ("date", JStr "2024-03-01"); ("vendorName", JStr " Acme Co ");
                    ("invoiceNumber", JStr "INV 9"); ("amount", JStr "$1,250.5");
                    ("documentType", JStr "Invoice "); ("transactionType", JStr "expense");
                    ("confidence", JNum (Finite (3 # 2))) ]) freshWorld)
    = Ok {| v_date := "2024-03-01";
            v_vendorName := "Acme_Co";
            v_invoiceNumber := "INV_9";
            v_amount := "1250.50";
            v_documentType := "invoice";
            v_transactionType := "outflow";
            v_confidence := Finite 1 |}.
Proof. vm_compute. reflexivity. Qed.


(** ** Restoring a reactivated record to the Final sheet *)

Example parseFilename_examples :
  parseFilenameForAIData (CStr "2024-01-05_Acme_Co_INV-9_100.00.pdf")
    = Some (mkParsedData "2024-01-05" "Acme" "Co" "INV-9") /\
  parseFilenameForAIData (CStr "2024-01-05_Acme_INV-9_100.00.pdf")
    = Some (mkParsedData "2024-01-05" "Acme" "INV-9" "100.00") /\
  parseFilenameForAIData (CStr "scan_acme.pdf") = None /\
  parseFilenameForAIData (CStr "a_b_c_d") = None /\
  parseFilenameForAIData (CNum 5) = None.
Proof. repeat split. Qed.

Lemma hasValidAIData_true item :
  hasValidAIData item = true ->
  truthy (changedFilename item) = true /\
  strictEq (changedFilename item) (originalFilename item) = false /\
  truthy (invoiceNumber item) = true.
Proof.
  unfold hasValidAIData.
  destruct (truthy (changedFilename item)); [|discriminate].
  destruct (strictEq (changedFilename item) (originalFilename item)); [discriminate|].
  destruct (truthy (invoiceNumber item)); [|discriminate].
  now intros _.
Qed.

Section RestoreProperties.
Context `{Runtime}.

(** C9. A reactivated record that is restored without re-enrichment and
    whose changed file name has fewer than four underscore-separated
    segments before the extension: the file name does not parse, and the
    restore step appends to the Final sheet a row with empty date, vendor
    name and amount, transaction type inflow, document type restored and
    confidence 0.8. *)
Theorem restore_of_unparsed_filename
    (item : ReactivationItem) (name : string) (w : World) :
  hasValidAIData item = true ->
  changedFilename item = CStr name ->
  (length (JSString.split "_"%char (nameWithoutExtension name)) < 4)%nat ->
  sheetAccess (finalSheet w) = ReadWrite ->
  parseFilenameForAIData (changedFilename item) = None /\
  exists w',
    restoreToFinalSheet item w = (Ok tt, w') /\
    sheetValues (finalSheet w') =
      sheetValues (finalSheet w) ++
      [ [ CStr name; CStr (uniqueIdOf (idsIssued w)); orElse (fileId item) (CStr "");
          fileUrl item; CStr ""; orElse (emailSubject item) (CStr ""); CStr "";
          CStr "inflow"; CStr ""; CStr ""; invoiceNumber item; CStr "";
          CStr "restored"; CNum (8 # 10);
          CStr getCurrentTimestamp; CStr getCurrentTimestamp ] ].
Proof.
  intros Hvalid Hname Hshort Hrw.
  apply hasValidAIData_true in Hvalid as (Hcf & Hne & Hinv).
  assert (parseFilenameForAIData (changedFilename item) = None) as Hparse.
  { rewrite Hname. unfold parseFilenameForAIData.
    destruct (4 <=? _)%nat eqn:Hle; [|reflexivity].
    apply Nat.leb_le in Hle. lia. }
  split; [exact Hparse|].
  unfold restoreToFinalSheet. rewrite Hcf, Hne, Hparse. cbn [negb andb].
  unfold tryCatchM.
  rewrite (bindM_Ok generateUniqueId _ w _ _ eq_refl).
  unfold appendRow. rewrite writing_ok by (now rewrite sheetOf_setIdsIssued).
  eexists. split; [reflexivity|].
  change (finalSheet ?x) with (sheetOf x FINAL).
  rewrite sheetOf_setSheet, sheetOf_setIdsIssued. cbn [sheetValues].
  cbn [restored_transactionType restored_date restored_vendorName
       restored_invoiceNumber restored_amount].
  replace (orElse (invoiceNumber item) (CStr "")) with (invoiceNumber item)
    by (unfold orElse; now rewrite Hinv).
  replace (orElse (changedFilename item) (originalFilename item)) with (CStr name)
    by (unfold orElse; now rewrite Hcf).
  reflexivity.
Qed.
End RestoreProperties.

Lemma restore_of_unparsed_filename_witness :
  hasValidAIData scanItem = true /\
  parseFilenameForAIData (changedFilename scanItem) = None /\
  exists w',
    @restoreToFinalSheet exampleRuntime scanItem freshWorld = (Ok tt, w') /\
    sheetValues (finalSheet w') =
      [ FINAL_COLUMNS;
        [ CStr "scan_acme.pdf"; CStr "uuid-0"; CStr "A1";
          CStr "https://drive.google.com/file/d/A1/view"; CStr ""; CStr "Invoice"; CStr "";
          CStr "inflow"; CStr ""; CStr ""; CStr "INV-9"; CStr "";
          CStr "restored"; CNum (8 # 10);
          CStr "2024-01-05T10:00:00.000Z"; CStr "2024-01-05T10:00:00.000Z" ] ].
Proof.
  split; [reflexivity|].
  apply (@restore_of_unparsed_filename exampleRuntime scanItem "scan_acme.pdf" freshWorld);
    [reflexivity | reflexivity | vm_compute; lia | reflexivity].
Defined.

(** ** What a computation leaves alone *)

Section Preservation.
Context (R : World -> World -> Prop) `{!PreOrder R}.

Lemma preserves_ret {A} (a : A) : preserves R (mret a : M A).
Proof. intros w. reflexivity. Qed.

Lemma preserves_throw {A} e : preserves R (throw e : M A).
Proof. intros w. reflexivity. Qed.

Lemma preserves_liftR {A} (r : World -> Result A) : preserves R (liftR r).
Proof. intros w. reflexivity. Qed.

Lemma preserves_bind {A B} (m : M A) (f : A -> M B) :
  preserves R m -> (forall a, preserves R (f a)) -> preserves R (m ≫= f).
Proof.
  intros Hm Hf w. unfold mbind, M_bind. specialize (Hm w).
  destruct (m w) as [[a|e] w1]; simpl in *; [|exact Hm].
  etransitivity; [exact Hm|apply Hf].
Qed.

Lemma preserves_tryCatchM {A} (body : M A) (handler : Exn -> M A) :
  preserves R body -> (forall e, preserves R (handler e)) ->
  preserves R (tryCatchM body handler).
Proof.
  intros Hm Hh w. unfold tryCatchM. specialize (Hm w).
  destruct (body w) as [[a|e] w1]; simpl in *; [exact Hm|].
  etransitivity; [exact Hm|apply Hh].
Qed.

Lemma preserves_if {A} (b : bool) (m1 m2 : M A) :
  preserves R m1 -> preserves R m2 -> preserves R (if b then m1 else m2).
Proof. now destruct b. Qed.
End Preservation.

#[export] Instance sameSheets_preorder : PreOrder sameSheets.
Proof.
  split.
  - intros w. now split.
  - intros w1 w2 w3 [H12 L12] [H23 L23]. split.
    + intros ref. now rewrite H23, H12.
    + now rewrite L23, L12.
Qed.

Lemma changingFolder_sameSheets ref f : preserves sameSheets (changingFolder ref f).
Proof.
  intros w. unfold changingFolder.
  destruct (folderWritable (folderOf w ref)); simpl; [|reflexivity].
  split; [intros sref; now destruct ref, sref|now destruct ref].
Qed.

Lemma generateUniqueId_sameSheets `{Runtime} : preserves sameSheets generateUniqueId.
Proof. intros w. split; [intros ref; now destruct ref|reflexivity]. Qed.

(** Proves [preserves sameSheets m] for [m] built from the Drive service and
    control flow. *)
Ltac frame_folders :=
  repeat first
    [ apply preserves_bind; [typeclasses eauto| |intros ?]
    | apply preserves_tryCatchM; [typeclasses eauto| |intros ?]
    | apply preserves_ret; typeclasses eauto
    | apply preserves_throw; typeclasses eauto
    | apply preserves_liftR; typeclasses eauto
    | apply changingFolder_sameSheets
    | apply generateUniqueId_sameSheets
    | apply preserves_if
    | match goal with |- preserves _ (match ?x with _ => _ end) => destruct x end ].

Section FolderFrames.
Context `{Runtime}.

Lemma moveFileToFolder_sameSheets url source target :
  preserves sameSheets (moveFileToFolder url source target).
Proof. unfold moveFileToFolder, getFileById, addFile, removeFile. frame_folders. Qed.

Lemma removeFileFromDriveFolders_sameSheets url :
  preserves sameSheets (removeFileFromDriveFolders url).
Proof.
  unfold removeFileFromDriveFolders, removeFromFolderIfPresent, getFileById, inFolder,
    removeFile.
  frame_folders.
Qed.

Lemma ensureFileInBufferFolder_sameSheets item folder :
  preserves sameSheets (ensureFileInBufferFolder item folder).
Proof.
  unfold ensureFileInBufferFolder, getFileById, inFolder, addFile, removeFile.
  frame_folders.
Qed.
End FolderFrames.

(** ** The categorisation batch *)

Lemma grown_refl w : grown w w [] [].
Proof.
  unfold grown. rewrite !app_nil_r.
  repeat split; [now destruct (inflowSheet w)|now destruct (outflowSheet w)].
Qed.

Lemma grown_trans w w1 w2 a b a' b' :
  grown w w1 a b -> grown w1 w2 a' b' -> grown w w2 (a ++ a') (b ++ b').
Proof.
  intros (F1 & B1 & L1 & I1 & O1) (F2 & B2 & L2 & I2 & O2).
  unfold grown. rewrite F2, B2, L2, I2, O2, F1, B1, L1, I1, O1. cbn.
  now rewrite !app_assoc.
Qed.

Lemma grown_sameSheets w w1 w2 a b :
  grown w w1 a b -> sameSheets w1 w2 -> grown w w2 a b.
Proof.
  intros (F1 & B1 & L1 & I1 & O1) [Hs Hl]. unfold grown.
  rewrite <- F1, <- B1, <- L1, <- I1, <- O1.
  repeat split; [apply (Hs FINAL)|apply (Hs BUFFER)|exact Hl|apply (Hs INFLOW)|apply (Hs OUTFLOW)].
Qed.

Lemma grown_appendInflow w row :
  sheetAccess (inflowSheet w) = ReadWrite ->
  grown w (setSheet INFLOW (mkSheet (sheetValues (inflowSheet w) ++ [row]) ReadWrite) w)
    [row] [].
Proof.
  intros Hrw. unfold grown; cbn. rewrite Hrw, app_nil_r.
  repeat split. now destruct (outflowSheet w).
Qed.

Lemma grown_appendOutflow w row :
  sheetAccess (outflowSheet w) = ReadWrite ->
  grown w (setSheet OUTFLOW (mkSheet (sheetValues (outflowSheet w) ++ [row]) ReadWrite) w)
    [] [row].
Proof.
  intros Hrw. unfold grown; cbn. rewrite Hrw, app_nil_r.
  repeat split. now destruct (inflowSheet w).
Qed.

Section Categorisation.
Context `{Runtime}.

Lemma appendRow_ok ref row w :
  sheetAccess (sheetOf w ref) = ReadWrite ->
  appendRow ref row w =
    (Ok tt, setSheet ref (mkSheet (sheetValues (sheetOf w ref) ++ [row]) ReadWrite) w).
Proof. intros Hrw. unfold appendRow. now rewrite writing_ok. Qed.

Lemma appendRow_refused ref row w :
  sheetAccess (sheetOf w ref) <> ReadWrite ->
  appendRow ref row w = (Throw ServiceError, w).
Proof. intros Hrw. unfold appendRow. now rewrite writing_refused. Qed.

Lemma addToInflowSheet_run fileData w :
  addToInflowSheet INFLOW fileData w = appendRow INFLOW (flowRow fileData) w.
Proof.
  unfold addToInflowSheet, tryCatchM.
  now destruct (appendRow INFLOW (flowRow fileData) w) as [[u|e] w1].
Qed.

Lemma addToOutflowSheet_run fileData w :
  addToOutflowSheet OUTFLOW fileData w = appendRow OUTFLOW (flowRow fileData) w.
Proof.
  unfold addToOutflowSheet, tryCatchM.
  now destruct (appendRow OUTFLOW (flowRow fileData) w) as [[u|e] w1].
Qed.

(** One file of the batch: whatever happens, the Final and Buffer sheets
    are left alone; a file reported as moved has its row at the end of its
    category sheet; a file that failed has added at most its own row. *)
Lemma moveOneFile_grown fileData w :
  exists r w1 addedIn addedOut,
    moveOneFile fileData w = (r, w1) /\
    grown w w1 addedIn addedOut /\
    match r with
    | Ok true => addedIn = [flowRow fileData] /\ addedOut = []
    | Ok false => addedIn = [] /\ addedOut = [flowRow fileData]
    | Throw _ => True
    end.
Proof.
  unfold moveOneFile.
  destruct (cellToLowerCase (fr_inflowOutflowStatus fileData)) as [status|e] eqn:Hst.
  2:{ erewrite bindM_Throw by reflexivity.
      exists (Throw e), w, [], []. split; [reflexivity|split; [apply grown_refl|exact I]]. }
  erewrite bindM_Ok by reflexivity.
  destruct (String.eqb status STATUS.INFLOW).
  - destruct (Access_cases (sheetAccess (inflowSheet w))) as [Hrw|Hro].
    2:{ erewrite bindM_Throw
          by (rewrite addToInflowSheet_run; now apply appendRow_refused).
        exists (Throw ServiceError), w, [], []. split; [reflexivity|split; [apply grown_refl|exact I]]. }
    erewrite bindM_Ok by (rewrite addToInflowSheet_run; now apply appendRow_ok).
    cbn [sheetOf]. set (w2 := setSheet INFLOW _ w).
    pose proof (moveFileToFolder_sameSheets (fr_fileUrl fileData)
                  BUFFER_FOLDER INFLOW_FOLDER w2) as Hframe.
    destruct (moveFileToFolder _ _ _ w2) as [[u|e] w3] eqn:Hmv; cbn [snd] in Hframe.
    + erewrite bindM_Ok by exact Hmv.
      exists (Ok true), w3, [flowRow fileData], []. split; [reflexivity|split; [|now repeat split]].
      eapply grown_sameSheets; [now apply grown_appendInflow|exact Hframe].
    + erewrite bindM_Throw by exact Hmv.
      exists (Throw e), w3, [flowRow fileData], []. split; [reflexivity|split; [|now repeat split]].
      eapply grown_sameSheets; [now apply grown_appendInflow|exact Hframe].
  - destruct (Access_cases (sheetAccess (outflowSheet w))) as [Hrw|Hro].
    2:{ erewrite bindM_Throw
          by (rewrite addToOutflowSheet_run; now apply appendRow_refused).
        exists (Throw ServiceError), w, [], []. split; [reflexivity|split; [apply grown_refl|exact I]]. }
    erewrite bindM_Ok by (rewrite addToOutflowSheet_run; now apply appendRow_ok).
    cbn [sheetOf]. set (w2 := setSheet OUTFLOW _ w).
    pose proof (moveFileToFolder_sameSheets (fr_fileUrl fileData)
                  BUFFER_FOLDER OUTFLOW_FOLDER w2) as Hframe.
    destruct (moveFileToFolder _ _ _ w2) as [[u|e] w3] eqn:Hmv; cbn [snd] in Hframe.
    + erewrite bindM_Ok by exact Hmv.
      exists (Ok false), w3, [], [flowRow fileData]. split; [reflexivity|split; [|now repeat split]].
      eapply grown_sameSheets; [now apply grown_appendOutflow|exact Hframe].
    + erewrite bindM_Throw by exact Hmv.
      exists (Throw e), w3, [], [flowRow fileData]. split; [reflexivity|split; [|now repeat split]].
      eapply grown_sameSheets; [now apply grown_appendOutflow|exact Hframe].
Qed.

(** The loop never throws; it only appends to the category sheets, and it
    appends at least one row for every file it counts as moved. *)
Lemma moveLoop_grown finalSheetData : forall counts w,
  exists counts' w' addedIn addedOut,
    moveLoop finalSheetData counts w = (Ok counts', w') /\
    grown w w' addedIn addedOut /\
    mv_inflowCount counts' <= mv_inflowCount counts + length addedIn /\
    mv_outflowCount counts' <= mv_outflowCount counts + length addedOut /\
    mv_errorCount counts <= mv_errorCount counts'.
Proof.
  induction finalSheetData as [|fileData rest IH]; intros counts w.
  - exists counts, w, [], []. cbn.
    split; [reflexivity|split; [apply grown_refl|lia]].
  - cbn [moveLoop].
    destruct (moveOneFile_grown fileData w) as (r & w1 & aI & aO & Hone & Hg & Hres).
    assert (exists moved,
      tryCatchM (moveOneFile fileData ≫= λ isInflow, mret (Some isInflow))
        (fun _ => mret None) w = (Ok moved, w1) /\
      match moved with
      | Some true => r = Ok true
      | Some false => r = Ok false
      | None => True
      end) as (moved & Htry & Hmoved).
    { unfold tryCatchM, mbind, M_bind. rewrite Hone.
      destruct r as [[|]|e]; eexists; (split; [reflexivity|]); cbn; reflexivity || exact I. }
    erewrite bindM_Ok by exact Htry.
    match goal with
    | |- context [moveLoop rest ?c w1] =>
        destruct (IH c w1) as (counts' & w' & aI' & aO' & Hrun & Hg' & Hi & Ho & He)
    end.
    exists counts', w', (aI ++ aI'), (aO ++ aO').
    split; [exact Hrun|]. split; [eapply grown_trans; eassumption|].
    rewrite !length_app.
    destruct moved as [[|]|]; subst; cbn in Hi, Ho, He;
      try (destruct Hres as [-> ->]; cbn [length]); repeat split; lia.
Qed.
Lemma clearFinalSheet_effect w :
  exists r w2,
    clearFinalSheet FINAL w = (r, w2) /\
    inflowSheet w2 = inflowSheet w /\ outflowSheet w2 = outflowSheet w /\
    match r with
    | Ok _ =>
        finalSheet w2 = finalSheet w \/
        sheetValues (finalSheet w2) = take 1 (sheetValues (finalSheet w))
    | Throw _ => finalSheet w2 = finalSheet w
    end.
Proof.
  unfold clearFinalSheet, tryCatchM, mbind, M_bind, liftR, getLastRow, reading,
    deleteRows, writing, throw.
  cbn [sheetOf].
  destruct (sheetAccess (finalSheet w)) eqn:Ha;
    try (destruct (1 <? length (sheetValues (finalSheet w)))%nat eqn:Hlen);
    cbn [sheetOf]; rewrite ?Ha; cbn [mret M_ret];
    eexists _, _; (split; [reflexivity|]); cbn;
    repeat split; try (now left).
  right. apply Nat.ltb_lt in Hlen.
  rewrite drop_ge by lia. apply app_nil_r.
Qed.

Lemma sheetOf_setLock l w ref : sheetOf (setLock l w) ref = sheetOf w ref.
Proof. now destruct ref. Qed.

Lemma sheetOf_releaseLock w ref : sheetOf (releaseLock w) ref = sheetOf w ref.
Proof. unfold releaseLock. destruct (scriptLock w); [|apply sheetOf_setLock|]; reflexivity. Qed.

Lemma LockState_cases (l : LockState) : {l = LockHeldElsewhere} + {l <> LockHeldElsewhere}.
Proof. destruct l; [now right|now right|now left]. Qed.

Lemma acquireLock_run w :
  scriptLock w <> LockHeldElsewhere -> acquireLock w = (Ok tt, setLock LockHeldHere w).
Proof. unfold acquireLock. now destruct (scriptLock w). Qed.

Lemma acquireLock_refused w :
  scriptLock w = LockHeldElsewhere ->
  acquireLock w = (Throw (AppError SYSTEM_ERROR), w) /\ releaseLock w = w.
Proof. unfold acquireLock, releaseLock. now intros ->. Qed.

(** What a batch does to the sheets: if the run reports an error count
    other than zero, or throws, the Final sheet is as it was; if the Final
    sheet changed, the error count is zero and only the header row is left;
    each category sheet ends as it began plus the appended rows, at least
    one for every file counted as moved. *)
Lemma moveFilesToInflowOutflow_effect (w : World) :
  exists r w' addedIn addedOut,
    moveFilesToInflowOutflow w = (r, w') /\
    sheetValues (inflowSheet w') = sheetValues (inflowSheet w) ++ addedIn /\
    sheetValues (outflowSheet w') = sheetValues (outflowSheet w) ++ addedOut /\
    match r with
    | Ok counts =>
        mv_inflowCount counts <= length addedIn /\
        mv_outflowCount counts <= length addedOut /\
        (mv_errorCount counts <> 0 -> finalSheet w' = finalSheet w) /\
        (finalSheet w' <> finalSheet w ->
           mv_errorCount counts = 0 /\
           sheetValues (finalSheet w') = take 1 (sheetValues (finalSheet w)))
    | Throw _ => finalSheet w' = finalSheet w
    end.
Proof.
  unfold moveFilesToInflowOutflow, tryFinally, tryCatchM.
  destruct (LockState_cases (scriptLock w)) as [Hheld|Hfree].
  { destruct (acquireLock_refused w Hheld) as [Hacq Hrel].
    erewrite bindM_Throw by exact Hacq. unfold throw. rewrite Hrel.
    exists (Throw (AppError SYSTEM_ERROR)), w, [], [].
    rewrite !app_nil_r. now repeat split. }
  erewrite bindM_Ok by (now apply acquireLock_run).
  set (w0 := setLock LockHeldHere w).
  erewrite bindM_Ok by reflexivity.
  set (data := getFinalSheetData (finalSheet w0)).
  destruct (length data =? 0)%nat.
  { exists (Ok noMoves), (releaseLock w0), [], [].
    split; [reflexivity|].
    change (inflowSheet ?x) with (sheetOf x INFLOW).
    change (outflowSheet ?x) with (sheetOf x OUTFLOW).
    change (finalSheet ?x) with (sheetOf x FINAL).
    unfold w0. rewrite !sheetOf_releaseLock, !sheetOf_setLock, !app_nil_r.
    cbn. repeat split; try lia; congruence. }
  destruct (moveLoop_grown data noMoves w0)
    as (counts & wl & aI & aO & Hrun & (HF & HB & HL & HI & HO) & Hi & Ho & He).
  erewrite bindM_Ok by exact Hrun.
  cbn in Hi, Ho.
  assert (sheetValues (inflowSheet wl) = sheetValues (inflowSheet w) ++ aI) as HI'
    by (now rewrite HI).
  assert (sheetValues (outflowSheet wl) = sheetValues (outflowSheet w) ++ aO) as HO'
    by (now rewrite HO).
  assert (finalSheet wl = finalSheet w) as HF' by (now rewrite HF).
  destruct (mv_errorCount counts =? 0)%nat eqn:Herr.
  - apply Nat.eqb_eq in Herr.
    destruct (clearFinalSheet_effect wl) as (r & w2 & Hclear & HI2 & HO2 & Hfinal).
    destruct r as [[]|e].
    + erewrite bindM_Ok by exact Hclear.
      exists (Ok counts), (releaseLock w2), aI, aO. split; [reflexivity|].
      change (inflowSheet ?x) with (sheetOf x INFLOW).
      change (outflowSheet ?x) with (sheetOf x OUTFLOW).
      change (finalSheet ?x) with (sheetOf x FINAL).
      rewrite !sheetOf_releaseLock. cbn [sheetOf].
      rewrite HI2, HO2, <- HF'.
      repeat split; try assumption; try lia; try congruence.
      destruct Hfinal as [Hsame|Hcleared]; [congruence|exact Hcleared].
    + erewrite bindM_Throw by exact Hclear.
      exists (Throw e), (releaseLock w2), aI, aO. split; [reflexivity|].
      change (inflowSheet ?x) with (sheetOf x INFLOW).
      change (outflowSheet ?x) with (sheetOf x OUTFLOW).
      change (finalSheet ?x) with (sheetOf x FINAL).
      rewrite !sheetOf_releaseLock. cbn [sheetOf].
      rewrite HI2, HO2, Hfinal. now repeat split.
  - apply Nat.eqb_neq in Herr.
    erewrite bindM_Ok by reflexivity.
    exists (Ok counts), (releaseLock wl), aI, aO. split; [reflexivity|].
    change (inflowSheet ?x) with (sheetOf x INFLOW).
    change (outflowSheet ?x) with (sheetOf x OUTFLOW).
    change (finalSheet ?x) with (sheetOf x FINAL).
    rewrite !sheetOf_releaseLock. cbn [sheetOf].
    repeat split; try assumption; try lia; congruence.
Qed.

Lemma moveOneFile_rowMoved fileData w r w1 :
  moveOneFile fileData w = (r, w1) -> rowMoved fileData w r w1.
Proof.
  unfold moveOneFile, rowMoved. rewrite bind_liftR_const.
  destruct (cellToLowerCase (fr_inflowOutflowStatus fileData)) as [status|e].
  2:{ now intros [= <- <-]. }
  destruct (String.eqb status STATUS.INFLOW).
  - destruct (addToInflowSheet INFLOW fileData w) as [[[]|e] wa] eqn:Hadd.
    + erewrite bindM_Ok by exact Hadd. intros Hrun. exists (Ok tt), wa.
      split; [reflexivity|].
      destruct (moveFileToFolder (fr_fileUrl fileData) BUFFER_FOLDER INFLOW_FOLDER wa)
        as [[[]|e] wm] eqn:Hmove.
      * erewrite bindM_Ok in Hrun by exact Hmove. injection Hrun as <- <-.
        now exists (Ok tt).
      * erewrite bindM_Throw in Hrun by exact Hmove. injection Hrun as <- <-.
        now exists (Throw e).
    + erewrite bindM_Throw by exact Hadd. intros [= <- <-]. now exists (Throw e), wa.
  - destruct (addToOutflowSheet OUTFLOW fileData w) as [[[]|e] wa] eqn:Hadd.
    + erewrite bindM_Ok by exact Hadd. intros Hrun. exists (Ok tt), wa.
      split; [reflexivity|].
      destruct (moveFileToFolder (fr_fileUrl fileData) BUFFER_FOLDER OUTFLOW_FOLDER wa)
        as [[[]|e] wm] eqn:Hmove.
      * erewrite bindM_Ok in Hrun by exact Hmove. injection Hrun as <- <-.
        now exists (Ok tt).
      * erewrite bindM_Throw in Hrun by exact Hmove. injection Hrun as <- <-.
        now exists (Throw e).
    + erewrite bindM_Throw by exact Hadd. intros [= <- <-]. now exists (Throw e), wa.
Qed.

(** The loop makes the per-row moves one after the other and counts each
    of them: as inflow, as outflow, or as an error when it failed. *)
Lemma moveLoop_trace finalSheetData : forall counts w,
  exists results counts' w',
    batchMoved finalSheetData w results w' /\
    moveLoop finalSheetData counts w = (Ok counts', w') /\
    mv_errorCount counts' = mv_errorCount counts + length (List.filter moveFailed results) /\
    mv_inflowCount counts'
      = mv_inflowCount counts + length (List.filter (movedTo true) results) /\
    mv_outflowCount counts'
      = mv_outflowCount counts + length (List.filter (movedTo false) results).
Proof.
  induction finalSheetData as [|fileData rest IH]; intros counts w.
  - exists [], counts, w. split; [constructor|]. cbn. repeat split; lia.
  - cbn [moveLoop].
    destruct (moveOneFile fileData w) as [r w1] eqn:Hone.
    pose proof (moveOneFile_rowMoved _ _ _ _ Hone) as Hmoved.
    assert (tryCatchM (moveOneFile fileData ≫= λ isInflow, mret (Some isInflow))
              (fun _ => mret None) w
            = (Ok match r with
                  | Ok b => Some b
                  | Throw _ => None
                  end, w1)) as Htry.
    { unfold tryCatchM, mbind, M_bind. rewrite Hone. now destruct r. }
    erewrite bindM_Ok by exact Htry.
    match goal with
    | |- context [moveLoop rest ?c w1] =>
        destruct (IH c w1) as (results & counts' & w' & Htrace & Hrun & He & Hi & Ho)
    end.
    exists (r :: results), counts', w'.
    split; [econstructor; eassumption|]. split; [exact Hrun|].
    rewrite He, Hi, Ho. cbn [List.filter].
    destruct r as [[|]|e]; cbn; repeat split; lia.
Qed.

(** C8. The batch makes the per-row moves in the order of the records:
    each appends the record's row to its category sheet and then moves the
    blob to the category folder.  A move that fails at either step is
    counted as an error.  When a move has failed, the batch returns with
    the store as the last move left it, the lock released: the Final sheet
    is as it was, and the rows appended and the blobs moved by the other
    moves stay.  Only when no move has failed is the Final sheet cleared.
    So if the run reports an error count other than zero, or throws, the
    Final sheet is as it was, and if the Final sheet changed, the error
    count is zero and only the header row is left. *)
Theorem final_sheet_cleared_only_without_errors (w : World) :
  exists r w' addedIn addedOut,
    moveFilesToInflowOutflow w = (r, w') /\
    sheetValues (inflowSheet w') = sheetValues (inflowSheet w) ++ addedIn /\
    sheetValues (outflowSheet w') = sheetValues (outflowSheet w) ++ addedOut /\
    match r with
    | Ok counts =>
        mv_inflowCount counts <= length addedIn /\
        mv_outflowCount counts <= length addedOut /\
        (mv_errorCount counts <> 0 -> finalSheet w' = finalSheet w) /\
        (finalSheet w' <> finalSheet w ->
           mv_errorCount counts = 0 /\
           sheetValues (finalSheet w') = take 1 (sheetValues (finalSheet w)))
    | Throw _ => finalSheet w' = finalSheet w
    end /\
    (scriptLock w <> LockHeldElsewhere ->
     getFinalSheetData (finalSheet w) <> [] ->
     exists results wl,
       batchMoved (getFinalSheetData (finalSheet w)) (setLock LockHeldHere w) results wl /\
       finalSheet wl = finalSheet w /\
       if existsb moveFailed results
       then
         w' = releaseLock wl /\
         exists counts,
           r = Ok counts /\
           mv_errorCount counts = length (List.filter moveFailed results) /\
           mv_inflowCount counts = length (List.filter (movedTo true) results) /\
           mv_outflowCount counts = length (List.filter (movedTo false) results)
       else
         w' = releaseLock (after (clearFinalSheet FINAL) wl) /\
         forall counts,
           r = Ok counts ->
           mv_errorCount counts = 0 /\
           mv_inflowCount counts = length (List.filter (movedTo true) results) /\
           mv_outflowCount counts = length (List.filter (movedTo false) results)).
Proof.
  destruct (moveFilesToInflowOutflow_effect w)
    as (r & w' & addedIn & addedOut & Hrun & Hin & Hout & Hsheets).
  exists r, w', addedIn, addedOut.
  split; [exact Hrun|]. split; [exact Hin|]. split; [exact Hout|]. split; [exact Hsheets|].
  intros Hfree Hdata.
  unfold moveFilesToInflowOutflow, tryFinally, tryCatchM in Hrun.
  erewrite bindM_Ok in Hrun by (now apply acquireLock_run).
  set (w0 := setLock LockHeldHere w) in *.
  erewrite bindM_Ok in Hrun by reflexivity.
  change (finalSheet w0) with (finalSheet w) in Hrun.
  destruct (length (getFinalSheetData (finalSheet w)) =? 0)%nat eqn:Hlen.
  { apply Nat.eqb_eq in Hlen. destruct (getFinalSheetData (finalSheet w)); [congruence|].
    discriminate Hlen. }
  destruct (moveLoop_trace (getFinalSheetData (finalSheet w)) noMoves w0)
    as (results & counts & wl & Htrace & Hloop & He & Hi & Ho).
  cbn [noMoves mv_errorCount mv_inflowCount mv_outflowCount] in He, Hi, Ho.
  rewrite Nat.add_0_l in He, Hi, Ho.
  destruct (moveLoop_grown (getFinalSheetData (finalSheet w)) noMoves w0)
    as (counts2 & wl2 & aI & aO & Hloop2 & (HF & _) & _).
  rewrite Hloop in Hloop2. injection Hloop2 as <- <-.
  erewrite bindM_Ok in Hrun by exact Hloop.
  exists results, wl. split; [exact Htrace|]. split; [exact HF|].
  assert (existsb moveFailed results = negb (length (List.filter moveFailed results) =? 0)%nat)
    as ->.
  { clear. induction results as [|x l IH]; [reflexivity|]. cbn.
    destruct (moveFailed x); cbn; [reflexivity|exact IH]. }
  rewrite <- He.
  destruct (mv_errorCount counts =? 0)%nat eqn:Herr; cbn [negb].
  - apply Nat.eqb_eq in Herr.
    destruct (clearFinalSheet FINAL wl) as [[[]|e] wc] eqn:Hclear.
    + erewrite bindM_Ok in Hrun by exact Hclear. injection Hrun as <- <-.
      unfold after. rewrite Hclear. split; [reflexivity|].
      intros counts' [= <-]. now repeat split.
    + erewrite bindM_Throw in Hrun by exact Hclear. injection Hrun as <- <-.
      unfold after. rewrite Hclear. split; [reflexivity|]. intros counts' Habsurd.
      discriminate Habsurd.
  - erewrite bindM_Ok in Hrun by reflexivity. injection Hrun as <- <-.
    split; [reflexivity|]. exists counts. now repeat split.
Qed.
End Categorisation.

(** A batch in which the only file fails (its blob is gone): the row has
    been appended to the Inflow sheet, the error is counted, and the Final
    sheet is not cleared. *)
Example batch_with_a_failed_move :
  let run := @moveFilesToInflowOutflow exampleRuntime worldWithMissingBlob in
  fst run = Ok {| mv_inflowCount := 0; mv_outflowCount := 0; mv_errorCount := 1;
                  mv_errors := [CStr "2024-01-05_Acme_INV-9_100.00.pdf"] |} /\
  finalSheet (snd run) = finalSheet worldWithMissingBlob /\
  length (sheetValues (inflowSheet (snd run))) = 2 /\
  scriptLock (snd run) = LockFree.
Proof. vm_compute. repeat split. Qed.

(** A batch of two files in which the second move fails: the first file
    has been moved, row and blob, and stays moved; the error is counted and
    the Final sheet keeps both rows. *)
Example batch_with_one_failed_move :
  let run := @moveFilesToInflowOutflow exampleRuntime worldWithOneMissingBlob in
  fst run = Ok {| mv_inflowCount := 1; mv_outflowCount := 0; mv_errorCount := 1;
                  mv_errors := [CStr "2024-01-06_Bolt_INV-3_20.00.pdf"] |} /\
  finalSheet (snd run) = finalSheet worldWithOneMissingBlob /\
  length (sheetValues (inflowSheet (snd run))) = 2 /\
  length (sheetValues (outflowSheet (snd run))) = 2 /\
  folderFiles (inflowFolder (snd run)) = ["A1"] /\
  folderFiles (bufferFolder (snd run)) = [] /\
  folderFiles (outflowFolder (snd run)) = [].
Proof. vm_compute. repeat split. Qed.

Lemma final_sheet_cleared_only_without_errors_witness :
  exists results wl,
    @batchMoved exampleRuntime (getFinalSheetData (finalSheet worldWithOneMissingBlob))
      (setLock LockHeldHere worldWithOneMissingBlob) results wl /\
    length (List.filter moveFailed results) = 1 /\
    length (List.filter (movedTo true) results) = 1 /\
    finalSheet wl = finalSheet worldWithOneMissingBlob /\
    after (@moveFilesToInflowOutflow exampleRuntime) worldWithOneMissingBlob = releaseLock wl.
Proof.
  destruct (@final_sheet_cleared_only_without_errors exampleRuntime worldWithOneMissingBlob)
    as (r & w' & addedIn & addedOut & Hrun & _ & _ & _ & Htrace).
  destruct (Htrace ltac:(discriminate) ltac:(vm_compute; discriminate))
    as (results & wl & Hmoved & Hfinal & Hcases).
  exists results, wl. split; [exact Hmoved|].
  assert (r = Ok {| mv_inflowCount := 1; mv_outflowCount := 0; mv_errorCount := 1;
                    mv_errors := [CStr "2024-01-06_Bolt_INV-3_20.00.pdf"] |}) as Hr.
  { transitivity (fst (@moveFilesToInflowOutflow exampleRuntime worldWithOneMissingBlob)).
    - now rewrite Hrun.
    - vm_compute. reflexivity. }
  assert (w' = after (@moveFilesToInflowOutflow exampleRuntime) worldWithOneMissingBlob) as Hw.
  { unfold after. now rewrite Hrun. }
  destruct (existsb moveFailed results).
  - destruct Hcases as (Hstore & counts & Hcounts & Herrors & Hinflow & _).
    rewrite Hr in Hcounts. injection Hcounts as <-. cbn in Herrors, Hinflow.
    split; [now symmetry|]. split; [now symmetry|]. split; [exact Hfinal|].
    now rewrite <- Hw.
  - destruct Hcases as (_ & Hnone). destruct (Hnone _ Hr) as (Habsurd & _).
    discriminate Habsurd.
Defined.

Example batch_without_errors :
  let run := @moveFilesToInflowOutflow exampleRuntime worldWithPendingDocument in
  fst run = Ok {| mv_inflowCount := 1; mv_outflowCount := 0; mv_errorCount := 0;
                  mv_errors := [] |} /\
  sheetValues (finalSheet (snd run)) = [FINAL_COLUMNS] /\
  length (sheetValues (inflowSheet (snd run))) = 2 /\
  folderFiles (inflowFolder (snd run)) = ["A1"] /\
  folderFiles (bufferFolder (snd run)) = [].
Proof. vm_compute. repeat split. Qed.

(** ** Duplicate File URLs *)






Section FinalSheetInsert.
Context `{Runtime}.


End FinalSheetInsert.


Example final_insert_examples :
  isDuplicateInFinalSheet (finalSheet worldWithPendingDocument) (af_fileUrl pendingFile)
    = true /\
  @addToFinalSheetUnlessDuplicate exampleRuntime FINAL pendingFile pendingAIData
    (mkTally 0 0 0) worldWithPendingDocument
    = (Ok (mkTally 1 0 0), worldWithPendingDocument) /\
  fst (@addToFinalSheetUnlessDuplicate exampleRuntime FINAL pendingFile pendingAIData
         (mkTally 0 0 0) freshWorld) = Ok (mkTally 0 1 0) /\
  length (sheetValues (finalSheet
    (after (@addToFinalSheetUnlessDuplicate exampleRuntime FINAL pendingFile pendingAIData
              (mkTally 0 0 0)) freshWorld))) = 2.
Proof. repeat split. Qed.


(** ** Reading and writing cells *)

Lemma safeGetCellValue_lookup row index :
  (0 <= index)%Z ->
  safeGetCellValue row index = default (CStr "") (row !! Z.to_nat index).
Proof.
  intros Hpos. unfold safeGetCellValue, safeGetCellValue'.
  destruct (index <? 0)%Z eqn:Hneg; [apply Z.ltb_lt in Hneg; lia|].
  destruct (Z.of_nat (length row) <=? index)%Z eqn:Hlen; cbn [orb].
  - apply Z.leb_le in Hlen. rewrite lookup_ge_None_2 by lia. reflexivity.
  - now destruct (row !! Z.to_nat index).
Qed.


Lemma lookup_padTo {A} (n : nat) (d : A) (l : list A) (i : nat) :
  default d (padTo n d l !! i) = default d (l !! i).
Proof.
  unfold padTo. destruct (decide (i < length l)) as [Hlt|Hge].
  - now rewrite lookup_app_l.
  - rewrite lookup_app_r, (lookup_ge_None_2 l i) by lia.
    destruct (replicate _ _ !! _) eqn:Hrep; [|reflexivity].
    apply lookup_replicate in Hrep as [-> _]. reflexivity.
Qed.

Lemma length_padTo {A} (n : nat) (d : A) (l : list A) :
  length (padTo n d l) = Nat.max n (length l).
Proof. unfold padTo. rewrite length_app, length_replicate. lia. Qed.

(** The row at index [r], an absent row reading as the empty row. *)
Lemma cellAt_writeCell_same values row column v :
  1 <= row -> 1 <= column ->
  cellAt (writeCell row column v values) row column = v.
Proof.
  intros Hr Hc. unfold cellAt, writeCell.
  destruct (padTo row [] values !! (row - 1)) as [r|] eqn:Hrow.
  - rewrite list_lookup_insert_eq by (rewrite length_padTo; lia).
    rewrite safeGetCellValue_lookup by lia.
    replace (Z.to_nat (Z.of_nat column - 1)) with (column - 1) by lia.
    rewrite list_lookup_insert_eq by (rewrite length_padTo; lia). reflexivity.
  - apply lookup_ge_None_1 in Hrow. rewrite length_padTo in Hrow. lia.
Qed.

Lemma cellAt_writeCell_other values row column v row' column' :
  1 <= row -> 1 <= column -> 1 <= row' -> 1 <= column' ->
  row' <> row \/ column' <> column ->
  cellAt (writeCell row column v values) row' column' = cellAt values row' column'.
Proof.
  intros Hr Hc Hr' Hc' Hne. unfold cellAt, writeCell.
  assert (forall (l : list (list Cell)) k,
            match l !! k with
            | Some r => safeGetCellValue r (Z.of_nat column' - 1)
            | None => CStr ""
            end = default (CStr "") (default [] (l !! k) !! (column' - 1))) as Hread.
  { intros l k. destruct (l !! k) as [r|]; cbn [default from_option id]; [|reflexivity].
    rewrite safeGetCellValue_lookup by lia. do 2 f_equal. lia. }
  rewrite !Hread.
  destruct (padTo row [] values !! (row - 1)) as [r|] eqn:Hrow.
  2:{ apply lookup_ge_None_1 in Hrow. rewrite length_padTo in Hrow. lia. }
  destruct (decide (row' = row)) as [->|Hrow'].
  - rewrite list_lookup_insert_eq by (rewrite length_padTo; lia). cbn [default from_option id].
    rewrite list_lookup_insert_ne by (destruct Hne; [congruence|lia]).
    rewrite lookup_padTo.
    assert (r = default [] (values !! (row - 1))) as ->; [|reflexivity].
    pose proof (lookup_padTo row [] values (row - 1)) as Hpad.
    now rewrite Hrow in Hpad.
  - rewrite list_lookup_insert_ne by lia. now rewrite lookup_padTo.
Qed.

Lemma headerRow_writeCell values row column v :
  2 <= row -> headerRow (writeCell row column v values) = headerRow values.
Proof.
  intros Hr. unfold writeCell.
  assert (forall l : list (list Cell), headerRow l = default [] (l !! 0)) as Hhd
    by (now intros [|h l]).
  destruct (padTo row [] values !! (row - 1)) as [r|]; rewrite !Hhd.
  - rewrite list_lookup_insert_ne by lia. apply lookup_padTo.
  - apply lookup_padTo.
Qed.

(** ** Columns found by name *)

Lemma strictEq_CStr c name : strictEq c (CStr name) = true -> c = CStr name.
Proof.
  destruct c as [s| | |]; cbn; try discriminate.
  now intros ->%String.eqb_eq.
Qed.

Lemma indexOfFrom_spec name headers : forall i,
  indexOfFrom name headers i = (-1)%Z \/
  exists k, indexOfFrom name headers i = (i + Z.of_nat k)%Z /\
            headers !! k = Some (CStr name).
Proof.
  induction headers as [|h rest IH]; intros i; [now left|].
  cbn [indexOfFrom]. destruct (strictEq h (CStr name)) eqn:Heq.
  - right. exists 0. apply strictEq_CStr in Heq as ->. split; [lia|reflexivity].
  - destruct (IH (i + 1)%Z) as [Hnone|(k & Hk & Hlook)]; [now left|].
    right. exists (S k). split; [lia|exact Hlook].
Qed.

Lemma getColumnIndex_spec headers name :
  getColumnIndex headers name = (-1)%Z \/
  (0 <= getColumnIndex headers name)%Z /\
  headers !! Z.to_nat (getColumnIndex headers name) = Some (CStr name).
Proof.
  unfold getColumnIndex.
  destruct (indexOfFrom_spec name headers 0) as [Hnone|(k & Hk & Hlook)]; [now left|].
  right. rewrite Hk. split; [lia|].
  now replace (Z.to_nat (0 + Z.of_nat k)) with k by lia.
Qed.

(** Two names found in the same column are the same name. *)
Lemma getColumnIndex_inj headers name1 name2 :
  getColumnIndex headers name1 <> (-1)%Z ->
  getColumnIndex headers name1 = getColumnIndex headers name2 ->
  name1 = name2.
Proof.
  intros Hfound Heq.
  destruct (getColumnIndex_spec headers name1) as [Hnone|[_ H1]]; [congruence|].
  destruct (getColumnIndex_spec headers name2) as [Hnone|[_ H2]]; [congruence|].
  rewrite Heq in H1. congruence.
Qed.

Lemma cellAt_row values k row index :
  values !! k = Some row -> (0 <= index)%Z ->
  cellAt values (S k) (Z.to_nat index + 1) = safeGetCellValue row index.
Proof.
  intros Hrow Hidx. unfold cellAt.
  replace (S k - 1) with k by lia. rewrite Hrow. f_equal. lia.
Qed.

(** ** Writes made by the reconciliation pass *)

Lemma setValue_run ref row column v w :
  sheetAccess (sheetOf w ref) = ReadWrite ->
  setValue ref row column v w =
    (Ok tt, setSheet ref (mkSheet (writeCell row column v (sheetValues (sheetOf w ref)))
                            ReadWrite) w).
Proof. intros Hrw. unfold setValue. now rewrite writing_ok. Qed.

Lemma setIfColumn_inv ref row index v w w1 :
  setIfColumn ref row index v w = (Ok tt, w1) ->
  index = (-1)%Z /\ w1 = w \/
  index <> (-1)%Z /\ sheetAccess (sheetOf w ref) = ReadWrite /\
  w1 = setSheet ref (mkSheet (writeCell row (Z.to_nat index + 1) v
                                 (sheetValues (sheetOf w ref))) ReadWrite) w.
Proof.
  unfold setIfColumn. destruct (index =? -1)%Z eqn:Hidx.
  - apply Z.eqb_eq in Hidx. intros [= <-]. now left.
  - apply Z.eqb_neq in Hidx. unfold setValue, writing.
    destruct (sheetAccess (sheetOf w ref)); [|discriminate..].
    intros [= <-]. right. now repeat split.
Qed.

Lemma rethrow_inv {A} (body : M A) w a w1 :
  tryCatchM body (fun error => throw error) w = (Ok a, w1) -> body w = (Ok a, w1).
Proof.
  unfold tryCatchM, throw. destruct (body w) as [[a'|e] w']; [trivial|discriminate].
Qed.

Lemma rethrow_run {A} (body : M A) w :
  tryCatchM body (fun error => throw error) w = body w.
Proof. unfold tryCatchM, throw. now destruct (body w) as [[a'|e] w']. Qed.

Lemma setValue_inv ref row column v w w1 :
  setValue ref row column v w = (Ok tt, w1) ->
  sheetAccess (sheetOf w ref) = ReadWrite /\
  w1 = setSheet ref (mkSheet (writeCell row column v (sheetValues (sheetOf w ref)))
                       ReadWrite) w.
Proof.
  unfold setValue, writing. destruct (sheetAccess (sheetOf w ref)); [|discriminate..].
  now intros [= <-].
Qed.

(** A write to row [row] of a sheet leaves the header and every other
    cell of that sheet as they were, and the other sheets too. *)
Lemma setValue_cells ref row column v w w1 :
  setValue ref row column v w = (Ok tt, w1) -> 2 <= row -> 1 <= column ->
  headerRow (sheetValues (sheetOf w1 ref)) = headerRow (sheetValues (sheetOf w ref)) /\
  cellAt (sheetValues (sheetOf w1 ref)) row column = v /\
  (forall r c, 1 <= r -> 1 <= c -> r <> row \/ c <> column ->
     cellAt (sheetValues (sheetOf w1 ref)) r c = cellAt (sheetValues (sheetOf w ref)) r c) /\
  (forall ref', ref' <> ref -> sheetOf w1 ref' = sheetOf w ref').
Proof.
  intros [Hrw ->]%setValue_inv Hrow Hcol.
  rewrite sheetOf_setSheet. cbn [sheetValues].
  split; [now apply headerRow_writeCell|].
  split; [apply cellAt_writeCell_same; lia|].
  split.
  - intros r c Hr Hc Hne. apply cellAt_writeCell_other; lia || exact Hne.
  - intros ref' Hne. apply sheetOf_setSheet_ne. congruence.
Qed.

Lemma setIfColumn_cells ref row index v w w1 :
  setIfColumn ref row index v w = (Ok tt, w1) -> 2 <= row ->
  headerRow (sheetValues (sheetOf w1 ref)) = headerRow (sheetValues (sheetOf w ref)) /\
  (index <> (-1)%Z -> cellAt (sheetValues (sheetOf w1 ref)) row (Z.to_nat index + 1) = v) /\
  (forall r c, 1 <= r -> 1 <= c ->
     index = (-1)%Z \/ r <> row \/ c <> Z.to_nat index + 1 ->
     cellAt (sheetValues (sheetOf w1 ref)) r c = cellAt (sheetValues (sheetOf w ref)) r c) /\
  (forall ref', ref' <> ref -> sheetOf w1 ref' = sheetOf w ref').
Proof.
  unfold setIfColumn. destruct (index =? -1)%Z eqn:Hidx.
  - apply Z.eqb_eq in Hidx. intros [= <-] _. repeat split; intros; congruence.
  - apply Z.eqb_neq in Hidx. intros Hrun Hrow.
    destruct (setValue_cells _ _ _ _ _ _ Hrun Hrow ltac:(lia)) as (Hh & Hv & Ho & Hf).
    split; [exact Hh|]. split; [intros _; exact Hv|]. split; [|exact Hf].
    intros r c Hr Hc [Hnone|Hother]; [congruence|now apply Ho].
Qed.

Lemma column_ne headers name1 name2 :
  name1 <> name2 ->
  getColumnIndex headers name1 <> (-1)%Z ->
  getColumnIndex headers name2 <> (-1)%Z ->
  Z.to_nat (getColumnIndex headers name1) + 1 <> Z.to_nat (getColumnIndex headers name2) + 1.
Proof.
  intros Hne Hfound1 Hfound2 Heq.
  destruct (getColumnIndex_spec headers name1) as [Hnone|[Hpos1 _]]; [congruence|].
  destruct (getColumnIndex_spec headers name2) as [Hnone|[Hpos2 _]]; [congruence|].
  apply Hne. eapply getColumnIndex_inj; [exact Hfound1|lia].
Qed.

(** A column found under one name is not the column written under another
    name, if that one is written at all. *)
Lemma other_column headers name1 name2 (row : nat) :
  name1 <> name2 ->
  getColumnIndex headers name1 <> (-1)%Z ->
  getColumnIndex headers name2 = (-1)%Z \/ row <> row \/
  Z.to_nat (getColumnIndex headers name1) + 1 <> Z.to_nat (getColumnIndex headers name2) + 1.
Proof.
  intros Hne Hfound.
  destruct (Z.eq_dec (getColumnIndex headers name2) (-1)%Z) as [Hnone|Hfound2]; [now left|].
  right. right. now apply column_ne.
Qed.

Lemma getHeaders_inv ref w headers w0 :
  getHeaders ref w = (Ok headers, w0) ->
  headers = headerRow (sheetValues (sheetOf w ref)) /\ w0 = w.
Proof.
  unfold getHeaders. intros [Hread ->]%liftR_inv. split; [|reflexivity].
  unfold getLastColumn, reading in Hread.
  destruct (sheetAccess (sheetOf w ref)); cbn [mbind Result_bind] in Hread;
    try discriminate;
    destruct (_ =? 0)%nat; try discriminate; now injection Hread.
Qed.

Section BufferUpdates.
Context `{Runtime}.

(** What [updateBufferSheetForReactivation] leaves behind when it returns:
    the header is as before; in the given row the status is Active and the
    reason is the reactivation note; no other row is touched, nor any other
    sheet. *)
Lemma updateBufferSheetForReactivation_effect i w w1 :
  2 <= i ->
  updateBufferSheetForReactivation BUFFER i w = (Ok tt, w1) ->
  let headers := headerRow (sheetValues (bufferSheet w)) in
  headerRow (sheetValues (bufferSheet w1)) = headers /\
  (getColumnIndex headers "Status" <> (-1)%Z ->
   cellAt (sheetValues (bufferSheet w1)) i (Z.to_nat (getColumnIndex headers "Status") + 1)
     = CStr STATUS.ACTIVE) /\
  (getColumnIndex headers "Reason" <> (-1)%Z ->
   exists previous,
     cellAt (sheetValues (bufferSheet w1)) i (Z.to_nat (getColumnIndex headers "Reason") + 1)
       = CStr ("Reactivated on " +:+ getCurrentTimestamp +:+ ". Previous: " +:+ previous)) /\
  (forall r c, 1 <= r -> 1 <= c -> r <> i ->
     cellAt (sheetValues (bufferSheet w1)) r c = cellAt (sheetValues (bufferSheet w)) r c) /\
  (forall ref, ref <> BUFFER -> sheetOf w1 ref = sheetOf w ref).
Proof.
  intros Hrow Hrun headers. apply rethrow_inv in Hrun.
  stepM Hrun as hs w0 Hh. apply getHeaders_inv in Hh as [-> ->].
  change (sheetOf w BUFFER) with (bufferSheet w) in Hrun. fold headers in Hrun.
  stepM Hrun as u1 wa Hstatus. cbv zeta in Hrun.
  stepM Hrun as u2 wb Hreason.
  stepM Hrun as u3 wc Hattempts. destruct u1, u2, u3.
  destruct (setIfColumn_cells _ _ _ _ _ _ Hstatus Hrow) as (Hh1 & Hv1 & Ho1 & Hf1).
  destruct (setIfColumn_cells _ _ _ _ _ _ Hattempts Hrow) as (Hh3 & _ & Ho3 & Hf3).
  destruct (setIfColumn_cells _ _ _ _ _ _ Hrun Hrow) as (Hh4 & _ & Ho4 & Hf4).
  assert (headerRow (sheetValues (sheetOf wb BUFFER)) = headerRow (sheetValues (sheetOf wa BUFFER)) /\
          (getColumnIndex headers "Reason" <> (-1)%Z ->
           exists previous,
             cellAt (sheetValues (sheetOf wb BUFFER)) i
               (Z.to_nat (getColumnIndex headers "Reason") + 1)
             = CStr ("Reactivated on " +:+ getCurrentTimestamp +:+ ". Previous: " +:+ previous)) /\
          (forall r c, 1 <= r -> 1 <= c ->
             getColumnIndex headers "Reason" = (-1)%Z \/ r <> i \/
             c <> Z.to_nat (getColumnIndex headers "Reason") + 1 ->
             cellAt (sheetValues (sheetOf wb BUFFER)) r c
             = cellAt (sheetValues (sheetOf wa BUFFER)) r c) /\
          (forall ref, ref <> BUFFER -> sheetOf wb ref = sheetOf wa ref))
    as (Hh2 & Hv2 & Ho2 & Hf2).
  { destruct (getColumnIndex headers "Reason" =? -1)%Z eqn:Hidx.
    - apply Z.eqb_eq in Hidx. apply mretM_inv in Hreason as [_ ->].
      repeat split; intros; congruence.
    - apply Z.eqb_neq in Hidx.
      stepM Hreason as currentReason wa' Hget. apply liftR_inv in Hget as [_ ->].
      destruct (setValue_cells _ _ _ _ _ _ Hreason Hrow ltac:(lia)) as (Hh2 & Hv2 & Ho2 & Hf2).
      split; [exact Hh2|]. split; [intros _; eexists; exact Hv2|]. split; [|exact Hf2].
      intros r c Hr Hc [Hnone|Hother]; [congruence|now apply Ho2]. }
  change (bufferSheet ?x) with (sheetOf x BUFFER).
  split; [now rewrite Hh4, Hh3, Hh2, Hh1|].
  split; [|split; [|split]].
  - intros Hfound.
    rewrite Ho4, Ho3, Ho2 by (lia || (apply other_column; [discriminate|exact Hfound])).
    now apply Hv1.
  - intros Hfound. destruct (Hv2 Hfound) as (previous & Hprev). exists previous.
    rewrite Ho4, Ho3 by (lia || (apply other_column; [discriminate|exact Hfound])).
    exact Hprev.
  - intros r c Hr Hc Hne.
    rewrite Ho4, Ho3, Ho2, Ho1 by (lia || (right; left; exact Hne)). reflexivity.
  - intros ref Hne. now rewrite Hf4, Hf3, Hf2, Hf1.
Qed.

(** The same for [updateBufferSheetForDeletion]: status Deleted, reason
    prefixed with "Deleted: ". *)
Lemma updateBufferSheetForDeletion_effect i reason w w1 :
  2 <= i ->
  updateBufferSheetForDeletion BUFFER i reason w = (Ok tt, w1) ->
  let headers := headerRow (sheetValues (bufferSheet w)) in
  headerRow (sheetValues (bufferSheet w1)) = headers /\
  (getColumnIndex headers "Status" <> (-1)%Z ->
   cellAt (sheetValues (bufferSheet w1)) i (Z.to_nat (getColumnIndex headers "Status") + 1)
     = CStr STATUS.DELETED) /\
  (getColumnIndex headers "Reason" <> (-1)%Z ->
   cellAt (sheetValues (bufferSheet w1)) i (Z.to_nat (getColumnIndex headers "Reason") + 1)
     = CStr ("Deleted: " +:+ cellToString reason +:+ " (" +:+ getCurrentTimestamp +:+ ")")) /\
  (forall r c, 1 <= r -> 1 <= c -> r <> i ->
     cellAt (sheetValues (bufferSheet w1)) r c = cellAt (sheetValues (bufferSheet w)) r c) /\
  (forall ref, ref <> BUFFER -> sheetOf w1 ref = sheetOf w ref).
Proof.
  intros Hrow Hrun headers. apply rethrow_inv in Hrun.
  stepM Hrun as hs w0 Hh. apply getHeaders_inv in Hh as [-> ->].
  change (sheetOf w BUFFER) with (bufferSheet w) in Hrun. fold headers in Hrun.
  stepM Hrun as u1 wa Hstatus.
  stepM Hrun as u2 wb Hreason. destruct u1, u2.
  destruct (setIfColumn_cells _ _ _ _ _ _ Hstatus Hrow) as (Hh1 & Hv1 & Ho1 & Hf1).
  destruct (setIfColumn_cells _ _ _ _ _ _ Hreason Hrow) as (Hh2 & Hv2 & Ho2 & Hf2).
  destruct (setIfColumn_cells _ _ _ _ _ _ Hrun Hrow) as (Hh3 & _ & Ho3 & Hf3).
  change (bufferSheet ?x) with (sheetOf x BUFFER).
  split; [now rewrite Hh3, Hh2, Hh1|].
  split; [|split; [|split]].
  - intros Hfound.
    rewrite Ho3, Ho2 by (lia || (apply other_column; [discriminate|exact Hfound])).
    now apply Hv1.
  - intros Hfound.
    rewrite Ho3 by (lia || (apply other_column; [discriminate|exact Hfound])).
    now apply Hv2.
  - intros r c Hr Hc Hne.
    rewrite Ho3, Ho2, Ho1 by (lia || (right; left; exact Hne)). reflexivity.
  - intros ref Hne. now rewrite Hf3, Hf2, Hf1.
Qed.
End BufferUpdates.

(** ** What the reactivation of one record touches *)

#[export] Instance rowsKept_preorder kept : PreOrder (rowsKept kept).
Proof.
  split.
  - intros w r c _ _ _. reflexivity.
  - intros w1 w2 w3 H12 H23 r c Hr Hc Hk. now rewrite H23, H12.
Qed.

#[export] Instance finalKept_preorder : PreOrder finalKept.
Proof.
  split.
  - intros w. reflexivity.
  - intros w1 w2 w3 H12 H23. unfold finalKept in *. congruence.
Qed.

Lemma sameSheets_rowsKept kept w w1 : sameSheets w w1 -> rowsKept kept w w1.
Proof. intros [Hs _] r c _ _ _. now rewrite (Hs BUFFER : bufferSheet w1 = bufferSheet w). Qed.

Lemma sameSheets_finalKept w w1 : sameSheets w w1 -> finalKept w w1.
Proof. intros [Hs _]. exact (Hs FINAL). Qed.

Lemma preserves_weaken {A} (R R' : World -> World -> Prop) (m : M A) :
  (forall w w1, R w w1 -> R' w w1) -> preserves R m -> preserves R' m.
Proof. intros Hsub Hm w. apply Hsub, Hm. Qed.

Lemma writing_rowsKept kept ref row column v :
  1 <= row -> 1 <= column -> (ref = BUFFER -> ~ kept row) ->
  preserves (rowsKept kept) (writing ref (writeCell row column v)).
Proof.
  intros Hrow Hcol Hfree w. unfold writing.
  destruct (sheetAccess (sheetOf w ref)); cbn [snd]; try reflexivity.
  intros r c Hr Hc Hk. destruct ref; try reflexivity.
  cbn [setSheet bufferSheet sheetValues sheetOf].
  apply cellAt_writeCell_other; try lia. left. intros ->. now apply Hfree.
Qed.

Lemma writing_other_rowsKept kept ref f :
  ref <> BUFFER -> preserves (rowsKept kept) (writing ref f).
Proof.
  intros Hne w. unfold writing.
  destruct (sheetAccess (sheetOf w ref)); cbn [snd]; try reflexivity.
  intros r c _ _ _. now destruct ref.
Qed.

Lemma writing_buffer_finalKept f : preserves finalKept (writing BUFFER f).
Proof.
  intros w. unfold writing.
  destruct (sheetAccess (sheetOf w BUFFER)); cbn [snd]; reflexivity.
Qed.

Lemma setIfColumn_rowsKept kept ref row index v :
  1 <= row -> (ref = BUFFER -> ~ kept row) ->
  preserves (rowsKept kept) (setIfColumn ref row index v).
Proof.
  intros Hrow Hfree. unfold setIfColumn, setValue.
  destruct (index =? -1)%Z; [apply preserves_ret; typeclasses eauto|].
  apply writing_rowsKept; [exact Hrow|lia|exact Hfree].
Qed.

Lemma setIfColumn_finalKept row index v :
  preserves finalKept (setIfColumn BUFFER row index v).
Proof.
  unfold setIfColumn, setValue.
  destruct (index =? -1)%Z; [apply preserves_ret; typeclasses eauto|].
  apply writing_buffer_finalKept.
Qed.

Lemma generateUniqueId_rowsKept `{Runtime} kept : preserves (rowsKept kept) generateUniqueId.
Proof.
  eapply preserves_weaken; [apply sameSheets_rowsKept|apply generateUniqueId_sameSheets].
Qed.

Section ReactivationFrames.
Context `{Runtime}.

Lemma updateBufferSheetForReactivation_rowsKept kept i :
  1 <= i -> ~ kept i ->
  preserves (rowsKept kept) (updateBufferSheetForReactivation BUFFER i).
Proof.
  intros Hrow Hfree. unfold updateBufferSheetForReactivation, getHeaders, getValue, setValue.
  repeat first
    [ apply preserves_bind; [typeclasses eauto| |intros ?]
    | apply preserves_tryCatchM; [typeclasses eauto| |intros ?]
    | apply preserves_ret; typeclasses eauto
    | apply preserves_throw; typeclasses eauto
    | apply preserves_liftR; typeclasses eauto
    | apply setIfColumn_rowsKept; [exact Hrow|intros _; exact Hfree]
    | apply writing_rowsKept; [exact Hrow|lia|intros _; exact Hfree]
    | apply preserves_if ].
Qed.

Lemma updateBufferSheetForReactivation_finalKept i :
  preserves finalKept (updateBufferSheetForReactivation BUFFER i).
Proof.
  unfold updateBufferSheetForReactivation, getHeaders, getValue, setValue.
  repeat first
    [ apply preserves_bind; [typeclasses eauto| |intros ?]
    | apply preserves_tryCatchM; [typeclasses eauto| |intros ?]
    | apply preserves_ret; typeclasses eauto
    | apply preserves_throw; typeclasses eauto
    | apply preserves_liftR; typeclasses eauto
    | apply setIfColumn_finalKept
    | apply writing_buffer_finalKept
    | apply preserves_if ].
Qed.

Lemma restoreToFinalSheet_rowsKept kept item :
  preserves (rowsKept kept) (restoreToFinalSheet item).
Proof.
  unfold restoreToFinalSheet, appendRow.
  repeat first
    [ apply preserves_bind; [typeclasses eauto| |intros ?]
    | apply preserves_tryCatchM; [typeclasses eauto| |intros ?]
    | apply preserves_throw; typeclasses eauto
    | apply generateUniqueId_rowsKept
    | apply writing_other_rowsKept; discriminate ].
Qed.

(** Reactivating one record changes no cell of any other Buffer row. *)
Lemma processFileReactivation_rowsKept kept item :
  1 <= rowIndex item -> ~ kept (rowIndex item) ->
  preserves (rowsKept kept) (processFileReactivation item BUFFER).
Proof.
  intros Hrow Hfree. unfold processFileReactivation.
  repeat first
    [ apply restoreToFinalSheet_rowsKept
    | apply updateBufferSheetForReactivation_rowsKept; [exact Hrow|exact Hfree]
    | eapply preserves_weaken;
        [apply sameSheets_rowsKept|apply ensureFileInBufferFolder_sameSheets]
    | apply preserves_bind; [typeclasses eauto| |intros ?]
    | apply preserves_tryCatchM; [typeclasses eauto| |intros ?]
    | apply preserves_ret; typeclasses eauto
    | apply preserves_throw; typeclasses eauto
    | apply preserves_if ].
Qed.
End ReactivationFrames.

Lemma finalKept_finalGrownBy n w w1 : finalKept w w1 -> finalGrownBy n w w1.
Proof. unfold finalKept, finalGrownBy. intros ->. lia. Qed.

Lemma finalGrownBy_after_kept {A B} n (m : M A) (f : A -> M B) :
  preserves finalKept m -> (forall a, preserves (finalGrownBy n) (f a)) ->
  preserves (finalGrownBy n) (m ≫= f).
Proof.
  intros Hm Hf w. unfold mbind, M_bind. specialize (Hm w).
  destruct (m w) as [[a|e] w1]; cbn [snd] in *.
  - specialize (Hf a w1). unfold finalKept, finalGrownBy in *. now rewrite <- Hm.
  - now apply finalKept_finalGrownBy.
Qed.

Lemma finalGrownBy_rethrow {A} n (body : M A) :
  preserves (finalGrownBy n) body ->
  preserves (finalGrownBy n) (tryCatchM body (fun error => throw error)).
Proof. intros Hb w. rewrite rethrow_run. apply Hb. Qed.

Lemma appendRow_finalGrownBy row : preserves (finalGrownBy 1) (appendRow FINAL row).
Proof.
  intros w. unfold appendRow, writing, finalGrownBy. cbn [sheetOf].
  destruct (sheetAccess (finalSheet w)); cbn; rewrite ?length_app; cbn; lia.
Qed.

Section ReactivationGrowth.
Context `{Runtime}.

Lemma restoreToFinalSheet_finalGrownBy item :
  preserves (finalGrownBy 1) (restoreToFinalSheet item).
Proof.
  unfold restoreToFinalSheet. apply finalGrownBy_rethrow.
  apply finalGrownBy_after_kept.
  - eapply preserves_weaken; [apply sameSheets_finalKept|apply generateUniqueId_sameSheets].
  - intros uniqueId. cbv zeta. apply appendRow_finalGrownBy.
Qed.

(** Reactivating one record appends at most one row to the Final sheet. *)
Lemma processFileReactivation_finalGrownBy item :
  preserves (finalGrownBy 1) (processFileReactivation item BUFFER).
Proof.
  unfold processFileReactivation. apply finalGrownBy_rethrow.
  apply finalGrownBy_after_kept.
  { eapply preserves_weaken;
      [apply sameSheets_finalKept|apply ensureFileInBufferFolder_sameSheets]. }
  intros _. apply finalGrownBy_after_kept.
  { apply updateBufferSheetForReactivation_finalKept. }
  intros _. cbv zeta. destruct (negb (hasValidAIData item)).
  - intros w. apply finalKept_finalGrownBy. reflexivity.
  - apply restoreToFinalSheet_finalGrownBy.
Qed.

(** The loop over the detected records touches only their rows, and
    appends to the Final sheet at most one row for each of them. *)
Lemma processReactivations_frame kept items : forall n errors w,
  Forall (fun item => 1 <= rowIndex item /\ ~ kept (rowIndex item)) items ->
  rowsKept kept w (snd (processReactivations items n errors w)) /\
  finalGrownBy (length items) w (snd (processReactivations items n errors w)).
Proof.
  induction items as [|item rest IH]; intros n errors w Hall.
  - split; [reflexivity|]. unfold finalGrownBy. cbn. lia.
  - apply Forall_cons in Hall as [[Hrow Hfree] Hrest].
    cbn [processReactivations].
    pose proof (processFileReactivation_rowsKept kept item Hrow Hfree w) as Hkept.
    pose proof (processFileReactivation_finalGrownBy item w) as Hgrow.
    assert (exists done,
      tryCatchM (processFileReactivation item BUFFER ≫= λ _, mret true)
        (fun _ => mret false) w
      = (Ok done, snd (processFileReactivation item BUFFER w))) as (done & Htry).
    { unfold tryCatchM, mbind, M_bind.
      destruct (processFileReactivation item BUFFER w) as [[u|e] w1]; eexists; reflexivity. }
    erewrite bindM_Ok by exact Htry.
    set (w1 := snd (processFileReactivation item BUFFER w)) in *.
    destruct done;
      match goal with
      | |- context [processReactivations rest ?n' ?errs' w1] =>
          destruct (IH n' errs' w1 Hrest) as [Hk Hg]
      end;
      (split; [etransitivity; eassumption|]);
      unfold finalGrownBy in *; cbn [length]; lia.
Qed.
End ReactivationGrowth.

#[export] Instance bufferKept_preorder : PreOrder bufferKept.
Proof.
  split.
  - intros w. reflexivity.
  - intros w1 w2 w3 H12 H23. unfold bufferKept in *. congruence.
Qed.

Lemma sameSheets_bufferKept w w1 : sameSheets w w1 -> bufferKept w w1.
Proof. intros [Hs _]. exact (Hs BUFFER). Qed.

Lemma writing_other_bufferKept ref f : ref <> BUFFER -> preserves bufferKept (writing ref f).
Proof.
  intros Hne w. unfold writing.
  destruct (sheetAccess (sheetOf w ref)); cbn [snd]; try reflexivity.
  now destruct ref.
Qed.

Lemma reactivationGuard_of_note status note :
  reactivationGuard status (CStr ("Reactivated on " +:+ note)) <> Ok true.
Proof.
  unfold reactivationGuard. destruct (strictEq status _); discriminate.
Qed.

Section ReactivationIdempotent.
Context `{Runtime}.

Lemma restoreToFinalSheet_bufferKept item : preserves bufferKept (restoreToFinalSheet item).
Proof.
  unfold restoreToFinalSheet, appendRow.
  repeat first
    [ apply preserves_bind; [typeclasses eauto| |intros ?]
    | apply preserves_tryCatchM; [typeclasses eauto| |intros ?]
    | apply preserves_throw; typeclasses eauto
    | eapply preserves_weaken;
        [apply sameSheets_bufferKept|apply generateUniqueId_sameSheets]
    | apply writing_other_bufferKept; discriminate ].
Qed.

(** What a successful reactivation leaves in the Buffer sheet: the header
    as it was, and in the record's row the status Active and a reason that
    starts with "Reactivated on ". *)
Lemma processFileReactivation_effect item w w' :
  2 <= rowIndex item ->
  processFileReactivation item BUFFER w = (Ok tt, w') ->
  let headers := headerRow (sheetValues (bufferSheet w)) in
  headerRow (sheetValues (bufferSheet w')) = headers /\
  (getColumnIndex headers "Status" <> (-1)%Z ->
   cellAt (sheetValues (bufferSheet w')) (rowIndex item)
     (Z.to_nat (getColumnIndex headers "Status") + 1) = CStr STATUS.ACTIVE) /\
  (getColumnIndex headers "Reason" <> (-1)%Z ->
   exists previous,
     cellAt (sheetValues (bufferSheet w')) (rowIndex item)
       (Z.to_nat (getColumnIndex headers "Reason") + 1)
     = CStr ("Reactivated on " +:+ getCurrentTimestamp +:+ ". Previous: " +:+ previous)).
Proof.
  intros Hrow Hrun headers. apply rethrow_inv in Hrun.
  stepM Hrun as u1 wa Hensure. stepM Hrun as u2 wb Hupdate. destruct u1, u2.
  pose proof (ensureFileInBufferFolder_sameSheets item BUFFER_FOLDER w) as Hsame.
  rewrite Hensure in Hsame. apply sameSheets_bufferKept in Hsame.
  unfold bufferKept in Hsame. cbn [snd] in Hsame.
  destruct (updateBufferSheetForReactivation_effect _ _ _ Hrow Hupdate)
    as (Hh & Hs & Hr & _ & _).
  rewrite Hsame in Hh, Hs, Hr. fold headers in Hh, Hs, Hr.
  assert (bufferSheet w' = bufferSheet wb) as ->; [|now repeat split].
  cbv zeta in Hrun. destruct (negb (hasValidAIData item)).
  - now apply mretM_inv in Hrun as [_ ->].
  - pose proof (restoreToFinalSheet_bufferKept item wb) as Hkept.
    now rewrite Hrun in Hkept.
Qed.

(** C4. Reactivation is idempotent. Once [processFileReactivation] has
    succeeded for a detected record, its row has status Active and a reason
    that starts with "Reactivated on "; the row fails the guard, so the next
    detection does not return it; and applying the effect to whatever that
    detection returns changes no cell of the row and appends to the Final
    sheet at most one row for each record detected then, none for this
    one. *)
Theorem reactivation_is_idempotent
    (w w' : World) (items : list ReactivationItem) (item : ReactivationItem) :
  getFilesMarkedForReactivation (bufferSheet w) = Ok items ->
  In item items ->
  processFileReactivation item BUFFER w = (Ok tt, w') ->
  exists items',
    getFilesMarkedForReactivation (bufferSheet w') = Ok items' /\
    ~ In (rowIndex item) (map rowIndex items') /\
    forall n errors,
      (forall c, 1 <= c ->
         cellAt (sheetValues (bufferSheet (after (processReactivations items' n errors) w')))
           (rowIndex item) c
         = cellAt (sheetValues (bufferSheet w')) (rowIndex item) c) /\
      length (sheetValues (finalSheet (after (processReactivations items' n errors) w')))
        <= length (sheetValues (finalSheet w')) + length items'.
Proof.
  intros Hdetect Hin Hrun.
  destruct (getFilesMarkedForReactivation_items _ _ _ Hdetect Hin)
    as (k & row & Hrow & Hidx & Hguard).
  apply reactivationGuard_true in Hguard as (Hstatus & reason & Hreason & Hprefix).
  set (headers := headerRow (sheetValues (bufferSheet w))) in *.
  assert (getColumnIndex headers "Status" <> (-1)%Z) as Hs.
  { intros Hnone. rewrite Hnone in Hstatus. discriminate Hstatus. }
  assert (getColumnIndex headers "Reason" <> (-1)%Z) as Hr.
  { intros Hnone. rewrite Hnone in Hreason. injection Hreason as <-. discriminate Hprefix. }
  destruct (processFileReactivation_effect item w w' ltac:(lia) Hrun)
    as (Hheader & _ & Hnote). fold headers in Hheader, Hnote.
  destruct (Hnote Hr) as (previous & Hcell).
  destruct (getFilesMarkedForReactivation_total (bufferSheet w')) as (items' & Hdetect').
  exists items'. split; [exact Hdetect'|].
  assert (~ In (rowIndex item) (map rowIndex items')) as Hnotin.
  { intros Hin'. apply in_map_iff in Hin' as (item' & Hsame & Hin').
    destruct (getFilesMarkedForReactivation_items _ _ _ Hdetect' Hin')
      as (k' & row' & Hrow' & Hidx' & Hguard').
    assert (k' = k) as -> by lia.
    rewrite Hheader in Hguard'.
    destruct (getColumnIndex_spec headers "Reason") as [Hnone|[Hpos _]]; [congruence|].
    rewrite <- (cellAt_row _ _ _ _ Hrow' Hpos) in Hguard'.
    replace (S (S k)) with (rowIndex item) in Hguard' by lia.
    rewrite Hcell in Hguard'. now apply reactivationGuard_of_note in Hguard'. }
  split; [exact Hnotin|].
  intros n errors. unfold after.
  destruct (processReactivations_frame (fun r => r = rowIndex item) items' n errors w')
    as [Hkept Hgrown].
  { apply Forall_forall. intros item' Hin'. apply list_elem_of_In in Hin'. split.
    - destruct (getFilesMarkedForReactivation_items _ _ _ Hdetect' Hin')
        as (k' & _ & _ & Hidx' & _). lia.
    - intros Heq. apply Hnotin. apply in_map_iff. now exists item'. }
  split; [|exact Hgrown].
  intros c Hc. apply Hkept; [lia|exact Hc|reflexivity].
Qed.
End ReactivationIdempotent.

(** ** Deleting the rows of a record *)

#[export] Instance onlySheet_preorder ref : PreOrder (onlySheet ref).
Proof.
  split.
  - intros w. now repeat split.
  - intros w1 w2 w3 (S12 & F12 & D12 & L12) (S23 & F23 & D23 & L23). repeat split.
    + intros ref' Hne. now rewrite S23, S12.
    + intros f. now rewrite F23, F12.
    + congruence.
    + congruence.
Qed.

Lemma writing_onlySheet ref f : preserves (onlySheet ref) (writing ref f).
Proof.
  intros w. unfold writing.
  destruct (sheetAccess (sheetOf w ref)); cbn [snd]; try reflexivity.
  repeat split.
  - intros ref' Hne. apply sheetOf_setSheet_ne. congruence.
  - intros fo. now destruct ref, fo.
  - now destruct ref.
  - now destruct ref.
Qed.

Lemma removeFromSheetLoop_onlySheet ref data index v : forall i removed,
  preserves (onlySheet ref) (removeFromSheetLoop ref data index v i removed).
Proof.
  induction i as [|i IH]; intros removed; cbn [removeFromSheetLoop].
  - apply preserves_ret; typeclasses eauto.
  - destruct (strictEq _ v); [|apply IH].
    apply preserves_bind; [typeclasses eauto|apply writing_onlySheet|intros _; apply IH].
Qed.

Lemma removeFromSheet_onlySheet ref v header :
  preserves (onlySheet ref) (removeFromSheet ref v header).
Proof.
  unfold removeFromSheet.
  repeat first
    [ apply removeFromSheetLoop_onlySheet
    | apply preserves_bind; [typeclasses eauto| |intros ?]
    | apply preserves_tryCatchM; [typeclasses eauto| |intros ?]
    | apply preserves_ret; typeclasses eauto
    | apply preserves_throw; typeclasses eauto
    | apply preserves_liftR; typeclasses eauto
    | apply preserves_if ].
Qed.

Lemma delete_take_snoc {A} (l : list A) (n : nat) (rest : list A) :
  n < length l -> delete n (take (S n) l ++ rest) = take n l ++ rest.
Proof.
  revert n. induction l as [|x l IH]; intros n Hn; [cbn in Hn; lia|].
  destruct n as [|n]; [reflexivity|].
  cbn [take app delete]. cbn in Hn. unfold delete in IH. cbn. f_equal. apply IH. lia.
Qed.

(** The loop of [removeFromSheet], read backwards from the last row: once
    the rows after index [i] have been dealt with, the sheet holds the rows
    up to [i] and the kept rows after them; at the end, the kept rows
    only. *)
Lemma removeFromSheetLoop_run ref data index v : forall i removed w,
  i < length data ->
  sheetValues (sheetOf w ref) =
    take (S i) data ++
    List.filter (fun row => negb (strictEq (safeGetCellValue row index) v))
      (drop (S i) data) ->
  forall n w1,
    removeFromSheetLoop ref data index v i removed w = (Ok n, w1) ->
    sheetValues (sheetOf w1 ref) = rowsWithout index v data.
Proof.
  induction i as [|i IH]; intros removed w Hlen Hvalues n w1 Hrun.
  - cbn in Hrun. injection Hrun as _ <-. exact Hvalues.
  - cbn [removeFromSheetLoop] in Hrun.
    destruct (data !! S i) as [row|] eqn:Hrow;
      [|apply lookup_ge_None_1 in Hrow; lia].
    cbn [default from_option id] in Hrun.
    assert (drop (S i) data = row :: drop (S (S i)) data) as Hdrop
      by (now apply drop_S).
    assert (take (S (S i)) data = take (S i) data ++ [row]) as Htake
      by (now apply take_S_r).
    destruct (strictEq (safeGetCellValue row index) v) eqn:Hmatch.
    + stepM Hrun as u wd Hdelete. unfold deleteRow, writing in Hdelete.
      destruct (sheetAccess (sheetOf w ref)); [|discriminate..].
      injection Hdelete as _ <-.
      eapply IH; [lia| |exact Hrun].
      rewrite sheetOf_setSheet. cbn [sheetValues].
      rewrite Hvalues, Hdrop. cbn [List.filter]. rewrite Hmatch. cbn [negb].
      replace (i + 1 - 0) with (S i) by lia.
      apply delete_take_snoc. lia.
    + eapply IH; [lia| |exact Hrun].
      rewrite Hvalues, Htake, Hdrop. cbn [List.filter].
      rewrite Hmatch. cbn [negb]. now rewrite <- app_assoc.
Qed.




(** ** Deleting a record *)



Section Deletion.
Context `{Runtime}.



End Deletion.


(** A deletion whose third step throws (the Inflow sheet is protected): the
    pass counts an error and the Buffer sheet is as it was, so the record is
    found again by the next pass. *)
Example deletion_with_protected_sheet :
  let run := @processBufferChanges exampleRuntime worldWithProtectedInflowSheet in
  fst run = Ok {| deletedCount := 0; reactivatedCount := 0; errorCount := 1;
                  errorDetails := [(CStr "IMG_0001.pdf", "deletion")] |} /\
  bufferSheet (snd run) = bufferSheet worldWithProtectedInflowSheet /\
  folderFiles (inflowFolder (snd run)) = [] /\
  map del_rowIndex
    match getFilesMarkedForDeletion (bufferSheet (snd run)) with
    | Ok items => items
    | Throw _ => []
    end = [2].
Proof. vm_compute. repeat split. Qed.

Lemma reactivation_is_idempotent_witness :
  exists items',
    getFilesMarkedForReactivation (bufferSheet worldAfterReactivation) = Ok items' /\
    ~ In (rowIndex pendingReactivation) (map rowIndex items') /\
    forall n errors,
      (forall c, 1 <= c ->
         cellAt (sheetValues (bufferSheet
                   (after (@processReactivations exampleRuntime items' n errors)
                      worldAfterReactivation)))
           (rowIndex pendingReactivation) c
         = cellAt (sheetValues (bufferSheet worldAfterReactivation))
             (rowIndex pendingReactivation) c) /\
      length (sheetValues (finalSheet
                (after (@processReactivations exampleRuntime items' n errors)
                   worldAfterReactivation)))
        <= length (sheetValues (finalSheet worldAfterReactivation)) + length items'.
Proof.
  apply (@reactivation_is_idempotent exampleRuntime worldWithReactivation
           worldAfterReactivation [pendingReactivation] pendingReactivation);
    [reflexivity | left; reflexivity | reflexivity].
Defined.

(** The reconciliation pass run twice on that client: the first run
    reactivates the record and restores its row to the Final sheet, the
    second finds nothing to do and leaves the store as it is. *)
Example second_pass_changes_nothing :
  let first := @processBufferChanges exampleRuntime worldWithReactivation in
  let second := @processBufferChanges exampleRuntime (snd first) in
  fst first = Ok {| deletedCount := 0; reactivatedCount := 1; errorCount := 0;
                    errorDetails := [] |} /\
  cellAt (sheetValues (bufferSheet (snd first))) 2 7 = CStr "Active" /\
  cellAt (sheetValues (bufferSheet (snd first))) 2 8
    = CStr ("Reactivated on 2024-01-05T10:00:00.000Z. Previous: " +:+
            "Deleted: sent twice (2024-01-04T09:00:00.000Z)") /\
  length (sheetValues (finalSheet (snd first))) = 2 /\
  fst second = Ok {| deletedCount := 0; reactivatedCount := 0; errorCount := 0;
                     errorDetails := [] |} /\
  snd second = snd first.
Proof. vm_compute. repeat split. Qed.

(** * Further properties of the sources *)

(** ** [extractFileIdFromUrl] *)

Lemma append_empty_l (s : string) : "" +:+ s = s.
Proof. reflexivity. Qed.

Lemma append_String_l (c : ascii) (s t : string) : String c s +:+ t = String c (s +:+ t).
Proof. reflexivity. Qed.

Lemma takeIdChars_app (id rest : string) :
  forallb isIdChar (list_ascii_of_string id) = true ->
  match rest with
  | String c _ => isIdChar c = false
  | EmptyString => True
  end ->
  takeIdChars (id +:+ rest) = id.
Proof.
  intros Hid Hrest. induction id as [|c id IH].
  - rewrite append_empty_l. destruct rest as [|c rest]; [reflexivity|].
    cbv beta iota in Hrest. cbn [takeIdChars]. now rewrite Hrest.
  - cbn [list_ascii_of_string forallb] in Hid. apply andb_prop in Hid as [Hc Hid].
    rewrite append_String_l. cbn [takeIdChars]. rewrite Hc. f_equal. now apply IH.
Qed.

Lemma takeIdChars_idChars (s : string) :
  forallb isIdChar (list_ascii_of_string (takeIdChars s)) = true.
Proof.
  induction s as [|c s IH]; [reflexivity|]. cbn [takeIdChars].
  destruct (isIdChar c) eqn:Hc; [|reflexivity].
  cbn [list_ascii_of_string forallb]. now rewrite Hc.
Qed.

Lemma takeIdChars_prefix (s : string) : String.prefix (takeIdChars s) s = true.
Proof.
  induction s as [|c s IH]; [reflexivity|]. cbn [takeIdChars].
  destruct (isIdChar c); [|reflexivity]. cbn.
  destruct (ascii_dec c c) as [_|Hne]; [exact IH|now destruct Hne].
Qed.

Lemma includes_tail (c : ascii) (s sub : string) :
  JSString.includes s sub = true -> JSString.includes (String c s) sub = true.
Proof. intros Hin. cbn [JSString.includes]. rewrite Hin. apply orb_true_r. Qed.

Lemma includes_prefix (s sub : string) :
  String.prefix sub s = true -> JSString.includes s sub = true.
Proof. intros Hp. destruct s; cbn [JSString.includes]; now rewrite Hp. Qed.

Lemma includes_after_dropPrefix (lit url rest sub : string) :
  dropPrefix lit url = Some rest ->
  String.prefix sub rest = true ->
  JSString.includes url sub = true.
Proof.
  revert url. induction lit as [|a lit IH]; intros url Hdrop Hp; cbn in Hdrop.
  - injection Hdrop as ->. now apply includes_prefix.
  - destruct url as [|b url]; [discriminate|].
    destruct (Ascii.eqb a b); [|discriminate].
    apply includes_tail. now apply IH.
Qed.

Lemma matchAfter_some (lit url id : string) :
  matchAfter lit url = Some id ->
  id <> "" /\ forallb isIdChar (list_ascii_of_string id) = true /\
  JSString.includes url id = true.
Proof.
  induction url as [|c url IH]; cbn [matchAfter].
  - destruct (dropPrefix lit "") as [rest|] eqn:Hdrop; [|discriminate].
    destruct (String.eqb (takeIdChars rest) "") eqn:Hempty; [discriminate|].
    intros [= <-]. apply String.eqb_neq in Hempty.
    split; [exact Hempty|]. split; [apply takeIdChars_idChars|].
    eapply includes_after_dropPrefix; [exact Hdrop|apply takeIdChars_prefix].
  - destruct (dropPrefix lit (String c url)) as [rest|] eqn:Hdrop.
    + destruct (String.eqb (takeIdChars rest) "") eqn:Hempty.
      * intros Hm. destruct (IH Hm) as (Hne & Hchars & Hin).
        split; [exact Hne|]. split; [exact Hchars|]. now apply includes_tail.
      * intros [= <-]. apply String.eqb_neq in Hempty.
        split; [exact Hempty|]. split; [apply takeIdChars_idChars|].
        eapply includes_after_dropPrefix; [exact Hdrop|apply takeIdChars_prefix].
    + intros Hm. destruct (IH Hm) as (Hne & Hchars & Hin).
      split; [exact Hne|]. split; [exact Hchars|]. now apply includes_tail.
Qed.

(** An id that [extractFileIdFromUrl] returns is never empty, is made of
    the characters of the class [[a-zA-Z0-9-_]] only, and occurs in the URL,
    which is a text that is not empty: for every other value the function
    returns [null]. *)
Theorem extractFileIdFromUrl_returns_an_id_of_the_url (url : Cell) (id : string) :
  extractFileIdFromUrl url = Some id ->
  id <> "" /\
  forallb isIdChar (list_ascii_of_string id) = true /\
  exists s, url = CStr s /\ s <> "" /\ JSString.includes s id = true.
Proof.
  destruct url as [s| | |]; cbn [extractFileIdFromUrl]; try discriminate.
  destruct (String.eqb s "") eqn:Hempty; [discriminate|].
  apply String.eqb_neq in Hempty. unfold urlPatterns. cbn [firstMatch].
  intros Hm.
  assert (exists lit, matchAfter lit s = Some id) as [lit Hlit].
  { repeat match type of Hm with
           | match matchAfter ?l s with _ => _ end = _ =>
               let H := fresh in
               destruct (matchAfter l s) eqn:H;
                 [injection Hm as ->; now exists l|]
           end.
    discriminate. }
  destruct (matchAfter_some _ _ _ Hlit) as (Hne & Hchars & Hin).
  split; [exact Hne|]. split; [exact Hchars|]. now exists s.
Qed.

Lemma extractFileIdFromUrl_returns_an_id_of_the_url_witness :
  "A1" <> "" /\
  forallb isIdChar (list_ascii_of_string "A1") = true /\
  exists s, CStr "https://drive.google.com/file/d/A1/view" = CStr s /\ s <> "" /\
            JSString.includes s "A1" = true.
Proof.
  apply (extractFileIdFromUrl_returns_an_id_of_the_url
           (CStr "https://drive.google.com/file/d/A1/view") "A1").
  reflexivity.
Defined.

(** The URL that Drive gives a file, an id of one or more id characters
    after [/file/d/], followed by nothing or by a character that is not an
    id character, gives that id back. *)
Theorem extractFileIdFromUrl_of_a_file_url (id rest : string) :
  id <> "" ->
  forallb isIdChar (list_ascii_of_string id) = true ->
  match rest with
  | String c _ => isIdChar c = false
  | EmptyString => True
  end ->
  extractFileIdFromUrl (CStr ("https://drive.google.com/file/d/" +:+ id +:+ rest)) = Some id.
Proof.
  intros Hne Hid Hrest.
  unfold extractFileIdFromUrl, urlPatterns.
  rewrite !append_String_l, append_empty_l.
  cbn -[takeIdChars String.append isIdChar].
  rewrite takeIdChars_app by assumption.
  destruct id; [congruence|reflexivity].
Qed.

Lemma extractFileIdFromUrl_of_a_file_url_witness :
  extractFileIdFromUrl (CStr ("https://drive.google.com/file/d/" +:+ "A1" +:+ "/view"))
    = Some "A1".
Proof.
  apply (extractFileIdFromUrl_of_a_file_url "A1" "/view");
    [discriminate | reflexivity | reflexivity].
Defined.

(** ** [getColumnIndex] and [safeGetCellValue] *)

Lemma strictEq_false_ne (h : Cell) (name : string) :
  strictEq h (CStr name) = false -> h <> CStr name.
Proof. intros Hne ->. cbn in Hne. now rewrite String.eqb_refl in Hne. Qed.

Lemma indexOfFrom_first (name : string) (headers : list Cell) : forall i,
  (indexOfFrom name headers i = (-1)%Z /\
   forall j, headers !! j <> Some (CStr name)) \/
  exists k, indexOfFrom name headers i = (i + Z.of_nat k)%Z /\
            headers !! k = Some (CStr name) /\
            forall j, j < k -> headers !! j <> Some (CStr name).
Proof.
  induction headers as [|h rest IH]; intros i.
  - left. split; [reflexivity|]. intros j. now rewrite lookup_nil.
  - cbn [indexOfFrom]. destruct (strictEq h (CStr name)) eqn:Heq.
    + right. exists 0. apply strictEq_CStr in Heq as ->.
      split; [lia|]. split; [reflexivity|]. intros j Hj. lia.
    + apply strictEq_false_ne in Heq.
      destruct (IH (i + 1)%Z) as [[Hnone Hall]|(k & Hk & Hlook & Hfirst)].
      * left. split; [exact Hnone|]. intros [|j]; cbn; [congruence|apply Hall].
      * right. exists (S k). split; [lia|]. split; [exact Hlook|].
        intros [|j] Hj; cbn; [congruence|]. apply Hfirst. lia.
Qed.

(** [getColumnIndex] returns the position of the first header that is the
    column name, and [-1] exactly when no header is; with the [-1] of a
    missing column [safeGetCellValue] reads the empty text from every row. *)
Theorem getColumnIndex_is_the_first_match (headers : list Cell) (name : string) :
  (getColumnIndex headers name = (-1)%Z /\
   (forall j, headers !! j <> Some (CStr name)) /\
   forall row, safeGetCellValue row (getColumnIndex headers name) = CStr "") \/
  exists k, getColumnIndex headers name = Z.of_nat k /\
            headers !! k = Some (CStr name) /\
            (forall j, j < k -> headers !! j <> Some (CStr name)) /\
            forall row cell, row !! k = Some cell ->
              safeGetCellValue row (getColumnIndex headers name) = cell.
Proof.
  unfold getColumnIndex.
  destruct (indexOfFrom_first name headers 0) as [[Hnone Hall]|(k & Hk & Hlook & Hfirst)].
  - left. split; [exact Hnone|]. split; [exact Hall|]. intros row. now rewrite Hnone.
  - right. exists k. rewrite Hk. split; [lia|]. split; [exact Hlook|].
    split; [exact Hfirst|]. intros row cell Hcell.
    rewrite safeGetCellValue_lookup by lia.
    replace (Z.to_nat (0 + Z.of_nat k)) with k by lia. now rewrite Hcell.
Qed.

(** ** [removeFromSheet] *)

(** Every [deleteRow] of the loop removes one row: the count returned and
    the rows left add up to what there was. *)
Lemma removeFromSheetLoop_count ref data index v : forall i removed w,
  i < length data ->
  sheetValues (sheetOf w ref) =
    take (S i) data ++
    List.filter (fun row => negb (strictEq (safeGetCellValue row index) v))
      (drop (S i) data) ->
  forall n w1,
    removeFromSheetLoop ref data index v i removed w = (Ok n, w1) ->
    n + length (sheetValues (sheetOf w1 ref)) = removed + length (sheetValues (sheetOf w ref)).
Proof.
  induction i as [|i IH]; intros removed w Hlen Hvalues n w1 Hrun.
  - cbn in Hrun. now injection Hrun as <- <-.
  - cbn [removeFromSheetLoop] in Hrun.
    destruct (data !! S i) as [row|] eqn:Hrow;
      [|apply lookup_ge_None_1 in Hrow; lia].
    cbn [default from_option id] in Hrun.
    assert (drop (S i) data = row :: drop (S (S i)) data) as Hdrop
      by (now apply drop_S).
    assert (take (S (S i)) data = take (S i) data ++ [row]) as Htake
      by (now apply take_S_r).
    destruct (strictEq (safeGetCellValue row index) v) eqn:Hmatch.
    + stepM Hrun as u wd Hdelete. unfold deleteRow, writing in Hdelete.
      destruct (sheetAccess (sheetOf w ref)); [|discriminate..].
      injection Hdelete as _ <-.
      assert (delete (S i) (sheetValues (sheetOf w ref)) =
              take (S i) data ++
              List.filter (fun row => negb (strictEq (safeGetCellValue row index) v))
                (drop (S (S i)) data)) as Hdeleted.
      { rewrite Hvalues. apply delete_take_snoc. lia. }
      eapply IH in Hrun; [|lia|].
      2:{ rewrite sheetOf_setSheet. cbn [sheetValues].
          replace (i + 1 - 0) with (S i) by lia. rewrite Hdeleted, Hdrop.
          cbn [List.filter]. now rewrite Hmatch. }
      rewrite sheetOf_setSheet in Hrun. cbn [sheetValues] in Hrun.
      replace (i + 1 - 0) with (S i) in Hrun by lia.
      rewrite Hdeleted in Hrun. rewrite Hvalues.
      rewrite !length_app, !length_take in *. lia.
    + eapply IH in Hrun; [exact Hrun|lia|].
      rewrite Hvalues, Htake, Hdrop. cbn [List.filter].
      rewrite Hmatch. cbn [negb]. now rewrite <- app_assoc.
Qed.

(** What [removeFromSheet] does when it returns: it touches the one sheet
    only; a sheet with no data row, or without the column, is left as it is
    and the count is 0; otherwise the header row and the data rows whose
    cell in the column is not the value are left, in their order, and the
    count is the number of rows that went. *)
Theorem removeFromSheet_leaves_the_other_rows
    (ref : SheetRef) (v : Cell) (column : string) (w w1 : World) (n : nat) :
  removeFromSheet ref v column w = (Ok n, w1) ->
  onlySheet ref w w1 /\
  (if (length (sheetValues (sheetOf w ref)) <=? 1)%nat ||
      (getColumnIndex (headerRow (sheetValues (sheetOf w ref))) column =? -1)%Z
   then w1 = w /\ n = 0
   else sheetValues (sheetOf w1 ref)
          = rowsWithout (getColumnIndex (headerRow (sheetValues (sheetOf w ref))) column) v
              (sheetValues (sheetOf w ref)) /\
        n + length (sheetValues (sheetOf w1 ref)) = length (sheetValues (sheetOf w ref))).
Proof.
  intros Hrun. split.
  { pose proof (removeFromSheet_onlySheet ref v column w) as Hframe.
    now rewrite Hrun in Hframe. }
  apply rethrow_inv in Hrun.
  stepM Hrun as lastRow w0 Hlast. apply liftR_inv in Hlast as [Hlast ->].
  unfold getLastRow, reading in Hlast.
  set (data := sheetValues (sheetOf w ref)) in *.
  assert (lastRow = length data /\ sheetAccess (sheetOf w ref) <> Unavailable)
    as [-> Hacc].
  { destruct (sheetAccess (sheetOf w ref)); try discriminate;
      injection Hlast as <-; split; congruence. }
  destruct (length data <=? 1)%nat eqn:Hlen; cbn [orb].
  - now apply mretM_inv in Hrun as [-> ->].
  - apply Nat.leb_gt in Hlen.
    stepM Hrun as data' w0 Hdata. apply liftR_inv in Hdata as [Hdata ->].
    unfold getValues, reading in Hdata.
    assert (data' = data) as ->.
    { destruct (sheetAccess (sheetOf w ref)); try congruence;
        now injection Hdata as <-. }
    cbv zeta in Hrun.
    destruct (getColumnIndex (headerRow data) column =? -1)%Z eqn:Hidx.
    + now apply mretM_inv in Hrun as [-> ->].
    + assert (sheetValues (sheetOf w ref) =
              take (S (length data - 1)) data ++
              List.filter
                (fun row => negb (strictEq (safeGetCellValue row
                   (getColumnIndex (headerRow data) column)) v))
                (drop (S (length data - 1)) data)) as Hstart.
      { replace (S (length data - 1)) with (length data) by lia.
        now rewrite firstn_all, drop_all, app_nil_r. }
      split.
      * eapply removeFromSheetLoop_run; [|exact Hstart|exact Hrun]. lia.
      * eapply removeFromSheetLoop_count in Hrun; [|lia|exact Hstart].
        cbn in Hrun. exact Hrun.
Qed.

Lemma removeFromSheet_leaves_the_other_rows_witness :
  onlySheet FINAL worldWithPendingDocument
    (after (removeFromSheet FINAL (CStr "https://drive.google.com/file/d/A1/view") "File URL")
       worldWithPendingDocument) /\
  (if (length (sheetValues (sheetOf worldWithPendingDocument FINAL)) <=? 1)%nat ||
      (getColumnIndex (headerRow (sheetValues (sheetOf worldWithPendingDocument FINAL)))
         "File URL" =? -1)%Z
   then after (removeFromSheet FINAL (CStr "https://drive.google.com/file/d/A1/view")
                 "File URL") worldWithPendingDocument = worldWithPendingDocument /\ 1 = 0
   else sheetValues (sheetOf
          (after (removeFromSheet FINAL (CStr "https://drive.google.com/file/d/A1/view")
                    "File URL") worldWithPendingDocument) FINAL)
          = rowsWithout
              (getColumnIndex (headerRow (sheetValues (sheetOf worldWithPendingDocument FINAL)))
                 "File URL")
              (CStr "https://drive.google.com/file/d/A1/view")
              (sheetValues (sheetOf worldWithPendingDocument FINAL)) /\
        1 + length (sheetValues (sheetOf
              (after (removeFromSheet FINAL (CStr "https://drive.google.com/file/d/A1/view")
                        "File URL") worldWithPendingDocument) FINAL))
          = length (sheetValues (sheetOf worldWithPendingDocument FINAL))).
Proof.
  apply (removeFromSheet_leaves_the_other_rows FINAL
           (CStr "https://drive.google.com/file/d/A1/view") "File URL"
           worldWithPendingDocument).
  reflexivity.
Defined.

(** ** Detection, continued *)

Lemma strictEq_CStr_iff (c : Cell) (name : string) :
  strictEq c (CStr name) = true <-> c = CStr name.
Proof.
  split; [apply strictEq_CStr|]. intros ->. cbn. apply String.eqb_refl.
Qed.

Lemma deletionGuard_spec (status reason : Cell) :
  deletionGuard status reason = Ok true <->
  status = CStr STATUS.DELETED /\
  exists r, reason = CStr r /\ JSString.startsWith r "Deleted:" = false.
Proof.
  split.
  - intros Hg. apply deletionGuard_true in Hg as (Hs & r & Hr & Hp).
    apply strictEq_CStr in Hs. eauto.
  - intros (-> & r & -> & Hp). unfold deletionGuard. cbn. now rewrite Hp.
Qed.

Lemma deletionGuard_throws (status reason : Cell) (e : Exn) :
  deletionGuard status reason = Throw e -> e = TypeError.
Proof.
  unfold deletionGuard. destruct (strictEq status (CStr STATUS.DELETED)); [|discriminate].
  destruct reason; cbv [cellStartsWith mbind Result_bind mret Result_ret]; congruence.
Qed.

(** The deletion loop over rows whose guard does not throw: it returns,
    keeps what it was given, and adds an item for every row that passes the
    guard. *)
Lemma deletionLoop_complete (headers : list Cell) (rows : list (list Cell)) :
  forall i acc,
  (forall row, In row rows ->
     deletionGuard (safeGetCellValue row (getColumnIndex headers "Status"))
                   (safeGetCellValue row (getColumnIndex headers "Reason")) <> Throw TypeError) ->
  exists items, deletionLoop headers i rows acc = Ok items /\
    (forall item, In item acc -> In item items) /\
    forall k row, rows !! k = Some row ->
      deletionGuard (safeGetCellValue row (getColumnIndex headers "Status"))
                    (safeGetCellValue row (getColumnIndex headers "Reason")) = Ok true ->
      exists item, In item items /\ del_rowIndex item = i + k + 1 /\
        del_fileUrl item = safeGetCellValue row (getColumnIndex headers "File URL") /\
        del_reason item = safeGetCellValue row (getColumnIndex headers "Reason").
Proof.
  induction rows as [|row rest IH]; intros i acc Hsafe.
  - exists acc. split; [reflexivity|]. split; [auto|]. intros k row. now rewrite lookup_nil.
  - cbn [deletionLoop].
    destruct (deletionGuard (safeGetCellValue row (getColumnIndex headers "Status"))
                (safeGetCellValue row (getColumnIndex headers "Reason")))
      as [marked|e] eqn:Hg.
    2:{ exfalso. apply (Hsafe row (or_introl eq_refl)). rewrite Hg.
        now apply deletionGuard_throws in Hg as ->. }
    cbn [mbind Result_bind].
    match goal with
    | |- context [deletionLoop headers (S i) rest ?acc'] =>
        destruct (IH (S i) acc' (fun r Hin => Hsafe r (or_intror Hin)))
          as (items & Hrun & Hkeep & Hall)
    end.
    exists items. split; [exact Hrun|]. split.
    + intros item Hin. apply Hkeep. destruct marked; [|exact Hin].
      apply in_or_app. now left.
    + intros [|k] r Hr Hguard; cbn in Hr.
      * injection Hr as <-. rewrite Hguard in Hg. injection Hg as <-.
        eexists. split; [apply Hkeep, in_or_app; right; left; reflexivity|].
        cbn. repeat split. lia.
      * destruct (Hall k r Hr Hguard) as (item & Hin & Hidx & Hrest).
        exists item. split; [exact Hin|]. split; [lia|exact Hrest].
Qed.

(** On a sheet that can be read and whose rows marked Deleted all have a
    text as reason, deletion detection returns exactly the data rows whose
    status is Deleted and whose reason does not start with "Deleted:". *)
Theorem deletion_detection_is_exact (sh : Sheet) :
  sheetAccess sh <> Unavailable ->
  (forall row, In row (drop 1 (sheetValues sh)) ->
     safeGetCellValue row (getColumnIndex (headerRow (sheetValues sh)) "Status")
       = CStr STATUS.DELETED ->
     exists r, safeGetCellValue row (getColumnIndex (headerRow (sheetValues sh)) "Reason")
               = CStr r) ->
  exists items, getFilesMarkedForDeletion sh = Ok items /\
    forall k row, sheetValues sh !! S k = Some row ->
      (In (k + 2) (map del_rowIndex items) <->
       safeGetCellValue row (getColumnIndex (headerRow (sheetValues sh)) "Status")
         = CStr STATUS.DELETED /\
       exists r, safeGetCellValue row (getColumnIndex (headerRow (sheetValues sh)) "Reason")
                   = CStr r /\
                 JSString.startsWith r "Deleted:" = false).
Proof.
  intros Hacc Htext.
  set (headers := headerRow (sheetValues sh)) in *.
  destruct (deletionLoop_complete headers (drop 1 (sheetValues sh)) 1 [])
    as (items & Hloop & _ & Hall).
  { intros row Hin Hthrow. unfold deletionGuard in Hthrow.
    destruct (strictEq (safeGetCellValue row (getColumnIndex headers "Status"))
                (CStr STATUS.DELETED)) eqn:Hs; [|discriminate].
    apply strictEq_CStr in Hs. destruct (Htext row Hin Hs) as [r Hr].
    rewrite Hr in Hthrow. discriminate. }
  assert (getFilesMarkedForDeletion sh =
          Ok (if (length (sheetValues sh) <=? 1)%nat then [] else items)) as Hrun.
  { unfold getFilesMarkedForDeletion, getFilesMarkedForDeletion_try, getLastRow, getValues,
      reading.
    destruct (sheetAccess sh); try congruence; cbn [mbind Result_bind];
      (destruct (length (sheetValues sh) <=? 1)%nat; [reflexivity|]);
      cbn [mbind Result_bind]; fold headers; now rewrite Hloop. }
  eexists. split; [exact Hrun|]. intros k row Hrow.
  assert ((length (sheetValues sh) <=? 1)%nat = false) as Hlen.
  { apply Nat.leb_gt. apply lookup_lt_Some in Hrow. lia. }
  rewrite Hlen. rewrite <- deletionGuard_spec. split.
  - intros Hin. apply in_map_iff in Hin as (item & Hidx & Hin).
    rewrite Hlen in Hrun.
    destruct (getFilesMarkedForDeletion_items _ _ _ Hrun Hin)
      as (k' & row' & Hrow' & Hidx' & Hguard).
    assert (k' = k) as -> by lia. rewrite Hrow in Hrow'. now injection Hrow' as <-.
  - intros Hguard.
    destruct (Hall k row) as (item & Hin & Hidx & _); [now rewrite lookup_drop|exact Hguard|].
    apply in_map_iff. exists item. split; [lia|exact Hin].
Qed.

Lemma deletion_detection_is_exact_witness :
  exists items, getFilesMarkedForDeletion bufferWithProcessedDeletion = Ok items /\
    forall k row, sheetValues bufferWithProcessedDeletion !! S k = Some row ->
      (In (k + 2) (map del_rowIndex items) <->
       safeGetCellValue row
         (getColumnIndex (headerRow (sheetValues bufferWithProcessedDeletion)) "Status")
         = CStr STATUS.DELETED /\
       exists r, safeGetCellValue row
                   (getColumnIndex (headerRow (sheetValues bufferWithProcessedDeletion))
                      "Reason") = CStr r /\
                 JSString.startsWith r "Deleted:" = false).
Proof.
  apply (deletion_detection_is_exact bufferWithProcessedDeletion).
  - discriminate.
  - intros row [<-|[<-|[]]] _; eexists; reflexivity.
Defined.

(** No row is returned both by deletion detection and by reactivation
    detection: the first asks for the status Deleted, the second for
    Active. *)
Theorem detections_are_disjoint (sh : Sheet) (deletions : list DeletionItem)
    (reactivations : list ReactivationItem) (i : nat) :
  getFilesMarkedForDeletion sh = Ok deletions ->
  getFilesMarkedForReactivation sh = Ok reactivations ->
  In i (map del_rowIndex deletions) ->
  ~ In i (map rowIndex reactivations).
Proof.
  intros Hdel Hrea Hin1 Hin2.
  apply in_map_iff in Hin1 as (d & Hd & Hin1).
  apply in_map_iff in Hin2 as (r & Hr & Hin2).
  destruct (getFilesMarkedForDeletion_items _ _ _ Hdel Hin1)
    as (k1 & row1 & Hrow1 & Hidx1 & Hguard1).
  destruct (getFilesMarkedForReactivation_items _ _ _ Hrea Hin2)
    as (k2 & row2 & Hrow2 & Hidx2 & Hguard2).
  assert (k2 = k1) as -> by lia. rewrite Hrow1 in Hrow2. injection Hrow2 as <-.
  apply deletionGuard_true in Hguard1 as [Hs1 _].
  apply reactivationGuard_true in Hguard2 as [Hs2 _].
  apply strictEq_CStr in Hs1. apply strictEq_CStr in Hs2.
  rewrite Hs1 in Hs2. discriminate Hs2.
Qed.

Lemma detections_are_disjoint_witness :
  map del_rowIndex (detected (getFilesMarkedForDeletion bufferWithBothPending)) = [3] /\
  map rowIndex (detected (getFilesMarkedForReactivation bufferWithBothPending)) = [2] /\
  ~ In 3 (map rowIndex (detected (getFilesMarkedForReactivation bufferWithBothPending))).
Proof.
  split; [vm_compute; reflexivity|]. split; [vm_compute; reflexivity|].
  apply (detections_are_disjoint bufferWithBothPending
           (detected (getFilesMarkedForDeletion bufferWithBothPending))
           (detected (getFilesMarkedForReactivation bufferWithBothPending)) 3);
    [vm_compute; reflexivity | vm_compute; reflexivity | left; vm_compute; reflexivity].
Defined.

(** ** The script lock *)

#[export] Instance lockKept_preorder : PreOrder lockKept.
Proof.
  split.
  - intros w. reflexivity.
  - intros w1 w2 w3 H12 H23. unfold lockKept in *. congruence.
Qed.

Lemma writing_lockKept ref f : preserves lockKept (writing ref f).
Proof.
  intros w. unfold writing.
  destruct (sheetAccess (sheetOf w ref)); cbn [snd]; try reflexivity.
  now destruct ref.
Qed.

Lemma changingFolder_lockKept ref f : preserves lockKept (changingFolder ref f).
Proof.
  intros w. unfold changingFolder.
  destruct (folderWritable (folderOf w ref)); cbn [snd]; [|reflexivity].
  now destruct ref.
Qed.

Lemma generateUniqueId_lockKept `{Runtime} : preserves lockKept generateUniqueId.
Proof. intros w. reflexivity. Qed.

(** Proves [preserves R m] for [m] built by control flow from computations
    that [base] settles. *)
Ltac frame base :=
  repeat first
    [ base
    | apply preserves_bind; [typeclasses eauto| |intros ?]
    | apply preserves_tryCatchM; [typeclasses eauto| |intros ?]
    | apply preserves_ret; typeclasses eauto
    | apply preserves_throw; typeclasses eauto
    | apply preserves_liftR; typeclasses eauto
    | apply preserves_if
    | match goal with
      | |- preserves _ (match ?x with _ => _ end) => destruct x
      end ].

Ltac frame_lock :=
  frame ltac:(first [ apply writing_lockKept | apply changingFolder_lockKept
                    | apply generateUniqueId_lockKept ]).

Lemma removeFromSheetLoop_lockKept ref data index v : forall i removed,
  preserves lockKept (removeFromSheetLoop ref data index v i removed).
Proof.
  induction i as [|i IH]; intros removed; cbn [removeFromSheetLoop].
  - apply preserves_ret; typeclasses eauto.
  - unfold deleteRow. frame ltac:(first [apply IH | apply writing_lockKept]).
Qed.

Section LockFrames.
Context `{Runtime}.

Lemma processFileDeletion_lockKept item :
  preserves lockKept (processFileDeletion item FINAL INFLOW OUTFLOW BUFFER).
Proof.
  unfold processFileDeletion, removeDownstream, removeFileFromDriveFolders,
    removeFromFolderIfPresent, removeFromSheet, updateBufferSheetForDeletion, getHeaders,
    setIfColumn, setValue, getFileById, inFolder, removeFile.
  frame ltac:(first [ apply removeFromSheetLoop_lockKept | apply writing_lockKept
                    | apply changingFolder_lockKept ]).
Qed.

Lemma processFileReactivation_lockKept item :
  preserves lockKept (processFileReactivation item BUFFER).
Proof.
  unfold processFileReactivation, ensureFileInBufferFolder, updateBufferSheetForReactivation,
    restoreToFinalSheet, getHeaders, getValue, setIfColumn, setValue, appendRow, getFileById,
    inFolder, addFile, removeFile.
  frame_lock.
Qed.

Lemma processDeletions_lockKept items : forall n errors,
  preserves lockKept (processDeletions items n errors).
Proof.
  induction items as [|item rest IH]; intros n errors; cbn [processDeletions].
  - apply preserves_ret; typeclasses eauto.
  - frame ltac:(first [apply IH | apply processFileDeletion_lockKept]).
Qed.

Lemma processReactivations_lockKept items : forall n errors,
  preserves lockKept (processReactivations items n errors).
Proof.
  induction items as [|item rest IH]; intros n errors; cbn [processReactivations].
  - apply preserves_ret; typeclasses eauto.
  - frame ltac:(first [apply IH | apply processFileReactivation_lockKept]).
Qed.

Lemma moveLoop_lockKept records : forall counts,
  preserves lockKept (moveLoop records counts).
Proof.
  induction records as [|fileData rest IH]; intros counts; cbn [moveLoop].
  - apply preserves_ret; typeclasses eauto.
  - unfold moveOneFile, addToInflowSheet, addToOutflowSheet, moveFileToFolder, appendRow,
      getFileById, addFile, removeFile.
    frame ltac:(first [ apply IH | apply writing_lockKept | apply changingFolder_lockKept ]).
Qed.

Lemma releaseLock_after (w0 w1 : World) :
  scriptLock w0 = LockHeldHere -> lockKept w0 w1 -> scriptLock (releaseLock w1) = LockFree.
Proof. unfold lockKept, releaseLock. intros H0 ->. now rewrite H0. Qed.

(** Both passes work under the script lock.  When the lock is held by
    another run, the pass throws the system error and the store is as it
    was; otherwise the pass takes the lock and, whether it returns or
    throws, the lock is free afterwards. *)
Theorem passes_take_and_release_the_lock (w : World) :
  (scriptLock w = LockHeldElsewhere ->
   processBufferChanges w = (Throw (AppError SYSTEM_ERROR), w) /\
   moveFilesToInflowOutflow w = (Throw (AppError SYSTEM_ERROR), w)) /\
  (scriptLock w <> LockHeldElsewhere ->
   scriptLock (after processBufferChanges w) = LockFree /\
   scriptLock (after moveFilesToInflowOutflow w) = LockFree).
Proof.
  split.
  - intros Hheld. destruct (acquireLock_refused w Hheld) as [Hacq Hrel].
    unfold processBufferChanges, moveFilesToInflowOutflow, tryFinally, tryCatchM.
    erewrite !bindM_Throw by exact Hacq. unfold throw. now rewrite Hrel.
  - intros Hfree. pose proof (acquireLock_run w Hfree) as Hacq.
    set (w0 := setLock LockHeldHere w) in Hacq.
    assert (scriptLock w0 = LockHeldHere) as Hheld by reflexivity.
    unfold after. split.
    + unfold processBufferChanges, tryFinally.
      rewrite rethrow_run. erewrite bindM_Ok by exact Hacq.
      match goal with
      | |- context [?m w0] =>
          assert (preserves lockKept m) as Hframe;
            [|specialize (Hframe w0); destruct (m w0) as [r w1]; cbn [snd] in *;
              now apply (releaseLock_after w0)]
      end.
      frame ltac:(first [ apply processDeletions_lockKept
                        | apply processReactivations_lockKept ]).
    + unfold moveFilesToInflowOutflow, tryFinally.
      rewrite rethrow_run. erewrite bindM_Ok by exact Hacq.
      match goal with
      | |- context [?m w0] =>
          assert (preserves lockKept m) as Hframe;
            [|specialize (Hframe w0); destruct (m w0) as [r w1]; cbn [snd] in *;
              now apply (releaseLock_after w0)]
      end.
      unfold clearFinalSheet, deleteRows.
      frame ltac:(first [ apply moveLoop_lockKept | apply writing_lockKept ]).
Qed.
End LockFrames.

(** ** The reconciliation pass as a whole *)

Lemma getFilesMarkedForDeletion_total (sh : Sheet) :
  exists items, getFilesMarkedForDeletion sh = Ok items.
Proof.
  unfold getFilesMarkedForDeletion, tryCatch.
  destruct (getFilesMarkedForDeletion_try sh) as [items|e]; eauto.
Qed.




Section PassCounts.
Context `{Runtime}.

(** The deletion loop returns for every list: each item is counted as
    deleted or gets an entry in the list of errors. *)
Lemma processDeletions_counts items : forall n errors w,
  exists n' errors' w1,
    processDeletions items n errors w = (Ok (n', errors'), w1) /\
    n' + length errors' = n + length errors + length items /\
    n <= n' /\ length errors <= length errors'.
Proof.
  induction items as [|item rest IH]; intros n errors w; cbn [processDeletions].
  - exists n, errors, w. cbn. repeat split; lia.
  - unfold tryCatchM at 1.
    destruct (processFileDeletion item FINAL INFLOW OUTFLOW BUFFER w) as [[[]|e] w1] eqn:Hone.
    + erewrite bindM_Ok.
      2:{ erewrite bindM_Ok by exact Hone. reflexivity. }
      destruct (IH (S n) errors w1) as (n' & errors' & w2 & Hrun & Hsum & Hn & He).
      exists n', errors', w2. split; [exact Hrun|]. cbn [length]. lia.
    + erewrite bindM_Ok.
      2:{ erewrite bindM_Throw by exact Hone. reflexivity. }
      destruct (IH n (errors ++ [(del_originalFilename item, "deletion")]) w1)
        as (n' & errors' & w2 & Hrun & Hsum & Hn & He).
      exists n', errors', w2. split; [exact Hrun|].
      rewrite length_app in *. cbn [length] in *. lia.
Qed.

Lemma processReactivations_counts items : forall n errors w,
  exists n' errors' w1,
    processReactivations items n errors w = (Ok (n', errors'), w1) /\
    n' + length errors' = n + length errors + length items /\
    n <= n' /\ length errors <= length errors'.
Proof.
  induction items as [|item rest IH]; intros n errors w; cbn [processReactivations].
  - exists n, errors, w. cbn. repeat split; lia.
  - unfold tryCatchM at 1.
    destruct (processFileReactivation item BUFFER w) as [[[]|e] w1] eqn:Hone.
    + erewrite bindM_Ok.
      2:{ erewrite bindM_Ok by exact Hone. reflexivity. }
      destruct (IH (S n) errors w1) as (n' & errors' & w2 & Hrun & Hsum & Hn & He).
      exists n', errors', w2. split; [exact Hrun|]. cbn [length]. lia.
    + erewrite bindM_Ok.
      2:{ erewrite bindM_Throw by exact Hone. reflexivity. }
      destruct (IH n (errors ++ [(originalFilename item, "reactivation")]) w1)
        as (n' & errors' & w2 & Hrun & Hsum & Hn & He).
      exists n', errors', w2. split; [exact Hrun|].
      rewrite length_app in *. cbn [length] in *. lia.
Qed.

(** The pass, once it holds the lock: what it does with the two lists that
    detection returned. *)
Lemma processBufferChanges_run (w : World) deletions reactivations :
  scriptLock w <> LockHeldElsewhere ->
  getFilesMarkedForDeletion (bufferSheet w) = Ok deletions ->
  getFilesMarkedForReactivation (bufferSheet w) = Ok reactivations ->
  processBufferChanges w =
    match missingReasons deletions with
    | Throw e => (Throw e, setLock LockFree w)
    | Ok missing =>
        if (0 <? length missing)%nat then (Throw (AppError INVALID_INPUT), setLock LockFree w)
        else
          match processDeletions deletions 0 [] (setLock LockHeldHere w) with
          | (Ok (deleted, errors1), w1) =>
              match processReactivations reactivations 0 errors1 w1 with
              | (Ok (reactivated, errors2), w2) =>
                  (Ok {| deletedCount := deleted; reactivatedCount := reactivated;
                         errorCount := length errors2; errorDetails := errors2 |},
                   releaseLock w2)
              | (Throw e, w2) => (Throw e, releaseLock w2)
              end
          | (Throw e, w1) => (Throw e, releaseLock w1)
          end
    end.
Proof.
  intros Hfree Hdel Hrea.
  unfold processBufferChanges, tryFinally. rewrite rethrow_run.
  erewrite bindM_Ok by (now apply acquireLock_run).
  erewrite bindM_Ok by (unfold liftR; cbn [bufferSheet setLock]; now rewrite Hdel).
  erewrite bindM_Ok by (unfold liftR; cbn [bufferSheet setLock]; now rewrite Hrea).
  destruct (missingReasons deletions) as [missing|e] eqn:Hmissing.
  2:{ erewrite bindM_Throw by reflexivity. reflexivity. }
  erewrite bindM_Ok by reflexivity.
  destruct (0 <? length missing)%nat.
  { erewrite bindM_Throw by reflexivity. reflexivity. }
  erewrite bindM_Ok by reflexivity.
  destruct (processDeletions deletions 0 [] (setLock LockHeldHere w))
    as [[[deleted errors1]|e] w1] eqn:Hd.
  2:{ erewrite bindM_Throw by exact Hd. reflexivity. }
  erewrite bindM_Ok by exact Hd.
  destruct (processReactivations reactivations 0 errors1 w1)
    as [[[reactivated errors2]|e] w2] eqn:Hr.
  2:{ erewrite bindM_Throw by exact Hr. reflexivity. }
  erewrite bindM_Ok by exact Hr. reflexivity.
Qed.

(** When the pass returns, every record that detection found on the Buffer
    sheet has been counted once: as deleted, as reactivated, or as an
    error. *)
Theorem the_pass_counts_every_detected_record
    (w w' : World) (result : BufferChangesResult)
    (deletions : list DeletionItem) (reactivations : list ReactivationItem) :
  processBufferChanges w = (Ok result, w') ->
  getFilesMarkedForDeletion (bufferSheet w) = Ok deletions ->
  getFilesMarkedForReactivation (bufferSheet w) = Ok reactivations ->
  deletedCount result + reactivatedCount result + errorCount result
    = length deletions + length reactivations /\
  deletedCount result <= length deletions /\
  reactivatedCount result <= length reactivations /\
  errorCount result = length (errorDetails result).
Proof.
  intros Hrun Hdel Hrea.
  destruct (LockState_cases (scriptLock w)) as [Hheld|Hfree].
  { destruct (acquireLock_refused w Hheld) as [Hacq _].
    unfold processBufferChanges, tryFinally in Hrun. rewrite rethrow_run in Hrun.
    erewrite bindM_Throw in Hrun by exact Hacq. discriminate. }
  rewrite (processBufferChanges_run w deletions reactivations Hfree Hdel Hrea) in Hrun.
  destruct (missingReasons deletions) as [missing|e]; [|discriminate].
  destruct (0 <? length missing)%nat; [discriminate|].
  destruct (processDeletions_counts deletions 0 [] (setLock LockHeldHere w))
    as (deleted & errors1 & w1 & Hd & Hsum1 & _ & _).
  rewrite Hd in Hrun.
  destruct (processReactivations_counts reactivations 0 errors1 w1)
    as (reactivated & errors2 & w2 & Hr & Hsum2 & _ & Hmore).
  rewrite Hr in Hrun. injection Hrun as <- <-.
  cbn [deletedCount reactivatedCount errorCount errorDetails length] in *. lia.
Qed.


End PassCounts.

Lemma the_pass_counts_every_detected_record_witness :
  0 + 1 + 0 = length (@nil DeletionItem) + length [pendingReactivation] /\
  0 <= length (@nil DeletionItem) /\
  1 <= length [pendingReactivation] /\
  0 = length (@nil (Cell * string)).
Proof.
  apply (@the_pass_counts_every_detected_record exampleRuntime worldWithReactivation
           (after (@processBufferChanges exampleRuntime) worldWithReactivation)
           {| deletedCount := 0; reactivatedCount := 1; errorCount := 0; errorDetails := [] |}
           [] [pendingReactivation]); vm_compute; reflexivity.
Defined.


(** A reason of white space outside ASCII is a blank reason as well. *)
Example a_reason_of_a_no_break_space_is_blank :
  JSString.trim noBreakSpace = "" /\
  @processBufferChanges exampleRuntime worldWithNoBreakSpaceReason
    = (Throw (AppError INVALID_INPUT), worldWithNoBreakSpaceReason).
Proof. vm_compute. split; reflexivity. Qed.


(** ** The categorisation batch as a whole *)

Section BatchCounts.
Context `{Runtime}.

(** One file of the batch adds one row when it is moved, to the Inflow
    sheet when its status is inflow in any letter case and to the Outflow
    sheet otherwise, and at most one row when it fails. *)
Lemma moveOneFile_rows fileData w :
  exists r w1 addedIn addedOut,
    moveOneFile fileData w = (r, w1) /\
    grown w w1 addedIn addedOut /\
    match r with
    | Ok true =>
        addedIn = [flowRow fileData] /\ addedOut = [] /\
        cellToLowerCase (fr_inflowOutflowStatus fileData) = Ok STATUS.INFLOW
    | Ok false =>
        addedIn = [] /\ addedOut = [flowRow fileData] /\
        cellToLowerCase (fr_inflowOutflowStatus fileData) <> Ok STATUS.INFLOW
    | Throw _ => length addedIn + length addedOut <= 1
    end.
Proof.
  unfold moveOneFile.
  destruct (cellToLowerCase (fr_inflowOutflowStatus fileData)) as [status|e] eqn:Hst.
  2:{ erewrite bindM_Throw by reflexivity.
      exists (Throw e), w, [], []. split; [reflexivity|split; [apply grown_refl|cbn; lia]]. }
  erewrite bindM_Ok by reflexivity.
  destruct (String.eqb status STATUS.INFLOW) eqn:Hin.
  - apply String.eqb_eq in Hin as ->.
    destruct (Access_cases (sheetAccess (inflowSheet w))) as [Hrw|Hro].
    2:{ erewrite bindM_Throw
          by (rewrite addToInflowSheet_run; now apply appendRow_refused).
        exists (Throw ServiceError), w, [], [].
        split; [reflexivity|split; [apply grown_refl|cbn; lia]]. }
    erewrite bindM_Ok by (rewrite addToInflowSheet_run; now apply appendRow_ok).
    cbn [sheetOf]. set (w2 := setSheet INFLOW _ w).
    pose proof (moveFileToFolder_sameSheets (fr_fileUrl fileData)
                  BUFFER_FOLDER INFLOW_FOLDER w2) as Hframe.
    destruct (moveFileToFolder _ _ _ w2) as [[u|e] w3] eqn:Hmv; cbn [snd] in Hframe.
    + erewrite bindM_Ok by exact Hmv.
      exists (Ok true), w3, [flowRow fileData], [].
      split; [reflexivity|split; [|now repeat split]].
      eapply grown_sameSheets; [now apply grown_appendInflow|exact Hframe].
    + erewrite bindM_Throw by exact Hmv.
      exists (Throw e), w3, [flowRow fileData], [].
      split; [reflexivity|split; [|cbn; lia]].
      eapply grown_sameSheets; [now apply grown_appendInflow|exact Hframe].
  - apply String.eqb_neq in Hin.
    destruct (Access_cases (sheetAccess (outflowSheet w))) as [Hrw|Hro].
    2:{ erewrite bindM_Throw
          by (rewrite addToOutflowSheet_run; now apply appendRow_refused).
        exists (Throw ServiceError), w, [], [].
        split; [reflexivity|split; [apply grown_refl|cbn; lia]]. }
    erewrite bindM_Ok by (rewrite addToOutflowSheet_run; now apply appendRow_ok).
    cbn [sheetOf]. set (w2 := setSheet OUTFLOW _ w).
    pose proof (moveFileToFolder_sameSheets (fr_fileUrl fileData)
                  BUFFER_FOLDER OUTFLOW_FOLDER w2) as Hframe.
    destruct (moveFileToFolder _ _ _ w2) as [[u|e] w3] eqn:Hmv; cbn [snd] in Hframe.
    + erewrite bindM_Ok by exact Hmv.
      exists (Ok false), w3, [], [flowRow fileData].
      split; [reflexivity|split; [|repeat split; congruence]].
      eapply grown_sameSheets; [now apply grown_appendOutflow|exact Hframe].
    + erewrite bindM_Throw by exact Hmv.
      exists (Throw e), w3, [], [flowRow fileData].
      split; [reflexivity|split; [|cbn; lia]].
      eapply grown_sameSheets; [now apply grown_appendOutflow|exact Hframe].
Qed.

(** The loop of the batch counts every record once, and the two category
    sheets grow by one row for each record moved and by at most one row for
    each record that failed. *)
Lemma moveLoop_counts records : forall counts w,
  exists counts' w' addedIn addedOut,
    moveLoop records counts w = (Ok counts', w') /\
    grown w w' addedIn addedOut /\
    mv_inflowCount counts' + mv_outflowCount counts' + mv_errorCount counts'
      = mv_inflowCount counts + mv_outflowCount counts + mv_errorCount counts
        + length records /\
    length (mv_errors counts') + mv_errorCount counts
      = length (mv_errors counts) + mv_errorCount counts' /\
    mv_errorCount counts <= mv_errorCount counts' /\
    mv_inflowCount counts' <= mv_inflowCount counts + length addedIn /\
    mv_outflowCount counts' <= mv_outflowCount counts + length addedOut /\
    length addedIn + length addedOut <= length records.
Proof.
  induction records as [|fileData rest IH]; intros counts w.
  - exists counts, w, [], []. cbn.
    split; [reflexivity|split; [apply grown_refl|lia]].
  - cbn [moveLoop].
    destruct (moveOneFile_rows fileData w) as (r & w1 & aI & aO & Hone & Hg & Hres).
    assert (exists moved,
      tryCatchM (moveOneFile fileData ≫= λ isInflow, mret (Some isInflow))
        (fun _ => mret None) w = (Ok moved, w1) /\
      match moved with
      | Some true => r = Ok true
      | Some false => r = Ok false
      | None => exists e, r = Throw e
      end) as (moved & Htry & Hmoved).
    { unfold tryCatchM, mbind, M_bind. rewrite Hone.
      destruct r as [[|]|e]; eexists; (split; [reflexivity|]); cbn; eauto. }
    erewrite bindM_Ok by exact Htry.
    match goal with
    | |- context [moveLoop rest ?c w1] =>
        destruct (IH c w1)
          as (counts' & w' & aI' & aO' & Hrun & Hg' & Hsum & Herrs & He & Hi & Ho & Hrows)
    end.
    exists counts', w', (aI ++ aI'), (aO ++ aO').
    split; [exact Hrun|]. split; [eapply grown_trans; eassumption|].
    rewrite !length_app. cbn [length].
    destruct moved as [[|]|]; [subst r|subst r|destruct Hmoved as [e ->]];
      cbn [mv_inflowCount mv_outflowCount mv_errorCount mv_errors] in *;
      try (destruct Hres as (-> & -> & _); cbn [length]);
      rewrite ?length_app in *; cbn [length] in *; repeat split; lia.
Qed.

Lemma clearFinalSheet_clears w w2 :
  clearFinalSheet FINAL w = (Ok tt, w2) ->
  sheetValues (finalSheet w2) = take 1 (sheetValues (finalSheet w)) /\
  inflowSheet w2 = inflowSheet w /\ outflowSheet w2 = outflowSheet w.
Proof.
  intros Hrun. apply rethrow_inv in Hrun.
  stepM Hrun as lastRow w0 Hlast. apply liftR_inv in Hlast as [Hlast ->].
  unfold getLastRow, reading in Hlast. cbn [sheetOf] in Hlast.
  assert (lastRow = length (sheetValues (finalSheet w))) as ->
    by (destruct (sheetAccess (finalSheet w)); congruence).
  destruct (1 <? length (sheetValues (finalSheet w)))%nat eqn:Hlen.
  - unfold deleteRows, writing in Hrun. cbn [sheetOf] in Hrun.
    destruct (sheetAccess (finalSheet w)); try discriminate.
    injection Hrun as <-. cbn. apply Nat.ltb_lt in Hlen.
    rewrite drop_ge by lia. now rewrite app_nil_r.
  - apply mretM_inv in Hrun as [_ ->]. apply Nat.ltb_ge in Hlen.
    now rewrite take_ge by exact Hlen.
Qed.

(** When the batch returns, every record read from the Final sheet has
    been counted once: as inflow, as outflow, or as an error, with one entry
    in the list of errors for each error.  When no record failed and there
    was a record to move, the Final sheet keeps its header row only,
    whatever rows [getFinalSheetData] had skipped, and each category sheet
    has grown by exactly the number of records counted for it. *)
Theorem the_batch_counts_every_record (w w' : World) (counts : MoveResult) :
  moveFilesToInflowOutflow w = (Ok counts, w') ->
  mv_inflowCount counts + mv_outflowCount counts + mv_errorCount counts
    = length (getFinalSheetData (finalSheet w)) /\
  length (mv_errors counts) = mv_errorCount counts /\
  (mv_errorCount counts = 0 -> getFinalSheetData (finalSheet w) <> [] ->
   sheetValues (finalSheet w') = take 1 (sheetValues (finalSheet w)) /\
   length (sheetValues (inflowSheet w'))
     = length (sheetValues (inflowSheet w)) + mv_inflowCount counts /\
   length (sheetValues (outflowSheet w'))
     = length (sheetValues (outflowSheet w)) + mv_outflowCount counts).
Proof.
  intros Hrun.
  unfold moveFilesToInflowOutflow, tryFinally in Hrun. rewrite rethrow_run in Hrun.
  destruct (LockState_cases (scriptLock w)) as [Hheld|Hfree].
  { destruct (acquireLock_refused w Hheld) as [Hacq _].
    erewrite bindM_Throw in Hrun by exact Hacq. discriminate. }
  erewrite bindM_Ok in Hrun by (now apply acquireLock_run).
  set (w0 := setLock LockHeldHere w) in Hrun.
  erewrite bindM_Ok in Hrun by reflexivity.
  change (finalSheet w0) with (finalSheet w) in Hrun.
  set (records := getFinalSheetData (finalSheet w)) in *.
  destruct (length records =? 0)%nat eqn:Hnone.
  { apply Nat.eqb_eq in Hnone. injection Hrun as <- <-. cbn.
    split; [lia|]. split; [reflexivity|]. intros _ Hsome.
    destruct records; [congruence|discriminate]. }
  destruct (moveLoop_counts records noMoves w0)
    as (counts' & wl & aI & aO & Hloop & (HF & HB & HL & HI & HO) & Hsum & Herrs & _ &
        Hi & Ho & Hrows).
  erewrite bindM_Ok in Hrun by exact Hloop.
  cbn [noMoves mv_inflowCount mv_outflowCount mv_errorCount mv_errors length] in *.
  destruct (mv_errorCount counts' =? 0)%nat eqn:Herr.
  - apply Nat.eqb_eq in Herr.
    destruct (clearFinalSheet FINAL wl) as [[[]|e] w2] eqn:Hclear.
    2:{ erewrite bindM_Throw in Hrun by exact Hclear. discriminate. }
    erewrite bindM_Ok in Hrun by exact Hclear.
    injection Hrun as <- <-.
    split; [lia|]. split; [lia|]. intros _ _.
    apply clearFinalSheet_clears in Hclear as (Hfinal & Hin & Hout).
    change (finalSheet (releaseLock w2)) with (sheetOf (releaseLock w2) FINAL).
    change (inflowSheet (releaseLock w2)) with (sheetOf (releaseLock w2) INFLOW).
    change (outflowSheet (releaseLock w2)) with (sheetOf (releaseLock w2) OUTFLOW).
    rewrite !sheetOf_releaseLock. cbn [sheetOf].
    rewrite Hfinal, Hin, Hout, HF, HI, HO. cbn [sheetValues].
    rewrite !length_app. change (inflowSheet w0) with (inflowSheet w).
    change (outflowSheet w0) with (outflowSheet w).
    split; [reflexivity|]. split; lia.
  - apply Nat.eqb_neq in Herr.
    erewrite bindM_Ok in Hrun by reflexivity.
    injection Hrun as <- <-.
    split; [lia|]. split; [lia|]. intros Hzero. congruence.
Qed.
End BatchCounts.

Lemma the_batch_counts_every_record_witness :
  1 + 0 + 0 = length (getFinalSheetData (finalSheet worldWithPendingDocument)) /\
  length (@nil Cell) = 0 /\
  (0 = 0 -> getFinalSheetData (finalSheet worldWithPendingDocument) <> [] ->
   sheetValues (finalSheet (after (@moveFilesToInflowOutflow exampleRuntime)
                              worldWithPendingDocument))
     = take 1 (sheetValues (finalSheet worldWithPendingDocument)) /\
   length (sheetValues (inflowSheet (after (@moveFilesToInflowOutflow exampleRuntime)
                                       worldWithPendingDocument)))
     = length (sheetValues (inflowSheet worldWithPendingDocument)) + 1 /\
   length (sheetValues (outflowSheet (after (@moveFilesToInflowOutflow exampleRuntime)
                                        worldWithPendingDocument)))
     = length (sheetValues (outflowSheet worldWithPendingDocument)) + 0).
Proof.
  apply (@the_batch_counts_every_record exampleRuntime worldWithPendingDocument
           (after (@moveFilesToInflowOutflow exampleRuntime) worldWithPendingDocument)
           {| mv_inflowCount := 1; mv_outflowCount := 0; mv_errorCount := 0;
              mv_errors := [] |}).
  vm_compute. reflexivity.
Defined.

(** A batch over a Final sheet with a row that [getFinalSheetData] skips
    (its status is blank): the one record read is moved, no error is
    counted, and the clear takes the skipped row too, which is then in no
    sheet. *)
Example batch_clears_a_skipped_row :
  let run := @moveFilesToInflowOutflow exampleRuntime worldWithIncompleteFinalRow in
  length (getFinalSheetData (finalSheet worldWithIncompleteFinalRow)) = 1 /\
  fst run = Ok {| mv_inflowCount := 1; mv_outflowCount := 0; mv_errorCount := 0;
                  mv_errors := [] |} /\
  sheetValues (finalSheet (snd run)) = [FINAL_COLUMNS] /\
  length (sheetValues (inflowSheet (snd run))) = 2 /\
  sheetValues (outflowSheet (snd run)) = [FLOW_COLUMNS] /\
  hasUrl (inflowSheet (snd run)) (CStr "https://drive.google.com/file/d/B2/view") = false /\
  folderFiles (bufferFolder (snd run)) = ["B2"].
Proof. vm_compute. repeat split. Qed.

(** ** Files and folders *)

Lemma folderOf_setFolder ref f w : folderOf (setFolder ref f w) ref = f.
Proof. now destruct ref. Qed.

Lemma folderOf_setFolder_ne ref ref' f w :
  ref <> ref' -> folderOf (setFolder ref f w) ref' = folderOf w ref'.
Proof. destruct ref, ref'; intros Hne; try reflexivity; now destruct Hne. Qed.

Lemma changingFolder_inv ref f w w1 :
  changingFolder ref f w = (Ok tt, w1) ->
  folderWritable (folderOf w ref) = true /\
  w1 = setFolder ref (mkFolder (f (folderFiles (folderOf w ref))) true) w.
Proof.
  unfold changingFolder. destruct (folderWritable (folderOf w ref)); [|discriminate].
  now intros [= <-].
Qed.

Lemma getFileById_inv fileId w file w1 :
  getFileById fileId w = (Ok file, w1) ->
  file = fileId /\ fileId ∈ driveFiles w /\ w1 = w.
Proof.
  unfold getFileById, liftR.
  destruct (bool_decide (fileId ∈ driveFiles w)) eqn:Hin; [|discriminate].
  apply bool_decide_eq_true_1 in Hin. now intros [= <- <-].
Qed.

Lemma inFolder_inv ref file w present w1 :
  inFolder ref file w = (Ok present, w1) ->
  w1 = w /\ (present = true <-> file ∈ folderFiles (folderOf w ref)).
Proof.
  unfold inFolder, liftR. intros [= <- <-]. split; [reflexivity|].
  apply bool_decide_eq_true.
Qed.

Lemma FolderRef_cases (a b : FolderRef) : {a = b} + {a <> b}.
Proof. decide equality. Qed.

(** What a move between two different folders does when it returns: the
    URL names a file of Drive; the file is in the target folder and no longer
    in the source folder; every other file is where it was, and so are the
    sheets. *)
Theorem moveFileToFolder_moves_the_file
    (url : Cell) (source target : FolderRef) (w w1 : World) :
  source <> target ->
  moveFileToFolder url source target w = (Ok tt, w1) ->
  exists file,
    extractFileIdFromUrl url = Some file /\
    file ∈ driveFiles w /\
    file ∈ folderFiles (folderOf w1 target) /\
    (file ∉ folderFiles (folderOf w1 source)) /\
    (forall other folder, other <> file ->
       (other ∈ folderFiles (folderOf w1 folder) <-> other ∈ folderFiles (folderOf w folder))) /\
    (forall folder, folder <> source -> folder <> target ->
       folderOf w1 folder = folderOf w folder) /\
    sameSheets w w1.
Proof.
  intros Hne Hrun.
  pose proof (moveFileToFolder_sameSheets url source target w) as Hsheets.
  rewrite Hrun in Hsheets. cbn [snd] in Hsheets.
  apply rethrow_inv in Hrun.
  destruct (extractFileIdFromUrl url) as [fileId|]; [|discriminate].
  stepM Hrun as file w0 Hfile. apply getFileById_inv in Hfile as (-> & Hdrive & ->).
  stepM Hrun as u wa Hadd. destruct u.
  apply changingFolder_inv in Hadd as [_ ->].
  apply changingFolder_inv in Hrun as [_ ->].
  set (wa := setFolder target _ w).
  exists fileId. split; [reflexivity|]. split; [exact Hdrive|].
  assert (forall other,
            other ∈ folderFiles (folderOf wa target) <->
            (other = fileId \/ other ∈ folderFiles (folderOf w target))) as Htarget.
  { intros other. unfold wa. rewrite folderOf_setFolder. cbn [folderFiles].
    destruct (bool_decide (fileId ∈ folderFiles (folderOf w target))) eqn:Hin.
    - apply bool_decide_eq_true_1 in Hin. split; [now right|]. now intros [->|].
    - rewrite elem_of_app, list_elem_of_singleton. tauto. }
  split; [|split; [|split; [|split]]].
  - rewrite folderOf_setFolder_ne by congruence. apply Htarget. now left.
  - rewrite folderOf_setFolder. cbn [folderFiles].
    rewrite list_elem_of_filter. tauto.
  - intros other folder Hother.
    destruct (FolderRef_cases folder source) as [->|Hs].
    + rewrite folderOf_setFolder. cbn [folderFiles]. rewrite list_elem_of_filter.
      unfold wa. rewrite folderOf_setFolder_ne by congruence. tauto.
    + rewrite folderOf_setFolder_ne by congruence.
      destruct (FolderRef_cases folder target) as [->|Ht].
      * rewrite Htarget. tauto.
      * unfold wa. now rewrite folderOf_setFolder_ne by congruence.
  - intros folder Hs Ht. rewrite folderOf_setFolder_ne by congruence.
    unfold wa. now rewrite folderOf_setFolder_ne by congruence.
  - exact Hsheets.
Qed.

Lemma moveFileToFolder_moves_the_file_witness :
  exists file,
    extractFileIdFromUrl (CStr "https://drive.google.com/file/d/A1/view") = Some file /\
    file ∈ driveFiles worldWithPendingDocument /\
    file ∈ folderFiles (folderOf
             (after (moveFileToFolder (CStr "https://drive.google.com/file/d/A1/view")
                       BUFFER_FOLDER INFLOW_FOLDER) worldWithPendingDocument)
             INFLOW_FOLDER) /\
    (file ∉ folderFiles (folderOf
             (after (moveFileToFolder (CStr "https://drive.google.com/file/d/A1/view")
                       BUFFER_FOLDER INFLOW_FOLDER) worldWithPendingDocument)
             BUFFER_FOLDER)) /\
    (forall other folder, other <> file ->
       (other ∈ folderFiles (folderOf
                  (after (moveFileToFolder (CStr "https://drive.google.com/file/d/A1/view")
                            BUFFER_FOLDER INFLOW_FOLDER) worldWithPendingDocument)
                  folder) <->
        other ∈ folderFiles (folderOf worldWithPendingDocument folder))) /\
    (forall folder, folder <> BUFFER_FOLDER -> folder <> INFLOW_FOLDER ->
       folderOf (after (moveFileToFolder (CStr "https://drive.google.com/file/d/A1/view")
                          BUFFER_FOLDER INFLOW_FOLDER) worldWithPendingDocument)
         folder = folderOf worldWithPendingDocument folder) /\
    sameSheets worldWithPendingDocument
      (after (moveFileToFolder (CStr "https://drive.google.com/file/d/A1/view")
                BUFFER_FOLDER INFLOW_FOLDER) worldWithPendingDocument).
Proof.
  apply (moveFileToFolder_moves_the_file (CStr "https://drive.google.com/file/d/A1/view")
           BUFFER_FOLDER INFLOW_FOLDER worldWithPendingDocument);
    [discriminate | vm_compute; reflexivity].
Defined.

(** The first step of a reactivation.  A URL without an id is an
    invalid-input error and a file that Drive does not have a
    file-not-found error, both with the store as it was.  When the step
    returns, the file is in the Buffer folder; a file that was there already
    is left where it is, in whatever other folder it may be too; a file that
    was not there has been added and is in neither category folder. *)
Theorem ensureFileInBufferFolder_puts_the_file_back (item : ReactivationItem) (w : World) :
  (extractFileIdFromUrl (fileUrl item) = None ->
   ensureFileInBufferFolder item BUFFER_FOLDER w = (Throw (AppError INVALID_INPUT), w)) /\
  (forall file, extractFileIdFromUrl (fileUrl item) = Some file ->
     file ∉ driveFiles w ->
     ensureFileInBufferFolder item BUFFER_FOLDER w = (Throw (AppError FILE_NOT_FOUND), w)) /\
  (forall w1, ensureFileInBufferFolder item BUFFER_FOLDER w = (Ok tt, w1) ->
     exists file,
       extractFileIdFromUrl (fileUrl item) = Some file /\
       file ∈ driveFiles w /\
       file ∈ folderFiles (bufferFolder w1) /\
       (file ∈ folderFiles (bufferFolder w) -> w1 = w) /\
       (file ∉ folderFiles (bufferFolder w) ->
        (file ∉ folderFiles (inflowFolder w1)) /\ file ∉ folderFiles (outflowFolder w1)) /\
       sameSheets w w1).
Proof.
  split; [|split].
  - intros Hnone. unfold ensureFileInBufferFolder. rewrite rethrow_run. now rewrite Hnone.
  - intros file Hsome Hmissing. unfold ensureFileInBufferFolder.
    rewrite rethrow_run, Hsome. apply bindM_Throw.
    unfold tryCatchM, getFileById, liftR, throw.
    now rewrite bool_decide_eq_false_2 by exact Hmissing.
  - intros w1 Hrun.
    pose proof (ensureFileInBufferFolder_sameSheets item BUFFER_FOLDER w) as Hsheets.
    rewrite Hrun in Hsheets. cbn [snd] in Hsheets.
    apply rethrow_inv in Hrun.
    destruct (extractFileIdFromUrl (fileUrl item)) as [fileId|]; [|discriminate].
    stepM Hrun as file w0 Hfile.
    assert (file = fileId /\ fileId ∈ driveFiles w /\ w0 = w) as (-> & Hdrive & ->).
    { unfold tryCatchM in Hfile.
      destruct (getFileById fileId w) as [[f|e] wf] eqn:Hget; [|discriminate].
      injection Hfile as <- <-. now apply getFileById_inv in Hget. }
    stepM Hrun as isInBuffer w0 Hin. apply inFolder_inv in Hin as [-> Hin].
    cbn [folderOf] in Hin.
    exists fileId. split; [reflexivity|]. split; [exact Hdrive|].
    destruct isInBuffer.
    + apply mretM_inv in Hrun as [_ ->].
      assert (fileId ∈ folderFiles (bufferFolder w)) as Hthere by (now apply Hin).
      split; [exact Hthere|]. split; [reflexivity|]. split; [contradiction|exact Hsheets].
    + assert (fileId ∉ folderFiles (bufferFolder w)) as Hnot
        by (intros Hthere; apply Hin in Hthere; discriminate).
      stepM Hrun as u wa Hadd. destruct u.
      apply changingFolder_inv in Hadd as [_ ->].
      set (wa := setFolder BUFFER_FOLDER _ w) in Hrun.
      stepM Hrun as inInflow w0 Hq. apply inFolder_inv in Hq as [-> HinI].
      stepM Hrun as u wb Hrm. destruct u.
      assert (bufferFolder wb = bufferFolder wa /\
              (fileId ∉ folderFiles (inflowFolder wb)) /\
              outflowFolder wb = outflowFolder wa) as (HbB & HbI & HbO).
      { destruct inInflow.
        - apply changingFolder_inv in Hrm as [_ ->]. cbn.
          repeat split. rewrite list_elem_of_filter. tauto.
        - apply mretM_inv in Hrm as [_ ->]. repeat split.
          intros Hthere. apply HinI in Hthere. discriminate. }
      stepM Hrun as inOutflow w0 Hq. apply inFolder_inv in Hq as [-> HinO].
      assert (bufferFolder w1 = bufferFolder wb /\
              inflowFolder w1 = inflowFolder wb /\
              fileId ∉ folderFiles (outflowFolder w1)) as (HcB & HcI & HcO).
      { destruct inOutflow.
        - apply changingFolder_inv in Hrun as [_ ->]. cbn.
          repeat split. rewrite list_elem_of_filter. tauto.
        - apply mretM_inv in Hrun as [_ ->]. repeat split.
          intros Hthere. apply HinO in Hthere. discriminate. }
      split.
      { rewrite HcB, HbB. unfold wa. cbn [bufferFolder setFolder folderFiles folderOf].
        rewrite bool_decide_eq_false_2 by exact Hnot.
        rewrite elem_of_app, list_elem_of_singleton. now right. }
      split; [contradiction|]. split; [|exact Hsheets].
      intros _. split; [now rewrite HcI|exact HcO].
Qed.

(** ** [getFinalSheetData] *)

Lemma length_omap_le {A B} (f : A -> option B) (l : list A) :
  length (omap f l) <= length l.
Proof.
  induction l as [|x l IH]; [reflexivity|]. cbn. destruct (f x); cbn; lia.
Qed.

Lemma getFinalSheetData_run (sh : Sheet) :
  getFinalSheetData sh =
    match sheetAccess sh with
    | Unavailable => []
    | _ => omap (finalRecordOfRow (headerRow (sheetValues sh))) (drop 1 (sheetValues sh))
    end.
Proof.
  unfold getFinalSheetData, getLastRow, getValues, reading, tryCatch.
  destruct (sheetAccess sh); cbn [mbind Result_bind mret Result_ret];
    try reflexivity;
    (destruct (length (sheetValues sh) <=? 1)%nat eqn:Hlen;
     [apply Nat.leb_le in Hlen; now rewrite drop_ge by exact Hlen|reflexivity]).
Qed.

(** The records read from the Final sheet are the data rows that have a
    file name, a File URL and an Inflow/Outflow status, each with the cells
    of its row; a row that lacks one of the three is skipped without an
    error, and a sheet that cannot be read gives no record. *)
Theorem getFinalSheetData_reads_the_complete_rows (sh : Sheet) :
  let cell row name :=
    safeGetCellValue row (getColumnIndex (headerRow (sheetValues sh)) name) in
  (forall record, In record (getFinalSheetData sh) ->
     truthy (fr_fileName record) = true /\
     truthy (fr_fileUrl record) = true /\
     truthy (fr_inflowOutflowStatus record) = true /\
     exists row, In row (drop 1 (sheetValues sh)) /\
       fr_fileName record = cell row "File Name" /\
       fr_fileUrl record = cell row "File URL" /\
       fr_inflowOutflowStatus record = cell row "Inflow/Outflow Status") /\
  (sheetAccess sh <> Unavailable ->
   forall row, In row (drop 1 (sheetValues sh)) ->
     truthy (cell row "File Name") = true ->
     truthy (cell row "File URL") = true ->
     truthy (cell row "Inflow/Outflow Status") = true ->
     exists record, In record (getFinalSheetData sh) /\
       fr_fileName record = cell row "File Name" /\
       fr_fileUrl record = cell row "File URL" /\
       fr_inflowOutflowStatus record = cell row "Inflow/Outflow Status") /\
  length (getFinalSheetData sh) <= length (sheetValues sh) - 1 /\
  (sheetAccess sh = Unavailable -> getFinalSheetData sh = []).
Proof.
  intros cell. rewrite getFinalSheetData_run. split; [|split; [|split]].
  - intros record Hin.
    assert (In record (omap (finalRecordOfRow (headerRow (sheetValues sh)))
                         (drop 1 (sheetValues sh)))) as Hin'
      by (destruct (sheetAccess sh); [exact Hin|exact Hin|destruct Hin]).
    clear Hin. rename Hin' into Hin.
    apply list_elem_of_In, list_elem_of_omap in Hin as (row & Hrow & Hrec).
    apply list_elem_of_In in Hrow. unfold finalRecordOfRow in Hrec.
    fold (cell row "File Name") (cell row "File URL") (cell row "Inflow/Outflow Status")
      in Hrec.
    destruct (truthy (cell row "File Name")) eqn:Hn; [|discriminate].
    destruct (truthy (cell row "File URL")) eqn:Hu; [|discriminate].
    destruct (truthy (cell row "Inflow/Outflow Status")) eqn:Hs; [|discriminate].
    injection Hrec as <-. cbn. repeat split; try assumption.
    exists row. now repeat split.
  - intros Hacc row Hrow Hn Hu Hs.
    eexists. split.
    + assert (forall record,
                In record (omap (finalRecordOfRow (headerRow (sheetValues sh)))
                             (drop 1 (sheetValues sh))) ->
                In record match sheetAccess sh with
                          | Unavailable => []
                          | _ => omap (finalRecordOfRow (headerRow (sheetValues sh)))
                                   (drop 1 (sheetValues sh))
                          end) as Hreadable
        by (destruct (sheetAccess sh); [trivial|trivial|congruence]).
      apply Hreadable.
      apply list_elem_of_In, list_elem_of_omap. exists row.
      split; [now apply list_elem_of_In|].
      unfold finalRecordOfRow.
      fold (cell row "File Name") (cell row "File URL") (cell row "Inflow/Outflow Status").
      rewrite Hn, Hu, Hs. reflexivity.
    + now repeat split.
  - assert (length (omap (finalRecordOfRow (headerRow (sheetValues sh)))
                      (drop 1 (sheetValues sh))) <= length (sheetValues sh) - 1) as Hlen
      by (etransitivity; [apply length_omap_le|]; rewrite length_drop; lia).
    destruct (sheetAccess sh); [exact Hlen|exact Hlen|cbn; lia].
  - now intros ->.
Qed.

(** ** A deletion, once processed *)

(** The items of the deletion loop carry the cells of their rows. *)
Lemma deletionLoop_cells headers rows : forall i acc items,
  deletionLoop headers i rows acc = Ok items ->
  forall item, In item items ->
    In item acc \/
    exists k row, rows !! k = Some row /\ del_rowIndex item = i + k + 1 /\
      del_reason item = safeGetCellValue row (getColumnIndex headers "Reason") /\
      del_fileUrl item = safeGetCellValue row (getColumnIndex headers "File URL") /\
      del_originalFilename item
        = safeGetCellValue row (getColumnIndex headers "Original File Name").
Proof.
  induction rows as [|row rest IH]; intros i acc items Hrun item Hin; cbn in Hrun.
  - injection Hrun as <-. now left.
  - destruct (deletionGuard _ _) as [marked|e] eqn:Hg; cbn in Hrun; [|discriminate].
    destruct (IH _ _ _ Hrun item Hin) as [Hacc|(k & r & Hk & Hidx & Hcells)].
    + destruct marked; [|now left].
      apply in_app_or in Hacc as [Hacc|[<-|[]]]; [now left|].
      right. exists 0, row. cbn. repeat split. lia.
    + right. exists (S k), r. split; [exact Hk|]. split; [lia|exact Hcells].
Qed.

Lemma getFilesMarkedForDeletion_cells sh items item :
  getFilesMarkedForDeletion sh = Ok items -> In item items ->
  exists k row, sheetValues sh !! (S k) = Some row /\ del_rowIndex item = k + 2 /\
    del_reason item
      = safeGetCellValue row (getColumnIndex (headerRow (sheetValues sh)) "Reason") /\
    del_fileUrl item
      = safeGetCellValue row (getColumnIndex (headerRow (sheetValues sh)) "File URL") /\
    del_originalFilename item
      = safeGetCellValue row
          (getColumnIndex (headerRow (sheetValues sh)) "Original File Name").
Proof.
  unfold getFilesMarkedForDeletion, getFilesMarkedForDeletion_try, getLastRow, getValues,
    reading, tryCatch.
  destruct (sheetAccess sh); cbn [mbind Result_bind];
    try (intros [= <-] []);
    (destruct (length (sheetValues sh) <=? 1)%nat; cbn [mbind Result_bind];
     [intros [= <-] []|]);
    (destruct (deletionLoop _ _ _ _) as [l|e] eqn:Hloop; [|intros [= <-] []]);
    intros [= <-] Hin;
    (destruct (deletionLoop_cells _ _ _ _ _ Hloop item Hin)
       as [[]|(k & row & Hk & Hidx & Hcells)]);
    exists k, row; (split; [|split; [lia|exact Hcells]]);
    rewrite lookup_drop in Hk; exact Hk.
Qed.

Lemma deletionGuard_of_note status note :
  deletionGuard status (CStr ("Deleted: " +:+ note)) <> Ok true.
Proof.
  unfold deletionGuard. destruct (strictEq status _); discriminate.
Qed.

Lemma removeFromSheetLoop_bufferKept ref data index v : forall i removed,
  ref <> BUFFER ->
  preserves bufferKept (removeFromSheetLoop ref data index v i removed).
Proof.
  induction i as [|i IH]; intros removed Hne; cbn [removeFromSheetLoop].
  - apply preserves_ret; typeclasses eauto.
  - unfold deleteRow.
    frame ltac:(first [ now apply IH | now apply writing_other_bufferKept ]).
Qed.

Section DeletionIdempotent.
Context `{Runtime}.

Lemma removeDownstream_bufferKept item :
  preserves bufferKept (removeDownstream item FINAL INFLOW OUTFLOW).
Proof.
  unfold removeDownstream, removeFromSheet.
  frame ltac:(first
    [ apply removeFromSheetLoop_bufferKept; discriminate
    | eapply preserves_weaken;
        [apply sameSheets_bufferKept|apply removeFileFromDriveFolders_sameSheets] ]).
Qed.

(** What a successful deletion leaves in the Buffer sheet: the header as it
    was, and in the record's row the status Deleted and the reason with its
    prefix and time stamp. *)
Lemma processFileDeletion_effect item w w' :
  2 <= del_rowIndex item ->
  processFileDeletion item FINAL INFLOW OUTFLOW BUFFER w = (Ok tt, w') ->
  let headers := headerRow (sheetValues (bufferSheet w)) in
  headerRow (sheetValues (bufferSheet w')) = headers /\
  (getColumnIndex headers "Status" <> (-1)%Z ->
   cellAt (sheetValues (bufferSheet w')) (del_rowIndex item)
     (Z.to_nat (getColumnIndex headers "Status") + 1) = CStr STATUS.DELETED) /\
  (getColumnIndex headers "Reason" <> (-1)%Z ->
   cellAt (sheetValues (bufferSheet w')) (del_rowIndex item)
     (Z.to_nat (getColumnIndex headers "Reason") + 1)
   = CStr ("Deleted: " +:+ cellToString (del_reason item) +:+ " (" +:+
           getCurrentTimestamp +:+ ")")).
Proof.
  intros Hrow Hrun headers. apply rethrow_inv in Hrun.
  stepM Hrun as u wa Hdown. destruct u.
  pose proof (removeDownstream_bufferKept item w) as Hkept.
  rewrite Hdown in Hkept. unfold bufferKept in Hkept. cbn [snd] in Hkept.
  destruct (updateBufferSheetForDeletion_effect _ _ _ _ Hrow Hrun)
    as (Hh & Hs & Hr & _ & _).
  rewrite Hkept in Hh, Hs, Hr. now repeat split.
Qed.

(** Deleting is idempotent for the pass as well: once a detected record
    with a reason has been processed, its Buffer row has the status Deleted
    and a reason that starts with "Deleted: ", and neither detection returns
    the row again. *)
Theorem a_processed_deletion_is_not_detected_again
    (w w' : World) (items : list DeletionItem) (item : DeletionItem) :
  getFilesMarkedForDeletion (bufferSheet w) = Ok items ->
  In item items ->
  del_reason item <> CStr "" ->
  processFileDeletion item FINAL INFLOW OUTFLOW BUFFER w = (Ok tt, w') ->
  cellAt (sheetValues (bufferSheet w')) (del_rowIndex item)
    (Z.to_nat (getColumnIndex (headerRow (sheetValues (bufferSheet w))) "Status") + 1)
  = CStr STATUS.DELETED /\
  cellAt (sheetValues (bufferSheet w')) (del_rowIndex item)
    (Z.to_nat (getColumnIndex (headerRow (sheetValues (bufferSheet w))) "Reason") + 1)
  = CStr ("Deleted: " +:+ cellToString (del_reason item) +:+ " (" +:+
          getCurrentTimestamp +:+ ")") /\
  headerRow (sheetValues (bufferSheet w')) = headerRow (sheetValues (bufferSheet w)) /\
  exists deletions' reactivations',
    getFilesMarkedForDeletion (bufferSheet w') = Ok deletions' /\
    getFilesMarkedForReactivation (bufferSheet w') = Ok reactivations' /\
    ~ In (del_rowIndex item) (map del_rowIndex deletions') /\
    ~ In (del_rowIndex item) (map rowIndex reactivations').
Proof.
  intros Hdetect Hin Hreason Hrun.
  destruct (getFilesMarkedForDeletion_items _ _ _ Hdetect Hin)
    as (k & row & Hrow & Hidx & Hguard).
  destruct (getFilesMarkedForDeletion_cells _ _ _ Hdetect Hin)
    as (k0 & row0 & Hrow0 & Hidx0 & Hcell & _).
  assert (k0 = k) as -> by lia. rewrite Hrow in Hrow0. injection Hrow0 as <-.
  apply deletionGuard_true in Hguard as (Hstatus & _).
  set (headers := headerRow (sheetValues (bufferSheet w))) in *.
  assert (getColumnIndex headers "Status" <> (-1)%Z) as Hs.
  { intros Hnone. rewrite Hnone in Hstatus. discriminate Hstatus. }
  assert (getColumnIndex headers "Reason" <> (-1)%Z) as Hr.
  { intros Hnone. rewrite Hnone in Hcell. now apply Hreason. }
  destruct (processFileDeletion_effect item w w' ltac:(lia) Hrun)
    as (Hheader & Hdeleted & Hnote). fold headers in Hheader, Hdeleted, Hnote.
  specialize (Hdeleted Hs). specialize (Hnote Hr).
  split; [exact Hdeleted|]. split; [exact Hnote|]. split; [exact Hheader|].
  destruct (getFilesMarkedForDeletion_total (bufferSheet w')) as (deletions' & Hdel').
  destruct (getFilesMarkedForReactivation_total (bufferSheet w')) as (reactivations' & Hrea').
  exists deletions', reactivations'. split; [exact Hdel'|]. split; [exact Hrea'|]. split.
  - intros Hin'. apply in_map_iff in Hin' as (item' & Hsame & Hin').
    destruct (getFilesMarkedForDeletion_items _ _ _ Hdel' Hin')
      as (k' & row' & Hrow' & Hidx' & Hguard').
    assert (k' = k) as -> by lia.
    rewrite Hheader in Hguard'.
    destruct (getColumnIndex_spec headers "Reason") as [Hnone|[Hpos _]]; [congruence|].
    rewrite <- (cellAt_row _ _ _ _ Hrow' Hpos) in Hguard'.
    replace (S (S k)) with (del_rowIndex item) in Hguard' by lia.
    rewrite Hnote in Hguard'. now apply deletionGuard_of_note in Hguard'.
  - intros Hin'. apply in_map_iff in Hin' as (item' & Hsame & Hin').
    destruct (getFilesMarkedForReactivation_items _ _ _ Hrea' Hin')
      as (k' & row' & Hrow' & Hidx' & Hguard').
    assert (k' = k) as -> by lia.
    rewrite Hheader in Hguard'.
    destruct (getColumnIndex_spec headers "Status") as [Hnone|[Hpos _]]; [congruence|].
    rewrite <- (cellAt_row _ _ _ _ Hrow' Hpos) in Hguard'.
    replace (S (S k)) with (del_rowIndex item) in Hguard' by lia.
    rewrite Hdeleted in Hguard'. discriminate Hguard'.
Qed.
End DeletionIdempotent.

Lemma a_processed_deletion_is_not_detected_again_witness :
  cellAt (sheetValues
            (bufferSheet (after (@processFileDeletion exampleRuntime pendingDeletion
                                   FINAL INFLOW OUTFLOW BUFFER) worldWithLockedInflowFolder)))
    (del_rowIndex pendingDeletion)
    (Z.to_nat (getColumnIndex
                 (headerRow (sheetValues (bufferSheet worldWithLockedInflowFolder)))
                 "Status") + 1)
  = CStr STATUS.DELETED /\
  cellAt (sheetValues
            (bufferSheet (after (@processFileDeletion exampleRuntime pendingDeletion
                                   FINAL INFLOW OUTFLOW BUFFER) worldWithLockedInflowFolder)))
    (del_rowIndex pendingDeletion)
    (Z.to_nat (getColumnIndex
                 (headerRow (sheetValues (bufferSheet worldWithLockedInflowFolder)))
                 "Reason") + 1)
  = CStr ("Deleted: " +:+ @cellToString exampleRuntime (del_reason pendingDeletion) +:+ " (" +:+
          @getCurrentTimestamp exampleRuntime +:+ ")") /\
  headerRow (sheetValues
               (bufferSheet (after (@processFileDeletion exampleRuntime pendingDeletion
                                      FINAL INFLOW OUTFLOW BUFFER)
                               worldWithLockedInflowFolder)))
  = headerRow (sheetValues (bufferSheet worldWithLockedInflowFolder)) /\
  exists deletions' reactivations',
    getFilesMarkedForDeletion
      (bufferSheet (after (@processFileDeletion exampleRuntime pendingDeletion
                             FINAL INFLOW OUTFLOW BUFFER) worldWithLockedInflowFolder))
      = Ok deletions' /\
    getFilesMarkedForReactivation
      (bufferSheet (after (@processFileDeletion exampleRuntime pendingDeletion
                             FINAL INFLOW OUTFLOW BUFFER) worldWithLockedInflowFolder))
      = Ok reactivations' /\
    ~ In (del_rowIndex pendingDeletion) (map del_rowIndex deletions') /\
    ~ In (del_rowIndex pendingDeletion) (map rowIndex reactivations').
Proof.
  apply (@a_processed_deletion_is_not_detected_again exampleRuntime
           worldWithLockedInflowFolder
           (after (@processFileDeletion exampleRuntime pendingDeletion
                     FINAL INFLOW OUTFLOW BUFFER) worldWithLockedInflowFolder)
           [pendingDeletion] pendingDeletion);
    [vm_compute; reflexivity | left; reflexivity | discriminate | vm_compute; reflexivity].
Defined.

(** ** From a deletion back to a reactivation *)

Lemma reactivationGuard_throws (status reason : Cell) (e : Exn) :
  reactivationGuard status reason = Throw e -> e = TypeError.
Proof.
  unfold reactivationGuard. destruct (strictEq status (CStr STATUS.ACTIVE)); [|discriminate].
  destruct reason; cbv [cellStartsWith]; congruence.
Qed.

(** The reactivation loop over rows whose guard does not throw: it returns
    and adds an item for every row that passes the guard. *)
Lemma reactivationLoop_complete (headers : list Cell) (rows : list (list Cell)) :
  forall i acc,
  (forall row, In row rows ->
     reactivationGuard (safeGetCellValue row (getColumnIndex headers "Status"))
                       (safeGetCellValue row (getColumnIndex headers "Reason"))
       <> Throw TypeError) ->
  exists items, reactivationLoop headers i rows acc = Ok items /\
    (forall item, In item acc -> In item items) /\
    forall k row, rows !! k = Some row ->
      reactivationGuard (safeGetCellValue row (getColumnIndex headers "Status"))
                        (safeGetCellValue row (getColumnIndex headers "Reason")) = Ok true ->
      exists item, In item items /\ rowIndex item = i + k + 1 /\
        fileUrl item = safeGetCellValue row (getColumnIndex headers "File URL") /\
        previousReason item = safeGetCellValue row (getColumnIndex headers "Reason").
Proof.
  induction rows as [|row rest IH]; intros i acc Hsafe.
  - exists acc. split; [reflexivity|]. split; [auto|]. intros k row. now rewrite lookup_nil.
  - cbn [reactivationLoop].
    destruct (reactivationGuard (safeGetCellValue row (getColumnIndex headers "Status"))
                (safeGetCellValue row (getColumnIndex headers "Reason")))
      as [marked|e] eqn:Hg.
    2:{ exfalso. apply (Hsafe row (or_introl eq_refl)). rewrite Hg.
        now apply reactivationGuard_throws in Hg as ->. }
    cbn [mbind Result_bind].
    match goal with
    | |- context [reactivationLoop headers (S i) rest ?acc'] =>
        destruct (IH (S i) acc' (fun r Hin => Hsafe r (or_intror Hin)))
          as (items & Hrun & Hkeep & Hall)
    end.
    exists items. split; [exact Hrun|]. split.
    + intros item Hin. apply Hkeep. destruct marked; [|exact Hin].
      apply in_or_app. now left.
    + intros [|k] r Hr Hguard; cbn in Hr.
      * injection Hr as <-. rewrite Hguard in Hg. injection Hg as <-.
        eexists. split; [apply Hkeep, in_or_app; right; left; reflexivity|].
        cbn. repeat split. lia.
      * destruct (Hall k r Hr Hguard) as (item & Hin & Hidx & Hrest).
        exists item. split; [exact Hin|]. split; [lia|exact Hrest].
Qed.

Lemma writeCell_row_exists row column v values :
  1 <= row -> exists r, writeCell row column v values !! (row - 1) = Some r.
Proof.
  intros Hrow. apply lookup_lt_is_Some_2. unfold writeCell.
  destruct (padTo row [] values !! (row - 1)) as [r|];
    rewrite ?length_insert, length_padTo; lia.
Qed.

Lemma setIfColumn_access ref row index v w w1 :
  setIfColumn ref row index v w = (Ok tt, w1) ->
  sheetAccess (sheetOf w ref) = ReadWrite -> sheetAccess (sheetOf w1 ref) = ReadWrite.
Proof.
  unfold setIfColumn. destruct (index =? -1)%Z.
  - now intros [_ ->]%mretM_inv.
  - intros [_ ->]%setValue_inv _. now rewrite sheetOf_setSheet.
Qed.

Section DeletionUndone.
Context `{Runtime}.

Lemma updateBufferSheetForDeletion_access i reason w w1 :
  updateBufferSheetForDeletion BUFFER i reason w = (Ok tt, w1) ->
  getColumnIndex (headerRow (sheetValues (bufferSheet w))) "Status" <> (-1)%Z ->
  sheetAccess (bufferSheet w1) = ReadWrite.
Proof.
  intros Hrun Hfound. apply rethrow_inv in Hrun.
  stepM Hrun as hs w0 Hh. apply getHeaders_inv in Hh as [-> ->].
  change (sheetOf w BUFFER) with (bufferSheet w) in Hrun.
  stepM Hrun as u1 wa Hstatus. stepM Hrun as u2 wb Hreason. destruct u1, u2.
  assert (sheetAccess (sheetOf wa BUFFER) = ReadWrite) as Ha.
  { unfold setIfColumn in Hstatus. apply Z.eqb_neq in Hfound. rewrite Hfound in Hstatus.
    apply setValue_inv in Hstatus as [_ ->]. now rewrite sheetOf_setSheet. }
  change (bufferSheet w1) with (sheetOf w1 BUFFER).
  eapply setIfColumn_access; [exact Hrun|].
  eapply setIfColumn_access; [exact Hreason|exact Ha].
Qed.

(** A deletion can be undone.  After a detected record with a reason has
    been deleted, let the operator write Active into the Status cell of its
    Buffer row: on a sheet whose Active rows all have a text as reason,
    reactivation detection returns the row, with the deletion note as its
    previous reason. *)
Theorem a_deleted_record_can_be_reactivated
    (w w' : World) (items : list DeletionItem) (item : DeletionItem) :
  getFilesMarkedForDeletion (bufferSheet w) = Ok items ->
  In item items ->
  del_reason item <> CStr "" ->
  processFileDeletion item FINAL INFLOW OUTFLOW BUFFER w = (Ok tt, w') ->
  (forall row,
     In row (drop 1 (sheetValues
                       (statusEdited (bufferSheet w') (del_rowIndex item) STATUS.ACTIVE))) ->
     safeGetCellValue row
       (getColumnIndex (headerRow (sheetValues (bufferSheet w'))) "Status")
       = CStr STATUS.ACTIVE ->
     exists r, safeGetCellValue row
                 (getColumnIndex (headerRow (sheetValues (bufferSheet w'))) "Reason")
               = CStr r) ->
  exists reactivations reactivation,
    getFilesMarkedForReactivation
      (statusEdited (bufferSheet w') (del_rowIndex item) STATUS.ACTIVE) = Ok reactivations /\
    In reactivation reactivations /\
    rowIndex reactivation = del_rowIndex item /\
    previousReason reactivation
      = CStr ("Deleted: " +:+ cellToString (del_reason item) +:+ " (" +:+
              getCurrentTimestamp +:+ ")").
Proof.
  intros Hdetect Hin Hreason Hrun Htext.
  set (headers := headerRow (sheetValues (bufferSheet w))).
  destruct (getFilesMarkedForDeletion_items _ _ _ Hdetect Hin)
    as (k & row & Hrow & Hidx & Hguard).
  destruct (getFilesMarkedForDeletion_cells _ _ _ Hdetect Hin)
    as (k0 & row0 & Hrow0 & Hidx0 & Hcell & _).
  assert (k0 = k) as -> by lia. rewrite Hrow in Hrow0. injection Hrow0 as <-.
  apply deletionGuard_true in Hguard as (Hstatus & _). fold headers in Hstatus, Hcell.
  assert (getColumnIndex headers "Status" <> (-1)%Z) as Hs.
  { intros Hnone. rewrite Hnone in Hstatus. discriminate Hstatus. }
  assert (getColumnIndex headers "Reason" <> (-1)%Z) as Hr.
  { intros Hnone. rewrite Hnone in Hcell. now apply Hreason. }
  destruct (processFileDeletion_effect item w w' ltac:(lia) Hrun)
    as (Hheader & _ & Hnote). fold headers in Hheader, Hnote.
  specialize (Hnote Hr).
  assert (sheetAccess (bufferSheet w') = ReadWrite) as Haccess.
  { pose proof Hrun as Hrun'. apply rethrow_inv in Hrun'.
    stepM Hrun' as u wa Hdown. destruct u.
    pose proof (removeDownstream_bufferKept item w) as Hkept.
    rewrite Hdown in Hkept. unfold bufferKept in Hkept. cbn [snd] in Hkept.
    eapply updateBufferSheetForDeletion_access; [exact Hrun'|]. now rewrite Hkept. }
  unfold statusEdited in *. rewrite Hheader in *.
  set (statusColumn := Z.to_nat (getColumnIndex headers "Status") + 1) in *.
  set (reasonColumn := Z.to_nat (getColumnIndex headers "Reason") + 1) in *.
  set (edited := mkSheet (writeCell (del_rowIndex item) statusColumn (CStr STATUS.ACTIVE)
                            (sheetValues (bufferSheet w')))
                   (sheetAccess (bufferSheet w'))) in *.
  assert (headerRow (sheetValues edited) = headers) as Hheader'.
  { unfold edited. cbn [sheetValues]. rewrite headerRow_writeCell by lia. exact Hheader. }
  destruct (writeCell_row_exists (del_rowIndex item) statusColumn (CStr STATUS.ACTIVE)
              (sheetValues (bufferSheet w')) ltac:(lia)) as [row' Hrow'].
  replace (del_rowIndex item - 1) with (S k) in Hrow' by lia.
  destruct (getColumnIndex_spec headers "Status") as [Hnone|[Hspos _]]; [congruence|].
  destruct (getColumnIndex_spec headers "Reason") as [Hnone|[Hrpos _]]; [congruence|].
  assert (safeGetCellValue row' (getColumnIndex headers "Status") = CStr STATUS.ACTIVE)
    as Hstatus'.
  { rewrite <- (cellAt_row _ _ _ _ Hrow' Hspos).
    replace (S (S k)) with (del_rowIndex item) by lia.
    apply cellAt_writeCell_same; unfold statusColumn; lia. }
  assert (safeGetCellValue row' (getColumnIndex headers "Reason")
          = CStr ("Deleted: " +:+ cellToString (del_reason item) +:+ " (" +:+
                  getCurrentTimestamp +:+ ")")) as Hreason'.
  { rewrite <- (cellAt_row _ _ _ _ Hrow' Hrpos).
    replace (S (S k)) with (del_rowIndex item) by lia.
    fold reasonColumn. rewrite <- Hnote.
    apply cellAt_writeCell_other; unfold statusColumn, reasonColumn; try lia.
    right. apply column_ne; [discriminate|exact Hr|exact Hs]. }
  destruct (reactivationLoop_complete headers (drop 1 (sheetValues edited)) 1 [])
    as (reactivations & Hloop & _ & Hall).
  { intros r Hr' Hthrow. unfold reactivationGuard in Hthrow.
    destruct (strictEq (safeGetCellValue r (getColumnIndex headers "Status"))
                (CStr STATUS.ACTIVE)) eqn:Hactive; [|discriminate].
    apply strictEq_CStr in Hactive. destruct (Htext r Hr' Hactive) as [t Ht].
    rewrite Ht in Hthrow. discriminate. }
  destruct (Hall k row') as (reactivation & Hfound & Hidx' & _ & Hprevious).
  { rewrite lookup_drop. exact Hrow'. }
  { unfold reactivationGuard. rewrite Hstatus', Hreason'. reflexivity. }
  exists reactivations, reactivation.
  split; [|split; [exact Hfound|split; [lia|now rewrite Hprevious]]].
  unfold getFilesMarkedForReactivation, getFilesMarkedForReactivation_try, getLastRow,
    getValues, reading.
  assert (sheetAccess edited = ReadWrite) as -> by exact Haccess.
  cbn [mbind Result_bind].
  assert ((length (sheetValues edited) <=? 1)%nat = false) as ->.
  { apply Nat.leb_gt. apply lookup_lt_Some in Hrow'. unfold edited. cbn [sheetValues]. lia. }
  cbn [mbind Result_bind]. rewrite Hheader', Hloop. reflexivity.
Qed.
End DeletionUndone.

Lemma a_deleted_record_can_be_reactivated_witness :
  exists reactivations reactivation,
    getFilesMarkedForReactivation
      (statusEdited
         (bufferSheet (after (@processFileDeletion exampleRuntime pendingDeletion
                                FINAL INFLOW OUTFLOW BUFFER) worldWithLockedInflowFolder))
         (del_rowIndex pendingDeletion) STATUS.ACTIVE) = Ok reactivations /\
    In reactivation reactivations /\
    rowIndex reactivation = del_rowIndex pendingDeletion /\
    previousReason reactivation
      = CStr ("Deleted: " +:+ @cellToString exampleRuntime (del_reason pendingDeletion) +:+
              " (" +:+ @getCurrentTimestamp exampleRuntime +:+ ")").
Proof.
  apply (@a_deleted_record_can_be_reactivated exampleRuntime worldWithLockedInflowFolder
           (after (@processFileDeletion exampleRuntime pendingDeletion
                     FINAL INFLOW OUTFLOW BUFFER) worldWithLockedInflowFolder)
           [pendingDeletion] pendingDeletion).
  - vm_compute. reflexivity.
  - left. reflexivity.
  - discriminate.
  - vm_compute. reflexivity.
  - vm_compute. intros row [<-|[]] _. eexists. reflexivity.
Defined.

(** ** Cleaned texts and file names *)

Lemma chars_append (a b : string) :
  list_ascii_of_string (a +:+ b) = list_ascii_of_string a ++ list_ascii_of_string b.
Proof.
  induction a as [|c a IH]; [reflexivity|].
  rewrite append_String_l. cbn [list_ascii_of_string app]. now rewrite IH.
Qed.

Lemma chars_rev_app (s1 s2 : string) :
  list_ascii_of_string (String.rev_app s1 s2)
    = rev (list_ascii_of_string s1) ++ list_ascii_of_string s2.
Proof.
  revert s2. induction s1 as [|c s1 IH]; intros s2; [reflexivity|].
  cbn [String.rev_app list_ascii_of_string rev]. rewrite IH.
  cbn [list_ascii_of_string]. now rewrite <- app_assoc.
Qed.

Lemma chars_rev (s : string) :
  list_ascii_of_string (String.rev s) = rev (list_ascii_of_string s).
Proof. unfold String.rev. rewrite chars_rev_app. apply app_nil_r. Qed.

Section CharacterClasses.
Context (P : ascii -> Prop).

Lemma replaceCharsBy_chars (Q : ascii -> Prop) (class : ascii -> bool) (s : string) :
  P "_"%char -> (forall c, Q c -> class c = false -> P c) ->
  List.Forall Q (list_ascii_of_string s) ->
  List.Forall P (list_ascii_of_string (replaceCharsBy class s)).
Proof.
  intros Hunder Hkeep. induction s as [|c s IH]; intros Hall; [constructor|].
  cbn [list_ascii_of_string replaceCharsBy] in *.
  apply List.Forall_cons_iff in Hall as [Hc Hall]. constructor; [|now apply IH].
  destruct (class c) eqn:Hclass; [exact Hunder|now apply Hkeep].
Qed.

Lemma dropWhileChar_chars (class : ascii -> bool) (s : string) :
  List.Forall P (list_ascii_of_string s) ->
  List.Forall P (list_ascii_of_string (dropWhileChar class s)).
Proof.
  induction s as [|c s IH]; intros Hall; [constructor|].
  cbn [dropWhileChar]. destruct (class c); [|exact Hall].
  cbn [list_ascii_of_string] in Hall. apply List.Forall_cons_iff in Hall as [_ Hall].
  now apply IH.
Qed.

Lemma collapseRuns_chars (Q : ascii -> Prop) (class : ascii -> bool) :
  P "_"%char -> (forall c, Q c -> class c = false -> P c) ->
  forall fuel s, String.length s <= fuel ->
  List.Forall Q (list_ascii_of_string s) ->
  List.Forall P (list_ascii_of_string (collapseRuns class fuel s)).
Proof.
  intros Hunder Hkeep. induction fuel as [|fuel IH]; intros s Hlen Hall.
  - destruct s; [constructor|cbn in Hlen; lia].
  - destruct s as [|c s]; [constructor|].
    cbn [collapseRuns]. cbn [list_ascii_of_string String.length] in *.
    apply List.Forall_cons_iff in Hall as [Hc Hall].
    destruct (class c) eqn:Hclass; cbn [list_ascii_of_string]; constructor.
    + exact Hunder.
    + apply IH.
      * assert (forall t, String.length (dropWhileChar class t) <= String.length t) as Hshort.
        { induction t as [|a t IHt]; [reflexivity|]. cbn [dropWhileChar].
          destruct (class a); cbn [String.length]; lia. }
        specialize (Hshort s). lia.
      * clear -Hall. induction s as [|a s IHs]; [constructor|].
        cbn [dropWhileChar]. destruct (class a); [|exact Hall].
        cbn [list_ascii_of_string] in Hall.
        apply List.Forall_cons_iff in Hall as [_ Hall]. now apply IHs.
    + now apply Hkeep.
    + apply IH; [lia|exact Hall].
Qed.

Lemma rev_chars (s : string) :
  List.Forall P (list_ascii_of_string s) ->
  List.Forall P (list_ascii_of_string (String.rev s)).
Proof. intros Hall. rewrite chars_rev. now apply List.Forall_rev. Qed.

Lemma stripEdgeUnderscores_chars (s : string) :
  List.Forall P (list_ascii_of_string s) ->
  List.Forall P (list_ascii_of_string (stripEdgeUnderscores s)).
Proof.
  intros Hall. unfold stripEdgeUnderscores.
  set (s1 := match s with
             | String c s' => if isUnderscore c then s' else s
             | EmptyString => s
             end).
  assert (List.Forall P (list_ascii_of_string s1)) as H1.
  { unfold s1. destruct s as [|c s']; [exact Hall|].
    destruct (isUnderscore c); [|exact Hall].
    cbn [list_ascii_of_string] in Hall. now apply List.Forall_cons_iff in Hall as [_ Hall]. }
  pose proof (rev_chars s1 H1) as Hrev.
  destruct (String.rev s1) as [|c r]; [exact H1|].
  destruct (isUnderscore c); [|exact H1].
  cbn [list_ascii_of_string] in Hrev. apply List.Forall_cons_iff in Hrev as [_ Hrev].
  now apply rev_chars.
Qed.

Lemma stripTrailingDots_chars (s : string) :
  List.Forall P (list_ascii_of_string s) ->
  List.Forall P (list_ascii_of_string (stripTrailingDots s)).
Proof.
  intros Hall. unfold stripTrailingDots.
  apply rev_chars. clear -Hall. apply rev_chars in Hall.
  induction (String.rev s) as [|a t IH]; [constructor|].
  cbn [dropWhileChar]. destruct (isDot a); [|exact Hall].
  cbn [list_ascii_of_string] in Hall. apply List.Forall_cons_iff in Hall as [_ Hall].
  now apply IH.
Qed.

Lemma substring_chars (n m : nat) (s : string) :
  List.Forall P (list_ascii_of_string s) ->
  List.Forall P (list_ascii_of_string (String.substring n m s)).
Proof.
  revert n m. induction s as [|c s IH]; intros n m Hall.
  - destruct n, m; constructor.
  - cbn [list_ascii_of_string] in Hall. apply List.Forall_cons_iff in Hall as [Hc Hall].
    destruct n as [|n]; cbn [String.substring].
    + destruct m as [|m]; cbn [list_ascii_of_string]; constructor; [exact Hc|now apply IH].
    + now apply IH.
Qed.
End CharacterClasses.

Lemma length_substring_le (n m : nat) (s : string) :
  String.length (String.substring n m s) <= m.
Proof.
  revert n m. induction s as [|c s IH]; intros n m.
  - destruct n, m; cbn; lia.
  - destruct n as [|n]; cbn [String.substring].
    + destruct m as [|m]; cbn [String.length]; [lia|]. specialize (IH 0 m). lia.
    + apply IH.
Qed.

(** The five replacements shared by [cleanAndValidateText] and
    [cleanFilename] leave safe characters only, whatever they start from and
    whether or not trailing dots are stripped in between. *)
Lemma cleaning_pipeline_chars (s4 : string) :
  List.Forall (fun c => isInvalidFilenameChar c = false /\ isNotPrintableAscii c = false)
    (list_ascii_of_string s4) ->
  List.Forall (fun c => isSafeNameChar c = true)
    (list_ascii_of_string
       (stripEdgeUnderscores
          (collapseRuns isUnderscore
             (String.length (collapseRuns JSString.isSpace (String.length s4) s4))
             (collapseRuns JSString.isSpace (String.length s4) s4)))).
Proof.
  intros H4.
  apply stripEdgeUnderscores_chars.
  eapply collapseRuns_chars with (Q := fun c => isSafeNameChar c = true);
    [reflexivity|auto|reflexivity|].
  eapply collapseRuns_chars; [reflexivity| |reflexivity|exact H4].
  intros c [Hinv Hpr] Hsp. unfold isSafeNameChar. now rewrite Hinv, Hpr, Hsp.
Qed.

Lemma replaced_chars (s1 : string) :
  List.Forall (fun c => isInvalidFilenameChar c = false /\ isNotPrintableAscii c = false)
    (list_ascii_of_string
       (replaceCharsBy isNotPrintableAscii (replaceCharsBy isInvalidFilenameChar s1))).
Proof.
  eapply replaceCharsBy_chars with (Q := fun c => isInvalidFilenameChar c = false);
    [split; reflexivity|auto|].
  eapply replaceCharsBy_chars with (Q := fun _ => True); [reflexivity|auto|].
  apply List.Forall_forall. auto.
Qed.

Section CleanedTexts.
Context `{Runtime} `{Numerics}.

(** [cleanAndValidateText] returns for every input, and what it returns is
    the default or a text that is not empty and is made of safe characters
    only: printable ASCII without the space and without the characters that
    file names must not have. *)
Theorem cleanAndValidateText_returns_a_safe_text (textInput : JSValue) (defaultValue : string) :
  exists result,
    cleanAndValidateText textInput defaultValue = Ok result /\
    (result = defaultValue \/
     result <> "" /\
     List.Forall (fun c => isSafeNameChar c = true) (list_ascii_of_string result)).
Proof.
  unfold cleanAndValidateText.
  destruct textInput as [| | | |s| |];
    try (eexists; split; [reflexivity|now left]).
  destruct (negb (jsTruthy (JStr s))); [eexists; split; [reflexivity|now left]|].
  cbv zeta. cbn [tryCatch]. eexists. split; [reflexivity|].
  match goal with
  | |- context [String.eqb ?cleaned ""] => destruct (String.eqb cleaned "") eqn:Hempty
  end; [now left|right].
  apply String.eqb_neq in Hempty. split; [exact Hempty|].
  apply cleaning_pipeline_chars, replaced_chars.
Qed.
End CleanedTexts.

(** [cleanFilename] returns a name of at most 100 characters, all of them
    safe; the name is empty only for an input that is not a text or is the
    empty text, and a text that cleans to nothing is named
    ["unnamed_file"]. *)
Theorem cleanFilename_returns_a_safe_name (filename : JSValue) :
  String.length (cleanFilename filename) <= MAX_FILENAME_LENGTH /\
  List.Forall (fun c => isSafeNameChar c = true)
    (list_ascii_of_string (cleanFilename filename)) /\
  (cleanFilename filename = "" <-> forall s, filename = JStr s -> s = "").
Proof.
  unfold cleanFilename.
  destruct filename as [| | | |s| |];
    try (split; [cbn; lia|split; [constructor|split; [discriminate|reflexivity]]]).
  cbn [jsTruthy negb].
  destruct (String.eqb s "") eqn:Hs; cbn [negb].
  { apply String.eqb_eq in Hs as ->.
    split; [cbn; lia|]. split; [constructor|]. split; [now intros _ s [= <-]|reflexivity]. }
  apply String.eqb_neq in Hs. cbv zeta.
  set (s3 := replaceCharsBy isNotPrintableAscii
               (replaceCharsBy isInvalidFilenameChar (JSString.trim s))).
  set (s4 := stripTrailingDots s3).
  set (cleaned := stripEdgeUnderscores _).
  assert (List.Forall (fun c => isSafeNameChar c = true) (list_ascii_of_string cleaned))
    as Hsafe.
  { unfold cleaned. apply cleaning_pipeline_chars.
    apply stripTrailingDots_chars, replaced_chars. }
  set (cut := if (MAX_FILENAME_LENGTH <? String.length cleaned)%nat
              then JSString.substring cleaned 0 (Z.of_nat MAX_FILENAME_LENGTH)
              else cleaned).
  assert (String.length cut <= MAX_FILENAME_LENGTH /\
          List.Forall (fun c => isSafeNameChar c = true) (list_ascii_of_string cut))
    as [Hlen Hcut].
  { unfold cut. destruct (MAX_FILENAME_LENGTH <? String.length cleaned)%nat eqn:Hlong.
    - unfold JSString.substring. split.
      + etransitivity; [apply length_substring_le|]. unfold MAX_FILENAME_LENGTH. lia.
      + now apply substring_chars.
    - apply Nat.ltb_ge in Hlong. now split. }
  destruct (String.eqb cut "") eqn:Hempty.
  - split; [cbn; unfold MAX_FILENAME_LENGTH; lia|].
    split; [repeat constructor|]. split; [discriminate|].
    intros Hall. now specialize (Hall s eq_refl).
  - apply String.eqb_neq in Hempty. split; [exact Hlen|]. split; [exact Hcut|].
    split; [congruence|]. intros Hall. now specialize (Hall s eq_refl).
Qed.

(** ** Derived file names *)

Lemma length_append (a b : string) :
  String.length (a +:+ b) = String.length a + String.length b.
Proof.
  induction a as [|c a IH]; [reflexivity|].
  rewrite append_String_l. cbn [String.length]. now rewrite IH.
Qed.

Lemma append_assoc (a b c : string) : (a +:+ b) +:+ c = a +:+ (b +:+ c).
Proof.
  induction a as [|x a IH]; [reflexivity|].
  rewrite !append_String_l. now rewrite IH.
Qed.

Lemma lacksChar_String (c a : ascii) (s : string) :
  lacksChar c (String a s) = negb (Ascii.eqb a c) && lacksChar c s.
Proof. reflexivity. Qed.

Lemma lacksChar_append (c : ascii) (a b : string) :
  lacksChar c (a +:+ b) = lacksChar c a && lacksChar c b.
Proof.
  induction a as [|x a IH]; [reflexivity|].
  rewrite append_String_l, !lacksChar_String, IH. apply andb_assoc.
Qed.

Lemma split_lacking (sep : ascii) (s : string) :
  lacksChar sep s = true -> JSString.split sep s = [s].
Proof.
  induction s as [|c s IH]; [reflexivity|].
  rewrite lacksChar_String. intros [Hc Hs]%andb_prop.
  apply negb_true_iff in Hc. cbn [JSString.split]. now rewrite Hc, IH.
Qed.

Lemma split_append (sep : ascii) (a b : string) :
  lacksChar sep a = true ->
  JSString.split sep (a +:+ String sep b) = a :: JSString.split sep b.
Proof.
  induction a as [|c a IH].
  - intros _. rewrite append_empty_l. cbn [JSString.split]. now rewrite Ascii.eqb_refl.
  - rewrite lacksChar_String. intros [Hc Ha]%andb_prop.
    apply negb_true_iff in Hc. rewrite append_String_l.
    cbn [JSString.split]. now rewrite Hc, IH.
Qed.

Lemma lastIndexOfFrom_lacking (c : ascii) (s : string) : forall i found,
  lacksChar c s = true -> JSString.lastIndexOfFrom c s i found = found.
Proof.
  induction s as [|a s IH]; intros i found; [reflexivity|].
  rewrite lacksChar_String. intros [Ha Hs]%andb_prop.
  apply negb_true_iff in Ha. cbn [JSString.lastIndexOfFrom]. rewrite Ha. now apply IH.
Qed.

Lemma lastIndexOfFrom_append (c : ascii) (a b : string) : forall i found,
  JSString.lastIndexOfFrom c (a +:+ b) i found
    = JSString.lastIndexOfFrom c b (i + Z.of_nat (String.length a))
        (JSString.lastIndexOfFrom c a i found).
Proof.
  induction a as [|x a IH]; intros i found.
  - rewrite append_empty_l. cbn [String.length JSString.lastIndexOfFrom]. f_equal. lia.
  - rewrite append_String_l. cbn [JSString.lastIndexOfFrom String.length].
    rewrite IH. f_equal. lia.
Qed.

Lemma lastIndexOf_last (c : ascii) (a e : string) :
  lacksChar c e = true ->
  JSString.lastIndexOf (a +:+ String c e) c = Z.of_nat (String.length a).
Proof.
  intros He. unfold JSString.lastIndexOf. rewrite lastIndexOfFrom_append.
  cbn [JSString.lastIndexOfFrom]. rewrite Ascii.eqb_refl.
  rewrite lastIndexOfFrom_lacking by exact He. lia.
Qed.

Lemma substring_all (s : string) : String.substring 0 (String.length s) s = s.
Proof. induction s as [|c s IH]; [reflexivity|]. cbn. now rewrite IH. Qed.

Lemma substring_prefix (a b : string) :
  String.substring 0 (String.length a) (a +:+ b) = a.
Proof.
  induction a as [|c a IH].
  - rewrite append_empty_l. now destruct b.
  - rewrite append_String_l. cbn. now rewrite IH.
Qed.

Lemma substring_suffix (a b : string) :
  String.substring (String.length a) (String.length b) (a +:+ b) = b.
Proof.
  induction a as [|c a IH].
  - rewrite append_empty_l. apply substring_all.
  - rewrite append_String_l. cbn [String.length String.substring]. exact IH.
Qed.

Lemma JSsubstring_prefix (a b : string) :
  JSString.substring (a +:+ b) 0 (Z.of_nat (String.length a)) = a.
Proof.
  unfold JSString.substring. rewrite length_append.
  replace (Z.max 0 (Z.min 0 _)) with 0%Z by lia.
  replace (Z.max 0 (Z.min (Z.of_nat (String.length a)) _))
    with (Z.of_nat (String.length a)) by lia.
  replace (Z.min 0 (Z.of_nat (String.length a))) with 0%Z by lia.
  replace (Z.max 0 (Z.of_nat (String.length a))) with (Z.of_nat (String.length a)) by lia.
  cbn [Z.to_nat]. replace (Z.to_nat (Z.of_nat (String.length a) - 0)) with (String.length a) by lia.
  apply substring_prefix.
Qed.

Lemma JSsubstring_whole (s : string) (n : Z) :
  (Z.of_nat (String.length s) <= n)%Z -> JSString.substring s 0 n = s.
Proof.
  intros Hlen. unfold JSString.substring. set (len := Z.of_nat (String.length s)) in *.
  replace (Z.max 0 (Z.min 0 len)) with 0%Z by lia.
  replace (Z.max 0 (Z.min n len)) with len by lia.
  replace (Z.min 0 len) with 0%Z by lia.
  replace (Z.max 0 len) with len by lia.
  replace (Z.to_nat (len - 0)) with (String.length s) by lia.
  apply substring_all.
Qed.

Lemma substringFrom_suffix (a b : string) :
  substringFrom (a +:+ b) (Z.of_nat (String.length a)) = b.
Proof.
  unfold substringFrom, JSString.substring. rewrite length_append.
  set (la := String.length a). set (lb := String.length b).
  replace (Z.max 0 (Z.min (Z.of_nat la) (Z.of_nat (la + lb)))) with (Z.of_nat la) by lia.
  replace (Z.max 0 (Z.min (Z.of_nat (la + lb)) (Z.of_nat (la + lb))))
    with (Z.of_nat (la + lb)) by lia.
  replace (Z.min (Z.of_nat la) (Z.of_nat (la + lb))) with (Z.of_nat la) by lia.
  replace (Z.max (Z.of_nat la) (Z.of_nat (la + lb))) with (Z.of_nat (la + lb)) by lia.
  replace (Z.to_nat (Z.of_nat la)) with la by lia.
  replace (Z.to_nat (Z.of_nat (la + lb) - Z.of_nat la)) with lb by lia.
  apply substring_suffix.
Qed.

(** A text with a dot is a text, the last dot, and a text without a dot. *)
Lemma last_dot_decomposition (s : string) :
  lacksChar "."%char s = false ->
  exists a e, s = a +:+ String "."%char e /\ lacksChar "."%char e = true.
Proof.
  induction s as [|c s IH]; [discriminate|].
  rewrite lacksChar_String. intros Hdot.
  destruct (lacksChar "."%char s) eqn:Hs.
  - rewrite andb_true_r in Hdot. apply negb_false_iff, Ascii.eqb_eq in Hdot as ->.
    exists "", s. now split.
  - destruct (IH eq_refl) as (a & e & -> & He).
    exists (String c a), e. now split.
Qed.

Lemma nameWithoutExtension_append (base e : string) :
  lacksChar "."%char e = true ->
  nameWithoutExtension (base +:+ String "."%char e) = base.
Proof.
  intros He. unfold nameWithoutExtension.
  rewrite lastIndexOf_last by exact He. apply JSsubstring_prefix.
Qed.

Lemma underscoresToSpaces_lacking (s : string) :
  lacksChar "_"%char s = true -> underscoresToSpaces s = s.
Proof.
  induction s as [|c s IH]; [reflexivity|].
  rewrite lacksChar_String. intros [Hc Hs]%andb_prop.
  apply negb_true_iff in Hc. cbn [underscoresToSpaces]. now rewrite Hc, IH.
Qed.

Lemma lacksChar_substring (c : ascii) (n m : nat) (s : string) :
  lacksChar c s = true -> lacksChar c (String.substring n m s) = true.
Proof.
  unfold lacksChar. rewrite !forallb_forall. intros Hall a Hin.
  apply Hall. revert Hin.
  assert (List.Forall (fun a => In a (list_ascii_of_string s))
            (list_ascii_of_string (String.substring n m s))) as Hsub.
  { apply substring_chars. apply List.Forall_forall. auto. }
  intros Hin. eapply List.Forall_forall in Hsub; eassumption.
Qed.

(** The file name made of four segments without underscores and an
    extension parses into the four segments. *)
Lemma parseFilenameForAIData_of_segments (date vendor invoice amount e : string) :
  lacksChar "_"%char date = true ->
  lacksChar "_"%char vendor = true ->
  lacksChar "_"%char invoice = true ->
  lacksChar "_"%char amount = true ->
  lacksChar "."%char e = true ->
  parseFilenameForAIData
    (CStr (date +:+ "_" +:+ vendor +:+ "_" +:+ invoice +:+ "_" +:+ amount +:+ String "."%char e))
  = Some {| parsed_date := date; parsed_vendorName := vendor;
            parsed_invoiceNumber := invoice; parsed_amount := amount |}.
Proof.
  intros Hd Hv Hi Ha He. unfold parseFilenameForAIData.
  assert (date +:+ "_" +:+ vendor +:+ "_" +:+ invoice +:+ "_" +:+ amount +:+ String "."%char e
          = (date +:+ "_" +:+ vendor +:+ "_" +:+ invoice +:+ "_" +:+ amount)
            +:+ String "."%char e) as ->.
  { rewrite !append_assoc. reflexivity. }
  rewrite nameWithoutExtension_append by exact He.
  rewrite !append_String_l, !append_empty_l.
  rewrite split_append by exact Hd.
  rewrite split_append by exact Hv.
  rewrite split_append by exact Hi.
  rewrite split_lacking by exact Ha.
  cbn. now rewrite underscoresToSpaces_lacking.
Qed.

Section DerivedNames.
Context `{Runtime} `{Numerics}.

(** The name derived for an enriched document parses back into its date
    and amount and into its vendor and invoice number as they stand in the
    name: cleaned, and cut to 20 and 15 characters exactly when the whole
    name, uncut, is longer than 100; provided the original name has a dot
    and none of the four segments has an underscore. *)
Theorem a_derived_name_parses_back (aiData : Validated) (original : string) :
  lacksChar "."%char original = false ->
  lacksChar "_"%char (textOr (v_date aiData) today) = true ->
  lacksChar "_"%char (textOr (cleanFilename (JStr (v_vendorName aiData))) "Unknown") = true ->
  lacksChar "_"%char (textOr (cleanFilename (JStr (v_invoiceNumber aiData))) "NoInvoice")
    = true ->
  lacksChar "_"%char (textOr (v_amount aiData) "0.00") = true ->
  parseFilenameForAIData (generateFilenameFromAIData aiData (CStr original))
  = Some {| parsed_date := textOr (v_date aiData) today;
            parsed_vendorName :=
              if (MAX_FILENAME_LENGTH <?
                  JSString.utf16Length
                    (textOr (v_date aiData) today +:+ "_" +:+
                     textOr (cleanFilename (JStr (v_vendorName aiData))) "Unknown" +:+ "_" +:+
                     textOr (cleanFilename (JStr (v_invoiceNumber aiData))) "NoInvoice" +:+
                     "_" +:+ textOr (v_amount aiData) "0.00" +:+
                     substringFrom original (JSString.lastIndexOf original "."%char)))%nat
              then JSString.substring
                     (textOr (cleanFilename (JStr (v_vendorName aiData))) "Unknown") 0 20
              else textOr (cleanFilename (JStr (v_vendorName aiData))) "Unknown";
            parsed_invoiceNumber :=
              if (MAX_FILENAME_LENGTH <?
                  JSString.utf16Length
                    (textOr (v_date aiData) today +:+ "_" +:+
                     textOr (cleanFilename (JStr (v_vendorName aiData))) "Unknown" +:+ "_" +:+
                     textOr (cleanFilename (JStr (v_invoiceNumber aiData))) "NoInvoice" +:+
                     "_" +:+ textOr (v_amount aiData) "0.00" +:+
                     substringFrom original (JSString.lastIndexOf original "."%char)))%nat
              then JSString.substring
                     (textOr (cleanFilename (JStr (v_invoiceNumber aiData))) "NoInvoice") 0 15
              else textOr (cleanFilename (JStr (v_invoiceNumber aiData))) "NoInvoice";
            parsed_amount := textOr (v_amount aiData) "0.00" |}.
Proof.
  intros Hdot Hd Hv Hi Ha.
  destruct (last_dot_decomposition original Hdot) as (a & e & -> & He).
  unfold generateFilenameFromAIData. cbv zeta.
  rewrite lastIndexOf_last by exact He. rewrite substringFrom_suffix.
  match goal with
  | |- context [if ?b then _ else _] => destruct b
  end.
  - apply parseFilenameForAIData_of_segments; try assumption;
      unfold JSString.substring; now apply lacksChar_substring.
  - now apply parseFilenameForAIData_of_segments.
Qed.

(** An underscore in the vendor segment shifts the fields.  Let the
    original name have a dot, the date and the cleaned invoice number have
    no underscore, the cleaned invoice number have at most 15 characters,
    and the cleaned vendor be two words without underscore joined by one
    underscore (as a vendor of two words is after cleaning), the two words
    together shorter than 20 characters.  Then the derived name parses into
    the first word as vendor, the second word as invoice number, and the
    invoice number as amount. *)
Theorem an_underscore_in_the_vendor_shifts_the_fields
    (aiData : Validated) (original first second : string) :
  lacksChar "."%char original = false ->
  textOr (cleanFilename (JStr (v_vendorName aiData))) "Unknown"
    = first +:+ "_" +:+ second ->
  lacksChar "_"%char first = true ->
  lacksChar "_"%char second = true ->
  lacksChar "_"%char (textOr (v_date aiData) today) = true ->
  lacksChar "_"%char (textOr (cleanFilename (JStr (v_invoiceNumber aiData))) "NoInvoice")
    = true ->
  String.length first + String.length second < 20 ->
  String.length (textOr (cleanFilename (JStr (v_invoiceNumber aiData))) "NoInvoice") <= 15 ->
  parseFilenameForAIData (generateFilenameFromAIData aiData (CStr original))
  = Some {| parsed_date := textOr (v_date aiData) today;
            parsed_vendorName := first;
            parsed_invoiceNumber := second;
            parsed_amount :=
              textOr (cleanFilename (JStr (v_invoiceNumber aiData))) "NoInvoice" |}.
Proof.
  intros Hdot Hvendor Hf Hs Hd Hi Hshort Hinvoice.
  destruct (last_dot_decomposition original Hdot) as (a & e & -> & He).
  unfold generateFilenameFromAIData. cbv zeta.
  rewrite lastIndexOf_last by exact He. rewrite substringFrom_suffix.
  set (invoice := textOr (cleanFilename (JStr (v_invoiceNumber aiData))) "NoInvoice") in *.
  set (date := textOr (v_date aiData) today) in *.
  set (amount := textOr (v_amount aiData) "0.00").
  rewrite Hvendor.
  assert (JSString.substring (first +:+ "_" +:+ second) 0 20 = first +:+ "_" +:+ second)
    as Hcut1.
  { apply JSsubstring_whole. rewrite !length_append. cbn [String.length]. lia. }
  assert (JSString.substring invoice 0 15 = invoice) as Hcut2
    by (apply JSsubstring_whole; lia).
  rewrite Hcut1, Hcut2.
  assert (forall b : bool, (if b then
      CStr (date +:+ "_" +:+ (first +:+ "_" +:+ second) +:+ "_" +:+ invoice +:+ "_" +:+
            amount +:+ String "."%char e)
    else
      CStr (date +:+ "_" +:+ (first +:+ "_" +:+ second) +:+ "_" +:+ invoice +:+ "_" +:+
            amount +:+ String "."%char e))
    = CStr (date +:+ "_" +:+ (first +:+ "_" +:+ second) +:+ "_" +:+ invoice +:+ "_" +:+
            amount +:+ String "."%char e)) as Hboth by (now intros []).
  rewrite Hboth. unfold parseFilenameForAIData.
  assert (date +:+ "_" +:+ (first +:+ "_" +:+ second) +:+ "_" +:+ invoice +:+ "_" +:+
          amount +:+ String "."%char e
          = (date +:+ "_" +:+ first +:+ "_" +:+ second +:+ "_" +:+ invoice +:+ "_" +:+ amount)
            +:+ String "."%char e) as ->.
  { rewrite !append_assoc. reflexivity. }
  rewrite nameWithoutExtension_append by exact He.
  rewrite !append_String_l, !append_empty_l.
  rewrite split_append by exact Hd.
  rewrite split_append by exact Hf.
  rewrite split_append by exact Hs.
  destruct (JSString.split "_"%char (invoice +:+ String "_"%char amount))
    as [|p ps] eqn:Hsplit.
  { rewrite split_append in Hsplit by exact Hi. discriminate. }
  rewrite split_append in Hsplit by exact Hi. injection Hsplit as <- <-.
  cbn. now rewrite underscoresToSpaces_lacking.
Qed.
End DerivedNames.

Lemma a_derived_name_parses_back_witness :
  parseFilenameForAIData
    (@generateFilenameFromAIData exampleNumerics validatedInvoice (CStr "IMG_0001.pdf"))
  = Some {| parsed_date := "2024-01-05"; parsed_vendorName := "Acme";
            parsed_invoiceNumber := "INV-9"; parsed_amount := "100.00" |}.
Proof.
  apply (@a_derived_name_parses_back exampleNumerics validatedInvoice "IMG_0001.pdf");
    vm_compute; reflexivity.
Defined.

Lemma an_underscore_in_the_vendor_shifts_the_fields_witness :
  parseFilenameForAIData
    (@generateFilenameFromAIData exampleNumerics validatedTwoWords (CStr "IMG_0001.pdf"))
  = Some {| parsed_date := textOr (v_date validatedTwoWords) (@today exampleNumerics);
            parsed_vendorName := "Acme";
            parsed_invoiceNumber := "Corp";
            parsed_amount :=
              textOr (cleanFilename (JStr (v_invoiceNumber validatedTwoWords))) "NoInvoice" |}.
Proof.
  apply (@an_underscore_in_the_vendor_shifts_the_fields exampleNumerics validatedTwoWords
           "IMG_0001.pdf" "Acme" "Corp");
    vm_compute; solve [reflexivity | lia].
Defined.

(** Derived names, run: a vendor of one word; a vendor of two words; an
    original name without a dot, which is appended whole. *)
Example derived_names :
  @generateFilenameFromAIData exampleNumerics validatedInvoice (CStr "IMG_0001.pdf")
    = CStr "2024-01-05_Acme_INV-9_100.00.pdf" /\
  @generateFilenameFromAIData exampleNumerics validatedTwoWords (CStr "IMG_0001.pdf")
    = CStr "2024-01-05_Acme_Corp_INV-9_100.00.pdf" /\
  @generateFilenameFromAIData exampleNumerics validatedInvoice (CStr "scan")
    = CStr "2024-01-05_Acme_INV-9_100.00scan" /\
  parseFilenameForAIData (CStr "2024-01-05_Acme_INV-9_100.00scan")
    = Some {| parsed_date := "2024-01-05"; parsed_vendorName := "Acme";
              parsed_invoiceNumber := "INV-9"; parsed_amount := "100" |} /\
  @generateFilenameFromAIData exampleNumerics validatedInvoice (CNum 7) = CNum 7.
Proof. vm_compute. repeat split. Qed.

(** ** The transaction type *)

Section TransactionType.
Context `{Runtime} `{Numerics}.

(** The transaction type is inflow unless the response says otherwise: the
    sanitizer returns "outflow" exactly when the value is truthy and its
    text, lower-cased and trimmed, is "outflow", or is not "inflow", has
    none of the inflow synonyms in it and has one of the outflow synonyms;
    every other value that it returns for is "inflow".  So a text with a
    synonym of each kind is an inflow. *)
Theorem cleanAndValidateTransactionType_says_outflow_only_when_told
    (typeInput : JSValue) (result : string) :
  cleanAndValidateTransactionType typeInput = Ok result ->
  (result = STATUS.INFLOW \/ result = STATUS.OUTFLOW) /\
  (result = STATUS.OUTFLOW <->
   jsTruthy typeInput = true /\
   exists text, toStringJS typeInput = Ok text /\
     (JSString.trim (JSString.toLowerCase text) = "outflow" \/
      JSString.trim (JSString.toLowerCase text) <> "inflow" /\
      existsb (JSString.includes (JSString.trim (JSString.toLowerCase text))) inflowSynonyms
        = false /\
      existsb (JSString.includes (JSString.trim (JSString.toLowerCase text))) outflowSynonyms
        = true)).
Proof.
  intros Hrun. split; [eapply cleanAndValidateTransactionType_range; exact Hrun|].
  unfold cleanAndValidateTransactionType in Hrun.
  destruct (jsTruthy typeInput) eqn:Htruthy; cbn [negb tryCatch] in Hrun.
  2:{ injection Hrun as <-. split; [discriminate|]. intros [Hno _]. discriminate. }
  destruct (toStringJS typeInput) as [text|e] eqn:Ht; cbn [mbind Result_bind tryCatch] in Hrun.
  2:{ unfold logAndDefault in Hrun. rewrite Ht in Hrun. discriminate. }
  set (cleaned := JSString.trim (JSString.toLowerCase text)) in *.
  destruct (includesText ["inflow"; "outflow"] cleaned) eqn:Hdirect; cbn [tryCatch] in Hrun.
  - apply Ok_inj in Hrun. subst result.
    apply includesText_In in Hdirect as [Hc|[Hc|[]]].
    + rewrite <- Hc. split; [discriminate|].
      intros (_ & t & [= <-] & [Hout|(Hne & _)]); unfold cleaned in *; congruence.
    + split; [|intros _; now symmetry].
      intros _. split; [reflexivity|]. exists text. split; [reflexivity|]. left.
      now symmetry.
  - assert (cleaned <> "inflow" /\ cleaned <> "outflow") as [Hni Hno].
    { unfold includesText in Hdirect. cbn [existsb] in Hdirect.
      apply orb_false_elim in Hdirect as [H1 H2]. apply orb_false_elim in H2 as [H2 _].
      apply String.eqb_neq in H1, H2. split; congruence. }
    destruct (existsb (JSString.includes cleaned) inflowSynonyms) eqn:Hin;
      cbn [tryCatch] in Hrun.
    + injection Hrun as <-. split; [discriminate|].
      intros (_ & t & [= <-] & [Hout|(_ & Hnone & _)]); unfold cleaned in *; congruence.
    + destruct (existsb (JSString.includes cleaned) outflowSynonyms) eqn:Hout;
        cbn [tryCatch] in Hrun; injection Hrun as <-.
      * split; [|reflexivity]. intros _. split; [reflexivity|].
        exists text. split; [reflexivity|]. right. now repeat split.
      * split; [discriminate|].
        intros (_ & t & [= <-] & [Hc|(_ & _ & Hsome)]); unfold cleaned in *; congruence.
Qed.
End TransactionType.

Lemma cleanAndValidateTransactionType_says_outflow_only_when_told_witness :
  ("inflow" = STATUS.INFLOW \/ "inflow" = STATUS.OUTFLOW) /\
  ("inflow" = STATUS.OUTFLOW <->
   jsTruthy (JStr "Expense against income") = true /\
   exists text, @toStringJS exampleRuntime (JStr "Expense against income") = Ok text /\
     (JSString.trim (JSString.toLowerCase text) = "outflow" \/
      JSString.trim (JSString.toLowerCase text) <> "inflow" /\
      existsb (JSString.includes (JSString.trim (JSString.toLowerCase text))) inflowSynonyms
        = false /\
      existsb (JSString.includes (JSString.trim (JSString.toLowerCase text))) outflowSynonyms
        = true)).
Proof.
  apply (@cleanAndValidateTransactionType_says_outflow_only_when_told exampleRuntime
           (JStr "Expense against income") "inflow").
  vm_compute. reflexivity.
Defined.

Example transactionType_with_white_space_around :
  @cleanAndValidateTransactionType exampleRuntime
    (JStr (noBreakSpace +:+ "Outflow " +:+ noBreakSpace)) = Ok "outflow" /\
  @cleanAndValidateTransactionType exampleRuntime
    (JStr ("Inflow" +:+ noBreakSpace)) = Ok "inflow".
Proof. vm_compute. split; reflexivity. Qed.

(** ** The files the enrichment pass takes from the Buffer sheet *)

Section ActiveFiles.
Context `{Runtime}.

Lemma activeFilesLoop_spec headers rows : forall i file,
  In file (activeFilesLoop headers i rows) <->
  exists k row, rows !! k = Some row /\ bufferFileOfRow headers (i + k + 1) row = Some file.
Proof.
  induction rows as [|row rest IH]; intros i file; cbn [activeFilesLoop].
  - split; [intros []|]. intros (k & row & Hk & _). now rewrite lookup_nil in Hk.
  - assert (In file (activeFilesLoop headers (S i) rest) <->
            exists k row', (row :: rest) !! (S k) = Some row' /\
              bufferFileOfRow headers (i + S k + 1) row' = Some file) as Hrest.
    { rewrite IH. split; intros (k & r & Hk & Hf); exists k, r;
        (split; [exact Hk|]); now replace (i + S k + 1) with (S i + k + 1) in * by lia. }
    destruct (bufferFileOfRow headers (i + 1) row) as [f|] eqn:Hrow.
    + split.
      * intros [<-|Hin].
        -- exists 0, row. split; [reflexivity|]. now replace (i + 0 + 1) with (i + 1) by lia.
        -- apply Hrest in Hin as (k & r & Hk & Hf). now exists (S k), r.
      * intros ([|k] & r & Hk & Hf).
        -- cbn in Hk. injection Hk as <-.
           replace (i + 0 + 1) with (i + 1) in Hf by lia. left. congruence.
        -- right. apply Hrest. now exists k, r.
    + rewrite Hrest. split.
      * intros (k & r & Hk & Hf). now exists (S k), r.
      * intros ([|k] & r & Hk & Hf).
        -- cbn in Hk. injection Hk as <-.
           replace (i + 0 + 1) with (i + 1) in Hf by lia. congruence.
        -- now exists k, r.
Qed.

Lemma getActiveFilesFromBuffer_spec (sh : Sheet) (file : BufferFile) :
  In file (getActiveFilesFromBuffer sh) <->
  sheetAccess sh <> Unavailable /\
  exists k row, sheetValues sh !! S k = Some row /\
    bufferFileOfRow (headerRow (sheetValues sh)) (k + 2) row = Some file.
Proof.
  assert (In file (activeFilesLoop (headerRow (sheetValues sh)) 1 (drop 1 (sheetValues sh))) <->
          exists k row, sheetValues sh !! S k = Some row /\
            bufferFileOfRow (headerRow (sheetValues sh)) (k + 2) row = Some file) as Hloop.
  { rewrite activeFilesLoop_spec. split; intros (k & row & Hk & Hf); exists k, row;
      rewrite lookup_drop in *; (split; [exact Hk|]);
      now replace (1 + k + 1) with (k + 2) in * by lia. }
  unfold getActiveFilesFromBuffer, getLastRow, getValues, reading, tryCatch.
  destruct (sheetAccess sh); cbn [mbind Result_bind mret Result_ret].
  3:{ split; [intros []|intros [Hacc _]; congruence]. }
  all: destruct (length (sheetValues sh) <=? 1)%nat eqn:Hlen;
    [ apply Nat.leb_le in Hlen; split; [intros []|];
      intros (_ & k & row & Hk & _); apply lookup_lt_Some in Hk; lia
    | rewrite Hloop; split; [intros Hex; split; [discriminate|exact Hex]|now intros [_ Hex]] ].
Qed.

Lemma bufferFileOfRow_Some headers i row file :
  bufferFileOfRow headers i row = Some file <->
  safeGetCellValue row (getColumnIndex headers "Status") = CStr STATUS.ACTIVE /\
  (attemptsOf (safeGetCellValue' row (getColumnIndex headers "Processing Attempts")
                 (CStr "0")) < MAX_PROCESSING_ATTEMPTS)%Z /\
  truthy (safeGetCellValue row (getColumnIndex headers "Original File Name")) = true /\
  truthy (safeGetCellValue row (getColumnIndex headers "File URL")) = true /\
  file =
    {| bf_rowIndex := i;
       bf_originalFilename :=
         safeGetCellValue row (getColumnIndex headers "Original File Name");
       bf_changedFilename := safeGetCellValue row (getColumnIndex headers "Changed File Name");
       bf_fileUrl := safeGetCellValue row (getColumnIndex headers "File URL");
       bf_invoiceNumber := safeGetCellValue row (getColumnIndex headers "Invoice Number");
       bf_emailSubject := safeGetCellValue row (getColumnIndex headers "Email Subject");
       bf_status := safeGetCellValue row (getColumnIndex headers "Status");
       bf_reason := safeGetCellValue row (getColumnIndex headers "Reason");
       bf_attempts :=
         attemptsOf (safeGetCellValue' row (getColumnIndex headers "Processing Attempts")
                       (CStr "0")) |}.
Proof.
  unfold bufferFileOfRow. cbv zeta. cbn [bf_originalFilename bf_fileUrl].
  destruct (strictEq (safeGetCellValue row (getColumnIndex headers "Status"))
              (CStr STATUS.ACTIVE)) eqn:Hs.
  2:{ cbn [andb]. split; [discriminate|]. intros (Hst & _).
      rewrite Hst in Hs. discriminate. }
  apply strictEq_CStr in Hs.
  destruct (attemptsOf _ <? MAX_PROCESSING_ATTEMPTS)%Z eqn:Ha; cbn [andb].
  2:{ apply Z.ltb_ge in Ha. split; [discriminate|]. intros (_ & Hlt & _). lia. }
  apply Z.ltb_lt in Ha.
  destruct (truthy (safeGetCellValue row (getColumnIndex headers "Original File Name")))
    eqn:Hn; cbn [andb].
  2:{ split; [discriminate|]. intros (_ & _ & Hno & _). discriminate. }
  destruct (truthy (safeGetCellValue row (getColumnIndex headers "File URL"))) eqn:Hu.
  2:{ split; [discriminate|]. intros (_ & _ & _ & Hno & _). discriminate. }
  split.
  - intros [= <-]. now repeat split.
  - intros (_ & _ & _ & _ & ->). reflexivity.
Qed.

(** The files that the enrichment pass takes are exactly the data rows
    whose status is Active, whose count of attempts is below three, and
    which have an original file name and a File URL; each file carries the
    position and the cells of its row.  So a row marked Deleted or Failed is
    never taken, and a sheet that cannot be read gives no file. *)
Theorem getActiveFilesFromBuffer_takes_the_active_rows (sh : Sheet) :
  (forall file, In file (getActiveFilesFromBuffer sh) ->
     bf_status file = CStr STATUS.ACTIVE /\
     (bf_attempts file < MAX_PROCESSING_ATTEMPTS)%Z /\
     truthy (bf_originalFilename file) = true /\
     truthy (bf_fileUrl file) = true /\
     exists row, sheetValues sh !! (bf_rowIndex file - 1) = Some row /\
       2 <= bf_rowIndex file /\
       bf_status file
         = safeGetCellValue row (getColumnIndex (headerRow (sheetValues sh)) "Status") /\
       bf_fileUrl file
         = safeGetCellValue row (getColumnIndex (headerRow (sheetValues sh)) "File URL") /\
       bf_reason file
         = safeGetCellValue row (getColumnIndex (headerRow (sheetValues sh)) "Reason")) /\
  (sheetAccess sh <> Unavailable ->
   forall k row, sheetValues sh !! S k = Some row ->
     safeGetCellValue row (getColumnIndex (headerRow (sheetValues sh)) "Status")
       = CStr STATUS.ACTIVE ->
     (attemptsOf (safeGetCellValue' row
                    (getColumnIndex (headerRow (sheetValues sh)) "Processing Attempts")
                    (CStr "0")) < MAX_PROCESSING_ATTEMPTS)%Z ->
     truthy (safeGetCellValue row
               (getColumnIndex (headerRow (sheetValues sh)) "Original File Name")) = true ->
     truthy (safeGetCellValue row (getColumnIndex (headerRow (sheetValues sh)) "File URL"))
       = true ->
     exists file, In file (getActiveFilesFromBuffer sh) /\ bf_rowIndex file = k + 2) /\
  (sheetAccess sh = Unavailable -> getActiveFilesFromBuffer sh = []).
Proof.
  split; [|split].
  - intros file Hin.
    apply getActiveFilesFromBuffer_spec in Hin as (_ & k & row & Hrow & Hfile).
    apply bufferFileOfRow_Some in Hfile as (Hs & Ha & Hn & Hu & ->).
    cbn. repeat split; try assumption.
    exists row. replace (k + 2 - 1) with (S k) by lia. repeat split; [exact Hrow|lia].
  - intros Hacc k row Hrow Hs Ha Hn Hu.
    eexists. split.
    + apply getActiveFilesFromBuffer_spec. split; [exact Hacc|].
      exists k, row. split; [exact Hrow|]. apply bufferFileOfRow_Some. now repeat split.
    + reflexivity.
  - intros Hacc. unfold getActiveFilesFromBuffer, getLastRow, reading.
    now rewrite Hacc.
Qed.
End ActiveFiles.

(** ** Writes to one row of a sheet *)

#[export] Instance rowEdited_preorder ref row touched : PreOrder (rowEdited ref row touched).
Proof.
  split.
  - intros w. now repeat split.
  - intros w1 w2 w3 (H12 & C12 & S12 & A12 & L12) (H23 & C23 & S23 & A23 & L23).
    repeat split.
    + now rewrite H23, H12.
    + intros r c Hr Hc Hfree. now rewrite C23, C12.
    + intros ref' Hne. now rewrite S23, S12.
    + auto.
    + lia.
Qed.

Lemma length_writeCell row column v (values : list (list Cell)) :
  length values <= length (writeCell row column v values).
Proof.
  unfold writeCell. destruct (padTo row [] values !! (row - 1));
    rewrite ?length_insert, length_padTo; lia.
Qed.

Lemma columnsNamed_other headers names name :
  ~ In name names -> getColumnIndex headers name <> (-1)%Z ->
  ~ columnsNamed headers names (Z.to_nat (getColumnIndex headers name) + 1).
Proof.
  intros Hnot Hfound (n & Hin & Hn & Heq). apply Hnot.
  destruct (string_dec name n) as [->|Hne]; [exact Hin|].
  exfalso. exact (column_ne _ _ _ Hne Hfound Hn Heq).
Qed.

Lemma setValue_rowEdited ref row column v (touched : nat -> Prop) :
  2 <= row -> 1 <= column -> touched column ->
  preserves (rowEdited ref row touched) (setValue ref row column v).
Proof.
  intros Hrow Hcol Htouched w.
  destruct (setValue ref row column v w) as [[[]|e] w1] eqn:Hrun; cbn [snd].
  - destruct (setValue_cells _ _ _ _ _ _ Hrun Hrow Hcol) as (Hh & _ & Ho & Hf).
    apply setValue_inv in Hrun as [_ ->].
    repeat split; try assumption.
    + intros r c Hr Hc [Hne|Hfree]; apply Ho; try assumption; [now left|].
      right. intros ->. now apply Hfree.
    + intros _. now rewrite sheetOf_setSheet.
    + rewrite sheetOf_setSheet. apply length_writeCell.
  - unfold setValue, writing in Hrun.
    destruct (sheetAccess (sheetOf w ref)); [discriminate| |];
      injection Hrun as _ <-; reflexivity.
Qed.

Lemma setIfColumn_rowEdited ref row index v (touched : nat -> Prop) :
  2 <= row -> (index <> (-1)%Z -> touched (Z.to_nat index + 1)) ->
  preserves (rowEdited ref row touched) (setIfColumn ref row index v).
Proof.
  intros Hrow Htouched. unfold setIfColumn.
  destruct (index =? -1)%Z eqn:Hidx; [apply preserves_ret; typeclasses eauto|].
  apply Z.eqb_neq in Hidx. apply setValue_rowEdited; [exact Hrow|lia|auto].
Qed.

Lemma getValue_inv ref row column w v w1 :
  getValue ref row column w = (Ok v, w1) ->
  v = cellAt (sheetValues (sheetOf w ref)) row column /\ w1 = w.
Proof.
  unfold getValue. intros [Hread ->]%liftR_inv. split; [|reflexivity].
  unfold reading in Hread. destruct (sheetAccess (sheetOf w ref)); congruence.
Qed.

Lemma getLastColumn_header (sh : Sheet) (n : nat) :
  getLastColumn sh = Ok n -> length (headerRow (sheetValues sh)) <= n.
Proof.
  unfold getLastColumn, reading.
  destruct (sheetAccess sh); intros [= <-]; destruct (sheetValues sh); cbn; lia.
Qed.

(** On a sheet that takes writes and has a header, the header can be
    read. *)
Lemma getHeaders_run ref w :
  sheetAccess (sheetOf w ref) = ReadWrite ->
  headerRow (sheetValues (sheetOf w ref)) <> [] ->
  getHeaders ref w = (Ok (headerRow (sheetValues (sheetOf w ref))), w).
Proof.
  intros Hrw Hheader. unfold getHeaders, liftR.
  destruct (getLastColumn (sheetOf w ref)) as [n|e] eqn:Hlast.
  - cbn [mbind Result_bind]. apply getLastColumn_header in Hlast.
    destruct (n =? 0)%nat eqn:Hzero; [|reflexivity].
    apply Nat.eqb_eq in Hzero. subst n.
    destruct (headerRow (sheetValues (sheetOf w ref))); [congruence|cbn in Hlast; lia].
  - unfold getLastColumn, reading in Hlast. rewrite Hrw in Hlast. discriminate.
Qed.

Lemma column_found_header (headers : list Cell) (name : string) :
  getColumnIndex headers name <> (-1)%Z -> headers <> [].
Proof. intros Hfound ->. now apply Hfound. Qed.

Lemma setIfColumn_run ref row index v w :
  sheetAccess (sheetOf w ref) = ReadWrite ->
  exists w1, setIfColumn ref row index v w = (Ok tt, w1) /\
             sheetAccess (sheetOf w1 ref) = ReadWrite.
Proof.
  intros Hrw. unfold setIfColumn. destruct (index =? -1)%Z.
  - exists w. now split.
  - rewrite setValue_run by exact Hrw. eexists. split; [reflexivity|].
    now rewrite sheetOf_setSheet.
Qed.

Section AttemptCounts.
Context `{Runtime}.

Lemma countAttempt_rowEdited ref row index (touched : nat -> Prop) :
  2 <= row -> (index <> (-1)%Z -> touched (Z.to_nat index + 1)) ->
  preserves (rowEdited ref row touched) (countAttempt ref row index).
Proof.
  intros Hrow Htouched. unfold countAttempt, getValue.
  destruct (index =? -1)%Z eqn:Hidx; [apply preserves_ret; typeclasses eauto|].
  apply Z.eqb_neq in Hidx.
  frame ltac:(apply setValue_rowEdited; [exact Hrow|lia|auto]).
Qed.

Lemma countAttempt_run ref row index w :
  sheetAccess (sheetOf w ref) = ReadWrite ->
  exists w1, countAttempt ref row index w = (Ok tt, w1) /\
             sheetAccess (sheetOf w1 ref) = ReadWrite.
Proof.
  intros Hrw. unfold countAttempt. destruct (index =? -1)%Z.
  - exists w. now split.
  - erewrite bindM_Ok by (unfold getValue, liftR, reading; now rewrite Hrw).
    rewrite setValue_run by exact Hrw. eexists. split; [reflexivity|].
    now rewrite sheetOf_setSheet.
Qed.

(** When the count returns, the cell holds the text of the count it held,
    plus one. *)
Lemma countAttempt_cell ref row index w w1 :
  countAttempt ref row index w = (Ok tt, w1) -> 2 <= row -> index <> (-1)%Z ->
  cellAt (sheetValues (sheetOf w1 ref)) row (Z.to_nat index + 1)
    = CStr (numberToString
              (inject_Z (attemptsOf (cellAt (sheetValues (sheetOf w ref)) row
                                       (Z.to_nat index + 1)) + 1))) /\
  sheetAccess (sheetOf w1 ref) = ReadWrite.
Proof.
  intros Hrun Hrow Hidx. unfold countAttempt in Hrun.
  apply Z.eqb_neq in Hidx. rewrite Hidx in Hrun.
  stepM Hrun as current w0 Hget. apply getValue_inv in Hget as [-> ->].
  destruct (setValue_cells _ _ _ _ _ _ Hrun Hrow ltac:(lia)) as (_ & Hv & _).
  split; [exact Hv|]. apply setValue_inv in Hrun as [_ ->]. now rewrite sheetOf_setSheet.
Qed.

(** A missing count reads as no attempt, whichever default stands in for
    it. *)
Lemma attemptsOf_default (row : list Cell) (index : Z) :
  attemptsOf (safeGetCellValue' row index (CStr "0")) = attemptsOf (safeGetCellValue row index).
Proof.
  unfold safeGetCellValue, safeGetCellValue'.
  destruct ((index <? 0)%Z || (Z.of_nat (length row) <=? index)%Z); [reflexivity|].
  now destruct (row !! Z.to_nat index).
Qed.

Lemma safeGetCellValue_missing (row : list Cell) : safeGetCellValue row (-1) = CStr "".
Proof. reflexivity. Qed.

Lemma setWhen_rowEdited ref row index (v : Cell) (touched : nat -> Prop) :
  2 <= row -> (index <> (-1)%Z -> touched (Z.to_nat index + 1)) ->
  preserves (rowEdited ref row touched)
    (if negb (index =? -1)%Z && truthy v
     then setValue ref row (Z.to_nat index + 1) v else mret tt).
Proof.
  intros Hrow Htouched. destruct (index =? -1)%Z eqn:Hidx; cbn [negb andb].
  - apply preserves_ret; typeclasses eauto.
  - apply Z.eqb_neq in Hidx. apply preserves_if.
    + apply setValue_rowEdited; [exact Hrow|lia|auto].
    + apply preserves_ret; typeclasses eauto.
Qed.

Lemma swallowed_after (body : M unit) w :
  tryCatchM body (fun _ => mret tt) w = (Ok tt, after body w).
Proof. unfold tryCatchM, after. now destruct (body w) as [[[]|e] w1]. Qed.

Lemma getHeaders_after ref w : after (getHeaders ref) w = w.
Proof. reflexivity. Qed.

(** [markFileAsFailed] never throws.  For a data row, it touches that row
    of the Buffer sheet only, and there the cells under Status, Reason,
    Processing Attempts and Last Modified.  On a sheet that takes writes and
    has the Status column, the row has the status Failed afterwards, so the
    enrichment pass does not take it again. *)
Theorem markFileAsFailed_takes_the_file_out (file : BufferFile) (message : string)
    (w : World) :
  exists w',
    markFileAsFailed BUFFER file message w = (Ok tt, w') /\
    (2 <= bf_rowIndex file ->
     rowEdited BUFFER (bf_rowIndex file)
       (columnsNamed (headerRow (sheetValues (bufferSheet w)))
          ["Status"; "Reason"; "Processing Attempts"; "Last Modified"])
       w w') /\
    (2 <= bf_rowIndex file ->
     sheetAccess (bufferSheet w) = ReadWrite ->
     getColumnIndex (headerRow (sheetValues (bufferSheet w))) "Status" <> (-1)%Z ->
     cellAt (sheetValues (bufferSheet w')) (bf_rowIndex file)
       (Z.to_nat (getColumnIndex (headerRow (sheetValues (bufferSheet w))) "Status") + 1)
       = CStr STATUS.FAILED /\
     forall taken, In taken (getActiveFilesFromBuffer (bufferSheet w')) ->
       bf_rowIndex taken <> bf_rowIndex file).
Proof.
  set (headers := headerRow (sheetValues (bufferSheet w))).
  set (row := bf_rowIndex file).
  set (touched := columnsNamed headers
                    ["Status"; "Reason"; "Processing Attempts"; "Last Modified"]).
  assert (forall name, In name ["Status"; "Reason"; "Processing Attempts"; "Last Modified"] ->
            getColumnIndex headers name <> (-1)%Z ->
            touched (Z.to_nat (getColumnIndex headers name) + 1)) as Htouched.
  { intros name Hin Hfound. now exists name. }
  exists (after (markFileAsFailed BUFFER file message) w).
  split; [unfold markFileAsFailed, after; now rewrite swallowed_after|].
  assert (2 <= row ->
          rowEdited BUFFER row touched w (after (markFileAsFailed BUFFER file message) w))
    as Hframe.
  { intros Hrow. unfold markFileAsFailed, after. rewrite swallowed_after. cbn [snd].
    unfold after.
    destruct (getHeaders BUFFER w) as [[hs|e] w0] eqn:Hh.
    - erewrite bindM_Ok by exact Hh. apply getHeaders_inv in Hh as [-> ->].
      change (headerRow (sheetValues (sheetOf w BUFFER))) with headers.
      match goal with
      | |- rowEdited _ _ _ _ (snd (?rest w)) =>
          assert (preserves (rowEdited BUFFER row touched) rest) as Hrest;
            [|exact (Hrest w)]
      end.
      frame ltac:(first
        [ apply setIfColumn_rowEdited; [exact Hrow|apply Htouched; cbn; tauto]
        | apply countAttempt_rowEdited; [exact Hrow|apply Htouched; cbn; tauto] ]).
    - erewrite bindM_Throw by exact Hh.
      unfold getHeaders, liftR in Hh. injection Hh as _ <-. reflexivity. }
  split; [exact Hframe|].
  intros Hrow Hrw Hstatus. specialize (Hframe Hrow) as (Hheader & _).
  assert (cellAt (sheetValues (bufferSheet (after (markFileAsFailed BUFFER file message) w)))
            row (Z.to_nat (getColumnIndex headers "Status") + 1) = CStr STATUS.FAILED)
    as Hcell.
  { unfold markFileAsFailed, after. rewrite swallowed_after. cbn [snd]. unfold after.
    erewrite bindM_Ok
      by (apply getHeaders_run; [exact Hrw|now apply column_found_header in Hstatus]).
    change (headerRow (sheetValues (sheetOf w BUFFER))) with headers.
    destruct (setIfColumn_run BUFFER row (getColumnIndex headers "Status")
                (CStr STATUS.FAILED) w Hrw) as (w1 & Hset & _).
    erewrite bindM_Ok by exact Hset.
    destruct (setIfColumn_cells _ _ _ _ _ _ Hset Hrow) as (_ & Hv & _).
    specialize (Hv Hstatus).
    match goal with
    | |- cellAt (sheetValues (bufferSheet (snd (?rest w1)))) _ _ = _ =>
        assert (preserves (rowEdited BUFFER row
                  (fun c => c <> Z.to_nat (getColumnIndex headers "Status") + 1)) rest)
          as Hrest
    end.
    { frame ltac:(first
        [ apply setIfColumn_rowEdited;
            [exact Hrow|intros Hfound; apply not_eq_sym, column_ne; [discriminate|assumption..]]
        | apply countAttempt_rowEdited;
            [exact Hrow|intros Hfound; apply not_eq_sym, column_ne; [discriminate|assumption..]] ]). }
    destruct (Hrest w1) as (_ & Hcells & _).
    change (bufferSheet ?x) with (sheetOf x BUFFER).
    rewrite Hcells; [exact Hv|lia|lia|]. right. intros Hne. now apply Hne. }
  split; [exact Hcell|].
  intros taken [_ (k & r & Hk & Hfile)]%getActiveFilesFromBuffer_spec Hsame.
  apply bufferFileOfRow_Some in Hfile as (Hactive & _ & _ & _ & ->).
  cbn [bf_rowIndex] in Hsame. fold row in Hsame.
  change (bufferSheet ?x) with (sheetOf x BUFFER) in Hactive.
  rewrite Hheader in Hactive.
  change (headerRow (sheetValues (sheetOf w BUFFER))) with headers in Hactive.
  destruct (getColumnIndex_spec headers "Status") as [Hnone|[Hpos _]]; [congruence|].
  rewrite <- (cellAt_row _ (S k) r _ Hk Hpos) in Hactive.
  replace (S (S k)) with row in Hactive by lia.
  change (sheetOf ?x BUFFER) with (bufferSheet x) in Hactive.
  rewrite Hcell in Hactive. discriminate Hactive.
Qed.

Lemma updateBufferSheetWithAI_steps (file : BufferFile) (aiData : AIData) (w w' : World) :
  updateBufferSheetWithAI BUFFER file aiData w = (Ok tt, w') -> 2 <= bf_rowIndex file ->
  exists w3,
    rowEdited BUFFER (bf_rowIndex file)
      (columnsNamed (headerRow (sheetValues (bufferSheet w)))
         ["Changed File Name"; "Invoice Number"; "Last Modified"]) w w3 /\
    countAttempt BUFFER (bf_rowIndex file)
      (getColumnIndex (headerRow (sheetValues (bufferSheet w))) "Processing Attempts") w3
      = (Ok tt, w').
Proof.
  intros Hrun Hrow. unfold updateBufferSheetWithAI in Hrun. apply rethrow_inv in Hrun.
  stepM Hrun as hs w0 Hh. apply getHeaders_inv in Hh as [-> ->].
  change (sheetOf w BUFFER) with (bufferSheet w) in Hrun.
  set (headers := headerRow (sheetValues (bufferSheet w))) in *.
  set (touched := columnsNamed headers ["Changed File Name"; "Invoice Number"; "Last Modified"]).
  assert (forall name, In name ["Changed File Name"; "Invoice Number"; "Last Modified"] ->
            getColumnIndex headers name <> (-1)%Z ->
            touched (Z.to_nat (getColumnIndex headers name) + 1)) as Htouched.
  { intros name Hin Hfound. now exists name. }
  stepM Hrun as u1 w1 H1. stepM Hrun as u2 w2 H2. stepM Hrun as u3 w3 H3.
  exists w3. split; [|exact Hrun].
  pose proof (setWhen_rowEdited BUFFER (bf_rowIndex file)
                (getColumnIndex headers "Changed File Name") (ai_newFilename aiData) touched
                Hrow ltac:(apply Htouched; cbn; tauto) w) as F1.
  rewrite H1 in F1.
  pose proof (setWhen_rowEdited BUFFER (bf_rowIndex file)
                (getColumnIndex headers "Invoice Number") (ai_invoiceNumber aiData) touched
                Hrow ltac:(apply Htouched; cbn; tauto) w1) as F2.
  rewrite H2 in F2.
  pose proof (setIfColumn_rowEdited BUFFER (bf_rowIndex file)
                (getColumnIndex headers "Last Modified") (CStr getCurrentTimestamp) touched
                Hrow ltac:(apply Htouched; cbn; tauto) w2) as F3.
  rewrite H3 in F3. cbn [snd] in *.
  etransitivity; [exact F1|]. etransitivity; [exact F2|exact F3].
Qed.

(** A document that has been enriched stays Active in the Buffer sheet:
    [updateBufferSheetWithAI] only adds one to its count of attempts.  So
    the next pass takes the same row again, with the same name and URL and
    the count one higher, as long as that count is below three, and no
    longer once it has reached three; provided the sheet has the Processing
    Attempts column and the count written reads back as the same number. *)
Theorem an_enriched_file_is_taken_again (file : BufferFile) (aiData : AIData)
    (w w' : World) :
  In file (getActiveFilesFromBuffer (bufferSheet w)) ->
  updateBufferSheetWithAI BUFFER file aiData w = (Ok tt, w') ->
  getColumnIndex (headerRow (sheetValues (bufferSheet w))) "Processing Attempts" <> (-1)%Z ->
  parseIntText (numberToString (inject_Z (bf_attempts file + 1)))
    = Some (bf_attempts file + 1)%Z ->
  (forall taken, In taken (getActiveFilesFromBuffer (bufferSheet w')) ->
     bf_rowIndex taken = bf_rowIndex file ->
     bf_attempts taken = (bf_attempts file + 1)%Z /\
     bf_originalFilename taken = bf_originalFilename file /\
     bf_fileUrl taken = bf_fileUrl file) /\
  ((bf_attempts file + 1 < MAX_PROCESSING_ATTEMPTS)%Z <->
   exists taken, In taken (getActiveFilesFromBuffer (bufferSheet w')) /\
                 bf_rowIndex taken = bf_rowIndex file).
Proof.
  intros [_ (k & r & Hk & Hfile)]%getActiveFilesFromBuffer_spec Hrun Hattempts Hprint.
  set (headers := headerRow (sheetValues (bufferSheet w))) in *.
  apply bufferFileOfRow_Some in Hfile as (Hstatus & Hbelow & Hname & Hurl & Hfile).
  assert (bf_rowIndex file = k + 2) as Hrow by now rewrite Hfile.
  assert (bf_attempts file
          = attemptsOf (safeGetCellValue r (getColumnIndex headers "Processing Attempts")))
    as Hcount by (rewrite Hfile; apply attemptsOf_default).
  assert (bf_originalFilename file
          = safeGetCellValue r (getColumnIndex headers "Original File Name")) as Hfname
    by now rewrite Hfile.
  assert (bf_fileUrl file = safeGetCellValue r (getColumnIndex headers "File URL")) as Hfurl
    by now rewrite Hfile.
  clear Hfile.
  destruct (updateBufferSheetWithAI_steps _ _ _ _ Hrun ltac:(lia)) as (w3 & F3 & Hlast).
  fold headers in F3, Hlast.
  destruct (countAttempt_cell _ _ _ _ _ Hlast ltac:(lia) Hattempts) as [Hcell Hrw].
  pose proof (countAttempt_rowEdited BUFFER (bf_rowIndex file)
                (getColumnIndex headers "Processing Attempts")
                (fun c => c = Z.to_nat (getColumnIndex headers "Processing Attempts") + 1)
                ltac:(lia) ltac:(reflexivity) w3) as F4.
  rewrite Hlast in F4. cbn [snd] in F4.
  destruct F3 as (Hh3 & Hc3 & _ & _ & Hl3). destruct F4 as (Hh4 & Hc4 & _ & _ & Hl4).
  change (sheetOf ?x BUFFER) with (bufferSheet x) in *.
  assert (headerRow (sheetValues (bufferSheet w')) = headers) as Hheaders
    by now rewrite Hh4, Hh3.
  destruct (lookup_lt_is_Some_2 (sheetValues (bufferSheet w')) (S k)) as [r' Hk'].
  { apply lookup_lt_Some in Hk. lia. }
  destruct (getColumnIndex_spec headers "Processing Attempts") as [Hnone|[Hapos _]];
    [congruence|].
  (* the cells that the update does not write *)
  assert (forall name,
            ~ In name ["Changed File Name"; "Invoice Number"; "Last Modified";
                       "Processing Attempts"] ->
            safeGetCellValue r (getColumnIndex headers name) <> CStr "" ->
            safeGetCellValue r' (getColumnIndex headers name)
              = safeGetCellValue r (getColumnIndex headers name)) as Hsame.
  { intros name Hnot Hvalue.
    assert (getColumnIndex headers name <> (-1)%Z) as Hfound.
    { intros Hnone. rewrite Hnone in Hvalue. now apply Hvalue. }
    destruct (getColumnIndex_spec headers name) as [Hnone|[Hpos _]]; [congruence|].
    rewrite <- (cellAt_row _ _ _ _ Hk' Hpos), <- (cellAt_row _ _ _ _ Hk Hpos).
    rewrite Hc4, Hc3; [reflexivity|lia|lia| |lia|lia|].
    - right. apply columnsNamed_other; [|exact Hfound]. cbn in *. tauto.
    - right. apply column_ne; [|exact Hfound|exact Hattempts].
      intros ->. apply Hnot. cbn. tauto. }
  assert (safeGetCellValue r' (getColumnIndex headers "Status") = CStr STATUS.ACTIVE)
    as Hstatus'.
  { rewrite Hsame; [exact Hstatus| |rewrite Hstatus; discriminate].
    cbn. intros [?|[?|[?|[?|[]]]]]; discriminate. }
  assert (safeGetCellValue r' (getColumnIndex headers "Original File Name")
          = bf_originalFilename file) as Hname'.
  { rewrite Hfname. apply Hsame.
    - cbn. intros [?|[?|[?|[?|[]]]]]; discriminate.
    - intros Hempty. rewrite Hempty in Hname. discriminate. }
  assert (safeGetCellValue r' (getColumnIndex headers "File URL") = bf_fileUrl file)
    as Hurl'.
  { rewrite Hfurl. apply Hsame.
    - cbn. intros [?|[?|[?|[?|[]]]]]; discriminate.
    - intros Hempty. rewrite Hempty in Hurl. discriminate. }
  assert (attemptsOf (safeGetCellValue' r' (getColumnIndex headers "Processing Attempts")
                        (CStr "0")) = (bf_attempts file + 1)%Z) as Hcount'.
  { rewrite attemptsOf_default, <- (cellAt_row _ _ _ _ Hk' Hapos).
    replace (S (S k)) with (bf_rowIndex file) by lia. rewrite Hcell.
    rewrite Hc3;
      [|lia|lia|right; apply columnsNamed_other;
                [cbn; intros [?|[?|[?|[]]]]; discriminate|exact Hattempts]].
    replace (bf_rowIndex file) with (S (S k)) by lia.
    rewrite (cellAt_row _ _ _ _ Hk Hapos), <- Hcount.
    unfold attemptsOf. cbn [cellToString]. now rewrite Hprint. }
  assert (forall taken, In taken (getActiveFilesFromBuffer (bufferSheet w')) ->
            bf_rowIndex taken = bf_rowIndex file ->
            bf_attempts taken = (bf_attempts file + 1)%Z /\
            bf_originalFilename taken = bf_originalFilename file /\
            bf_fileUrl taken = bf_fileUrl file /\
            (bf_attempts taken < MAX_PROCESSING_ATTEMPTS)%Z) as Htaken.
  { intros taken [_ (k2 & r2 & Hk2 & Htaken)]%getActiveFilesFromBuffer_spec Hsamerow.
    rewrite Hheaders in Htaken.
    apply bufferFileOfRow_Some in Htaken as (_ & Hbelow2 & _ & _ & ->).
    cbn [bf_rowIndex bf_attempts bf_originalFilename bf_fileUrl] in *.
    assert (k2 = k) as -> by lia.
    assert (r2 = r') as -> by congruence.
    rewrite Hcount' in *. now rewrite Hname', Hurl'. }
  split.
  - intros taken Hin Hsamerow. destruct (Htaken taken Hin Hsamerow) as (? & ? & ? & _).
    now repeat split.
  - split.
    + intros Hnext.
      eexists. split.
      * apply getActiveFilesFromBuffer_spec. split; [rewrite Hrw; discriminate|].
        exists k, r'. split; [exact Hk'|]. rewrite Hheaders.
        apply bufferFileOfRow_Some.
        split; [exact Hstatus'|]. split; [now rewrite Hcount'|].
        split; [now rewrite Hname', Hfname|]. split; [now rewrite Hurl', Hfurl|].
        reflexivity.
      * cbn [bf_rowIndex]. lia.
    + intros (taken & Hin & Hsamerow).
      destruct (Htaken taken Hin Hsamerow) as (Hval & _ & _ & Hlt). now rewrite <- Hval.
Qed.
End AttemptCounts.

Lemma an_enriched_file_is_taken_again_witness :
  exists taken,
    In taken (@getActiveFilesFromBuffer countingRuntime
                (bufferSheet (after (@updateBufferSheetWithAI countingRuntime BUFFER
                                       newDocument pendingAIData) worldWithNewDocument))) /\
    bf_rowIndex taken = bf_rowIndex newDocument.
Proof.
  apply (@an_enriched_file_is_taken_again countingRuntime newDocument pendingAIData
           worldWithNewDocument
           (after (@updateBufferSheetWithAI countingRuntime BUFFER newDocument pendingAIData)
              worldWithNewDocument)).
  - vm_compute. left. reflexivity.
  - vm_compute. reflexivity.
  - vm_compute. discriminate.
  - vm_compute. reflexivity.
  - vm_compute. reflexivity.
Defined.

(** ** The retry of the failed files *)

Section RetryFailed.
Context `{Runtime}.

Lemma setValue_edits ref row column v (touched : nat -> Prop) w w1 :
  setValue ref row column v w = (Ok tt, w1) -> 2 <= row -> 1 <= column -> touched column ->
  rowEdited ref row touched w w1.
Proof.
  intros Hrun Hrow Hcol Htouched.
  pose proof (setValue_rowEdited ref row column v touched Hrow Hcol Htouched w) as Hframe.
  now rewrite Hrun in Hframe.
Qed.

Lemma setIfColumn_edits ref row index v (touched : nat -> Prop) w w1 :
  setIfColumn ref row index v w = (Ok tt, w1) -> 2 <= row ->
  (index <> (-1)%Z -> touched (Z.to_nat index + 1)) ->
  rowEdited ref row touched w w1.
Proof.
  intros Hrun Hrow Htouched.
  pose proof (setIfColumn_rowEdited ref row index v touched Hrow Htouched w) as Hframe.
  now rewrite Hrun in Hframe.
Qed.

Lemma retryLoop_run (headers : list Cell) : forall rows i count w,
  1 <= i -> sheetAccess (sheetOf w BUFFER) = ReadWrite ->
  exists w',
    retryLoop BUFFER headers i rows count w
      = (Ok (count + length (List.filter
                               (fun row => strictEq
                                  (safeGetCellValue row (getColumnIndex headers "Status"))
                                  (CStr STATUS.FAILED)) rows)), w') /\
    sheetAccess (sheetOf w' BUFFER) = ReadWrite /\
    headerRow (sheetValues (sheetOf w' BUFFER)) = headerRow (sheetValues (sheetOf w BUFFER)) /\
    length (sheetValues (sheetOf w BUFFER)) <= length (sheetValues (sheetOf w' BUFFER)) /\
    (forall ref', ref' <> BUFFER -> sheetOf w' ref' = sheetOf w ref') /\
    (forall r c, 1 <= r -> 1 <= c ->
       (forall k row, rows !! k = Some row -> r = i + k + 1 ->
          safeGetCellValue row (getColumnIndex headers "Status") <> CStr STATUS.FAILED) \/
       ~ columnsNamed headers ["Status"; "Processing Attempts"; "Reason"] c ->
       cellAt (sheetValues (sheetOf w' BUFFER)) r c
         = cellAt (sheetValues (sheetOf w BUFFER)) r c) /\
    (forall k row, rows !! k = Some row ->
       safeGetCellValue row (getColumnIndex headers "Status") = CStr STATUS.FAILED ->
       cellAt (sheetValues (sheetOf w' BUFFER)) (i + k + 1)
         (Z.to_nat (getColumnIndex headers "Status") + 1) = CStr STATUS.ACTIVE /\
       (getColumnIndex headers "Processing Attempts" <> (-1)%Z ->
        cellAt (sheetValues (sheetOf w' BUFFER)) (i + k + 1)
          (Z.to_nat (getColumnIndex headers "Processing Attempts") + 1) = CStr "0") /\
       (getColumnIndex headers "Reason" <> (-1)%Z ->
        cellAt (sheetValues (sheetOf w' BUFFER)) (i + k + 1)
          (Z.to_nat (getColumnIndex headers "Reason") + 1)
          = CStr ("Retry requested on " +:+ getCurrentTimestamp))).
Proof.
  set (touched := columnsNamed headers ["Status"; "Processing Attempts"; "Reason"]).
  assert (forall name, In name ["Status"; "Processing Attempts"; "Reason"] ->
            getColumnIndex headers name <> (-1)%Z ->
            touched (Z.to_nat (getColumnIndex headers name) + 1)) as Htouched.
  { intros name Hin Hfound. now exists name. }
  induction rows as [|row rest IH]; intros i count w Hi Hrw; cbn [retryLoop List.filter].
  - exists w. split; [cbn; now rewrite Nat.add_0_r|].
    split; [exact Hrw|]. split; [reflexivity|]. split; [lia|].
    split; [intros; reflexivity|]. split; [intros; reflexivity|].
    intros k row Hk. now rewrite lookup_nil in Hk.
  - destruct (strictEq (safeGetCellValue row (getColumnIndex headers "Status"))
                (CStr STATUS.FAILED)) eqn:Hs.
    + apply strictEq_CStr in Hs.
      assert (getColumnIndex headers "Status" <> (-1)%Z) as Hstatus.
      { intros Hnone. rewrite Hnone in Hs. discriminate Hs. }
      destruct (getColumnIndex_spec headers "Status") as [Hnone|[Hspos _]]; [congruence|].
      replace (Z.to_nat (getColumnIndex headers "Status" + 1))
        with (Z.to_nat (getColumnIndex headers "Status") + 1) by lia.
      pose proof (setValue_run BUFFER (i + 1) (Z.to_nat (getColumnIndex headers "Status") + 1)
                    (CStr STATUS.ACTIVE) w Hrw) as Ha.
      match type of Ha with _ = (_, ?x) => set (wa := x) in Ha end.
      assert (sheetAccess (sheetOf wa BUFFER) = ReadWrite) as Hrwa
        by (unfold wa; now rewrite sheetOf_setSheet).
      destruct (setIfColumn_run BUFFER (i + 1) (getColumnIndex headers "Processing Attempts")
                  (CStr "0") wa Hrwa) as (wb & Hb & Hrwb).
      destruct (setIfColumn_run BUFFER (i + 1) (getColumnIndex headers "Reason")
                  (CStr ("Retry requested on " +:+ getCurrentTimestamp)) wb Hrwb)
        as (wc & Hc & Hrwc).
      destruct (IH (S i) (S count) wc ltac:(lia) Hrwc)
        as (w' & Hrun & Hrw' & Hheader & Hlength & Hsheets & Hframe & Hvalues).
      exists w'.
      erewrite bindM_Ok by exact Ha. erewrite bindM_Ok by exact Hb.
      erewrite bindM_Ok by exact Hc.
      split; [rewrite Hrun; do 2 f_equal; cbn [length]; lia|].
      assert (rowEdited BUFFER (i + 1) touched w wc) as Hedit.
      { etransitivity; [|etransitivity].
        - apply (setValue_edits _ _ _ _ touched _ _ Ha); [lia|lia|].
          apply Htouched; [cbn; tauto|exact Hstatus].
        - apply (setIfColumn_edits _ _ _ _ touched _ _ Hb); [lia|].
          apply Htouched; cbn; tauto.
        - apply (setIfColumn_edits _ _ _ _ touched _ _ Hc); [lia|].
          apply Htouched; cbn; tauto. }
      destruct Hedit as (Hheader0 & Hframe0 & Hsheets0 & _ & Hlength0).
      split; [exact Hrw'|]. split; [now rewrite Hheader|]. split; [lia|].
      split; [intros ref' Hne; now rewrite Hsheets, Hsheets0|].
      assert (forall c, 1 <= c ->
                cellAt (sheetValues (sheetOf w' BUFFER)) (i + 1) c
                  = cellAt (sheetValues (sheetOf wc BUFFER)) (i + 1) c) as Hhead.
      { intros c Hc1. apply Hframe; [lia|exact Hc1|]. left. intros k r _ Hk. lia. }
      destruct (setValue_cells _ _ _ _ _ _ Ha ltac:(lia) ltac:(lia)) as (_ & Hva & _).
      destruct (setIfColumn_cells _ _ _ _ _ _ Hb ltac:(lia)) as (_ & Hvb & Hob & _).
      destruct (setIfColumn_cells _ _ _ _ _ _ Hc ltac:(lia)) as (_ & Hvc & Hoc & _).
      split.
      * intros r c Hr Hc1 Hfree. rewrite Hframe; [|exact Hr|exact Hc1|].
        -- apply Hframe0; [exact Hr|exact Hc1|].
           destruct Hfree as [Hnot|Hcol]; [|now right]. left. intros ->.
           apply (Hnot 0 row); [reflexivity|lia|exact Hs].
        -- destruct Hfree as [Hnot|Hcol]; [|now right]. left. intros k r0 Hk Hr0.
           apply (Hnot (S k) r0); [exact Hk|lia].
      * intros [|k] r Hk Hfailed.
        -- replace (i + 0 + 1) with (i + 1) by lia. rewrite !Hhead by lia.
           split; [|split].
           ++ rewrite Hoc, Hob; [exact Hva|lia|lia| |lia|lia|];
                apply other_column; [discriminate|exact Hstatus|discriminate|exact Hstatus].
           ++ intros Hfound. rewrite Hoc; [now apply Hvb|lia|lia|].
              apply other_column; [discriminate|exact Hfound].
           ++ exact Hvc.
        -- cbn in Hk. replace (i + S k + 1) with (S i + k + 1) by lia.
           exact (Hvalues k r Hk Hfailed).
    + apply strictEq_false_ne in Hs.
      destruct (IH (S i) count w ltac:(lia) Hrw)
        as (w' & Hrun & Hrw' & Hheader & Hlength & Hsheets & Hframe & Hvalues).
      exists w'. split; [exact Hrun|]. split; [exact Hrw'|]. split; [exact Hheader|].
      split; [exact Hlength|]. split; [exact Hsheets|]. split.
      * intros r c Hr Hc1 Hfree. apply Hframe; [exact Hr|exact Hc1|].
        destruct Hfree as [Hnot|Hcol]; [|now right]. left. intros k r0 Hk Hr0.
        apply (Hnot (S k) r0); [exact Hk|lia].
      * intros [|k] r Hk Hfailed.
        -- cbn in Hk. injection Hk as <-. contradiction.
        -- cbn in Hk. replace (i + S k + 1) with (S i + k + 1) by lia.
           exact (Hvalues k r Hk Hfailed).
Qed.

Lemma retryFailedAIProcessing_run (w : World) :
  sheetAccess (bufferSheet w) = ReadWrite ->
  exists w',
    retryFailedAIProcessing BUFFER w
      = (Ok (length (List.filter
                       (fun row => strictEq
                          (safeGetCellValue row
                             (getColumnIndex (headerRow (sheetValues (bufferSheet w))) "Status"))
                          (CStr STATUS.FAILED))
                       (drop 1 (sheetValues (bufferSheet w))))), w') /\
    sheetAccess (bufferSheet w') = ReadWrite /\
    headerRow (sheetValues (bufferSheet w')) = headerRow (sheetValues (bufferSheet w)) /\
    length (sheetValues (bufferSheet w)) <= length (sheetValues (bufferSheet w')) /\
    (forall ref, ref <> BUFFER -> sheetOf w' ref = sheetOf w ref) /\
    (forall r c, 1 <= r -> 1 <= c ->
       (forall row, sheetValues (bufferSheet w) !! (r - 1) = Some row ->
          safeGetCellValue row
            (getColumnIndex (headerRow (sheetValues (bufferSheet w))) "Status")
            <> CStr STATUS.FAILED) \/
       ~ columnsNamed (headerRow (sheetValues (bufferSheet w)))
           ["Status"; "Processing Attempts"; "Reason"] c ->
       cellAt (sheetValues (bufferSheet w')) r c = cellAt (sheetValues (bufferSheet w)) r c) /\
    (forall k row, sheetValues (bufferSheet w) !! S k = Some row ->
       safeGetCellValue row (getColumnIndex (headerRow (sheetValues (bufferSheet w))) "Status")
         = CStr STATUS.FAILED ->
       cellAt (sheetValues (bufferSheet w')) (k + 2)
         (Z.to_nat (getColumnIndex (headerRow (sheetValues (bufferSheet w))) "Status") + 1)
         = CStr STATUS.ACTIVE /\
       (getColumnIndex (headerRow (sheetValues (bufferSheet w))) "Processing Attempts"
          <> (-1)%Z ->
        cellAt (sheetValues (bufferSheet w')) (k + 2)
          (Z.to_nat (getColumnIndex (headerRow (sheetValues (bufferSheet w)))
                       "Processing Attempts") + 1) = CStr "0") /\
       (getColumnIndex (headerRow (sheetValues (bufferSheet w))) "Reason" <> (-1)%Z ->
        cellAt (sheetValues (bufferSheet w')) (k + 2)
          (Z.to_nat (getColumnIndex (headerRow (sheetValues (bufferSheet w))) "Reason") + 1)
          = CStr ("Retry requested on " +:+ getCurrentTimestamp))).
Proof.
  intros Hrw. set (headers := headerRow (sheetValues (bufferSheet w))).
  unfold retryFailedAIProcessing. rewrite rethrow_run.
  erewrite bindM_Ok
    by (unfold liftR, getValues, reading; cbn [sheetOf]; now rewrite Hrw).
  cbn [sheetOf]. fold headers.
  destruct (length (sheetValues (bufferSheet w)) <=? 1)%nat eqn:Hlen.
  - apply Nat.leb_le in Hlen.
    assert (drop 1 (sheetValues (bufferSheet w)) = []) as ->.
    { destruct (sheetValues (bufferSheet w)) as [|h [|r rest]]; cbn in *; [reflexivity..|lia]. }
    exists w. split; [reflexivity|]. split; [exact Hrw|]. split; [reflexivity|].
    split; [lia|]. split; [intros; reflexivity|]. split; [intros; reflexivity|].
    intros k row Hk. apply lookup_lt_Some in Hk. lia.
  - destruct (retryLoop_run headers (drop 1 (sheetValues (bufferSheet w))) 1 0 w
                ltac:(lia) Hrw)
      as (w' & Hrun & Hrw' & Hheader & Hlength & Hsheets & Hframe & Hvalues).
    exists w'. split; [exact Hrun|]. split; [exact Hrw'|]. split; [exact Hheader|].
    split; [exact Hlength|]. split; [exact Hsheets|]. split.
    + intros r c Hr Hc Hfree. apply Hframe; [exact Hr|exact Hc|].
      destruct Hfree as [Hnot|Hcol]; [|now right]. left. intros k row Hk ->.
      apply Hnot. rewrite lookup_drop in Hk. now replace (1 + k + 1 - 1) with (1 + k) by lia.
    + intros k row Hk Hfailed. replace (k + 2) with (1 + k + 1) by lia.
      apply (Hvalues k row); [now rewrite lookup_drop|exact Hfailed].
Qed.

(** On a Buffer sheet that takes writes, [retryFailedAIProcessing] returns
    the number of data rows whose status is Failed.  Each of these rows is
    Active afterwards, with the count of attempts 0 and the reason
    [Retry requested on <time>] where the sheet has these columns; no other
    cell of the Buffer sheet and no other sheet is changed. *)
Theorem retryFailedAIProcessing_resets_the_failed_rows (w : World) :
  sheetAccess (bufferSheet w) = ReadWrite ->
  exists w',
    retryFailedAIProcessing BUFFER w
      = (Ok (length (List.filter
                       (fun row => strictEq
                          (safeGetCellValue row
                             (getColumnIndex (headerRow (sheetValues (bufferSheet w))) "Status"))
                          (CStr STATUS.FAILED))
                       (drop 1 (sheetValues (bufferSheet w))))), w') /\
    (forall k row, sheetValues (bufferSheet w) !! S k = Some row ->
       safeGetCellValue row (getColumnIndex (headerRow (sheetValues (bufferSheet w))) "Status")
         = CStr STATUS.FAILED ->
       cellAt (sheetValues (bufferSheet w')) (k + 2)
         (Z.to_nat (getColumnIndex (headerRow (sheetValues (bufferSheet w))) "Status") + 1)
         = CStr STATUS.ACTIVE /\
       (getColumnIndex (headerRow (sheetValues (bufferSheet w))) "Processing Attempts"
          <> (-1)%Z ->
        cellAt (sheetValues (bufferSheet w')) (k + 2)
          (Z.to_nat (getColumnIndex (headerRow (sheetValues (bufferSheet w)))
                       "Processing Attempts") + 1) = CStr "0") /\
       (getColumnIndex (headerRow (sheetValues (bufferSheet w))) "Reason" <> (-1)%Z ->
        cellAt (sheetValues (bufferSheet w')) (k + 2)
          (Z.to_nat (getColumnIndex (headerRow (sheetValues (bufferSheet w))) "Reason") + 1)
          = CStr ("Retry requested on " +:+ getCurrentTimestamp))) /\
    (forall r c, 1 <= r -> 1 <= c ->
       (forall row, sheetValues (bufferSheet w) !! (r - 1) = Some row ->
          safeGetCellValue row
            (getColumnIndex (headerRow (sheetValues (bufferSheet w))) "Status")
            <> CStr STATUS.FAILED) \/
       ~ columnsNamed (headerRow (sheetValues (bufferSheet w)))
           ["Status"; "Processing Attempts"; "Reason"] c ->
       cellAt (sheetValues (bufferSheet w')) r c = cellAt (sheetValues (bufferSheet w)) r c) /\
    headerRow (sheetValues (bufferSheet w')) = headerRow (sheetValues (bufferSheet w)) /\
    finalSheet w' = finalSheet w /\ inflowSheet w' = inflowSheet w /\
    outflowSheet w' = outflowSheet w.
Proof.
  intros Hrw.
  destruct (retryFailedAIProcessing_run w Hrw)
    as (w' & Hrun & _ & Hheader & _ & Hsheets & Hframe & Hvalues).
  exists w'. split; [exact Hrun|]. split; [exact Hvalues|]. split; [exact Hframe|].
  split; [exact Hheader|].
  split; [exact (Hsheets FINAL ltac:(discriminate))|].
  split; [exact (Hsheets INFLOW ltac:(discriminate))
         |exact (Hsheets OUTFLOW ltac:(discriminate))].
Qed.

(** A retry puts a failed document back before the enrichment pass: a row
    that is Failed and has an original file name and a File URL is taken by
    [getActiveFilesFromBuffer] after [retryFailedAIProcessing], with no
    attempt counted and the same name and URL. *)
Theorem a_failed_file_is_taken_after_a_retry (w : World) (k : nat) (row : list Cell) :
  sheetAccess (bufferSheet w) = ReadWrite ->
  sheetValues (bufferSheet w) !! S k = Some row ->
  safeGetCellValue row (getColumnIndex (headerRow (sheetValues (bufferSheet w))) "Status")
    = CStr STATUS.FAILED ->
  truthy (safeGetCellValue row
            (getColumnIndex (headerRow (sheetValues (bufferSheet w))) "Original File Name"))
    = true ->
  truthy (safeGetCellValue row
            (getColumnIndex (headerRow (sheetValues (bufferSheet w))) "File URL")) = true ->
  exists taken,
    In taken (getActiveFilesFromBuffer
                (bufferSheet (after (retryFailedAIProcessing BUFFER) w))) /\
    bf_rowIndex taken = k + 2 /\
    bf_attempts taken = 0%Z /\
    bf_originalFilename taken
      = safeGetCellValue row
          (getColumnIndex (headerRow (sheetValues (bufferSheet w))) "Original File Name") /\
    bf_fileUrl taken
      = safeGetCellValue row
          (getColumnIndex (headerRow (sheetValues (bufferSheet w))) "File URL").
Proof.
  intros Hrw Hk Hfailed Hname Hurl.
  destruct (retryFailedAIProcessing_run w Hrw)
    as (w' & Hrun & Hrw' & Hheader & Hlength & _ & Hframe & Hvalues).
  unfold after. rewrite Hrun. cbn [snd].
  set (headers := headerRow (sheetValues (bufferSheet w))) in *.
  destruct (Hvalues k row Hk Hfailed) as (Hstatus' & Hcount' & _).
  destruct (lookup_lt_is_Some_2 (sheetValues (bufferSheet w')) (S k)) as [r' Hk'].
  { apply lookup_lt_Some in Hk. lia. }
  assert (getColumnIndex headers "Status" <> (-1)%Z) as Hstatus.
  { intros Hnone. rewrite Hnone in Hfailed. discriminate Hfailed. }
  destruct (getColumnIndex_spec headers "Status") as [Hnone|[Hspos _]]; [congruence|].
  assert (forall name, ~ In name ["Status"; "Processing Attempts"; "Reason"] ->
            truthy (safeGetCellValue row (getColumnIndex headers name)) = true ->
            safeGetCellValue r' (getColumnIndex headers name)
              = safeGetCellValue row (getColumnIndex headers name)) as Hsame.
  { intros name Hnot Hvalue.
    assert (getColumnIndex headers name <> (-1)%Z) as Hfound.
    { intros Hnone. rewrite Hnone in Hvalue. discriminate Hvalue. }
    destruct (getColumnIndex_spec headers name) as [Hnone|[Hpos _]]; [congruence|].
    rewrite <- (cellAt_row _ _ _ _ Hk' Hpos), <- (cellAt_row _ _ _ _ Hk Hpos).
    apply Hframe; [lia|lia|]. right. now apply columnsNamed_other. }
  assert (safeGetCellValue r' (getColumnIndex headers "Original File Name")
          = safeGetCellValue row (getColumnIndex headers "Original File Name")) as Hname'.
  { apply Hsame; [|exact Hname]. cbn. intros [?|[?|[?|[]]]]; discriminate. }
  assert (safeGetCellValue r' (getColumnIndex headers "File URL")
          = safeGetCellValue row (getColumnIndex headers "File URL")) as Hurl'.
  { apply Hsame; [|exact Hurl]. cbn. intros [?|[?|[?|[]]]]; discriminate. }
  assert (attemptsOf (safeGetCellValue' r' (getColumnIndex headers "Processing Attempts")
                        (CStr "0")) = 0%Z) as Hzero.
  { destruct (getColumnIndex_spec headers "Processing Attempts") as [Hnone|[Hapos _]].
    - rewrite Hnone. reflexivity.
    - rewrite attemptsOf_default, <- (cellAt_row _ _ _ _ Hk' Hapos).
      replace (S (S k)) with (k + 2) by lia. rewrite Hcount' by lia. reflexivity. }
  eexists. split; [|split; [|split; [|split]]].
  - apply getActiveFilesFromBuffer_spec. split; [rewrite Hrw'; discriminate|].
    exists k, r'. split; [exact Hk'|]. rewrite Hheader. fold headers.
    apply bufferFileOfRow_Some.
    split.
    { rewrite <- (cellAt_row _ _ _ _ Hk' Hspos).
      replace (S (S k)) with (k + 2) by lia. exact Hstatus'. }
    split; [rewrite Hzero; reflexivity|].
    split; [now rewrite Hname'|]. split; [now rewrite Hurl'|]. reflexivity.
  - reflexivity.
  - exact Hzero.
  - exact Hname'.
  - exact Hurl'.
Qed.
End RetryFailed.

Lemma retryFailedAIProcessing_resets_the_failed_rows_witness :
  fst (@retryFailedAIProcessing exampleRuntime BUFFER worldWithFailedDocument) = Ok 1 /\
  cellAt (sheetValues (bufferSheet
            (after (@retryFailedAIProcessing exampleRuntime BUFFER) worldWithFailedDocument)))
    2 7 = CStr STATUS.ACTIVE.
Proof.
  destruct (@retryFailedAIProcessing_resets_the_failed_rows exampleRuntime
              worldWithFailedDocument ltac:(reflexivity))
    as (w' & Hrun & Hvalues & _).
  unfold after. rewrite Hrun. split; [reflexivity|].
  refine (proj1 (Hvalues 0 _ _ _)); vm_compute; reflexivity.
Defined.

Lemma a_failed_file_is_taken_after_a_retry_witness :
  exists taken,
    In taken (@getActiveFilesFromBuffer countingRuntime
                (bufferSheet (after (@retryFailedAIProcessing countingRuntime BUFFER)
                                worldWithFailedDocument))) /\
    bf_rowIndex taken = 2 /\
    bf_attempts taken = 0%Z /\
    bf_originalFilename taken = CStr "IMG_0001.pdf" /\
    bf_fileUrl taken = CStr "https://drive.google.com/file/d/A1/view".
Proof.
  apply (@a_failed_file_is_taken_after_a_retry countingRuntime worldWithFailedDocument 0
           [ CStr "IMG_0001.pdf"; CStr "";
             CStr "https://drive.google.com/file/d/A1/view"; CStr ""; CStr "";
             CStr ""; CStr "Failed";
             CStr "AI Processing Failed: timeout (2024-01-04T09:00:00.000Z)";
             CStr ""; CStr ""; CStr ""; CStr ""; CStr "3" ]);
    vm_compute; reflexivity.
Defined.

(** ** The removal of the empty rows *)

Section EmptyRows.
Context `{Runtime}.

Lemma cleanupLoop_onlySheet ref data : forall i cleaned,
  preserves (onlySheet ref) (cleanupLoop ref data i cleaned).
Proof.
  induction i as [|i IH]; intros cleaned; cbn [cleanupLoop].
  - apply preserves_ret; typeclasses eauto.
  - unfold deleteRow. frame ltac:(first [apply IH | apply writing_onlySheet]).
Qed.

(** The loop on a sheet that takes writes, read backwards from the last
    row: once the rows after index [i] have been dealt with, the sheet holds
    the rows up to [i] and the rows after them that are not empty. *)
Lemma cleanupLoop_run ref data : forall i cleaned w,
  i < length data ->
  sheetAccess (sheetOf w ref) = ReadWrite ->
  sheetValues (sheetOf w ref) =
    take (S i) data ++
    List.filter (fun row => negb (forallb isEmptyCell row)) (drop (S i) data) ->
  exists w1,
    cleanupLoop ref data i cleaned w
      = (Ok (cleaned + length (List.filter (forallb isEmptyCell) (drop 1 (take (S i) data)))),
         w1) /\
    sheetValues (sheetOf w1 ref) =
      take 1 data ++ List.filter (fun row => negb (forallb isEmptyCell row)) (drop 1 data).
Proof.
  induction i as [|i IH]; intros cleaned w Hlen Hrw Hvalues.
  - exists w. split; [|exact Hvalues]. cbn [cleanupLoop].
    destruct data as [|h rest]; cbn; now rewrite ?take_0, ?Nat.add_0_r.
  - cbn [cleanupLoop].
    destruct (data !! S i) as [row|] eqn:Hrow;
      [|apply lookup_ge_None_1 in Hrow; lia].
    cbn [default from_option id].
    assert (drop (S i) data = row :: drop (S (S i)) data) as Hdrop
      by (now apply drop_S).
    assert (take (S (S i)) data = take (S i) data ++ [row]) as Htake
      by (now apply take_S_r).
    assert (drop 1 (take (S (S i)) data) = drop 1 (take (S i) data) ++ [row]) as Hseen.
    { rewrite Htake. destruct data as [|h rest]; [cbn in Hlen; lia|]. reflexivity. }
    rewrite Hseen, List.filter_app, length_app. cbn [List.filter].
    destruct (forallb isEmptyCell row) eqn:Hempty.
    + unfold deleteRow. erewrite bindM_Ok by (now apply writing_ok).
      match goal with
      | |- context [cleanupLoop ref data i (S cleaned) ?wd] =>
          destruct (IH (S cleaned) wd) as (w1 & Hrun & Hfinal)
      end.
      * lia.
      * now rewrite sheetOf_setSheet.
      * rewrite sheetOf_setSheet. cbn [sheetValues].
        rewrite Hvalues, Hdrop. cbn [List.filter]. rewrite Hempty. cbn [negb].
        replace (S i + 1 - 1) with (S i) by lia.
        apply delete_take_snoc. lia.
      * exists w1. split; [|exact Hfinal]. rewrite Hrun. do 2 f_equal. cbn [length]. lia.
    + destruct (IH cleaned w) as (w1 & Hrun & Hfinal).
      * lia.
      * exact Hrw.
      * rewrite Hvalues, Htake, Hdrop. cbn [List.filter].
        rewrite Hempty. cbn [negb]. now rewrite <- app_assoc.
      * exists w1. split; [|exact Hfinal]. rewrite Hrun. do 2 f_equal. cbn [length]. lia.
Qed.

(** The loop on a sheet that refuses writes: it stops at the first empty
    row it meets, having changed nothing. *)
Lemma cleanupLoop_refused ref data : forall i cleaned w,
  sheetAccess (sheetOf w ref) <> ReadWrite ->
  cleanupLoop ref data i cleaned w = (Ok cleaned, w) \/
  exists e, cleanupLoop ref data i cleaned w = (Throw e, w).
Proof.
  induction i as [|i IH]; intros cleaned w Hno; cbn [cleanupLoop]; [now left|].
  destruct (forallb isEmptyCell (default [] (data !! S i))); [|now apply IH].
  right. exists ServiceError. unfold deleteRow.
  erewrite bindM_Throw; [reflexivity|]. unfold writing.
  destruct (sheetAccess (sheetOf w ref)); [congruence|reflexivity..].
Qed.

(** [cleanupEmptyRowsInSheet] touches the one sheet only.  On a sheet that
    takes writes it leaves the header row and, in their order, the data rows
    that have a cell which is truthy and not blank text, and it returns the
    number of rows that went; a row of zeros, [false] and blanks goes too.
    On a sheet that refuses writes it changes nothing and returns 0.  On a
    sheet that cannot be reached it throws: the [catch] asks the sheet for
    its name. *)
Theorem cleanupEmptyRowsInSheet_removes_the_empty_rows (ref : SheetRef) (w : World) :
  onlySheet ref w (after (cleanupEmptyRowsInSheet ref) w) /\
  match sheetAccess (sheetOf w ref) with
  | ReadWrite =>
      exists w',
        cleanupEmptyRowsInSheet ref w
          = (Ok (length (List.filter (forallb isEmptyCell)
                           (drop 1 (sheetValues (sheetOf w ref))))), w') /\
        sheetValues (sheetOf w' ref)
          = take 1 (sheetValues (sheetOf w ref)) ++
            List.filter (fun row => negb (forallb isEmptyCell row))
              (drop 1 (sheetValues (sheetOf w ref)))
  | ReadOnly => cleanupEmptyRowsInSheet ref w = (Ok 0, w)
  | Unavailable => cleanupEmptyRowsInSheet ref w = (Throw ServiceError, w)
  end.
Proof.
  split.
  { assert (preserves (onlySheet ref) (cleanupEmptyRowsInSheet ref)) as Hframe.
    { unfold cleanupEmptyRowsInSheet. frame ltac:(apply cleanupLoop_onlySheet). }
    apply Hframe. }
  set (data := sheetValues (sheetOf w ref)) in *.
  unfold cleanupEmptyRowsInSheet, tryCatchM.
  destruct (sheetAccess (sheetOf w ref)) eqn:Hacc.
  - (* the sheet takes writes *)
    erewrite bindM_Ok by (unfold liftR, getLastRow, reading; rewrite Hacc; reflexivity).
    fold data.
    destruct (length data <=? 1)%nat eqn:Hlen.
    + apply Nat.leb_le in Hlen.
      assert (drop 1 data = []) as ->
        by (destruct data as [|h [|r rest]]; cbn in *; [easy..|lia]).
      exists w. split; [reflexivity|].
      cbn [List.filter]. rewrite app_nil_r. fold data. now rewrite take_ge by exact Hlen.
    + apply Nat.leb_gt in Hlen.
      erewrite bindM_Ok by (unfold liftR, getValues, reading; rewrite Hacc; reflexivity).
      fold data.
      destruct (cleanupLoop_run ref data (length data - 1) 0 w) as (w1 & Hloop & Hfinal).
      * lia.
      * exact Hacc.
      * replace (S (length data - 1)) with (length data) by lia.
        now rewrite firstn_all, drop_all, app_nil_r.
      * rewrite Hloop. exists w1. split; [|exact Hfinal].
        replace (S (length data - 1)) with (length data) by lia.
        now rewrite firstn_all.
  - (* the sheet refuses writes *)
    erewrite bindM_Ok by (unfold liftR, getLastRow, reading; rewrite Hacc; reflexivity).
    fold data.
    destruct (length data <=? 1)%nat eqn:Hlen; [reflexivity|].
    erewrite bindM_Ok by (unfold liftR, getValues, reading; rewrite Hacc; reflexivity).
    fold data.
    destruct (cleanupLoop_refused ref data (length data - 1) 0 w) as [Hloop|[e Hloop]];
      [congruence| |]; rewrite Hloop; [reflexivity|].
    unfold mbind, M_bind, liftR, getName, reading. now rewrite Hacc.
  - (* the sheet cannot be reached *)
    erewrite bindM_Throw by (unfold liftR, getLastRow, reading; rewrite Hacc; reflexivity).
    unfold mbind, M_bind, liftR, getName, reading. now rewrite Hacc.
Qed.
End EmptyRows.

Example cleanupEmptyRowsInSheet_takes_zeros_for_empty :
  let nbsp := String (ascii_of_nat 194) (String (ascii_of_nat 160) EmptyString) in
  fst (@cleanupEmptyRowsInSheet exampleRuntime FINAL
         (setSheet FINAL
            (mkSheet [ FINAL_COLUMNS; [CNum 0; CBool false; CStr "  "];
                       [CStr ""; CStr "x"]; [CStr nbsp]; [] ] ReadWrite) freshWorld)) = Ok 3 /\
  fst (@cleanupEmptyRowsInSheet exampleRuntime FINAL
         (setSheet FINAL (mkSheet [FINAL_COLUMNS; []] ReadOnly) freshWorld)) = Ok 0 /\
  fst (@cleanupEmptyRowsInSheet exampleRuntime FINAL
         (setSheet FINAL (mkSheet [FINAL_COLUMNS; []] Unavailable) freshWorld))
    = Throw ServiceError.
Proof. vm_compute. repeat split. Qed.

(** ** The statistics of the sheets *)

Lemma statisticsLoop_counts (index : Z) : forall rows stats,
  let count status :=
    length (List.filter (fun row => strictEq (safeGetCellValue row index) (CStr status))
              rows) in
  bs_total (statisticsLoop index rows stats) = bs_total stats /\
  bs_active (statisticsLoop index rows stats) = bs_active stats + count STATUS.ACTIVE /\
  bs_deleted (statisticsLoop index rows stats) = bs_deleted stats + count STATUS.DELETED /\
  bs_failed (statisticsLoop index rows stats) = bs_failed stats + count STATUS.FAILED /\
  bs_processing (statisticsLoop index rows stats)
    = bs_processing stats + count STATUS.PROCESSING /\
  count STATUS.ACTIVE + count STATUS.DELETED + count STATUS.FAILED + count STATUS.PROCESSING
    <= length rows.
Proof.
  induction rows as [|row rest IH]; intros stats; cbn zeta.
  - cbn. repeat split; lia.
  - cbn [statisticsLoop List.filter].
    destruct (IH (countStatus (safeGetCellValue row index) stats))
      as (Ht & Ha & Hd & Hf & Hp & Hsum).
    rewrite Ht, Ha, Hd, Hf, Hp. clear Ht Ha Hd Hf Hp IH.
    unfold countStatus.
    destruct (strictEq (safeGetCellValue row index) (CStr STATUS.ACTIVE)) eqn:Hactive.
    { apply strictEq_CStr in Hactive. rewrite Hactive. cbn. repeat split; lia. }
    destruct (strictEq (safeGetCellValue row index) (CStr STATUS.DELETED)) eqn:Hdeleted.
    { apply strictEq_CStr in Hdeleted. rewrite Hdeleted. cbn. repeat split; lia. }
    destruct (strictEq (safeGetCellValue row index) (CStr STATUS.FAILED)) eqn:Hfailed.
    { apply strictEq_CStr in Hfailed. rewrite Hfailed. cbn. repeat split; lia. }
    destruct (strictEq (safeGetCellValue row index) (CStr STATUS.PROCESSING)) eqn:Hprocessing.
    { cbn. repeat split; lia. }
    cbn. repeat split; lia.
Qed.

Lemma activeFilesLoop_length `{Runtime} (headers : list Cell) : forall rows i,
  length (activeFilesLoop headers i rows)
    <= length (List.filter
                 (fun row => strictEq (safeGetCellValue row (getColumnIndex headers "Status"))
                               (CStr STATUS.ACTIVE)) rows).
Proof.
  induction rows as [|row rest IH]; intros i; cbn [activeFilesLoop List.filter];
    [cbn; lia|].
  specialize (IH (S i)).
  destruct (bufferFileOfRow headers (i + 1) row) as [file|] eqn:Hfile.
  - apply bufferFileOfRow_Some in Hfile as (Hactive & _).
    rewrite Hactive. cbn. lia.
  - destruct (strictEq _ _); cbn [length]; lia.
Qed.

(** When the four sheets can be read, [getSheetStatistics] returns: the
    totals are the numbers of data rows, each count of the Buffer sheet is
    the number of data rows with that status, and the four counts together do
    not exceed the total (a row with another status, or none, is in no
    count).  The enrichment pass takes at most as many files as are counted
    active. *)
Theorem getSheetStatistics_counts_the_rows `{Runtime} (w : World) :
  sheetAccess (bufferSheet w) <> Unavailable ->
  sheetAccess (finalSheet w) <> Unavailable ->
  sheetAccess (inflowSheet w) <> Unavailable ->
  sheetAccess (outflowSheet w) <> Unavailable ->
  exists stats,
    getSheetStatistics w = Ok stats /\
    bs_total (st_buffer stats) = length (sheetValues (bufferSheet w)) - 1 /\
    st_final stats = length (sheetValues (finalSheet w)) - 1 /\
    st_inflow stats = length (sheetValues (inflowSheet w)) - 1 /\
    st_outflow stats = length (sheetValues (outflowSheet w)) - 1 /\
    bs_active (st_buffer stats) = length (rowsWithStatus (bufferSheet w) STATUS.ACTIVE) /\
    bs_deleted (st_buffer stats) = length (rowsWithStatus (bufferSheet w) STATUS.DELETED) /\
    bs_failed (st_buffer stats) = length (rowsWithStatus (bufferSheet w) STATUS.FAILED) /\
    bs_processing (st_buffer stats)
      = length (rowsWithStatus (bufferSheet w) STATUS.PROCESSING) /\
    bs_active (st_buffer stats) + bs_deleted (st_buffer stats) +
      bs_failed (st_buffer stats) + bs_processing (st_buffer stats)
      <= bs_total (st_buffer stats) /\
    length (getActiveFilesFromBuffer (bufferSheet w)) <= bs_active (st_buffer stats).
Proof.
  intros Hbuffer Hfinal Hinflow Houtflow.
  assert (forall sh, sheetAccess sh <> Unavailable ->
            getLastRow sh = Ok (length (sheetValues sh))) as Hlast.
  { intros sh Hsh. unfold getLastRow, reading. now destruct (sheetAccess sh). }
  assert (length (getActiveFilesFromBuffer (bufferSheet w))
          <= length (rowsWithStatus (bufferSheet w) STATUS.ACTIVE)) as Htaken.
  { unfold getActiveFilesFromBuffer, tryCatch. rewrite (Hlast _ Hbuffer).
    cbn [mbind Result_bind].
    destruct (length (sheetValues (bufferSheet w)) <=? 1)%nat; [cbn; lia|].
    unfold getValues, reading.
    destruct (sheetAccess (bufferSheet w)); try congruence;
      cbn [mbind Result_bind mret Result_ret]; apply activeFilesLoop_length. }
  unfold getSheetStatistics, tryCatch.
  rewrite !Hlast by assumption. cbn [mbind Result_bind].
  set (data := sheetValues (bufferSheet w)) in *.
  destruct (1 <? length data)%nat eqn:Hrows.
  - assert (getValues (bufferSheet w) = Ok data) as ->.
    { unfold getValues, reading. now destruct (sheetAccess (bufferSheet w)). }
    cbn [mbind Result_bind mret Result_ret].
    eexists. split; [reflexivity|]. cbn [st_buffer st_final st_inflow st_outflow].
    destruct (statisticsLoop_counts (getColumnIndex (headerRow data) "Status") (drop 1 data)
                (mkBufferStats (length data - 1) 0 0 0 0))
      as (Ht & Ha & Hd & Hf & Hp & Hsum).
    cbn [bs_total bs_active bs_deleted bs_failed bs_processing] in *.
    rewrite length_drop in Hsum. unfold rowsWithStatus in *. fold data in Htaken |- *.
    rewrite Ht, Ha, Hd, Hf, Hp. repeat split; lia.
  - apply Nat.ltb_ge in Hrows.
    assert (drop 1 data = []) as Hnone
      by (destruct data as [|h [|r rest]]; cbn in *; [easy..|lia]).
    eexists. split; [reflexivity|].
    unfold rowsWithStatus in *. fold data in Htaken |- *. rewrite Hnone in *.
    cbn in *. repeat split; lia.
Qed.

Lemma getSheetStatistics_counts_the_rows_witness :
  exists stats,
    @getSheetStatistics exampleRuntime worldWithFailedDocument = Ok stats /\
    bs_total (st_buffer stats) = 1 /\ bs_failed (st_buffer stats) = 1 /\
    bs_active (st_buffer stats) = 0.
Proof.
  destruct (@getSheetStatistics_counts_the_rows exampleRuntime worldWithFailedDocument)
    as (stats & Hrun & Htotal & _ & _ & _ & Hactive & _ & Hfailed & _);
    try discriminate.
  exists stats. split; [exact Hrun|]. split; [exact Htotal|]. split; [exact Hfailed|].
  exact Hactive.
Defined.

(** ** From the reconciliation pass to the enrichment pass *)

Section ReactivatedFiles.
Context `{Runtime}.

Lemma updateBufferSheetForReactivation_row i w w1 :
  2 <= i ->
  updateBufferSheetForReactivation BUFFER i w = (Ok tt, w1) ->
  rowEdited BUFFER i
    (columnsNamed (headerRow (sheetValues (bufferSheet w)))
       ["Status"; "Reason"; "Processing Attempts"; "Last Modified"]) w w1 /\
  (getColumnIndex (headerRow (sheetValues (bufferSheet w))) "Processing Attempts" <> (-1)%Z ->
   cellAt (sheetValues (bufferSheet w1)) i
     (Z.to_nat (getColumnIndex (headerRow (sheetValues (bufferSheet w)))
                  "Processing Attempts") + 1) = CStr "0") /\
  (getColumnIndex (headerRow (sheetValues (bufferSheet w))) "Status" <> (-1)%Z ->
   sheetAccess (bufferSheet w1) = ReadWrite).
Proof.
  intros Hrow Hrun. apply rethrow_inv in Hrun.
  stepM Hrun as hs w0 Hh. apply getHeaders_inv in Hh as [-> ->].
  change (sheetOf w BUFFER) with (bufferSheet w) in Hrun.
  set (headers := headerRow (sheetValues (bufferSheet w))) in *.
  set (touched := columnsNamed headers
                    ["Status"; "Reason"; "Processing Attempts"; "Last Modified"]).
  assert (forall name, In name ["Status"; "Reason"; "Processing Attempts"; "Last Modified"] ->
            getColumnIndex headers name <> (-1)%Z ->
            touched (Z.to_nat (getColumnIndex headers name) + 1)) as Htouched.
  { intros name Hin Hfound. now exists name. }
  stepM Hrun as u1 wa Hstatus. cbv zeta in Hrun.
  stepM Hrun as u2 wb Hreason.
  stepM Hrun as u3 wc Hattempts. destruct u1, u2, u3.
  assert (rowEdited BUFFER i touched w wa) as Ea
    by (apply (setIfColumn_edits _ _ _ _ _ _ _ Hstatus Hrow), Htouched; cbn; tauto).
  assert (rowEdited BUFFER i touched wa wb) as Eb.
  { destruct (getColumnIndex headers "Reason" =? -1)%Z eqn:Hidx.
    - apply mretM_inv in Hreason as [_ ->]. reflexivity.
    - apply Z.eqb_neq in Hidx.
      stepM Hreason as currentReason wa' Hget. apply liftR_inv in Hget as [_ ->].
      apply (setValue_edits _ _ _ _ _ _ _ Hreason Hrow); [lia|].
      apply Htouched; [cbn; tauto|exact Hidx]. }
  assert (rowEdited BUFFER i touched wb wc) as Ec
    by (apply (setIfColumn_edits _ _ _ _ _ _ _ Hattempts Hrow), Htouched; cbn; tauto).
  assert (rowEdited BUFFER i touched wc w1) as Ed
    by (apply (setIfColumn_edits _ _ _ _ _ _ _ Hrun Hrow), Htouched; cbn; tauto).
  assert (rowEdited BUFFER i touched w w1) as Hedit.
  { etransitivity; [exact Ea|]. etransitivity; [exact Eb|].
    etransitivity; [exact Ec|exact Ed]. }
  split; [exact Hedit|]. split.
  - intros Hfound.
    destruct (setIfColumn_cells _ _ _ _ _ _ Hattempts Hrow) as (_ & Hv & _).
    destruct (setIfColumn_cells _ _ _ _ _ _ Hrun Hrow) as (_ & _ & Ho & _).
    change (bufferSheet ?x) with (sheetOf x BUFFER).
    rewrite Ho; [now apply Hv|lia|lia|]. apply other_column; [discriminate|exact Hfound].
  - intros Hfound. destruct Hedit as (_ & _ & _ & Haccess & _). apply Haccess.
    apply setIfColumn_inv in Hstatus as [[Hnone _]|(_ & Hrw & _)]; [congruence|exact Hrw].
Qed.

Lemma isFileReactivated_of_note (file : BufferFile) (rest : string) :
  bf_reason file = CStr ("Reactivated on " +:+ rest) -> isFileReactivated file = true.
Proof.
  intros Hreason. unfold isFileReactivated. rewrite Hreason.
  rewrite !append_String_l, append_empty_l. reflexivity.
Qed.

(** A record that the reconciliation pass has reactivated is taken by the
    next enrichment pass, and taken as a reactivated one: after
    [processFileReactivation], [getActiveFilesFromBuffer] returns the row,
    with no attempt counted, and [isFileReactivated] holds of it; provided
    the sheet has the Status and Reason columns and the row has an original
    file name and a File URL. *)
Theorem a_reactivated_file_is_taken_as_reactivated
    (item : ReactivationItem) (w w' : World) (row : list Cell) :
  processFileReactivation item BUFFER w = (Ok tt, w') ->
  2 <= rowIndex item ->
  sheetValues (bufferSheet w) !! (rowIndex item - 1) = Some row ->
  getColumnIndex (headerRow (sheetValues (bufferSheet w))) "Status" <> (-1)%Z ->
  getColumnIndex (headerRow (sheetValues (bufferSheet w))) "Reason" <> (-1)%Z ->
  truthy (safeGetCellValue row
            (getColumnIndex (headerRow (sheetValues (bufferSheet w))) "Original File Name"))
    = true ->
  truthy (safeGetCellValue row
            (getColumnIndex (headerRow (sheetValues (bufferSheet w))) "File URL")) = true ->
  exists taken,
    In taken (getActiveFilesFromBuffer (bufferSheet w')) /\
    bf_rowIndex taken = rowIndex item /\
    bf_attempts taken = 0%Z /\
    isFileReactivated taken = true /\
    bf_fileUrl taken
      = safeGetCellValue row
          (getColumnIndex (headerRow (sheetValues (bufferSheet w))) "File URL").
Proof.
  intros Hrun Hrow Hk Hstatus Hreason Hname Hurl.
  destruct (processFileReactivation_effect item w w' Hrow Hrun) as (Hheader & Hs & Hr).
  specialize (Hs Hstatus). destruct (Hr Hreason) as (previous & Hnote). clear Hr.
  apply rethrow_inv in Hrun.
  stepM Hrun as u1 wa Hensure. stepM Hrun as u2 wb Hupdate. destruct u1, u2.
  pose proof (ensureFileInBufferFolder_sameSheets item BUFFER_FOLDER w) as Hsame.
  rewrite Hensure in Hsame. apply sameSheets_bufferKept in Hsame.
  unfold bufferKept in Hsame. cbn [snd] in Hsame.
  assert (bufferSheet w' = bufferSheet wb) as Hlast.
  { cbv zeta in Hrun. destruct (negb (hasValidAIData item)).
    - now apply mretM_inv in Hrun as [_ ->].
    - pose proof (restoreToFinalSheet_bufferKept item wb) as Hkept.
      now rewrite Hrun in Hkept. }
  destruct (updateBufferSheetForReactivation_row _ _ _ Hrow Hupdate)
    as (Hedit & Hzero & Haccess).
  rewrite Hsame in Hedit, Hzero, Haccess. rewrite <- Hlast in Hzero, Haccess.
  destruct Hedit as (_ & Hframe & _ & _ & Hlength).
  change (sheetOf wb BUFFER) with (bufferSheet wb) in Hframe, Hlength.
  change (sheetOf wa BUFFER) with (bufferSheet wa) in Hframe, Hlength.
  rewrite <- Hlast, Hsame in Hframe, Hlength.
  set (headers := headerRow (sheetValues (bufferSheet w))) in *.
  destruct (rowIndex item) as [|k] eqn:Hindex; [lia|].
  replace (S k - 1) with k in Hk by lia.
  destruct (lookup_lt_is_Some_2 (sheetValues (bufferSheet w')) k) as [r' Hk'].
  { apply lookup_lt_Some in Hk. lia. }
  destruct (getColumnIndex_spec headers "Status") as [Hnone|[Hspos _]]; [congruence|].
  destruct (getColumnIndex_spec headers "Reason") as [Hnone|[Hrpos _]]; [congruence|].
  assert (forall name,
            ~ In name ["Status"; "Reason"; "Processing Attempts"; "Last Modified"] ->
            truthy (safeGetCellValue row (getColumnIndex headers name)) = true ->
            safeGetCellValue r' (getColumnIndex headers name)
              = safeGetCellValue row (getColumnIndex headers name)) as Hkept.
  { intros name Hnot Hvalue.
    assert (getColumnIndex headers name <> (-1)%Z) as Hfound.
    { intros Hnone. rewrite Hnone in Hvalue. discriminate Hvalue. }
    destruct (getColumnIndex_spec headers name) as [Hnone|[Hpos _]]; [congruence|].
    rewrite <- (cellAt_row _ _ _ _ Hk' Hpos), <- (cellAt_row _ _ _ _ Hk Hpos).
    apply Hframe; [lia|lia|]. right. now apply columnsNamed_other. }
  assert (safeGetCellValue r' (getColumnIndex headers "Original File Name")
          = safeGetCellValue row (getColumnIndex headers "Original File Name")) as Hname'.
  { apply Hkept; [|exact Hname]. cbn. intros [?|[?|[?|[?|[]]]]]; discriminate. }
  assert (safeGetCellValue r' (getColumnIndex headers "File URL")
          = safeGetCellValue row (getColumnIndex headers "File URL")) as Hurl'.
  { apply Hkept; [|exact Hurl]. cbn. intros [?|[?|[?|[?|[]]]]]; discriminate. }
  assert (attemptsOf (safeGetCellValue' r' (getColumnIndex headers "Processing Attempts")
                        (CStr "0")) = 0%Z) as Hcount.
  { destruct (getColumnIndex_spec headers "Processing Attempts") as [Hnone|[Hapos _]].
    - rewrite Hnone. reflexivity.
    - rewrite attemptsOf_default, <- (cellAt_row _ _ _ _ Hk' Hapos).
      rewrite Hzero by lia. reflexivity. }
  destruct k as [|k]; [lia|].
  eexists. split; [|split; [|split; [|split]]].
  - apply getActiveFilesFromBuffer_spec. split; [rewrite Haccess by exact Hstatus; discriminate|].
    exists k, r'. split; [exact Hk'|]. rewrite Hheader.
    apply bufferFileOfRow_Some.
    split; [rewrite <- (cellAt_row _ _ _ _ Hk' Hspos); exact Hs|].
    split; [rewrite Hcount; reflexivity|].
    split; [now rewrite Hname'|]. split; [now rewrite Hurl'|]. reflexivity.
  - cbn [bf_rowIndex]. lia.
  - exact Hcount.
  - eapply isFileReactivated_of_note. cbn [bf_reason].
    rewrite <- (cellAt_row _ _ _ _ Hk' Hrpos). rewrite Hnote.
    now rewrite <- append_assoc.
  - exact Hurl'.
Qed.
End ReactivatedFiles.

Lemma a_reactivated_file_is_taken_as_reactivated_witness :
  exists taken,
    In taken (@getActiveFilesFromBuffer exampleRuntime (bufferSheet worldAfterReactivation)) /\
    bf_rowIndex taken = 2 /\
    bf_attempts taken = 0%Z /\
    isFileReactivated taken = true /\
    bf_fileUrl taken = CStr "https://drive.google.com/file/d/A1/view".
Proof.
  apply (@a_reactivated_file_is_taken_as_reactivated exampleRuntime pendingReactivation
           worldWithReactivation worldAfterReactivation
           (bufferRow (CStr "IMG_0001.pdf") (CStr "2024-01-05_Acme_INV-9_100.00.pdf")
              (CStr "https://drive.google.com/file/d/A1/view") (CStr "INV-9")
              (CStr "Active")
              (CStr "Deleted: sent twice (2024-01-04T09:00:00.000Z)"))).
  - vm_compute. reflexivity.
  - vm_compute. lia.
  - reflexivity.
  - vm_compute. discriminate.
  - vm_compute. discriminate.
  - vm_compute. reflexivity.
  - vm_compute. reflexivity.
Defined.

(** ** Enrichment data restored from the Buffer sheet *)

Section RestoredData.
Context `{Runtime}.

Lemma hasExistingAIData_true (file : BufferFile) :
  hasExistingAIData file = true ->
  truthy (bf_changedFilename file) = true /\
  strictEq (bf_changedFilename file) (bf_originalFilename file) = false /\
  truthy (bf_invoiceNumber file) = true.
Proof.
  unfold hasExistingAIData.
  destruct (truthy (bf_changedFilename file)); [|discriminate].
  destruct (strictEq (bf_changedFilename file) (bf_originalFilename file)); [discriminate|].
  destruct (truthy (bf_invoiceNumber file)); [now repeat split|].
  cbn [negb]. destruct (cellTrim (bf_changedFilename file)) as [changed|e]; cbn; [|discriminate].
  destruct (negb (changed =? ""))%string; discriminate.
Qed.

(** For a reactivated document that passes [hasExistingAIData], the data
    that [restoreExistingAIData] hands to the Final sheet keep the changed
    file name but not the category: the transaction type is always inflow,
    the document type invoice and the confidence 0.8, whatever the
    enrichment had found.  Date, vendor, invoice number and amount are the
    first four segments of the changed name if it has four; otherwise the
    invoice number is the one of the Buffer sheet and the other three are
    empty. *)
Theorem restoreExistingAIData_restores_as_inflow (file : BufferFile) :
  hasExistingAIData file = true ->
  ai_newFilename (restoreExistingAIData file) = bf_changedFilename file /\
  ai_transactionType (restoreExistingAIData file) = CStr STATUS.INFLOW /\
  ai_documentType (restoreExistingAIData file) = CStr "invoice" /\
  ai_confidence (restoreExistingAIData file) = CNum (8 # 10) /\
  match parseFilenameForAIData (bf_changedFilename file) with
  | Some parsed =>
      ai_date (restoreExistingAIData file) = CStr (parsed_date parsed) /\
      ai_vendorName (restoreExistingAIData file) = CStr (parsed_vendorName parsed) /\
      ai_invoiceNumber (restoreExistingAIData file) = CStr (parsed_invoiceNumber parsed) /\
      ai_amount (restoreExistingAIData file) = CStr (parsed_amount parsed)
  | None =>
      ai_date (restoreExistingAIData file) = CStr "" /\
      ai_vendorName (restoreExistingAIData file) = CStr "" /\
      ai_invoiceNumber (restoreExistingAIData file) = bf_invoiceNumber file /\
      ai_amount (restoreExistingAIData file) = CStr ""
  end.
Proof.
  intros (Hchanged & Hdiffers & Hinvoice)%hasExistingAIData_true.
  unfold restoreExistingAIData, orElse. rewrite Hchanged, Hdiffers, Hinvoice.
  cbn [negb andb].
  destruct (parseFilenameForAIData (bf_changedFilename file)) as [parsed|];
    cbn; now repeat split.
Qed.
End RestoredData.

Lemma restoreExistingAIData_restores_as_inflow_witness :
  ai_transactionType (@restoreExistingAIData exampleRuntime reactivatedDocument)
    = CStr STATUS.INFLOW /\
  ai_invoiceNumber (@restoreExistingAIData exampleRuntime reactivatedDocument) = CStr "INV-9".
Proof.
  destruct (@restoreExistingAIData_restores_as_inflow exampleRuntime reactivatedDocument
              ltac:(vm_compute; reflexivity))
    as (_ & Hcategory & _ & _ & Hparsed).
  split; [exact Hcategory|]. exact (proj1 (proj2 (proj2 Hparsed))).
Defined.
